(** * The Clusternator: resource orchestration on a tag-queryable provider

    A shallow embedding of the orchestration core of the repository
    (src/aws/subnetManager.js, ec2Manager.js, deploymentManager.js and
    projectManager.js, and two handlers of src/api/0.1/rest/rest-api.js)
    together with the properties its specification states about it.

    Conventions of the embedding.
    - JavaScript strings are Rocq strings (sequences of bytes: the UTF-8
      encoding of the JavaScript string).
    - JavaScript numbers are modelled on the integers the code computes with
      (octets, timestamps), as [Int z], with [NaN] for a failed conversion;
      this is exact for magnitudes below 2^53.
      The handlers of rest-api.js take the numbers of the language as a
      parameter instead.
    - Promises are functions from a world (provider state, process state and
      the log of provider calls) to a settled outcome and a new world.
    - Of two rejections gathered by one [Q.all], the provider says which
      arrived first; no order is stated between the calls of independent
      elements of one [Q.all]. *)

From Stdlib Require Import ZArith String Ascii List Bool Lia Sorted.
From Stdlib Require Import Decimal DecimalString DecimalZ DecimalN.
From stdpp Require Import base option list strings gmap.

Import ListNotations.
Local Open Scope string_scope.
Local Open Scope Z_scope.

(** ** JavaScript values *)

Module Js.

(** Numbers the program computes with. *)
Inductive number : Type :=
| NaN
| Int (z : Z).

(** Errors carry the constructor used at the throw site and the message;
    [ThrownString] is a bare string thrown as an exception. *)
Inductive error : Type :=
| TypeError (msg : string)
| Error (msg : string)
| ThrownString (s : string).

(** A synchronous computation that may throw. *)
Inductive except (A : Type) : Type :=
| Return (a : A)
| Throw (e : error).
Arguments Return {A} a.
Arguments Throw {A} e.

(** The values a configuration field may hold. *)
Inductive value : Type :=
| Undefined
| Null
| Boolean (b : bool)
| Number (n : number)
| Str (s : string).

(** ToBoolean. *)
Definition truthy (v : value) : bool :=
  match v with
  | Undefined | Null => false
  | Boolean b => b
  | Number NaN => false
  | Number (Int z) => negb (z =? 0)
  | Str s => negb (String.eqb s "")
  end.

(** [x > y] on numbers: false as soon as one side is NaN. *)
Definition gt (x y : number) : bool :=
  match x, y with
  | Int a, Int b => b <? a
  | _, _ => false
  end.

Definition add (x y : number) : number :=
  match x, y with
  | Int a, Int b => Int (a + b)
  | _, _ => NaN
  end.

(** ToNumber on a string, for the strings of decimal digits the program
    meets (octets of a CIDR block, epoch timestamps): the empty string is
    0, a string of digits is its value, and anything else is taken as NaN
    (signs, blanks, fractions, exponents and radix prefixes are outside
    the model; no statement below depends on them). *)
Definition stringToNumber (s : string) : number :=
  match NilEmpty.uint_of_string s with
  | Some d => Int (Z.of_uint d)
  | None => NaN
  end.

(** Unary plus applied to the result of [Array.prototype.pop]:
    [undefined] converts to NaN. *)
Definition unaryPlus (v : option string) : number :=
  match v with
  | Some s => stringToNumber s
  | None => NaN
  end.

(** Number to string, for integers. *)
Definition numberToString (n : number) : string :=
  match n with
  | NaN => "NaN"
  | Int z => NilEmpty.string_of_int (Z.to_int z)
  end.

(** ToString, as string concatenation and template literals apply it. *)
Definition toStr (v : value) : string :=
  match v with
  | Undefined => "undefined"
  | Null => "null"
  | Boolean true => "true"
  | Boolean false => "false"
  | Number n => numberToString n
  | Str s => s
  end.

(** Property access on an object used as a record of scalars: a missing
    property reads as [undefined]. *)
Definition prop (o : gmap string value) (k : string) : value :=
  default Undefined (o !! k).

(** Whether an object built from a literal carries a property, given
    the keys of the literal. *)
Definition hasProperty (keys : list string) (k : string) : bool :=
  existsb (String.eqb k) keys.

(** [s.split(sep)] for a one-character separator. *)
Fixpoint split (sep : ascii) (s : string) : list string :=
  match s with
  | EmptyString => [EmptyString]
  | String c r =>
      if Ascii.eqb c sep then EmptyString :: split sep r
      else match split sep r with
           | h :: t => String c h :: t
           | [] => [String c EmptyString]
           end
  end.

(** [a.pop()]: the removed last element ([None] for [undefined]) and the
    array that is left. *)
Definition pop {A : Type} (a : list A) : option A * list A :=
  (last a, removelast a).

(** [a.join(sep)]. *)
Fixpoint join (sep : string) (a : list string) : string :=
  match a with
  | [] => ""
  | [x] => x
  | x :: r => x ++ sep ++ join sep r
  end.

End Js.

(** ** Provider data, as the AWS SDK returns it *)

Module Aws.

Record Tag : Type := { Key : string; Value : string }.

Record InstanceState : Type := { Name : string }.

Record Instance : Type :=
  { InstanceId : string;
    Tags : list Tag;
    PublicIpAddress : string;
    State : InstanceState }.

(** One reservation of [describeInstances]; [runInstances] answers with
    the same shape. *)
Record Reservation : Type := { Instances : list Instance }.

Record SubnetDesc : Type :=
  { SubnetId : string; CidrBlock : string; SubnetTags : list Tag }.

Record VpcDesc : Type := { VpcId : string; VpcCidrBlock : string }.

Record AclAssociation : Type :=
  { NetworkAclAssociationId : string; AssocSubnetId : string }.

Record NetworkAcl : Type :=
  { NetworkAclId : string; IsDefault : bool;
    Associations : list AclAssociation }.

Record ElbDesc : Type := { dns : string; id : string }.

Record EcrDesc : Type := { repositoryArn : string; registryId : string }.

(** The network interface of [getNICConfig]. *)
Record NIC : Type :=
  { DeviceIndex : Z;
    AssociatePublicIpAddress : bool;
    NicSubnetId : string;
    DeleteOnTermination : bool;
    Groups : list string }.

(** The parameters handed to [runInstances]: the defaults merged with the
    caller's [apiConfig] (both opaque here), the user data written into
    [apiConfig] and the interface pushed on [NetworkInterfaces]. *)
Record RunParams : Type :=
  { apiConfig : string; UserData : string; NetworkInterfaces : list NIC }.

Record CreateSubnetParams : Type :=
  { ParamVpcId : string; ParamCidrBlock : string;
    AvailabilityZone : string }.

(** Registry credentials, in either of the two shapes; an absent
    property is [None]. *)
Record Auth : Type :=
  { cfg : option string;
    username : option string;
    password : option string;
    email : option string }.

(** Where the SSH public keys come from: a directory or the keys. *)
Inductive SshSource : Type :=
| SshPath (path : string)
| SshKeys (keys : list string).

(** The tag filters of the describe functions of [common]. *)
Inductive Query : Type :=
| All
| ByProject (pid : string)
| ByPr (pid pr : string)
| ByDeployment (pid deployment : string).

End Aws.

(** ** Promises (the part of the Q library the program uses) *)

Module Q.

(** How the evaluation of a promise-valued expression ends: the promise
    resolves, the promise rejects, or the expression throws before any
    promise exists (so that no handler can be attached to it). *)
Inductive outcome (A : Type) : Type :=
| Resolved (a : A)
| Rejected (e : Js.error)
| Thrown (e : Js.error).
Arguments Resolved {A} a.
Arguments Rejected {A} e.
Arguments Thrown {A} e.

Definition promise (Wd A : Type) : Type := Wd -> outcome A * Wd.

Section Combinators.
Context {Wd : Type}.

(** The order in time of two rejections that one [Q.all] gathers: in the
    world the calls leave, whether the rejection with the second reason
    (that of the later element of the array) arrived before the rejection
    with the first.  Only [all2], [all3] and [all] depend on it. *)
Context (laterFirst : Wd -> Js.error -> Js.error -> bool).

Definition resolve {A} (a : A) : promise Wd A := fun w => (Resolved a, w).
Definition reject {A} (e : Js.error) : promise Wd A :=
  fun w => (Rejected e, w).
Definition throw {A} (e : Js.error) : promise Wd A :=
  fun w => (Thrown e, w).

(** An exception thrown inside a handler rejects the promise that
    [then] returned. *)
Definition settle {A} (o : outcome A) : outcome A :=
  match o with
  | Thrown e => Rejected e
  | _ => o
  end.

Definition handler {A} (p : promise Wd A) : promise Wd A :=
  fun w => let (o, w') := p w in (settle o, w').

(** [p.then(f)] *)
Definition then_ {A B} (p : promise Wd A) (f : A -> promise Wd B)
  : promise Wd B :=
  fun w =>
    match p w with
    | (Resolved a, w') => handler (f a) w'
    | (Rejected e, w') => (Rejected e, w')
    | (Thrown e, w') => (Thrown e, w')
    end.

(** [p.then(f, g)] *)
Definition then2 {A B} (p : promise Wd A) (f : A -> promise Wd B)
  (g : Js.error -> promise Wd B) : promise Wd B :=
  fun w =>
    match p w with
    | (Resolved a, w') => handler (f a) w'
    | (Rejected e, w') => handler (g e) w'
    | (Thrown e, w') => (Thrown e, w')
    end.

(** [p.fail(g)] *)
Definition fail {A} (p : promise Wd A) (g : Js.error -> promise Wd A)
  : promise Wd A :=
  fun w =>
    match p w with
    | (Resolved a, w') => (Resolved a, w')
    | (Rejected e, w') => handler (g e) w'
    | (Thrown e, w') => (Thrown e, w')
    end.

(** A synchronous statement that may throw, followed by the rest of the
    function body. *)
Definition try_ {A B} (x : Js.except A) (k : A -> promise Wd B)
  : promise Wd B :=
  match x with
  | Js.Return a => k a
  | Js.Throw e => throw e
  end.

(** [Q.all([p, q])]: the elements of the array literal are evaluated
    from left to right, each issuing its calls; an element that throws
    aborts the evaluation.  The result resolves when every element
    resolves, and rejects with the first rejection in time: when both
    elements reject, [laterFirst] says whether the rejection of the later
    element arrived before that of the earlier one.  The calls of one
    element are logged before those of the next one (the interleaving of
    the later calls of independent elements is not modelled). *)
Definition all2 {A B} (p : promise Wd A) (q : promise Wd B)
  : promise Wd (A * B) :=
  fun w =>
    match p w with
    | (Thrown e, w') => (Thrown e, w')
    | (o, w') =>
        match q w' with
        | (Thrown e, w'') => (Thrown e, w'')
        | (o', w'') =>
            (match o, o' with
             | Resolved a, Resolved b => Resolved (a, b)
             | Rejected e, Rejected e' =>
                 Rejected (if laterFirst w'' e e' then e' else e)
             | Rejected e, _ => Rejected e
             | _, Rejected e => Rejected e
             | Thrown e, _ => Thrown e
             | _, Thrown e => Thrown e
             end, w'')
        end
    end.

Definition all3 {A B C} (p : promise Wd A) (q : promise Wd B)
  (r : promise Wd C) : promise Wd (A * B * C) :=
  all2 (all2 p q) r.

(** A promise whose resolution value the program never reads. *)
Definition void {A} (p : promise Wd A) : promise Wd unit :=
  fun w =>
    match p w with
    | (Resolved _, w') => (Resolved tt, w')
    | (Rejected e, w') => (Rejected e, w')
    | (Thrown e, w') => (Thrown e, w')
    end.

(** [Q.all(array)] *)
Fixpoint all {A} (ps : list (promise Wd A)) : promise Wd (list A) :=
  match ps with
  | [] => resolve []
  | p :: r =>
      fun w =>
        match all2 p (all r) w with
        | (Resolved (a, l), w') => (Resolved (a :: l), w')
        | (Rejected e, w') => (Rejected e, w')
        | (Thrown e, w') => (Thrown e, w')
        end
  end.

End Combinators.

End Q.

(** ** The world the program runs in *)

Module Env.

(** Every call that leaves the program: one constructor per operation of
    a collaborator (a manager module that is not part of the sources read
    here, the AWS SDK or the file system), with the arguments passed. *)
Inductive Event : Type :=
| VpcFindProject (pid : option string)
| R53FindId
| R53CreateDeploymentCNameRecord (pid deployment dns : string)
| R53CreateDeploymentARecord (pid deployment ip : string)
| R53DestroyDeploymentARecord (pid deployment ip : string)
| ClusterCreate (name : string)
| ClusterDestroy (name : string)
| ClusterListContainers (name : string)
| ClusterDeregister (name arn : string)
| SgCreateDeployment (pid deployment sha : string)
| SgDestroyDeployment (pid deployment : string)
| TaskCreate (cluster service appDef : string)
| TaskDestroy (cluster : string)
| ElbCreateDeployment (pid deployment subnetId groupId sslId : string)
| ElbRegisterInstances (elbId : string) (instanceIds : list string)
| ElbConfigureHealthCheck (elbId : string)
| ElbDestroyDeployment (pid deployment : string)
| DescribeInstances (vpcId : string) (q : Aws.Query)
| DescribeSubnets (vpcId : string) (arg : option string)
| Ec2DescribeProject (pid : string)
| Ec2RunInstances (params : Aws.RunParams)
| Ec2DescribeInstanceIds (ids : list string)
| Ec2StopInstances (ids : list string)
| Ec2TerminateInstances (ids : list string)
| Ec2CreateSubnet (params : Aws.CreateSubnetParams)
| Ec2DeleteSubnet (subnetId : string)
| Ec2AssociateRouteTable (routeId subnetId : string)
| Ec2DescribeNetworkAcls (vpcId : string)
| Ec2ReplaceNetworkAclAssociation (assocId aclId : string)
| AwsTagEc2 (resourceId : string) (tags : list Aws.Tag)
| FsReaddir (path : string)
| FsReadFile (path : string)
| AclCreate (pid : string)
| AclDestroy (pid : string)
| RouteFindDefault
| EcrCreate (pid : string)
| IamCreateProjectUser (pid repoArn : string)
| PrCreate (pid pr appDef : string) (sshData : option Aws.SshSource)
| PrDestroy (pid : option string) (pr : string).

(** How a collaborator's promise settles. *)
Inductive settled (A : Type) : Type :=
| Fulfilled (a : A)
| Failed (e : Js.error).
Arguments Fulfilled {A} a.
Arguments Failed {A} e.

(** The lazily initialised [STATE] of the project manager ([null] is
    [None]); the managers it also holds are determined by the two ids. *)
Record ManagerState : Type :=
  { vpcId : option string; zoneId : option string }.

Record World (W : Type) : Type :=
  { cloud : W; STATE : ManagerState; log : list Event }.
Arguments cloud {W} w.
Arguments STATE {W} w.
Arguments log {W} w.

Definition promise (W A : Type) : Type := Q.promise (World W) A.

(** A call to a collaborator: it is logged, the provider answers and
    moves to its next state.  Collaborators return promises; they do not
    throw before returning one. *)
Definition outcomeOf {A} (r : settled A) : Q.outcome A :=
  match r with
  | Fulfilled a => Q.Resolved a
  | Failed e => Q.Rejected e
  end.

Definition call {W A} (ev : Event) (f : W -> settled A * W)
  : promise W A :=
  fun w =>
    let (r, c) := f (cloud w) in
    (outcomeOf r, {| cloud := c; STATE := STATE w; log := log w ++ [ev] |}).

Definition getState {W} : promise W ManagerState :=
  fun w => (Q.Resolved (STATE w), w).

Definition setState {W} (s : ManagerState) : promise W unit :=
  fun w =>
    (Q.Resolved tt, {| cloud := cloud w; STATE := s; log := log w |}).

(** The collaborators: what each operation answers in a provider state
    [W], and the state it leaves.  The fields are grouped by the module
    they stand for. *)
Set Implicit Arguments.
Record Provider (W : Type) : Type :=
  { (* vpcManager *)
    vpc_findProject : option string -> W -> settled Aws.VpcDesc * W;
    (* route53Manager *)
    r53_findId : W -> settled string * W;
    r53_createDeploymentCNameRecord :
      string -> string -> string -> W -> settled string * W;
    r53_createDeploymentARecord :
      string -> string -> string -> W -> settled string * W;
    r53_destroyDeploymentARecord :
      string -> string -> string -> W -> settled unit * W;
    (* clusterManager, and the deregistration of common *)
    cluster_create : string -> W -> settled unit * W;
    cluster_destroy : string -> W -> settled unit * W;
    cluster_listContainers : string -> W -> settled (list string) * W;
    cluster_deregister : string -> string -> W -> settled unit * W;
    (* securityGroupManager *)
    sg_createDeployment :
      string -> string -> string -> W -> settled string * W;
    sg_destroyDeployment : string -> string -> W -> settled unit * W;
    (* taskServiceManager *)
    task_create : string -> string -> string -> W -> settled unit * W;
    task_destroy : string -> W -> settled unit * W;
    (* elb/elb *)
    elb_createDeployment :
      string -> string -> string -> string -> string ->
      W -> settled Aws.ElbDesc * W;
    elb_registerInstances :
      string -> list string -> W -> settled unit * W;
    elb_configureHealthCheck : string -> W -> settled unit * W;
    elb_destroyDeployment : string -> string -> W -> settled unit * W;
    (* the describe functions made by common *)
    describeInstances :
      string -> Aws.Query -> W -> settled (list Aws.Reservation) * W;
    describeSubnets :
      string -> option string -> W -> settled (list Aws.SubnetDesc) * W;
    (* the EC2 client *)
    ec2_describeProject :
      string -> W -> settled (list Aws.Reservation) * W;
    ec2_runInstances : Aws.RunParams -> W -> settled Aws.Reservation * W;
    ec2_describeInstanceIds :
      list string -> W -> settled (list Aws.Reservation) * W;
    ec2_stopInstances : list string -> W -> settled unit * W;
    ec2_terminateInstances : list string -> W -> settled unit * W;
    ec2_createSubnet :
      Aws.CreateSubnetParams -> W -> settled Aws.SubnetDesc * W;
    ec2_deleteSubnet : string -> W -> settled unit * W;
    ec2_associateRouteTable : string -> string -> W -> settled unit * W;
    ec2_describeNetworkAcls :
      string -> W -> settled (list Aws.NetworkAcl) * W;
    ec2_replaceNetworkAclAssociation :
      string -> string -> W -> settled unit * W;
    awsTagEc2 : string -> list Aws.Tag -> W -> settled unit * W;
    (* fs *)
    fs_readdir : string -> W -> settled (list string) * W;
    fs_readFile : string -> W -> settled string * W;
    (* aclManager, routeTableManager, ecr, iam *)
    acl_create : string -> W -> settled Aws.NetworkAcl * W;
    acl_destroy : string -> W -> settled unit * W;
    route_findDefault : W -> settled string * W;
    ecr_create : string -> W -> settled Aws.EcrDesc * W;
    iam_createProjectUser : string -> string -> W -> settled string * W;
    (* prManager *)
    pr_create :
      string -> string -> string -> option Aws.SshSource ->
      W -> settled string * W;
    pr_destroy : option string -> string -> W -> settled unit * W;
    (* Date.now() *)
    now : W -> Z;
    (* the order in which two rejections gathered by one Q.all arrive *)
    laterRejectsFirst : W -> Js.error -> Js.error -> bool }.
Unset Implicit Arguments.

(** The order of the rejections, read in a world. *)
Definition race {W} (P : Provider W)
  : World W -> Js.error -> Js.error -> bool :=
  fun w => laterRejectsFirst P (cloud w).

(** Constants and pure helpers of modules outside the sources read here
    ([constants], [aws-constants], [config], [util], [common],
    [resourceIdentifier], [path], [JSON]). *)
Record Lib : Type :=
  { CLUSTERNATOR_TAG : string;
    PROJECT_TAG : string;
    PR_TAG : string;
    DEPLOYMENT_TAG : string;
    EXPIRES_TAG : string;
    SSH_PUBLIC_PATH : string;
    AWS_SSL_ID : string;
    AWS_DEFAULT_AZ : string;
    AWS_EC2_POLL_MAX : nat;
    prTTL : option Z;
    DEFAULT_INSTANCE_NICS : list Aws.NIC;
    getCidrPrefixFromIPString : string -> string;
    generateRID : string -> string -> string -> string;
    findIpFromEc2Describe : list Aws.Reservation -> Js.except string;
    path_join : string -> string -> string;
    JSON_stringify_auth : Aws.Auth -> string;
    invalidPidTag : string -> string -> string -> Js.error;
    invalidPidPrTag : string -> string -> string -> string -> Js.error;
    invalidPidDeploymentTag :
      string -> string -> string -> string -> Js.error }.

End Env.

(** ** src/aws/subnetManager.js *)

Module subnetManager.

Import Aws Env.

Definition dot : ascii := "."%char.

(** The body of the [forEach] callback of [findHighestCidr]. *)
Definition highestStep (highest : Js.number) (r : SubnetDesc) : Js.number :=
  let cidr := CidrBlock r in
  let classes := Js.split dot cidr in
  let classes := snd (Js.pop classes) in
  let c := Js.unaryPlus (fst (Js.pop classes)) in
  if Js.gt c highest then c else highest.

Definition findHighestCidr (lst : list SubnetDesc) : Js.number :=
  fold_left highestStep lst (Js.Int (-1)).

Definition incrementHighestCidr (lst : list SubnetDesc) : string :=
  let highest := findHighestCidr lst in
  let highest := Js.add highest (Js.Int 1) in
  Js.numberToString highest ++ ".0/24".

Section Manager.
Context {W : Type} (P : Provider W) (L : Lib) (vpcId : string).

Definition describe (arg : option string)
  : promise W (list SubnetDesc) :=
  call (DescribeSubnets vpcId arg) (describeSubnets P vpcId arg).

Definition getCidrPrefix (pid : string) : promise W string :=
  Q.then_ (call (VpcFindProject (Some pid)) (vpc_findProject P (Some pid)))
    (fun v => Q.resolve (getCidrPrefixFromIPString L (VpcCidrBlock v))).

Definition getCidrPostfix : promise W string :=
  Q.then_ (describe None)
    (fun lst => Q.resolve (incrementHighestCidr lst)).

Definition getNextSubnet (pid : string) : promise W string :=
  Q.then_ (Q.all2 (race P) (getCidrPrefix pid) getCidrPostfix)
    (fun results => Q.resolve (fst results ++ "." ++ snd results)).

Definition associateRoute (snDesc : SubnetDesc) (routeId : string)
  : promise W unit :=
  let id := SubnetId snDesc in
  call (Ec2AssociateRouteTable routeId id)
    (ec2_associateRouteTable P routeId id).

Definition isPidInSubnetList (pid : string) (lst : list SubnetDesc)
  : bool :=
  existsb (fun sn =>
    existsb (fun tag =>
      String.eqb (Key tag) (PROJECT_TAG L) && String.eqb (Value tag) pid)
      (SubnetTags sn)) lst.

Definition findExistingPid (pid : string) : promise W unit :=
  Q.then_ (describe None)
    (fun lst =>
       if isPidInSubnetList pid lst
       then Q.throw (Js.Error
              ("Create Subnet Failed: Project: " ++ pid ++ " exists"))
       else Q.resolve tt).

(** The last description carrying the project's tag. *)
Definition findProjectTag (projectId : string) (lst : list SubnetDesc)
  : option SubnetDesc :=
  fold_left (fun subnet sDesc =>
    fold_left (fun subnet tag =>
      if negb (String.eqb (Key tag) (PROJECT_TAG L)) then subnet
      else if String.eqb (Value tag) projectId then Some sDesc
      else subnet) (SubnetTags sDesc) subnet) lst None.

Definition findProjectSubnet (projectId : string)
  : promise W SubnetDesc :=
  Q.then_ (describe None)
    (fun lst =>
       match findProjectTag projectId lst with
       | Some subnet => Q.resolve subnet
       | None => Q.throw (Js.Error
           ("No Clusternator Subnet Found For Project: " ++ projectId))
       end).

Definition describeDefault : promise W (list NetworkAcl) :=
  Q.then_ (call (Ec2DescribeNetworkAcls vpcId)
             (ec2_describeNetworkAcls P vpcId))
    (fun results => Q.resolve (List.filter IsDefault results)).

Definition getFilteredAssociations (subnetId : string)
  (lst : list NetworkAcl) : Js.except (list AclAssociation) :=
  match lst with
  | [] => Js.Throw (Js.Error "AclManager: Error expecting a default ACL")
  | a :: _ =>
      Js.Return (List.filter
        (fun el => String.eqb (AssocSubnetId el) subnetId)
        (Associations a))
  end.

Definition defaultAssoc (subnetId : string)
  : promise W (list AclAssociation) :=
  Q.then_ describeDefault
    (fun lst => Q.try_ (getFilteredAssociations subnetId lst) Q.resolve).

Definition defaultAssocId (subnetId : string) : promise W string :=
  Q.then_ (defaultAssoc subnetId)
    (fun lst =>
       match lst with
       | [] => Q.throw (Js.Error
           "AclManager: Error expecting a default ACL Association")
       | a :: _ => Q.resolve (NetworkAclAssociationId a)
       end).

Definition associateAcl (snDesc : SubnetDesc) (aclId : string)
  : promise W unit :=
  let snId := SubnetId snDesc in
  Q.then_ (defaultAssocId snId)
    (fun assocId =>
       call (Ec2ReplaceNetworkAclAssociation assocId aclId)
         (ec2_replaceNetworkAclAssociation P assocId aclId)).

Definition destroy (pid : string) : promise W unit :=
  if negb (Js.truthy (Js.Str pid))
  then Q.throw (Js.TypeError "Destroy subnet requires a project id")
  else
    Q.then_ (describe (Some pid))
      (fun lst =>
         match lst with
         | [] => Q.throw (invalidPidTag L pid "looking" "Subnet")
         | sn :: _ =>
             let subnetId := SubnetId sn in
             call (Ec2DeleteSubnet subnetId) (ec2_deleteSubnet P subnetId)
         end).

Definition createSubnet (params : CreateSubnetParams) (pid : string)
  : promise W SubnetDesc :=
  Q.then_ (call (Ec2CreateSubnet params) (ec2_createSubnet P params))
    (fun results =>
       let tags := [ {| Key := CLUSTERNATOR_TAG L; Value := "true" |};
                     {| Key := PROJECT_TAG L; Value := pid |} ] in
       Q.then_ (call (AwsTagEc2 (SubnetId results) tags)
                  (awsTagEc2 P (SubnetId results) tags))
         (fun _ => Q.resolve results)).

Definition create (pid routeId aclId : string) (az : option string)
  : promise W SubnetDesc :=
  if negb (Js.truthy (Js.Str pid)) then
    Q.throw (Js.Error "subnetManager.create requires a project id param")
  else if negb (Js.truthy (Js.Str routeId)) then
    Q.throw (Js.Error "subnetManager.create requires a routeId param")
  else if negb (Js.truthy (Js.Str aclId)) then
    Q.throw (Js.Error "subnetManager.create requires an aclId param")
  else
    Q.then_
      (Q.then_
         (Q.then_
            (Q.then_ (findExistingPid pid)
               (fun _ =>
                  Q.then_ (getNextSubnet pid)
                    (fun cidr =>
                       Q.resolve
                         {| ParamVpcId := vpcId;
                            ParamCidrBlock := cidr;
                            AvailabilityZone :=
                              match az with
                              | Some z =>
                                  if Js.truthy (Js.Str z) then z
                                  else AWS_DEFAULT_AZ L
                              | None => AWS_DEFAULT_AZ L
                              end |})))
            (fun params => createSubnet params pid))
         (fun snDesc =>
            Q.then_ (associateRoute snDesc routeId)
              (fun _ => Q.resolve snDesc)))
      (fun snDesc =>
         Q.then_ (associateAcl snDesc aclId) (fun _ => Q.resolve snDesc)).

End Manager.

(** The keys of the object [getSubnetManager] returns. *)
Definition exported : list string :=
  [ "describe"; "defaultAssocId"; "create"; "destroy"; "findProject";
    "findProjectTag"; "findHighestCidr"; "incrementHighestCidr";
    "getFilteredAssociations"; "isPidInSubnetList"; "next"; "cidrPrefix" ].

End subnetManager.

(** ** Node's [Buffer]: the base64 encoding of a byte string *)

Module Buffer.

Definition alphabet : string :=
  "ABCDEFGHIJKLMNOPQRSTUVWXYZabcdefghijklmnopqrstuvwxyz0123456789+/".

(** The character of a six-bit value. *)
Definition sextet (n : N) : ascii :=
  default "="%char (String.get (N.to_nat n) alphabet).

Definition byte (a : ascii) : N := N_of_ascii a.

(** [new Buffer(s).toString('base64')]: three bytes give four
    characters; a tail of one or two bytes is padded with [=]. *)
Fixpoint toBase64 (s : string) : string :=
  match s with
  | EmptyString => EmptyString
  | String a EmptyString =>
      String (sextet (byte a / 4))
        (String (sextet ((byte a mod 4) * 16)) "==")
  | String a (String b EmptyString) =>
      String (sextet (byte a / 4))
        (String (sextet ((byte a mod 4) * 16 + byte b / 16))
           (String (sextet ((byte b mod 16) * 4)) "="))
  | String a (String b (String c r)) =>
      String (sextet (byte a / 4))
        (String (sextet ((byte a mod 4) * 16 + byte b / 16))
           (String (sextet ((byte b mod 16) * 4 + byte c / 64))
              (String (sextet (byte c mod 64)) (toBase64 r))))
  end.

(** The six-bit value of a character of the alphabet. *)
Fixpoint indexIn (c : ascii) (s : string) (i : N) : option N :=
  match s with
  | EmptyString => None
  | String d r => if Ascii.eqb c d then Some i else indexIn c r (i + 1)
  end.

Definition unsextet (c : ascii) : option N := indexIn c alphabet 0%N.

Definition pad : ascii := "="%char.

(** The decoder: the inverse reading of [toBase64], used to state what an
    encoded script contains. *)
Fixpoint fromBase64 (s : string) : option string :=
  match s with
  | EmptyString => Some EmptyString
  | String c1 (String c2 (String c3 (String c4 r))) =>
      match unsextet c1, unsextet c2 with
      | Some n1, Some n2 =>
          let b1 := ascii_of_N (n1 * 4 + n2 / 16) in
          if Ascii.eqb c3 pad then
            if Ascii.eqb c4 pad && String.eqb r ""
            then Some (String b1 EmptyString) else None
          else
            match unsextet c3 with
            | Some n3 =>
                let b2 := ascii_of_N ((n2 mod 16) * 16 + n3 / 4) in
                if Ascii.eqb c4 pad then
                  if String.eqb r ""
                  then Some (String b1 (String b2 EmptyString)) else None
                else
                  match unsextet c4, fromBase64 r with
                  | Some n4, Some t =>
                      let b3 := ascii_of_N ((n3 mod 4) * 64 + n4) in
                      Some (String b1 (String b2 (String b3 t)))
                  | _, _ => None
                  end
            | None => None
            end
      | _, _ => None
      end
  | _ => None
  end.

End Buffer.

(** ** src/aws/ec2Manager.js *)

Module ec2Manager.

Import Aws Env.

Definition SETUP_SSH : string := "mkdir -p /home/ec2-user/.ssh".
Definition CHOWN_SSH : string :=
  "chown -R ec2-user:ec2-user /home/ec2-user/.ssh && chmod -R " ++
  "go-rwx /home/ec2-user/.ssh".
Definition OUTPUT_SSH : string := ">> /home/ec2-user/.ssh/authorized_keys".
Definition configAttributes : list string :=
  ["clusterName"; "sgId"; "subnetId"; "pid"].
Definition prConfigAttributes : list string :=
  (configAttributes ++ ["pr"])%list.
Definition deploymentConfigAttributes : list string :=
  (configAttributes ++ ["deployment"])%list.

(** The line feed of a template literal. *)
Definition LF : string := String (ascii_of_nat 10) EmptyString.
(** The double quote. *)
Definition DQ : string := String (ascii_of_nat 34) EmptyString.

(** The configuration object of [createPr] and [createDeployment]: its
    scalar properties by name, and the three structured ones. *)
Record Config : Type :=
  { fields : gmap string Js.value;
    auth : option Auth;
    apiConfig : option string;
    sshPath : SshSource }.

Definition makeDockerAuthType (type : string) : string :=
  "echo ECS_ENGINE_AUTH_TYPE=" ++ type ++ " >> /etc/ecs/ecs.config;".

Definition makeDockerAuthData (data : string) : string :=
  "echo ECS_ENGINE_AUTH_DATA=" ++ data ++ " >> /etc/ecs/ecs.config;".

Definition truthyStr (o : option string) : bool :=
  match o with
  | Some s => Js.truthy (Js.Str s)
  | None => false
  end.

Definition makeDockerAuthCfg (cfg : option string)
  : Js.except (list string) :=
  if negb (truthyStr cfg) then
    Js.Throw (Js.TypeError
      "Clusternator Ec2: makeDockerAuthCfg requires a param")
  else
    let cfgType := "dockercfg" in
    Js.Return [ makeDockerAuthType cfgType;
                makeDockerAuthData (default "" cfg) ].

Definition makeDockerAuth (L : Lib) (auth : option Auth)
  : Js.except (list string) :=
  match auth with
  | Some a =>
      if truthyStr (username a) && truthyStr (password a)
         && truthyStr (email a)
      then
        let cfgType := "docker" in
        let authStr := JSON_stringify_auth L a in
        Js.Return [ makeDockerAuthType cfgType; makeDockerAuthData authStr ]
      else
        Js.Throw (Js.TypeError ("Clusternator: Ec2: Auth should contain a " ++
                                "username, password, and email"))
  | None =>
      Js.Throw (Js.TypeError ("Clusternator: Ec2: Auth should contain a " ++
                              "username, password, and email"))
  end.

Definition processSSHKeys (keys : list string) : list string :=
  match keys with
  | [] => []
  | _ =>
      ([SETUP_SSH] ++
       (map (fun key =>
               ("echo " ++ DQ ++ LF ++ key ++ DQ ++ " " ++ OUTPUT_SSH)%string)
          keys ++ [CHOWN_SSH]))%list
  end.

Definition stringArrayToNewLineBase64 (arr : list string) : string :=
  Buffer.toBase64 (Js.join LF arr).

Section Manager.
Context {W : Type} (P : Provider W) (L : Lib) (vpcId : string).

Definition ls (keyPath : string) : promise W (list string) :=
  call (FsReaddir keyPath) (fs_readdir P keyPath).

Definition readFile (file : string) : promise W string :=
  call (FsReadFile file) (fs_readFile P file).

Definition loadUserPublicKeys (keyPath : string)
  : promise W (list string) :=
  Q.then_ (ls keyPath)
    (fun keyFiles =>
       Q.all (race P)
         (map (fun fileName => readFile (path_join L keyPath fileName))
            keyFiles)).

Definition makeSSHUserData (sshPath : string) : promise W (list string) :=
  Q.then_ (loadUserPublicKeys sshPath)
    (fun keys => Q.resolve (processSSHKeys keys)).

Definition getECSContainerInstanceUserData (clusterName : string)
  (auth : option Auth) (sshDataOrPath : SshSource) : promise W string :=
  let data := [ "#!/bin/bash";
                "echo ECS_CLUSTER=" ++ clusterName ++
                " >> /etc/ecs/ecs.config;" ] in
  Q.try_
    (match auth with
     | Some a =>
         if truthyStr (cfg a) then makeDockerAuthCfg (cfg a)
         else makeDockerAuth L auth
     | None => Js.Return []
     end)
    (fun authData =>
       let data := (data ++ authData)%list in
       match sshDataOrPath with
       | SshKeys keys =>
           let data := (data ++ processSSHKeys keys)%list in
           Q.resolve (stringArrayToNewLineBase64 data)
       | SshPath path =>
           Q.then2 (makeSSHUserData path)
             (fun sshData =>
                let data := (data ++ sshData)%list in
                Q.resolve (stringArrayToNewLineBase64 data))
             (fun err => Q.resolve (stringArrayToNewLineBase64 data))
       end).

Definition describe : promise W (list Reservation) :=
  call (DescribeInstances vpcId All) (describeInstances P vpcId All).
Definition describeProject (pid : string)
  : promise W (list Reservation) :=
  call (DescribeInstances vpcId (ByProject pid))
    (describeInstances P vpcId (ByProject pid)).
Definition describePr (pid pr : string) : promise W (list Reservation) :=
  call (DescribeInstances vpcId (ByPr pid pr))
    (describeInstances P vpcId (ByPr pid pr)).
Definition describeDeployment (pid deployment : string)
  : promise W (list Reservation) :=
  call (DescribeInstances vpcId (ByDeployment pid deployment))
    (describeInstances P vpcId (ByDeployment pid deployment)).

(** [Date.now()] *)
Definition dateNow : promise W Z :=
  fun w => (Q.Resolved (now P (cloud w)), w).

Definition ttl : Z :=
  match prTTL L with
  | Some t => if t =? 0 then 259200000 else t
  | None => 259200000
  end.

Definition tagPrInstance (instance : Instance) (pr pid : Js.value)
  : promise W unit :=
  fun w =>
    let tags :=
      [ {| Key := CLUSTERNATOR_TAG L; Value := "true" |};
        {| Key := PR_TAG L; Value := Js.toStr pr |};
        {| Key := PROJECT_TAG L; Value := Js.toStr pid |};
        {| Key := EXPIRES_TAG L;
           Value := Js.numberToString
                      (Js.Int (now P (cloud w) + ttl)) |} ] in
    call (AwsTagEc2 (InstanceId instance) tags)
      (awsTagEc2 P (InstanceId instance) tags) w.

Definition tagDeploymentInstance (instance : Instance)
  (deployment pid : Js.value) : promise W unit :=
  let tags :=
    [ {| Key := CLUSTERNATOR_TAG L; Value := "true" |};
      {| Key := DEPLOYMENT_TAG L; Value := Js.toStr deployment |};
      {| Key := PROJECT_TAG L; Value := Js.toStr pid |} ] in
  call (AwsTagEc2 (InstanceId instance) tags)
    (awsTagEc2 P (InstanceId instance) tags).

(** What [checkInstanceStatuses] keeps of an instance (its [InstanceId]
    property is read from a property that does not exist). *)
Definition status (i : Instance) : InstanceState * list Tag :=
  (State i, Tags i).

Definition checkInstanceStatuses (instanceIds : list string)
  : promise W (list (InstanceState * list Tag)) :=
  match instanceIds with
  | [] => Q.throw (Js.ThrownString "No instance IDs")
  | _ =>
      Q.then_ (call (Ec2DescribeInstanceIds instanceIds)
                 (ec2_describeInstanceIds P instanceIds))
        (fun lst =>
           match lst with
           | [] => Q.resolve []
           | r :: _ => Q.resolve (map status (Instances r))
           end)
  end.

Definition makeTerminatedPredicate (instanceIds : list string)
  : promise W bool :=
  Q.then_ (checkInstanceStatuses instanceIds)
    (fun lst =>
       match lst with
       | [] => Q.throw (Js.Error
           ("Ec2 Could not wait for " ++ Js.join ", " instanceIds ++
            " to terminate, they were not found"))
       | i :: _ =>
           if String.eqb (Name (fst i)) "terminated"
           then Q.resolve true
           else Q.throw (Js.Error "Ec2: Not Yet Terminated")
       end).

Definition makeReadyPredicate (instanceId : string) : promise W bool :=
  Q.then_ (checkInstanceStatuses [instanceId])
    (fun lst =>
       match lst with
       | [] => Q.throw (Js.Error "Ec2 No Instances Awaiting Readiness")
       | i :: _ =>
           if String.eqb (Name (fst i)) "running"
           then Q.resolve true
           else Q.throw (Js.Error "Ec2: Wait For Readiness")
       end).

(** Modelled from the spec: [util.waitFor] is not among the sources
    read here.  The bounded poll evaluates the predicate up to
    [maxAttempts] times, resolves with its first success and otherwise
    propagates its last failure; the interval between two polls is not
    part of the model. *)
Fixpoint waitFor {A} (fn : promise W A) (maxAttempts : nat)
  : promise W A :=
  match maxAttempts with
  | O => Q.reject (Js.Error "waitFor: no attempt left")
  | S n =>
      Q.fail fn (fun e =>
        match n with
        | O => Q.reject e
        | S _ => waitFor fn n
        end)
  end.

Definition waitForReady (instanceId : string) : promise W bool :=
  waitFor (makeReadyPredicate instanceId) (AWS_EC2_POLL_MAX L).

Fixpoint validateAttributes (attrs : list string)
  (config : gmap string Js.value) : Js.except unit :=
  match attrs with
  | [] => Js.Return tt
  | attr :: rest =>
      if Js.truthy (Js.prop config attr)
      then validateAttributes rest config
      else Js.Throw (Js.TypeError ("Instance requires " ++ attr))
  end.

Definition validateCreateDeploymentConfig (config : option Config)
  : Js.except unit :=
  match config with
  | None => Js.Throw (Js.TypeError
      "This function requires a configuration object")
  | Some c => validateAttributes deploymentConfigAttributes (fields c)
  end.

Definition validateCreatePrConfig (config : option Config)
  : Js.except unit :=
  match config with
  | None => Js.Throw (Js.TypeError
      "This function requires a configuration object")
  | Some c => validateAttributes prConfigAttributes (fields c)
  end.

Definition getNICConfig (subnetId sgId : Js.value) : NIC :=
  {| DeviceIndex := 0;
     AssociatePublicIpAddress := true;
     NicSubnetId := Js.toStr subnetId;
     DeleteOnTermination := true;
     Groups := [Js.toStr sgId] |}.

(** The continuation shared by [createPr] and [createDeployment] once
    the user data is assembled, up to the tagging function and the
    final describe.  The promises are listed as the array handed to
    [Q.all] lists them: the tagging ones, then the polling ones. *)
Definition runAndTag (config : Config) (data : string)
  (tag : Instance -> promise W unit)
  (describeCreated : promise W (list Reservation))
  : promise W (list Reservation) :=
  match apiConfig config with
  | None => Q.throw (Js.TypeError
      "Cannot set property 'UserData' of undefined")
  | Some api =>
      let params :=
        {| Aws.apiConfig := api;
           UserData := data;
           NetworkInterfaces :=
             (DEFAULT_INSTANCE_NICS L ++
              [getNICConfig (Js.prop (fields config) "subnetId")
                 (Js.prop (fields config) "sgId")])%list |} in
      Q.then_ (call (Ec2RunInstances params) (ec2_runInstances P params))
        (fun results =>
           let tagPromises := map tag (Instances results) in
           let readyPromises :=
             map (fun instance =>
                    Q.then_ (waitForReady (InstanceId instance))
                      (fun _ => Q.resolve tt))
               (Instances results) in
           Q.then_ (Q.all (race P) (tagPromises ++ readyPromises)%list)
             (fun _ => describeCreated))
  end.

Definition createPr (config : option Config)
  : promise W (list Reservation) :=
  Q.try_ (validateCreatePrConfig config)
    (fun _ =>
       match config with
       | None => Q.throw (Js.TypeError
           "This function requires a configuration object")
       | Some c =>
           let clusterName := Js.prop (fields c) "clusterName" in
           Q.then_
             (getECSContainerInstanceUserData (Js.toStr clusterName)
                (auth c) (sshPath c))
             (fun data =>
                runAndTag c data
                  (fun instance =>
                     tagPrInstance instance (Js.prop (fields c) "pr")
                       (Js.prop (fields c) "pid"))
                  (describePr (Js.toStr (Js.prop (fields c) "pid"))
                     (Js.toStr (Js.prop (fields c) "pr"))))
       end).

Definition createDeployment (config : option Config)
  : promise W (list Reservation) :=
  Q.try_ (validateCreateDeploymentConfig config)
    (fun _ =>
       match config with
       | None => Q.throw (Js.TypeError
           "This function requires a configuration object")
       | Some c =>
           let clusterName := Js.prop (fields c) "clusterName" in
           Q.then_
             (getECSContainerInstanceUserData (Js.toStr clusterName)
                (auth c) (sshPath c))
             (fun data =>
                runAndTag c data
                  (fun instance =>
                     tagDeploymentInstance instance
                       (Js.prop (fields c) "deployment")
                       (Js.prop (fields c) "pid"))
                  (describeDeployment
                     (Js.toStr (Js.prop (fields c) "pid"))
                     (Js.toStr (Js.prop (fields c) "deployment"))))
       end).

Definition waitForTermination (instanceIds : list string)
  : promise W bool :=
  waitFor (makeTerminatedPredicate instanceIds) (AWS_EC2_POLL_MAX L).

Definition stopAndTerminate (instanceIds : list string)
  : promise W bool :=
  Q.then_
    (Q.then_ (call (Ec2StopInstances instanceIds)
                (ec2_stopInstances P instanceIds))
       (fun _ => call (Ec2TerminateInstances instanceIds)
                   (ec2_terminateInstances P instanceIds)))
    (fun _ => waitForTermination instanceIds).

Definition destroyPr (pid pr : string) : promise W bool :=
  if negb (Js.truthy (Js.Str pid)) || negb (Js.truthy (Js.Str pr))
  then Q.throw (Js.TypeError "ec2 destroy requires pid, and pr")
  else
    Q.then_ (describePr pid pr)
      (fun lst =>
         match lst with
         | [] => Q.throw (invalidPidPrTag L pid pr "looking" "Instance")
         | r :: _ => stopAndTerminate (map InstanceId (Instances r))
         end).

Definition destroyDeployment (pid deployment : string) : promise W bool :=
  if negb (Js.truthy (Js.Str pid)) || negb (Js.truthy (Js.Str deployment))
  then Q.throw (Js.TypeError "ec2 destroy requires pid, and pr")
  else
    Q.then_ (describeDeployment pid deployment)
      (fun lst =>
         match lst with
         | [] => Q.throw
             (invalidPidDeploymentTag L pid deployment "looking" "Instance")
         | r :: _ => stopAndTerminate (map InstanceId (Instances r))
         end).

End Manager.

End ec2Manager.

(** ** src/aws/deploymentManager.js *)

Module deploymentManager.

Import Aws Env.

Definition getIdFromEc2Results (results : list Reservation)
  : Js.except string :=
  match results with
  | [] => Js.Throw (Js.Error "createPR: unexpected EC2 create results")
  | r :: _ =>
      Js.Return
        (fold_left (fun instanceId inst => InstanceId inst) (Instances r) "")
  end.

Section Manager.
Context {W : Type} (P : Provider W) (L : Lib) (vpcId : string).

Definition createEc2 (groupId clusterName pid deployment subnetId
  sha : string) : promise W (list Reservation) :=
  ec2Manager.createDeployment P L vpcId
    (Some {| ec2Manager.fields :=
               <[ "clusterName" := Js.Str clusterName ]>
               (<[ "pid" := Js.Str pid ]>
               (<[ "deployment" := Js.Str deployment ]>
               (<[ "sha" := Js.Str sha ]>
               (<[ "sgId" := Js.Str groupId ]>
               (<[ "subnetId" := Js.Str subnetId ]> ∅)))));
             ec2Manager.auth := None;
             ec2Manager.apiConfig := Some "{}";
             ec2Manager.sshPath :=
               SshPath (path_join L ".private" (SSH_PUBLIC_PATH L)) |}).

(** The result is the record made by the CNAME step, or [None] for
    [undefined]. *)
Definition createElbEc2 (groupId clusterName pid deployment subnetId
  sha : string) : promise W (option string) :=
  Q.then_
    (Q.all2 (race P)
       (createEc2 groupId clusterName pid deployment subnetId sha)
       (call (ElbCreateDeployment pid deployment subnetId groupId
                (AWS_SSL_ID L))
          (elb_createDeployment P pid deployment subnetId groupId
             (AWS_SSL_ID L))))
    (fun results =>
       Q.fail
         (Q.then_
            (Q.all3 (race P)
               (call (R53CreateDeploymentCNameRecord pid deployment
                        (dns (snd results)))
                  (r53_createDeploymentCNameRecord P pid deployment
                     (dns (snd results))))
               (Q.try_ (getIdFromEc2Results (fst results))
                  (fun instanceId =>
                     call (ElbRegisterInstances (id (snd results))
                             [instanceId])
                       (elb_registerInstances P (id (snd results))
                          [instanceId])))
               (call (ElbConfigureHealthCheck (id (snd results)))
                  (elb_configureHealthCheck P (id (snd results)))))
            (fun results => Q.resolve (Some (fst (fst results)))))
         (fun _ => Q.resolve None)).

Definition createEc2Solo (groupId clusterName pid deployment subnetId
  sha : string) : promise W (option string) :=
  Q.then_ (createEc2 groupId clusterName pid deployment subnetId sha)
    (fun ec2Results =>
       Q.try_ (findIpFromEc2Describe L ec2Results)
         (fun ip =>
            Q.fail
              (Q.then_
                 (call (R53CreateDeploymentARecord pid deployment ip)
                    (r53_createDeploymentARecord P pid deployment ip))
                 (fun urlDesc => Q.resolve (Some urlDesc)))
              (fun _ => Q.resolve None))).

Definition createCluster (subnetId pid deployment sha appDef : string)
  : promise W (option string) :=
  let clusterName := generateRID L pid deployment sha in
  Q.then_
    (Q.then_
       (Q.all2 (race P)
          (call (SgCreateDeployment pid deployment sha)
             (sg_createDeployment P pid deployment sha))
          (call (ClusterCreate clusterName)
             (cluster_create P clusterName)))
       (fun results =>
          createElbEc2 (fst results) clusterName pid deployment
            subnetId sha))
    (fun urlDesc =>
       Q.then_
         (call (TaskCreate clusterName clusterName appDef)
            (task_create P clusterName clusterName appDef))
         (fun _ => Q.resolve urlDesc)).

Definition destroyEc2 (projectId deployment clusterName : string)
  : promise W unit :=
  if negb (Js.truthy (Js.Str clusterName))
  then Q.throw (Js.Error "destroyEc2: requires valid clusterName")
  else
    Q.then_
      (call (ClusterListContainers clusterName)
         (cluster_listContainers P clusterName))
      (fun result =>
         Q.then_
           (Q.all (race P)
              (map (fun arn =>
                      call (ClusterDeregister clusterName arn)
                        (cluster_deregister P clusterName arn))
                 result))
           (fun _ =>
              Q.fail
                (Q.void
                   (ec2Manager.destroyDeployment P L vpcId projectId
                      deployment))
                (fun err => Q.resolve tt))).

Definition destroyRoutes (projectId deployment : string)
  : promise W unit :=
  Q.then_ (ec2Manager.describeDeployment P vpcId projectId deployment)
    (fun results =>
       Q.try_ (findIpFromEc2Describe L results)
         (fun ip =>
            call (R53DestroyDeploymentARecord projectId deployment ip)
              (r53_destroyDeploymentARecord P projectId deployment ip))).

Definition destroyElb (projectId deployment : string) : promise W unit :=
  Q.fail
    (call (ElbDestroyDeployment projectId deployment)
       (elb_destroyDeployment P projectId deployment))
    (fun _ => Q.resolve tt).

Definition destroy (projectId deployment sha : string) : promise W unit :=
  let clusterName := generateRID L projectId deployment sha in
  Q.then_
    (Q.then_
       (Q.then_
          (Q.then_
             (Q.then2 (destroyRoutes projectId deployment)
                (fun _ => destroyEc2 projectId deployment clusterName)
                (fun _ => destroyEc2 projectId deployment clusterName))
             (fun _ => destroyElb projectId deployment))
          (fun r =>
             Q.fail
               (call (TaskDestroy clusterName) (task_destroy P clusterName))
               (fun err => Q.resolve tt)))
       (fun _ =>
          Q.fail
            (call (ClusterDestroy clusterName)
               (cluster_destroy P clusterName))
            (fun _ => Q.resolve tt)))
    (fun _ =>
       Q.fail
         (call (SgDestroyDeployment projectId deployment)
            (sg_destroyDeployment P projectId deployment))
         (fun _ => Q.resolve tt)).

(** [subnet] is [Subnet(ec2, vpcId)], the object of [subnetManager]:
    calling a property it does not carry throws a TypeError.
    [describeProject] stands for what the property would be bound to, were
    it among the keys of that object. *)
Context (describeProject : string -> promise W (list SubnetDesc)).

Definition create (projectId deployment sha appDef : string)
  : promise W (option string) :=
  if negb (Js.hasProperty subnetManager.exported "describeProject")
  then Q.throw (Js.TypeError "subnet.describeProject is not a function")
  else
    Q.then_ (describeProject projectId)
      (fun list =>
         match list with
         | [] =>
             Q.throw (Js.Error
               ("Create Deployment failed, no subnet found for " ++
                "Project: " ++ projectId ++ " Deployment " ++ deployment))
         | sn :: _ =>
             createCluster (SubnetId sn) projectId deployment sha appDef
         end).

End Manager.

End deploymentManager.

(** ** src/aws/projectManager.js *)

Module projectManager.

Import Aws Env.

Definition DEFAULT_REGION : string := "us-east-1".

(** The object built from a tag list: a later tag overwrites an earlier
    one with the same key. *)
Definition tagObject (tags : list Tag) : gmap string string :=
  fold_left (fun memo t => <[ Key t := Value t ]> memo) tags ∅.

Definition getTagsFromInstances (insts : list Instance)
  : list (gmap string string) :=
  map (fun inst => tagObject (Tags inst)) insts.

(** What [create] resolves with. *)
Record ProjectDesc : Type :=
  { credentials : string;
    awsVpcId : option string;
    awsRegistryId : string;
    awsRegion : string }.

Section Manager.
Context {W : Type} (P : Provider W) (L : Lib).

Definition falsy (o : option string) : bool :=
  match o with
  | Some s => negb (Js.truthy (Js.Str s))
  | None => true
  end.

Definition initState : promise W ManagerState :=
  Q.then_
    (Q.all2 (race P) (call (VpcFindProject None) (vpc_findProject P None))
            (call R53FindId (r53_findId P)))
    (fun results =>
       let state := {| vpcId := Some (VpcId (fst results));
                       zoneId := Some (snd results) |} in
       Q.then_ (setState state) (fun _ => getState)).

Definition state : promise W ManagerState :=
  fun w =>
    if falsy (vpcId (STATE w)) || falsy (zoneId (STATE w))
    then initState w
    else Q.resolve (STATE w) w.

(** The vpc id the managers held in [STATE] were built with. *)
Definition vpcOf (s : ManagerState) : string := default "" (vpcId s).

(** [ec2] is the EC2 handle the project manager was built with. *)
Definition destroy (projectId : string) : promise W unit :=
  Q.then_ state
    (fun s =>
       Q.then_
         (call (Ec2DescribeProject projectId)
            (ec2_describeProject P projectId))
         (fun lst =>
            match lst with
            | _ :: _ =>
                Q.throw (Js.Error
                  ("ProjectManager: Cannot destroy project while " ++
                   "open pull requests exist"))
            | [] =>
                Q.then_ (subnetManager.destroy P L (vpcOf s) projectId)
                  (fun _ =>
                     call (AclDestroy projectId) (acl_destroy P projectId))
            end)).

Definition create (projectId : string) : promise W ProjectDesc :=
  Q.then_ state
    (fun s =>
       Q.then_
         (Q.all3 (race P)
            (call RouteFindDefault (route_findDefault P))
            (call (AclCreate projectId) (acl_create P projectId))
            (call (EcrCreate projectId) (ecr_create P projectId)))
         (fun results =>
            let routeId := fst (fst results) in
            let aclId := NetworkAclId (snd (fst results)) in
            let repoArn := repositoryArn (snd results) in
            Q.then_
              (Q.all2 (race P)
                 (subnetManager.create P L (vpcOf s) projectId routeId
                    aclId None)
                 (call (IamCreateProjectUser projectId repoArn)
                    (iam_createProjectUser P projectId repoArn)))
              (fun r =>
                 Q.resolve
                   {| credentials := snd r;
                      awsVpcId := vpcId s;
                      awsRegistryId := registryId (snd results);
                      awsRegion := DEFAULT_REGION |}))).

Definition findOrCreateProject (projectId : string)
  : promise W (SubnetDesc + ProjectDesc) :=
  Q.then_ state
    (fun s =>
       Q.fail
         (Q.then_ (subnetManager.findProjectSubnet P L (vpcOf s) projectId)
            (fun sn => Q.resolve (inl sn)))
         (fun _ =>
            Q.then_ (create projectId)
              (fun sDesc => Q.resolve (inr sDesc)))).

Definition listDeployments (projectId : string)
  : promise W (list Reservation) :=
  Q.then_ state
    (fun s => ec2Manager.describeProject P (vpcOf s) projectId).

(** [R.contains(pr, prs)] on the PR tags read from the instances. *)
Definition containsPr (pr : string) (prs : list (option string)) : bool :=
  existsb (fun x =>
             match x with
             | Some v => String.eqb pr v
             | None => false
             end) prs.

Definition prExists (projectId pr : string) : promise W bool :=
  Q.then_ (listDeployments projectId)
    (fun prs =>
       let insts :=
         concat (map (fun d => getTagsFromInstances (Instances d)) prs) in
       let prs := map (fun o : gmap string string => o !! PR_TAG L) insts in
       Q.resolve (containsPr pr prs)).

Definition destroyPR (projectId : option string) (pr : string)
  : promise W unit :=
  Q.then_ state
    (fun s => call (PrDestroy projectId pr) (pr_destroy P projectId pr)).

Definition createPR (projectId pr appDef : string)
  (sshData : option SshSource) : promise W string :=
  Q.then_ state
    (fun s =>
       Q.then_
         (Q.then_ (findOrCreateProject projectId)
            (fun _ =>
               Q.then_ (prExists projectId pr)
                 (fun exists_ =>
                    if negb exists_ then Q.resolve tt
                    else destroyPR (Some projectId) pr)))
         (fun _ =>
            call (PrCreate projectId pr appDef sshData)
              (pr_create P projectId pr appDef sshData))).

(** [now > x] for a tag value [x] that may be absent. *)
Definition nowGt (now : Z) (x : option string) : bool :=
  Js.gt (Js.Int now) (Js.unaryPlus x).

Definition extractKeys (d : list Reservation)
  : list (gmap string string) :=
  map tagObject (concat (map (fun r => map Tags (Instances r)) d)).

Definition extractDeadPRs (now : Z) (keys : list (gmap string string))
  : list (gmap string string) :=
  List.filter
    (fun v => nowGt now (v !! EXPIRES_TAG L) &&
              ec2Manager.truthyStr (v !! PR_TAG L)) keys.

Definition mapDestroy (deadPRs : list (gmap string string))
  : list (promise W unit) :=
  map (fun v => destroyPR (v !! PROJECT_TAG L)
                  (default "undefined" (v !! PR_TAG L))) deadPRs.

Definition destroyExpiredPRs : promise W (list unit) :=
  fun w =>
    let now := now P (cloud w) in
    Q.then_ state
      (fun s =>
         Q.then_ (ec2Manager.describe P (vpcOf s))
           (fun d =>
              let keys := extractKeys d in
              let deadPRs := extractDeadPRs now keys in
              Q.all (race P) (mapDestroy deadPRs))) w.

End Manager.

(** *** Deployments *)

Section Deployments.
Context {W : Type} (P : Provider W) (L : Lib).

(** The deployment manager held in [STATE] ([s.deployment], built for
    the network and the zone of the state): its [create] and [destroy],
    with the arguments [projectManager] passes to them.  They are any
    functions that return a promise, or throw. *)
Context {R : Type}
  (deployment_create :
     ManagerState -> string -> string -> string -> option SshSource ->
     promise W R)
  (deployment_destroy : ManagerState -> string -> string -> promise W unit).

Definition deploymentExists (projectId name : string) : promise W bool :=
  Q.then_ (listDeployments P projectId)
    (fun deployments =>
       let insts :=
         concat (map (fun d => getTagsFromInstances (Instances d))
                   deployments) in
       let deployments :=
         map (fun o : gmap string string => o !! DEPLOYMENT_TAG L) insts in
       Q.resolve (containsPr name deployments)).

Definition destroyDeployment (projectId dep : string) : promise W unit :=
  Q.then_ (state P)
    (fun s =>
       Q.then_ (findOrCreateProject P L projectId)
         (fun snDesc => deployment_destroy s projectId dep)).

Definition createDeployment (projectId dep appDef : string)
  (sshData : option SshSource) (force : bool) : promise W R :=
  Q.then_ (state P)
    (fun s =>
       Q.then_
         (Q.then_ (findOrCreateProject P L projectId)
            (fun _ =>
               Q.then_ (deploymentExists projectId dep)
                 (fun exists_ =>
                    if negb exists_ then Q.resolve tt
                    else if force then destroyDeployment projectId dep
                    else Q.throw
                           (Js.Error ("Deployment " ++ dep ++ " exists")))))
         (fun _ => deployment_create s projectId dep appDef sshData)).

End Deployments.

(** *** Listings *)

Section Listings.
Context {W : Type} (P : Provider W) (L : Lib).

(** The [reduce] of [listProjects] over the tags of one subnet, from
    [null]: each step returns the value of the tag when its key is the
    project key, and nothing ([undefined]) otherwise.  [None] stands for
    both [null] and [undefined]. *)
Definition projectOfTags (tagGroup : list Tag) : option string :=
  fold_left (fun prev curr =>
               if String.eqb (Key curr) (PROJECT_TAG L)
               then Some (Value curr)
               else None) tagGroup None.

Definition listProjects : promise W (list string) :=
  Q.then_ (state P)
    (fun s =>
       Q.then_
         (Q.then_ (subnetManager.describe P (vpcOf s) None)
            (fun dBlock => Q.resolve (map SubnetTags dBlock)))
         (fun tags =>
            Q.resolve
              (omap (fun identity : option string => identity)
                 (List.filter ec2Manager.truthyStr
                    (map projectOfTags tags))))).

(** What [mapEc2ProjectDetails] makes of a reservation. *)
Record Details : Type :=
  { type : string;
    identifier : string;
    str : string;
    ip : string;
    state_ : string }.

Definition mapEc2ProjectDetails (instance : Reservation) : Details :=
  match Instances instance with
  | [] =>
      {| type := "type"; identifier := "?"; str := ""; ip := "";
         state_ := "" |}
  | inst :: _ =>
      let ti :=
        fold_left
          (fun (r : string * string) tag =>
             let r := if String.eqb (Key tag) (PR_TAG L)
                      then ("PR", Value tag) else r in
             if String.eqb (Key tag) (DEPLOYMENT_TAG L)
             then ("Deployment", Value tag) else r)
          (Tags inst) ("type", "?") in
      {| type := fst ti;
         identifier := snd ti;
         str := fst ti ++ " " ++ snd ti ++ " (" ++ PublicIpAddress inst ++
                "/" ++ Name (State inst) ++ ")";
         ip := PublicIpAddress inst;
         state_ := Name (State inst) |}
  end.

Definition listSSHAbleInstances (projectId : string)
  : promise W (list Details) :=
  Q.then_ (state P)
    (fun s =>
       Q.then_ (ec2Manager.describeProject P (vpcOf s) projectId)
         (fun instances => Q.resolve (map mapEc2ProjectDetails instances))).

End Listings.

End projectManager.

(** ** src/api/0.1/rest/rest-api.js *)

Module restApi.

Section Numbers.

(** The numbers of the language (IEEE 754 doubles), with what the two
    functions below apply to them: ToNumber, as unary plus applies it to
    a property of a request body; strict equality; the constant [0];
    ToString, as concatenation with a string applies it. *)
Context {double : Type} (toNumber : Js.value -> double)
  (strictEq : double -> double -> bool) (zero : double)
  (numberToString : double -> string).

Definition sanitizePr (pr : Js.value) : double :=
  let pr := toNumber pr in
  if negb (strictEq pr pr) then zero else pr.

Context {W : Type} (P : Env.Provider W).

(** [projects.find] of the project database, resolving with a project
    of which [makePrDestroy] reads the [id]. *)
Context (projects_find : Js.value -> Env.promise W string).

(** The handler [makePrDestroy(pm)] returns, applied to a body with the
    properties [id] and [pr]. *)
Definition makePrDestroy (body_id body_pr : Js.value)
  : Env.promise W unit :=
  let pr := sanitizePr body_pr in
  Q.then_ (projects_find body_id)
    (fun project_id =>
       projectManager.destroyPR P (Some project_id)
         (numberToString pr ++ "")).

End Numbers.

Section Revisions.

(** [s.length]: the number of UTF-16 code units of the string that the
    bytes of [s] encode (for a string in ASCII, the number of its
    bytes). *)
Context (length : string -> nat).

Definition sanitizeSha (sha : Js.value) : string :=
  let sha := if negb (Js.truthy sha) then Js.Str "" else sha in
  let sha := Js.toStr sha in
  if (5 <? length sha)%nat && (length sha <=? 40)%nat
  then sha else "master".

End Revisions.

End restApi.

(** ** CIDR blocks as the provider hands them out *)

Module Cidr.

Import Aws.

(** A block [a.b.c.d/mask]. *)
Record t : Type := { a : N; b : N; c : N; d : N; mask : N }.

(** The decimal numeral of a natural number, without leading zeros. *)
Definition dec (n : N) : string := NilEmpty.string_of_uint (N.to_uint n).

Definition render (x : t) : string :=
  dec (a x) ++ "." ++ dec (b x) ++ "." ++ dec (c x) ++ "." ++ dec (d x)
  ++ "/" ++ dec (mask x).

(** A tagged subnet: its block, its id and its tags. *)
Record Tagged : Type :=
  { block : t; subnetId : string; tags : list Tag }.

Definition describeAs (s : Tagged) : SubnetDesc :=
  {| SubnetId := subnetId s;
     CidrBlock := render (block s);
     SubnetTags := tags s |}.

(** The third octet of a block, read as [findHighestCidr] reads it. *)
Definition thirdOctet (cidr : string) : Js.number :=
  Js.unaryPlus
    (fst (Js.pop (snd (Js.pop (Js.split subnetManager.dot cidr))))).

(** The greatest third octet in use, [-1] when no subnet is tagged. *)
Definition maxThird (l : list Tagged) : Z :=
  fold_left (fun m s => Z.max m (Z.of_N (c (block s)))) l (-1).

(** The [/24] block with third octet [k] under the prefix [p1.p2]. *)
Definition slash24 (p1 p2 : N) (k : Z) : t :=
  {| a := p1; b := p2; c := Z.to_N k; d := 0; mask := 24 |}.

(** The addresses of a [/24] block: from [lo] included to [hi] excluded. *)
Definition lo (x : t) : Z :=
  ((Z.of_N (a x) * 256 + Z.of_N (b x)) * 256 + Z.of_N (c x)) * 256.
Definition hi (x : t) : Z := lo x + 256.
Definition disjoint (x y : t) : Prop := hi x <= lo y \/ hi y <= lo x.

(** Allocating [n] times in a row: each allocation computes the next
    block from the subnets tagged so far, and the new subnet is tagged
    before the next allocation. *)
Fixpoint allocate (prefix : string) (n : nat) (lst : list SubnetDesc)
  : list string :=
  match n with
  | O => []
  | S k =>
      let cidr := prefix ++ "." ++ subnetManager.incrementHighestCidr lst in
      cidr :: allocate prefix k
                (lst ++ [ {| SubnetId := ""; CidrBlock := cidr;
                             SubnetTags := [] |} ])%list
  end.

(** The blocks [p1.p2.k.0/24], [p1.p2.(k+1).0/24], ... *)
Fixpoint blocksFrom (p1 p2 : N) (k : Z) (n : nat) : list t :=
  match n with
  | O => []
  | S m => slash24 p1 p2 k :: blocksFrom p1 p2 (k + 1) m
  end.

End Cidr.

(** ** Vocabulary of the properties *)

Module Spec.

Import Aws Env.

(** A string without the separator of the octets. *)
Fixpoint noDot (s : string) : bool :=
  match s with
  | EmptyString => true
  | String c r => negb (Ascii.eqb c subnetManager.dot) && noDot r
  end.

(** A list of subnets whose third octets are the given numbers. *)
Definition thirds (lst : list SubnetDesc) (ks : list Z) : Prop :=
  Forall2 (fun sn k => Cidr.thirdOctet (CidrBlock sn) = Js.Int k) lst ks.

(** The six-bit values. *)
Definition sextets : list N := map N.of_nat (seq 0 64).

(** A property of a configuration object is present when its value is
    truthy: this is what the validation tests. *)
Definition present (o : gmap string Js.value) (attr : string) : Prop :=
  Js.truthy (Js.prop o attr) = true.

(** The configuration with one more scalar property. *)
Definition setField (k : string) (v : Js.value) (c : ec2Manager.Config)
  : ec2Manager.Config :=
  {| ec2Manager.fields := <[ k := v ]> (ec2Manager.fields c);
     ec2Manager.auth := ec2Manager.auth c;
     ec2Manager.apiConfig := ec2Manager.apiConfig c;
     ec2Manager.sshPath := ec2Manager.sshPath c |}.

(** The events a run adds to the log. *)
Definition emits {W A} (p : promise W A) (w : World W) (evs : list Event)
  : Prop :=
  log (snd (p w)) = (log w ++ evs)%list.

(** The stage a call belongs to.  Stages 1 to 7 are those of composite
    teardown, in the order of [deploymentManager.destroy]: the DNS record,
    the containers of the cluster, the instances, the load balancer, the
    task definition, the cluster, the security group.  Stages 8 and 9 are
    those of a redeploy: the teardown of a pull-request environment, then
    its creation.  Any other call (a describe call, the set-up of a
    project) has no stage. *)
Definition stageOf (ev : Event) : option nat :=
  match ev with
  | R53DestroyDeploymentARecord _ _ _ => Some 1%nat
  | ClusterListContainers _ | ClusterDeregister _ _ => Some 2%nat
  | Ec2StopInstances _ | Ec2TerminateInstances _
  | Ec2DescribeInstanceIds _ => Some 3%nat
  | ElbDestroyDeployment _ _ => Some 4%nat
  | TaskDestroy _ => Some 5%nat
  | ClusterDestroy _ => Some 6%nat
  | SgDestroyDeployment _ _ => Some 7%nat
  | PrDestroy _ _ => Some 8%nat
  | PrCreate _ _ _ _ => Some 9%nat
  | _ => None
  end.

Fixpoint ranks (evs : list Event) : list nat :=
  match evs with
  | [] => []
  | ev :: r =>
      match stageOf ev with
      | Some k => k :: ranks r
      | None => ranks r
      end
  end.

(** A promise whose calls, whatever the world, come stage after stage,
    within the stages [lo] to [hi]. *)
Definition staged (lo hi : nat) {W A} (p : promise W A) : Prop :=
  forall w, exists evs,
    emits p w evs
    /\ StronglySorted le (ranks evs)
    /\ Forall (fun r => (lo <= r <= hi)%nat) (ranks evs).

(** The manager state holds a network id and a zone id: [state()] does
    not initialise it again. *)
Definition initialised (s : ManagerState) : Prop :=
  projectManager.falsy (vpcId s) = false
  /\ projectManager.falsy (zoneId s) = false.

(** The tag objects of the instances of a describe result. *)
Definition tagObjects (d : list Reservation) : list (gmap string string) :=
  concat (map (fun r => map (fun i => projectManager.tagObject (Tags i))
                          (Instances r)) d).

(** The instances of a describe result, in the order of the listing. *)
Definition instancesOf (d : list Reservation) : list Instance :=
  concat (map Instances d).

(** The value the tags of a resource give a key: that of the last tag of
    the list with this key, and nothing when no tag has it.  (The
    provider lists at most one tag per key.) *)
Fixpoint tagValue (k : string) (tags : list Tag) : option string :=
  match tags with
  | [] => None
  | t :: r =>
      match tagValue k r with
      | Some v => Some v
      | None => if String.eqb (Key t) k then Some (Value t) else None
      end
  end.

(** Some listed instance carries the pull request [pr] in its PR tag. *)
Definition hasPr (L : Lib) (pr : string) (d : list Reservation) : Prop :=
  exists i, In i (instancesOf d) /\ tagValue (PR_TAG L) (Tags i) = Some pr.

(** The tags of an instance say that it belongs to a pull request whose
    expiry timestamp is in the past: it carries a PR tag, and an expiry
    tag that is the decimal numeral of a time before [now]. *)
Definition expiredPr (L : Lib) (now : Z) (i : Instance) : Prop :=
  exists pr n,
    tagValue (PR_TAG L) (Tags i) = Some pr
    /\ tagValue (EXPIRES_TAG L) (Tags i) = Some (Cidr.dec n)
    /\ Z.of_N n < now.

(** Tags as the system writes them: a PR tag is not empty, and an expiry
    tag is the decimal numeral of a timestamp. *)
Definition wellTagged (L : Lib) (i : Instance) : Prop :=
  (forall pr, tagValue (PR_TAG L) (Tags i) = Some pr -> pr <> "")
  /\ (forall t, tagValue (EXPIRES_TAG L) (Tags i) = Some t ->
                exists n, t = Cidr.dec n).

(** The request to tear down the pull-request environment an instance
    belongs to, by its project tag and its PR tag. *)
Definition sweepRequest (L : Lib) (i : Instance) : Event :=
  PrDestroy (tagValue (PROJECT_TAG L) (Tags i))
    (default "undefined" (tagValue (PR_TAG L) (Tags i))).

(** The request to tear down the pull-request environment of a tag
    object. *)
Definition sweepCall (L : Lib) (v : gmap string string) : Event :=
  PrDestroy (v !! PROJECT_TAG L) (default "undefined" (v !! PR_TAG L)).

(** The calls that destroy the network of a project. *)
Definition destroysNetwork (ev : Event) : Prop :=
  match ev with
  | Ec2DeleteSubnet _ | AclDestroy _ => True
  | _ => False
  end.

(** The bootstrap script of a cluster, given the lines that follow the
    cluster-join directive. *)
Definition script (clusterName : string) (lines : list string) : string :=
  Js.join ec2Manager.LF
    ("#!/bin/bash"
     :: ("echo ECS_CLUSTER=" ++ clusterName ++ " >> /etc/ecs/ecs.config;")
     :: lines).

(** The id [getIdFromEc2Results] reads from a reservation: that of its
    last instance, or the empty string. *)
Definition lastInstanceId (r : Reservation) : string :=
  fold_left (fun _ inst => InstanceId inst) (Instances r) "".

(** What the load-balancer branch resolves with, given how its three
    wiring calls settle: the record of the CNAME when all three succeed,
    and [undefined] otherwise. *)
Definition wired (cname : settled string) (registered checked : settled unit)
  : option string :=
  match cname, registered, checked with
  | Fulfilled url, Fulfilled _, Fulfilled _ => Some url
  | _, _, _ => None
  end.

(** The test of [isPidInSubnetList] on one subnet. *)
Definition tagsProject (L : Lib) (pid : string) (sn : SubnetDesc) : bool :=
  existsb (fun tag =>
             String.eqb (Key tag) (PROJECT_TAG L) && String.eqb (Value tag) pid)
    (SubnetTags sn).

(** A subnet carries the tag of project [pid]. *)
Definition carriesProject (L : Lib) (pid : string) (sn : SubnetDesc) : Prop :=
  Exists (fun tag => Key tag = PROJECT_TAG L /\ Value tag = pid)
    (SubnetTags sn).

(** A promise all of whose calls, whatever the world, are among [Q]. *)
Definition only (Q : Event -> Prop) {W A} (p : promise W A) : Prop :=
  forall w, exists evs, emits p w evs /\ Forall Q evs.

(** The first of the named strings that is empty. *)
Fixpoint firstEmpty (l : list (string * string)) : option string :=
  match l with
  | [] => None
  | (k, v) :: r => if String.eqb v "" then Some k else firstEmpty r
  end.

(** The calls [evs] stop and terminate nothing but the instances of the
    first reservation the query [q] lists in the world [w], and they
    terminate them only after the listing and the stop. *)
Definition stopsListed {W} (P : Provider W) (vpcId : string) (q : Query)
  (w : World W) (evs : list Event) : Prop :=
  (forall ids,
     In (Ec2StopInstances ids) evs \/ In (Ec2TerminateInstances ids) evs ->
     exists r rs c,
       describeInstances P vpcId q (cloud w) = (Fulfilled (r :: rs), c)
       /\ ids = map InstanceId (Instances r))
  /\ (forall ids,
        In (Ec2TerminateInstances ids) evs ->
        exists after,
          evs = DescribeInstances vpcId q :: Ec2StopInstances ids
                :: Ec2TerminateInstances ids :: after).


(** The calls that follow the tagging of launched instances: the polls
    of their state and the final listing. *)
Definition followUp (vpcId : string) (ev : Event) : Prop :=
  (exists ids, ev = Ec2DescribeInstanceIds ids)
  \/ (exists q, ev = DescribeInstances vpcId q).

(** The tags [tagDeploymentInstance] writes. *)
Definition deploymentTags (L : Lib) (deployment pid : Js.value) : list Tag :=
  [ {| Key := CLUSTERNATOR_TAG L; Value := "true" |};
    {| Key := DEPLOYMENT_TAG L; Value := Js.toStr deployment |};
    {| Key := PROJECT_TAG L; Value := Js.toStr pid |} ].

(** Reading the files [paths] one after the other from the provider
    state [c]: the answers, and the state that is left. *)
Fixpoint readFiles {W} (P : Provider W) (paths : list string) (c : W)
  : list (settled string) * W :=
  match paths with
  | [] => ([], c)
  | p :: r =>
      let (a, c1) := fs_readFile P p c in
      let (l, c2) := readFiles P r c1 in
      (a :: l, c2)
  end.

(** The answers gathered as [Q.all] gathers them: all the contents, or
    a failure (here the leftmost one). *)
Fixpoint gathered (answers : list (settled string))
  : settled (list string) :=
  match answers with
  | [] => Fulfilled []
  | a :: r =>
      match a, gathered r with
      | Fulfilled s, Fulfilled l => Fulfilled (s :: l)
      | Failed e, _ => Failed e
      | Fulfilled _, Failed e => Failed e
      end
  end.

(** The answers of the provider to one call per element of [xs], issued
    one after the other from the state [c], and the state that is
    left. *)
Fixpoint answers {W X A} (f : X -> W -> settled A * W) (xs : list X) (c : W)
  : list (settled A) * W :=
  match xs with
  | [] => ([], c)
  | x :: r =>
      let (a, c1) := f x c in
      let (l, c2) := answers f r c1 in
      (a :: l, c2)
  end.

(** The calls that set up the manager state and look up or set up a
    project: the look-ups of the network, of the zone, of the subnets,
    of the route table and of the ACLs, and the creation of the ACL, the
    repository, the subnet (with its tags and its associations) and the
    user of a project.  None of them tears down or creates an
    environment. *)
Definition setsUpProject (ev : Event) : Prop :=
  match ev with
  | VpcFindProject _ | R53FindId | DescribeSubnets _ _ | RouteFindDefault
  | AclCreate _ | EcrCreate _ | Ec2CreateSubnet _ | AwsTagEc2 _ _
  | Ec2AssociateRouteTable _ _ | Ec2DescribeNetworkAcls _
  | Ec2ReplaceNetworkAclAssociation _ _ | IamCreateProjectUser _ _ => True
  | _ => False
  end.

(** The reason of a failure, if the answer is one.  A [Q.all] over
    independent calls rejects with one of the reasons of its failed
    calls: the one that arrives first. *)
Definition failureOf {A} (r : settled A) : list Js.error :=
  match r with
  | Fulfilled _ => []
  | Failed e => [e]
  end.

(** The tags [tagPrInstance] writes at the time [born]. *)
Definition prTags (L : Lib) (pr pid : Js.value) (born : Z) : list Tag :=
  [ {| Key := CLUSTERNATOR_TAG L; Value := "true" |};
    {| Key := PR_TAG L; Value := Js.toStr pr |};
    {| Key := PROJECT_TAG L; Value := Js.toStr pid |};
    {| Key := EXPIRES_TAG L;
       Value := Js.numberToString (Js.Int (born + ec2Manager.ttl L)) |} ].

End Spec.

(** ** A small provider, to run the program on concrete inputs *)

Module Mock.

Import Aws Env.

(** The state of the provider: the clock, the network, the instances, the
    active clusters with their registered containers, and the names of
    the operations that are out of order. *)
Record Cloud : Type :=
  { clock : Z;
    vpcBlock : string;
    subnets : list SubnetDesc;
    reservations : list Reservation;
    clusters : list string;
    containers : list string;
    failing : list string }.

Definition mem (x : string) (l : list string) : bool :=
  existsb (String.eqb x) l.

Definition answer {A} (name : string) (a : A) (c : Cloud)
  : settled A * Cloud :=
  (if mem name (failing c) then Failed (Js.Error name) else Fulfilled a, c).

Definition setClusters (l : list string) (c : Cloud) : Cloud :=
  {| clock := clock c; vpcBlock := vpcBlock c; subnets := subnets c;
     reservations := reservations c; clusters := l;
     containers := containers c; failing := failing c |}.

Definition setReservations (l : list Reservation) (c : Cloud) : Cloud :=
  {| clock := clock c; vpcBlock := vpcBlock c; subnets := subnets c;
     reservations := l; clusters := clusters c;
     containers := containers c; failing := failing c |}.

Definition notFound {A} (c : Cloud) : settled A * Cloud :=
  (Failed (Js.Error "ClusterNotFoundException"), c).

Definition instance (state : string) (i : string) : Instance :=
  {| InstanceId := i; Tags := []; PublicIpAddress := "203.0.113.7";
     State := {| Name := state |} |}.

Definition provider : Provider Cloud :=
  {| vpc_findProject := fun _ c =>
       answer "vpc.findProject"
         {| VpcId := "vpc-1"; VpcCidrBlock := vpcBlock c |} c;
     r53_findId := answer "r53.findId" "zone-1";
     r53_createDeploymentCNameRecord := fun _ _ _ =>
       answer "r53.createCName" "cname";
     r53_createDeploymentARecord := fun _ _ _ =>
       answer "r53.createA" "a-record";
     r53_destroyDeploymentARecord := fun _ _ _ =>
       answer "r53.destroyA" tt;
     cluster_create := fun name c =>
       answer "cluster.create" tt (setClusters (name :: clusters c) c);
     cluster_destroy := fun name c =>
       if mem name (clusters c)
       then answer "cluster.destroy" tt
              (setClusters
                 (List.filter (fun x => negb (String.eqb name x))
                    (clusters c)) c)
       else notFound c;
     cluster_listContainers := fun name c =>
       if mem name (clusters c)
       then answer "cluster.listContainers" (containers c) c
       else notFound c;
     cluster_deregister := fun _ _ => answer "cluster.deregister" tt;
     sg_createDeployment := fun _ _ _ => answer "sg.create" "sg-1";
     sg_destroyDeployment := fun _ _ => answer "sg.destroy" tt;
     task_create := fun _ _ _ => answer "task.create" tt;
     task_destroy := fun _ => answer "task.destroy" tt;
     elb_createDeployment := fun _ _ _ _ _ =>
       answer "elb.create" {| dns := "elb.example"; id := "elb-1" |};
     elb_registerInstances := fun _ _ => answer "elb.register" tt;
     elb_configureHealthCheck := fun _ => answer "elb.healthCheck" tt;
     elb_destroyDeployment := fun _ _ => answer "elb.destroy" tt;
     describeInstances := fun _ _ c =>
       answer "describeInstances" (reservations c) c;
     describeSubnets := fun _ _ c =>
       answer "describeSubnets" (subnets c) c;
     ec2_describeProject := fun _ c =>
       answer "ec2.describeProject" (reservations c) c;
     ec2_runInstances := fun _ c =>
       let r := {| Instances := [instance "running" "i-1"] |} in
       answer "ec2.runInstances" r
         (setReservations (reservations c ++ [r])%list c);
     ec2_describeInstanceIds := fun ids c =>
       answer "ec2.describeInstances"
         (match reservations c with
          | [] => [ {| Instances := map (instance "terminated") ids |} ]
          | l => l
          end) c;
     ec2_stopInstances := fun _ => answer "ec2.stopInstances" tt;
     ec2_terminateInstances := fun _ c =>
       answer "ec2.terminateInstances" tt (setReservations [] c);
     ec2_createSubnet := fun params =>
       answer "ec2.createSubnet"
         {| SubnetId := "subnet-new"; CidrBlock := ParamCidrBlock params;
            SubnetTags := [] |};
     ec2_deleteSubnet := fun _ => answer "ec2.deleteSubnet" tt;
     ec2_associateRouteTable := fun _ _ => answer "ec2.associateRoute" tt;
     ec2_describeNetworkAcls := fun _ => answer "ec2.describeAcls" [];
     ec2_replaceNetworkAclAssociation := fun _ _ =>
       answer "ec2.replaceAcl" tt;
     awsTagEc2 := fun _ _ => answer "awsTagEc2" tt;
     fs_readdir := fun _ => answer "fs.readdir" [];
     fs_readFile := fun _ => answer "fs.readFile" "ssh-rsa KEY";
     acl_create := fun _ =>
       answer "acl.create"
         {| NetworkAclId := "acl-1"; IsDefault := false;
            Associations := [] |};
     acl_destroy := fun _ => answer "acl.destroy" tt;
     route_findDefault := answer "route.findDefault" "rtb-1";
     ecr_create := fun _ =>
       answer "ecr.create" {| repositoryArn := "arn"; registryId := "r" |};
     iam_createProjectUser := fun _ _ => answer "iam.createUser" "creds";
     pr_create := fun _ _ _ _ => answer "pr.create" "url";
     pr_destroy := fun _ _ => answer "pr.destroy" tt;
     now := clock;
     laterRejectsFirst := fun _ _ _ => false |}.

Definition lib : Lib :=
  {| CLUSTERNATOR_TAG := "the-clusternator";
     PROJECT_TAG := "the-clusternator-project";
     PR_TAG := "the-clusternator-pr";
     DEPLOYMENT_TAG := "the-clusternator-deployment";
     EXPIRES_TAG := "the-clusternator-expires";
     SSH_PUBLIC_PATH := "ssh-public";
     AWS_SSL_ID := "ssl-1";
     AWS_DEFAULT_AZ := "us-east-1a";
     AWS_EC2_POLL_MAX := 3;
     prTTL := None;
     DEFAULT_INSTANCE_NICS := [];
     getCidrPrefixFromIPString := fun ip =>
       Js.join "." (take 2 (Js.split subnetManager.dot ip));
     generateRID := fun pid deployment sha =>
       pid ++ "--" ++ deployment ++ "--" ++ sha;
     findIpFromEc2Describe := fun results =>
       match results with
       | {| Instances := i :: _ |} :: _ => Js.Return (PublicIpAddress i)
       | _ => Js.Throw (Js.Error "findIpFromEc2Describe: no instance")
       end;
     path_join := fun d f => d ++ "/" ++ f;
     JSON_stringify_auth := fun _ => "{}";
     invalidPidTag := fun pid _ _ => Js.Error ("No tag for " ++ pid);
     invalidPidPrTag := fun pid pr _ _ =>
       Js.Error ("No tag for " ++ pid ++ " " ++ pr);
     invalidPidDeploymentTag := fun pid d _ _ =>
       Js.Error ("No tag for " ++ pid ++ " " ++ d) |}.

Definition ready : ManagerState :=
  {| vpcId := Some "vpc-1"; zoneId := Some "zone-1" |}.

Definition world (c : Cloud) : World Cloud :=
  {| cloud := c; STATE := ready; log := [] |}.

(** A provider with nothing in it. *)
Definition empty : Cloud :=
  {| clock := 1000000; vpcBlock := "10.0.0.0/16"; subnets := [];
     reservations := []; clusters := []; containers := [];
     failing := [] |}.

(** Two subnets are tagged, with third octets 3 and 12; the first one is
    the subnet of project [p]. *)
Definition tagged : list Cidr.Tagged :=
  [ {| Cidr.block := {| Cidr.a := 10; Cidr.b := 0; Cidr.c := 3;
                        Cidr.d := 0; Cidr.mask := 24 |};
       Cidr.subnetId := "subnet-a";
       Cidr.tags := [ {| Key := "the-clusternator-project";
                         Value := "p" |} ] |};
    {| Cidr.block := {| Cidr.a := 10; Cidr.b := 0; Cidr.c := 12;
                        Cidr.d := 128; Cidr.mask := 25 |};
       Cidr.subnetId := "subnet-b"; Cidr.tags := [] |} ].

(** A complete configuration for pull request 7. *)
Definition prConfig : ec2Manager.Config :=
  {| ec2Manager.fields :=
       <[ "clusterName" := Js.Str "p--7" ]>
       (<[ "sgId" := Js.Str "sg-1" ]>
       (<[ "subnetId" := Js.Str "subnet-1" ]>
       (<[ "pid" := Js.Str "p" ]>
       (<[ "pr" := Js.Str "7" ]> ∅))));
     ec2Manager.auth := None;
     ec2Manager.apiConfig := Some "{}";
     ec2Manager.sshPath := SshKeys [] |}.

(** The same with a deployment name besides the pull request. *)
Definition bothConfig : ec2Manager.Config :=
  Spec.setField "deployment" (Js.Str "beta")
    (Spec.setField "deploymentName" (Js.Str "beta") prConfig).

(** The same for pull request number 0. *)
Definition zeroConfig : ec2Manager.Config :=
  Spec.setField "pr" (Js.Number (Js.Int 0)) prConfig.

(** A deployment [d] of project [p] at revision [sha] is up: its cluster
    with one container, and its instance. *)
Definition deployed : Cloud :=
  {| clock := 1000000; vpcBlock := "10.0.0.0/16"; subnets := [];
     reservations := [ {| Instances := [instance "running" "i-0"] |} ];
     clusters := ["p--d--sha"]; containers := ["arn-1"];
     failing := [] |}.

(** The world a first teardown of that deployment leaves. *)
Definition afterTeardown : World Cloud :=
  snd (deploymentManager.destroy provider lib "vpc-1" "p" "d" "sha"
         (world deployed)).

(** The same once the cluster is gone. *)
Definition clusterGone : Cloud := setClusters [] deployed.

(** The load balancer cannot be created. *)
Definition noElb : Cloud :=
  {| clock := 1000000; vpcBlock := "10.0.0.0/16"; subnets := [];
     reservations := []; clusters := []; containers := [];
     failing := ["elb.create"] |}.

(** Instances cannot be registered with the load balancer. *)
Definition noRegistration : Cloud :=
  {| clock := 1000000; vpcBlock := "10.0.0.0/16"; subnets := [];
     reservations := []; clusters := []; containers := [];
     failing := ["elb.register"] |}.

(** An instance of pull request [pr] of project [p] that expires at
    [expires], and one of a deployment. *)
Definition prInstance (i pr expires : string) : Instance :=
  {| InstanceId := i;
     Tags := [ {| Key := "the-clusternator"; Value := "true" |};
               {| Key := "the-clusternator-pr"; Value := pr |};
               {| Key := "the-clusternator-project"; Value := "p" |};
               {| Key := "the-clusternator-expires"; Value := expires |} ];
     PublicIpAddress := "203.0.113.7";
     State := {| Name := "running" |} |}.

Definition deploymentInstance (i name : string) : Instance :=
  {| InstanceId := i;
     Tags := [ {| Key := "the-clusternator"; Value := "true" |};
               {| Key := "the-clusternator-deployment"; Value := name |};
               {| Key := "the-clusternator-project"; Value := "p" |} ];
     PublicIpAddress := "203.0.113.8";
     State := {| Name := "running" |} |}.

(** At time 1000000: pull request 7 expired at 999000, pull request 8
    expires at 1100000, and a deployment is up. *)
Definition fleet : list Reservation :=
  [ {| Instances := [prInstance "i-7" "7" "999000"] |};
    {| Instances := [prInstance "i-8" "8" "1100000"] |};
    {| Instances := [deploymentInstance "i-9" "beta"] |} ].

Definition sweepable : Cloud :=
  {| clock := 1000000; vpcBlock := "10.0.0.0/16";
     subnets := map Cidr.describeAs tagged;
     reservations := fleet; clusters := []; containers := [];
     failing := [] |}.

(** The same instances, in a network where no subnet is tagged: the
    subnet of project [p] is not to be found. *)
Definition orphaned : Cloud :=
  {| clock := 1000000; vpcBlock := "10.0.0.0/16"; subnets := [];
     reservations := fleet; clusters := []; containers := [];
     failing := [] |}.

Definition network : Cloud :=
  {| clock := 1000000; vpcBlock := "10.0.0.0/16";
     subnets := map Cidr.describeAs tagged;
     reservations := []; clusters := []; containers := [];
     failing := [] |}.

(** Two instances of one reservation: the first one is terminated, the
    second one still runs. *)
Definition halfDown : Cloud :=
  {| clock := 1000000; vpcBlock := "10.0.0.0/16"; subnets := [];
     reservations :=
       [ {| Instances := [instance "terminated" "i-a";
                          instance "running" "i-b"] |} ];
     clusters := []; containers := []; failing := [] |}.

(** The same provider with a key directory of two files, the second of
    which cannot be read. *)
Definition keyed : Provider Cloud :=
  {| vpc_findProject := vpc_findProject provider;
     r53_findId := r53_findId provider;
     r53_createDeploymentCNameRecord := r53_createDeploymentCNameRecord provider;
     r53_createDeploymentARecord := r53_createDeploymentARecord provider;
     r53_destroyDeploymentARecord := r53_destroyDeploymentARecord provider;
     cluster_create := cluster_create provider;
     cluster_destroy := cluster_destroy provider;
     cluster_listContainers := cluster_listContainers provider;
     cluster_deregister := cluster_deregister provider;
     sg_createDeployment := sg_createDeployment provider;
     sg_destroyDeployment := sg_destroyDeployment provider;
     task_create := task_create provider;
     task_destroy := task_destroy provider;
     elb_createDeployment := elb_createDeployment provider;
     elb_registerInstances := elb_registerInstances provider;
     elb_configureHealthCheck := elb_configureHealthCheck provider;
     elb_destroyDeployment := elb_destroyDeployment provider;
     describeInstances := describeInstances provider;
     describeSubnets := describeSubnets provider;
     ec2_describeProject := ec2_describeProject provider;
     ec2_runInstances := ec2_runInstances provider;
     ec2_describeInstanceIds := ec2_describeInstanceIds provider;
     ec2_stopInstances := ec2_stopInstances provider;
     ec2_terminateInstances := ec2_terminateInstances provider;
     ec2_createSubnet := ec2_createSubnet provider;
     ec2_deleteSubnet := ec2_deleteSubnet provider;
     ec2_associateRouteTable := ec2_associateRouteTable provider;
     ec2_describeNetworkAcls := ec2_describeNetworkAcls provider;
     ec2_replaceNetworkAclAssociation := ec2_replaceNetworkAclAssociation provider;
     awsTagEc2 := awsTagEc2 provider;
     fs_readdir := fun _ => answer "fs.readdir" ["a.pub"; "b.pub"];
     fs_readFile := fun file c =>
       if String.eqb file "keys/b.pub"
       then (Failed (Js.Error "EACCES"), c)
       else answer "fs.readFile" "ssh-rsa KEY" c;
     acl_create := acl_create provider;
     acl_destroy := acl_destroy provider;
     route_findDefault := route_findDefault provider;
     ecr_create := ecr_create provider;
     iam_createProjectUser := iam_createProjectUser provider;
     pr_create := pr_create provider;
     pr_destroy := pr_destroy provider;
     now := now provider;
     laterRejectsFirst := laterRejectsFirst provider |}.

(** No subnet at all, and the repository of a project cannot be
    created. *)
Definition noRepository : Cloud :=
  {| clock := 1000000; vpcBlock := "10.0.0.0/16"; subnets := [];
     reservations := []; clusters := []; containers := [];
     failing := ["ecr.create"] |}.

(** The same provider on a network whose ACLs are [acls]. *)
Definition withAcls (acls : list NetworkAcl) : Provider Cloud :=
  {| vpc_findProject := vpc_findProject provider;
     r53_findId := r53_findId provider;
     r53_createDeploymentCNameRecord := r53_createDeploymentCNameRecord provider;
     r53_createDeploymentARecord := r53_createDeploymentARecord provider;
     r53_destroyDeploymentARecord := r53_destroyDeploymentARecord provider;
     cluster_create := cluster_create provider;
     cluster_destroy := cluster_destroy provider;
     cluster_listContainers := cluster_listContainers provider;
     cluster_deregister := cluster_deregister provider;
     sg_createDeployment := sg_createDeployment provider;
     sg_destroyDeployment := sg_destroyDeployment provider;
     task_create := task_create provider;
     task_destroy := task_destroy provider;
     elb_createDeployment := elb_createDeployment provider;
     elb_registerInstances := elb_registerInstances provider;
     elb_configureHealthCheck := elb_configureHealthCheck provider;
     elb_destroyDeployment := elb_destroyDeployment provider;
     describeInstances := describeInstances provider;
     describeSubnets := describeSubnets provider;
     ec2_describeProject := ec2_describeProject provider;
     ec2_runInstances := ec2_runInstances provider;
     ec2_describeInstanceIds := ec2_describeInstanceIds provider;
     ec2_stopInstances := ec2_stopInstances provider;
     ec2_terminateInstances := ec2_terminateInstances provider;
     ec2_createSubnet := ec2_createSubnet provider;
     ec2_deleteSubnet := ec2_deleteSubnet provider;
     ec2_associateRouteTable := ec2_associateRouteTable provider;
     ec2_describeNetworkAcls := fun _ => answer "ec2.describeAcls" acls;
     ec2_replaceNetworkAclAssociation := ec2_replaceNetworkAclAssociation provider;
     awsTagEc2 := awsTagEc2 provider;
     fs_readdir := fs_readdir provider;
     fs_readFile := fs_readFile provider;
     acl_create := acl_create provider;
     acl_destroy := acl_destroy provider;
     route_findDefault := route_findDefault provider;
     ecr_create := ecr_create provider;
     iam_createProjectUser := iam_createProjectUser provider;
     pr_create := pr_create provider;
     pr_destroy := pr_destroy provider;
     now := now provider;
     laterRejectsFirst := laterRejectsFirst provider |}.

(** Numbers for concrete runs: the integers and NaN. *)
Definition toNumber (v : Js.value) : Js.number :=
  match v with
  | Js.Undefined => Js.NaN
  | Js.Null => Js.Int 0
  | Js.Boolean true => Js.Int 1
  | Js.Boolean false => Js.Int 0
  | Js.Number n => n
  | Js.Str s => Js.stringToNumber s
  end.

Definition strictEq (x y : Js.number) : bool :=
  match x, y with
  | Js.Int a, Js.Int b => a =? b
  | _, _ => false
  end.

(** A default ACL associated with the subnet of project [p] and with the
    subnet the provider creates next. *)
Definition defaultAcl : NetworkAcl :=
  {| NetworkAclId := "acl-0"; IsDefault := true;
     Associations :=
       [ {| NetworkAclAssociationId := "assoc-a";
            AssocSubnetId := "subnet-a" |};
         {| NetworkAclAssociationId := "assoc-new";
            AssocSubnetId := "subnet-new" |} ] |}.

End Mock.

(** * Properties *)

Import Spec.

(** ** Strings and numbers *)

Section StringFacts.

Lemma split_noDot s : noDot s = true -> Js.split subnetManager.dot s = [s].
Proof.
  induction s as [|c r IH]; simpl; [reflexivity|].
  intros H. apply andb_prop in H as [Hc Hr].
  apply negb_true_iff in Hc. rewrite Hc, (IH Hr). reflexivity.
Qed.

Lemma split_app s r :
  noDot s = true ->
  Js.split subnetManager.dot (s ++ String subnetManager.dot r)
  = s :: Js.split subnetManager.dot r.
Proof.
  induction s as [|c s' IH]; simpl; intros H.
  - reflexivity.
  - apply andb_prop in H as [Hc Hr].
    apply negb_true_iff in Hc. rewrite Hc, (IH Hr). reflexivity.
Qed.

Lemma split_nonempty s : Js.split subnetManager.dot s <> [].
Proof.
  destruct s as [|c r]; simpl; [discriminate|].
  destruct (Ascii.eqb c subnetManager.dot); [discriminate|].
  destruct (Js.split subnetManager.dot r); discriminate.
Qed.

(** Splitting distributes over a separator in the middle. *)
Lemma split_sep s r :
  Js.split subnetManager.dot (s ++ String subnetManager.dot r)
  = (Js.split subnetManager.dot s ++ Js.split subnetManager.dot r)%list.
Proof.
  induction s as [|c s' IH]; simpl.
  - reflexivity.
  - destruct (Ascii.eqb c subnetManager.dot) eqn:Hc.
    + rewrite IH. reflexivity.
    + rewrite IH. pose proof (split_nonempty s') as Hne.
      destruct (Js.split subnetManager.dot s'); [congruence|reflexivity].
Qed.

Lemma noDot_app s r : noDot (s ++ r) = noDot s && noDot r.
Proof.
  induction s as [|c s' IH]; simpl; [reflexivity|].
  rewrite IH, andb_assoc. reflexivity.
Qed.

Lemma noDot_uint u : noDot (NilEmpty.string_of_uint u) = true.
Proof. induction u; simpl; auto. Qed.

Lemma noDot_dec n : noDot (Cidr.dec n) = true.
Proof. apply noDot_uint. Qed.

Lemma numberToString_of_N n :
  Js.numberToString (Js.Int (Z.of_N n)) = Cidr.dec n.
Proof. destruct n; reflexivity. Qed.

Lemma stringToNumber_dec n : Js.stringToNumber (Cidr.dec n) = Js.Int (Z.of_N n).
Proof.
  unfold Js.stringToNumber, Cidr.dec.
  rewrite NilEmpty.usu. unfold Z.of_uint.
  change (Pos.of_uint (N.to_uint n)) with (N.of_uint (N.to_uint n)).
  rewrite DecimalN.Unsigned.of_to. reflexivity.
Qed.

End StringFacts.

(** ** The address allocator *)

Section AllocatorFacts.

Import Aws Env.

Lemma append_assoc (s1 s2 s3 : string) :
  (s1 ++ s2) ++ s3 = s1 ++ (s2 ++ s3).
Proof.
  induction s1 as [|c s1 IH]; [reflexivity|].
  change (String c ((s1 ++ s2) ++ s3) = String c (s1 ++ s2 ++ s3)).
  f_equal. exact IH.
Qed.

Lemma dot_append r : "." ++ r = String subnetManager.dot r.
Proof. reflexivity. Qed.

Lemma thirdOctet_render x :
  Cidr.thirdOctet (Cidr.render x) = Js.Int (Z.of_N (Cidr.c x)).
Proof.
  unfold Cidr.thirdOctet, Cidr.render.
  rewrite !dot_append, !split_app by apply noDot_dec.
  rewrite split_noDot.
  - simpl. apply stringToNumber_dec.
  - rewrite !noDot_app, !noDot_dec. reflexivity.
Qed.

Lemma thirdOctet_next prefix k :
  Cidr.thirdOctet (prefix ++ "." ++ Cidr.dec k ++ ".0/24")
  = Js.Int (Z.of_N k).
Proof.
  unfold Cidr.thirdOctet.
  rewrite dot_append.
  change (".0/24") with (String subnetManager.dot "0/24").
  rewrite split_sep, split_app by apply noDot_dec.
  change (Js.split subnetManager.dot "0/24") with ["0/24"].
  unfold Js.pop; cbn [fst snd].
  change [Cidr.dec k; "0/24"] with ([Cidr.dec k] ++ ["0/24"])%list.
  rewrite List.app_assoc, removelast_last, last_snoc.
  simpl. apply stringToNumber_dec.
Qed.

Lemma highestStep_third h sn k :
  Cidr.thirdOctet (CidrBlock sn) = Js.Int k ->
  subnetManager.highestStep (Js.Int h) sn = Js.Int (Z.max h k).
Proof.
  unfold subnetManager.highestStep, Cidr.thirdOctet. intros ->. simpl.
  destruct (Z.ltb_spec h k).
  - f_equal. lia.
  - f_equal. lia.
Qed.

Lemma fold_highestStep lst ks h :
  thirds lst ks ->
  fold_left subnetManager.highestStep lst (Js.Int h)
  = Js.Int (fold_left Z.max ks h).
Proof.
  intros H. revert h. induction H as [|sn k lst ks Hk _ IH]; intros h.
  - reflexivity.
  - simpl. rewrite (highestStep_third _ _ _ Hk). apply IH.
Qed.

Lemma fold_max_ge ks h : h <= fold_left Z.max ks h.
Proof.
  revert h. induction ks as [|k ks IH]; intros h; simpl; [lia|].
  specialize (IH (Z.max h k)). lia.
Qed.

Lemma fold_max_In ks h k : In k ks -> k <= fold_left Z.max ks h.
Proof.
  revert h. induction ks as [|k' ks IH]; intros h; simpl; [tauto|].
  intros [->|Hin].
  - pose proof (fold_max_ge ks (Z.max h k)). lia.
  - apply IH, Hin.
Qed.

Lemma thirds_describeAs ts :
  thirds (map Cidr.describeAs ts)
    (map (fun s => Z.of_N (Cidr.c (Cidr.block s))) ts).
Proof.
  induction ts as [|t ts IH]; constructor; [|exact IH].
  apply thirdOctet_render.
Qed.

Lemma maxThird_fold ts :
  Cidr.maxThird ts
  = fold_left Z.max (map (fun s => Z.of_N (Cidr.c (Cidr.block s))) ts) (-1).
Proof.
  unfold Cidr.maxThird. generalize (-1).
  induction ts as [|t ts IH]; intros h; simpl; [reflexivity|apply IH].
Qed.

Lemma findHighestCidr_describeAs ts :
  subnetManager.findHighestCidr (map Cidr.describeAs ts)
  = Js.Int (Cidr.maxThird ts).
Proof.
  unfold subnetManager.findHighestCidr.
  rewrite (fold_highestStep _ _ _ (thirds_describeAs ts)).
  now rewrite maxThird_fold.
Qed.

Lemma maxThird_ge ts : -1 <= Cidr.maxThird ts.
Proof. rewrite maxThird_fold. apply fold_max_ge. Qed.

Lemma numberToString_nonneg z :
  0 <= z -> Js.numberToString (Js.Int z) = Cidr.dec (Z.to_N z).
Proof.
  intros Hz. rewrite <- numberToString_of_N. now rewrite Z2N.id.
Qed.

Lemma incrementHighestCidr_thirds lst ks :
  thirds lst ks ->
  subnetManager.incrementHighestCidr lst
  = Cidr.dec (Z.to_N (fold_left Z.max ks (-1) + 1)) ++ ".0/24".
Proof.
  intros H. unfold subnetManager.incrementHighestCidr,
    subnetManager.findHighestCidr.
  rewrite (fold_highestStep _ _ _ H). cbn [Js.add].
  rewrite numberToString_nonneg; [reflexivity|].
  pose proof (fold_max_ge ks (-1)). lia.
Qed.

Lemma allocate_thirds p1 p2 n : forall lst ks,
  thirds lst ks ->
  Cidr.allocate (Cidr.dec p1 ++ "." ++ Cidr.dec p2) n lst
  = map Cidr.render
      (Cidr.blocksFrom p1 p2 (fold_left Z.max ks (-1) + 1) n).
Proof.
  induction n as [|n IH]; intros lst ks H; [reflexivity|].
  cbn [Cidr.allocate Cidr.blocksFrom map].
  rewrite (incrementHighestCidr_thirds _ _ H).
  pose proof (fold_max_ge ks (-1)) as Hge.
  set (M := fold_left Z.max ks (-1)) in *.
  f_equal.
  - unfold Cidr.render, Cidr.slash24; cbn [Cidr.a Cidr.b Cidr.c Cidr.d Cidr.mask].
    rewrite !append_assoc. reflexivity.
  - rewrite (IH _ (ks ++ [M + 1])%list).
    + rewrite fold_left_app. cbn [fold_left]. fold M.
      replace (Z.max M (M + 1)) with (M + 1) by lia. reflexivity.
    + apply Forall2_app; [exact H|]. constructor; [|constructor].
      cbn [CidrBlock]. rewrite thirdOctet_next. f_equal. lia.
Qed.

Lemma blocksFrom_In p1 p2 n : forall k x,
  0 <= k -> In x (Cidr.blocksFrom p1 p2 k n) ->
  Cidr.a x = p1 /\ Cidr.b x = p2 /\ k <= Z.of_N (Cidr.c x).
Proof.
  induction n as [|n IH]; intros k x Hk; simpl; [tauto|].
  intros [<-|Hin].
  - cbn. rewrite Z2N.id by lia. repeat split; lia.
  - destruct (IH (k + 1) x ltac:(lia) Hin) as (Ha & Hb & Hc).
    repeat split; try assumption; lia.
Qed.

Lemma blocksFrom_NoDup p1 p2 n : forall k,
  0 <= k -> List.NoDup (map Cidr.render (Cidr.blocksFrom p1 p2 k n)).
Proof.
  induction n as [|n IH]; intros k Hk; simpl; constructor.
  - intros Hin. apply in_map_iff in Hin as (y & Heq & Hy).
    apply (f_equal Cidr.thirdOctet) in Heq.
    rewrite !thirdOctet_render in Heq. cbn in Heq.
    destruct (blocksFrom_In p1 p2 n (k + 1) y ltac:(lia) Hy) as (_ & _ & Hc).
    injection Heq as Heq. rewrite Z2N.id in Heq by lia. lia.
  - apply IH. lia.
Qed.

Lemma blocksFrom_disjoint p1 p2 n : forall k,
  0 <= k -> ForallOrdPairs Cidr.disjoint (Cidr.blocksFrom p1 p2 k n).
Proof.
  induction n as [|n IH]; intros k Hk; simpl; constructor.
  - apply List.Forall_forall. intros y Hy.
    destruct (blocksFrom_In p1 p2 n (k + 1) y ltac:(lia) Hy)
      as (Ha & Hb & Hc).
    left. unfold Cidr.hi, Cidr.lo, Cidr.slash24; cbn.
    rewrite Ha, Hb, Z2N.id by lia. lia.
  - apply IH. lia.
Qed.

Lemma maxThird_bound ts :
  Forall (fun s => Z.of_N (Cidr.c (Cidr.block s)) < Cidr.maxThird ts + 1) ts.
Proof.
  apply List.Forall_forall. intros s Hs. rewrite maxThird_fold.
  assert (Z.of_N (Cidr.c (Cidr.block s))
          <= fold_left Z.max
               (map (fun s => Z.of_N (Cidr.c (Cidr.block s))) ts) (-1)).
  { apply fold_max_In, in_map_iff. eauto. }
  lia.
Qed.

Lemma getNextSubnet_run {W} (P : Provider W) L vpcId pid (w : World W)
    v c1 lst c2 :
  vpc_findProject P (Some pid) (cloud w) = (Fulfilled v, c1) ->
  describeSubnets P vpcId None c1 = (Fulfilled lst, c2) ->
  fst (subnetManager.getNextSubnet P L vpcId pid w)
  = Q.Resolved (getCidrPrefixFromIPString L (VpcCidrBlock v) ++ "." ++
                subnetManager.incrementHighestCidr lst).
Proof.
  intros Hv Hd.
  unfold subnetManager.getNextSubnet, subnetManager.getCidrPrefix,
    subnetManager.getCidrPostfix, subnetManager.describe,
    Q.then_, Q.all2, Q.handler, Q.resolve, call.
  rewrite Hv. cbn. rewrite Hd. reflexivity.
Qed.

End AllocatorFacts.

(** C1.  Whatever subnets are tagged, [getNextSubnet] resolves with the
    project prefix followed by a third octet that is one more than the
    greatest third octet in use (so greater than each of them), and by
    [.0/24]; with no tagged subnet the third octet is 0.  Allocating [n]
    times in a row, each new subnet being tagged before the next
    allocation, yields the [n] blocks that follow each other from that
    octet on: they are pairwise different and their address ranges are
    pairwise disjoint. *)
Theorem C1_next_subnet_is_fresh :
  forall (W : Type) (P : Env.Provider W) (L : Env.Lib) (vpcId pid : string)
         (w : Env.World W) (v : Aws.VpcDesc) (c1 c2 : W)
         (ts : list Cidr.Tagged) (p1 p2 : N) (n : nat),
    Env.vpc_findProject P (Some pid) (Env.cloud w) = (Env.Fulfilled v, c1) ->
    Env.describeSubnets P vpcId None c1
      = (Env.Fulfilled (map Cidr.describeAs ts), c2) ->
    let next := Cidr.maxThird ts + 1 in
    let cidr := Env.getCidrPrefixFromIPString L (Aws.VpcCidrBlock v) ++ "." ++
                Cidr.dec (Z.to_N next) ++ ".0/24" in
    fst (subnetManager.getNextSubnet P L vpcId pid w) = Q.Resolved cidr
    /\ Cidr.thirdOctet cidr = Js.Int next
    /\ Forall (fun s => Z.of_N (Cidr.c (Cidr.block s)) < next) ts
    /\ (ts = [] -> next = 0)
    /\ Cidr.allocate (Cidr.dec p1 ++ "." ++ Cidr.dec p2) n
         (map Cidr.describeAs ts)
       = map Cidr.render (Cidr.blocksFrom p1 p2 next n)
    /\ List.NoDup (Cidr.allocate (Cidr.dec p1 ++ "." ++ Cidr.dec p2) n
                     (map Cidr.describeAs ts))
    /\ ForallOrdPairs Cidr.disjoint (Cidr.blocksFrom p1 p2 next n).
Proof.
  intros W P L vpcId pid w v c1 c2 ts p1 p2 n Hv Hd next cidr.
  pose proof (maxThird_ge ts) as Hge.
  assert (Hnext : 0 <= next) by (unfold next; lia).
  assert (Halloc :
    Cidr.allocate (Cidr.dec p1 ++ "." ++ Cidr.dec p2) n
      (map Cidr.describeAs ts)
    = map Cidr.render (Cidr.blocksFrom p1 p2 next n)).
  { rewrite (allocate_thirds p1 p2 n _ _ (thirds_describeAs ts)).
    unfold next. now rewrite maxThird_fold. }
  repeat split.
  - rewrite (getNextSubnet_run P L vpcId pid w v c1 _ c2 Hv Hd).
    rewrite (incrementHighestCidr_thirds _ _ (thirds_describeAs ts)).
    unfold cidr, next. now rewrite maxThird_fold.
  - unfold cidr. rewrite thirdOctet_next. f_equal. lia.
  - apply maxThird_bound.
  - intros ->. reflexivity.
  - exact Halloc.
  - rewrite Halloc. now apply blocksFrom_NoDup.
  - now apply blocksFrom_disjoint.
Qed.

Lemma C1_next_subnet_is_fresh_witness :
  Env.vpc_findProject Mock.provider (Some "p") Mock.network
    = (Env.Fulfilled {| Aws.VpcId := "vpc-1"; Aws.VpcCidrBlock := "10.0.0.0/16" |},
       Mock.network)
  /\ Env.describeSubnets Mock.provider "vpc-1" None Mock.network
      = (Env.Fulfilled (map Cidr.describeAs Mock.tagged), Mock.network)
  /\ fst (subnetManager.getNextSubnet Mock.provider Mock.lib "vpc-1" "p"
            (Mock.world Mock.network))
      = Q.Resolved "10.0.13.0/24"
  /\ Cidr.allocate "10.0" 3 (map Cidr.describeAs Mock.tagged)
      = ["10.0.13.0/24"; "10.0.14.0/24"; "10.0.15.0/24"].
Proof.
  pose proof (C1_next_subnet_is_fresh Mock.Cloud Mock.provider Mock.lib
                "vpc-1" "p" (Mock.world Mock.network) _ _ _ Mock.tagged
                10%N 0%N 3%nat eq_refl eq_refl) as H.
  split; [reflexivity|]. split; [reflexivity|].
  split; [exact (proj1 H)|].
  exact (proj1 (proj2 (proj2 (proj2 (proj2 H))))).
Defined.


(** ** Base64 *)

Section Base64Facts.

Local Open Scope N_scope.

Lemma sextet_In n : n < 64 -> In n sextets.
Proof.
  intros H. unfold sextets. apply in_map_iff. exists (N.to_nat n).
  split; [apply N2Nat.id|]. apply in_seq. lia.
Qed.

Lemma unsextet_sextet n :
  n < 64 -> Buffer.unsextet (Buffer.sextet n) = Some n.
Proof.
  intros H. apply sextet_In in H. revert n H.
  apply List.Forall_forall. unfold sextets.
  repeat (constructor; [reflexivity|]). constructor.
Qed.

Lemma sextet_not_pad n :
  n < 64 -> Ascii.eqb (Buffer.sextet n) Buffer.pad = false.
Proof.
  intros H. apply sextet_In in H. revert n H.
  apply List.Forall_forall. unfold sextets.
  repeat (constructor; [reflexivity|]). constructor.
Qed.

Lemma byte_lt a : Buffer.byte a < 256.
Proof. apply N_ascii_bounded. Qed.

Lemma ascii_of_byte a : ascii_of_N (Buffer.byte a) = a.
Proof. apply ascii_N_embedding. Qed.

Lemma div_pack (r q k : N) : q < k -> (r * k + q) / k = r.
Proof.
  intros H. rewrite N.div_add_l by lia. rewrite N.div_small by lia. lia.
Qed.

Lemma mod_pack (r q k : N) : q < k -> (r * k + q) mod k = q.
Proof.
  intros H. rewrite N.add_comm, N.Div0.mod_add. apply N.mod_small, H.
Qed.

Lemma div_lt_mul (a k m : N) : k <> 0 -> a < k * m -> a / k < m.
Proof. intros. apply N.Div0.div_lt_upper_bound; lia. Qed.

(** The four six-bit values of three bytes are in range. *)
Lemma chunk_bounds a b c :
  a < 256 -> b < 256 -> c < 256 ->
  a / 4 < 64 /\ (a mod 4) * 16 + b / 16 < 64 /\
  (b mod 16) * 4 + c / 64 < 64 /\ c mod 64 < 64 /\
  (a mod 4) * 16 < 64 /\ (b mod 16) * 4 < 64.
Proof.
  intros Ha Hb Hc.
  assert (b / 16 < 16) by (apply div_lt_mul; lia).
  assert (c / 64 < 4) by (apply div_lt_mul; lia).
  assert (a / 4 < 64) by (apply div_lt_mul; lia).
  pose proof (N.mod_lt a 4 ltac:(lia)). pose proof (N.mod_lt b 16 ltac:(lia)).
  pose proof (N.mod_lt c 64 ltac:(lia)). lia.
Qed.

(** The three bytes are read back from the four six-bit values. *)
Lemma chunk_bytes a b c :
  a < 256 -> b < 256 -> c < 256 ->
  (a / 4) * 4 + ((a mod 4) * 16 + b / 16) / 16 = a /\
  (((a mod 4) * 16 + b / 16) mod 16) * 16
    + ((b mod 16) * 4 + c / 64) / 4 = b /\
  (((b mod 16) * 4 + c / 64) mod 4) * 64 + c mod 64 = c.
Proof.
  intros Ha Hb Hc.
  assert (b / 16 < 16) by (apply div_lt_mul; lia).
  assert (c / 64 < 4) by (apply div_lt_mul; lia).
  rewrite !div_pack, !mod_pack by assumption.
  pose proof (N.div_mod a 4 ltac:(lia)).
  pose proof (N.div_mod b 16 ltac:(lia)).
  pose proof (N.div_mod c 64 ltac:(lia)). lia.
Qed.

(** The same for a tail of one or two bytes. *)
Lemma tail_bytes a b :
  a < 256 -> b < 256 ->
  (a / 4) * 4 + ((a mod 4) * 16) / 16 = a /\
  (((a mod 4) * 16 + b / 16) mod 16) * 16 + ((b mod 16) * 4) / 4 = b.
Proof.
  intros Ha Hb.
  assert (b / 16 < 16) by (apply div_lt_mul; lia).
  rewrite !N.div_mul by lia. rewrite mod_pack by assumption.
  pose proof (N.div_mod a 4 ltac:(lia)).
  pose proof (N.div_mod b 16 ltac:(lia)). lia.
Qed.

Ltac sextet_simpl :=
  repeat first
    [ rewrite unsextet_sextet by assumption
    | rewrite sextet_not_pad by assumption ].

(** Decoding an encoded byte string gives the byte string back. *)
Lemma fromBase64_toBase64 s :
  Buffer.fromBase64 (Buffer.toBase64 s) = Some s.
Proof.
  enough (H : Buffer.fromBase64 (Buffer.toBase64 s) = Some s
              /\ (forall a, Buffer.fromBase64 (Buffer.toBase64 (String a s))
                            = Some (String a s))
              /\ (forall a b,
                    Buffer.fromBase64 (Buffer.toBase64 (String a (String b s)))
                    = Some (String a (String b s)))) by apply H.
  induction s as [|c s (IH0 & IH1 & IH2)].
  - split; [reflexivity|]. split.
    + intros a.
      destruct (chunk_bounds _ _ _ (byte_lt a) (byte_lt a) (byte_lt a))
        as (B1 & _ & _ & _ & B2 & _).
      destruct (tail_bytes _ _ (byte_lt a) (byte_lt a)) as (E1 & _).
      cbn [Buffer.toBase64 Buffer.fromBase64]. sextet_simpl.
      rewrite E1, ascii_of_byte. reflexivity.
    + intros a b.
      destruct (chunk_bounds _ _ _ (byte_lt a) (byte_lt b) (byte_lt b))
        as (B1 & B2 & _ & _ & _ & B3).
      destruct (chunk_bytes _ _ _ (byte_lt a) (byte_lt b) (byte_lt b))
        as (E1 & _ & _).
      destruct (tail_bytes _ _ (byte_lt a) (byte_lt b)) as (_ & E2).
      cbn [Buffer.toBase64 Buffer.fromBase64]. sextet_simpl.
      change (Ascii.eqb "=" Buffer.pad) with true. cbn [andb String.eqb].
      rewrite E1, E2, !ascii_of_byte. reflexivity.
  - split; [apply IH1|]. split; [intros a; apply IH2|].
    intros a b.
    destruct (chunk_bounds _ _ _ (byte_lt a) (byte_lt b) (byte_lt c))
      as (B1 & B2 & B3 & B4 & _ & _).
    destruct (chunk_bytes _ _ _ (byte_lt a) (byte_lt b) (byte_lt c))
      as (E1 & E2 & E3).
    cbn [Buffer.toBase64 Buffer.fromBase64]. sextet_simpl.
    rewrite IH0, E1, E2, E3, !ascii_of_byte. reflexivity.
Qed.

End Base64Facts.


(** ** Validation of the configuration of an instance *)

Section ValidationFacts.

Import Aws Env.

Lemma validateAttributes_accepts attrs o :
  ec2Manager.validateAttributes attrs o = Js.Return tt
  <-> Forall (present o) attrs.
Proof.
  unfold present. induction attrs as [|attr rest IH]; simpl.
  - split; [constructor|reflexivity].
  - destruct (Js.truthy (Js.prop o attr)) eqn:Ht.
    + rewrite IH. split; [intros H; constructor; assumption|].
      intros H. inversion H; assumption.
    + split; [discriminate|]. intros H. inversion H; congruence.
Qed.

Lemma validateAttributes_first pre attr post o :
  Forall (present o) pre ->
  Js.truthy (Js.prop o attr) = false ->
  ec2Manager.validateAttributes (pre ++ attr :: post)%list o
  = Js.Throw (Js.TypeError ("Instance requires " ++ attr)).
Proof.
  intros Hpre Hattr. induction Hpre as [|a pre Ha _ IH]; simpl.
  - now rewrite Hattr.
  - unfold present in Ha. now rewrite Ha.
Qed.

(** Validation either accepts or names a required field. *)
Lemma validateAttributes_total attrs o :
  ec2Manager.validateAttributes attrs o = Js.Return tt
  \/ exists pre attr post,
       attrs = (pre ++ attr :: post)%list /\ Forall (present o) pre
       /\ Js.truthy (Js.prop o attr) = false.
Proof.
  induction attrs as [|attr rest IH]; simpl; [left; reflexivity|].
  destruct (Js.truthy (Js.prop o attr)) eqn:Ht.
  - destruct IH as [IH|(pre & a & post & -> & Hpre & Ha)]; [left; exact IH|].
    right. exists (attr :: pre), a, post. repeat split; [|exact Ha].
    constructor; assumption.
  - right. exists [], attr, rest. repeat split; [constructor|exact Ht].
Qed.

(** A property outside the required ones does not take part. *)
Lemma validateAttributes_other attrs o k v :
  ~ In k attrs ->
  ec2Manager.validateAttributes attrs (<[ k := v ]> o)
  = ec2Manager.validateAttributes attrs o.
Proof.
  induction attrs as [|attr rest IH]; simpl; intros Hk; [reflexivity|].
  unfold Js.prop. rewrite lookup_insert_ne by (intros ->; apply Hk; now left).
  rewrite IH by (intros H; apply Hk; now right). reflexivity.
Qed.

End ValidationFacts.

Lemma createPr_rejects_config {W} (P : Env.Provider W) L vpcId c e
    (w : Env.World W) :
  ec2Manager.validateCreatePrConfig (Some c) = Js.Throw e ->
  ec2Manager.createPr P L vpcId (Some c) w = (Q.Thrown e, w).
Proof. intros H. unfold ec2Manager.createPr. rewrite H. reflexivity. Qed.

Lemma createDeployment_rejects_config {W} (P : Env.Provider W) L vpcId c e
    (w : Env.World W) :
  ec2Manager.validateCreateDeploymentConfig (Some c) = Js.Throw e ->
  ec2Manager.createDeployment P L vpcId (Some c) w = (Q.Thrown e, w).
Proof.
  intros H. unfold ec2Manager.createDeployment. rewrite H. reflexivity.
Qed.

(** C8, as the code has it.  [createPr] requires [clusterName], [sgId],
    [subnetId], [pid] and [pr] to be truthy, [createDeployment] the same
    with [deployment] in place of [pr].  The configuration is accepted
    exactly when the five are; otherwise the call throws the TypeError
    [Instance requires <field>] for the first of them, in that order, that
    is not, before any call to the provider.  No other property is looked
    at: the value of [deployment] does not change what [createPr] decides,
    nor the value of [pr] what [createDeployment] decides.  A missing
    configuration object is refused. *)
Theorem C8_validation_names_first_missing_field :
  forall (W : Type) (P : Env.Provider W) (L : Env.Lib) (vpcId : string)
         (c : ec2Manager.Config) (w : Env.World W),
    let required := ["clusterName"; "sgId"; "subnetId"; "pid"] in
    (ec2Manager.validateCreatePrConfig (Some c) = Js.Return tt
     <-> Forall (present (ec2Manager.fields c)) (required ++ ["pr"])%list)
    /\ (ec2Manager.validateCreateDeploymentConfig (Some c) = Js.Return tt
        <-> Forall (present (ec2Manager.fields c))
              (required ++ ["deployment"])%list)
    /\ (forall pre attr post,
          (required ++ ["pr"])%list = (pre ++ attr :: post)%list ->
          Forall (present (ec2Manager.fields c)) pre ->
          Js.truthy (Js.prop (ec2Manager.fields c) attr) = false ->
          ec2Manager.createPr P L vpcId (Some c) w
          = (Q.Thrown (Js.TypeError ("Instance requires " ++ attr)), w))
    /\ (forall pre attr post,
          (required ++ ["deployment"])%list = (pre ++ attr :: post)%list ->
          Forall (present (ec2Manager.fields c)) pre ->
          Js.truthy (Js.prop (ec2Manager.fields c) attr) = false ->
          ec2Manager.createDeployment P L vpcId (Some c) w
          = (Q.Thrown (Js.TypeError ("Instance requires " ++ attr)), w))
    /\ (ec2Manager.validateCreatePrConfig (Some c) = Js.Return tt
        \/ exists attr,
             In attr (required ++ ["pr"])%list
             /\ ec2Manager.createPr P L vpcId (Some c) w
                = (Q.Thrown (Js.TypeError ("Instance requires " ++ attr)), w))
    /\ (ec2Manager.validateCreateDeploymentConfig (Some c) = Js.Return tt
        \/ exists attr,
             In attr (required ++ ["deployment"])%list
             /\ ec2Manager.createDeployment P L vpcId (Some c) w
                = (Q.Thrown (Js.TypeError ("Instance requires " ++ attr)), w))
    /\ (forall v,
          ec2Manager.validateCreatePrConfig (Some (setField "deployment" v c))
          = ec2Manager.validateCreatePrConfig (Some c))
    /\ (forall v,
          ec2Manager.validateCreateDeploymentConfig (Some (setField "pr" v c))
          = ec2Manager.validateCreateDeploymentConfig (Some c))
    /\ ec2Manager.createPr P L vpcId None w
       = (Q.Thrown (Js.TypeError
            "This function requires a configuration object"), w)
    /\ ec2Manager.createDeployment P L vpcId None w
       = (Q.Thrown (Js.TypeError
            "This function requires a configuration object"), w).
Proof.
  intros W P L vpcId c w required.
  split; [apply validateAttributes_accepts|].
  split; [apply validateAttributes_accepts|].
  split.
  { intros pre attr post Heq Hpre Hattr. apply createPr_rejects_config.
    unfold ec2Manager.validateCreatePrConfig, ec2Manager.prConfigAttributes,
      ec2Manager.configAttributes.
    fold required. rewrite Heq. now apply validateAttributes_first. }
  split.
  { intros pre attr post Heq Hpre Hattr.
    apply createDeployment_rejects_config.
    unfold ec2Manager.validateCreateDeploymentConfig,
      ec2Manager.deploymentConfigAttributes, ec2Manager.configAttributes.
    fold required. rewrite Heq. now apply validateAttributes_first. }
  split.
  { destruct (validateAttributes_total ec2Manager.prConfigAttributes
                (ec2Manager.fields c))
      as [H|(pre & attr & post & Heq & Hpre & Hattr)]; [left; exact H|].
    right. exists attr. split.
    - change (required ++ ["pr"])%list with ec2Manager.prConfigAttributes.
      rewrite Heq. apply in_elt.
    - apply createPr_rejects_config.
      unfold ec2Manager.validateCreatePrConfig. rewrite Heq.
      now apply validateAttributes_first. }
  split.
  { destruct (validateAttributes_total ec2Manager.deploymentConfigAttributes
                (ec2Manager.fields c))
      as [H|(pre & attr & post & Heq & Hpre & Hattr)]; [left; exact H|].
    right. exists attr. split.
    - change (required ++ ["deployment"])%list
        with ec2Manager.deploymentConfigAttributes.
      rewrite Heq. apply in_elt.
    - apply createDeployment_rejects_config.
      unfold ec2Manager.validateCreateDeploymentConfig. rewrite Heq.
      now apply validateAttributes_first. }
  split.
  { intros v. apply validateAttributes_other.
    cbv. intuition discriminate. }
  split.
  { intros v. apply validateAttributes_other.
    cbv. intuition discriminate. }
  split; reflexivity.
Qed.

(** C8, as stated, fails: a configuration that supplies both a pull request
    and a deployment name passes the validation of [createPr] and of
    [createDeployment], and [createPr] goes on to create the instance. *)
Lemma C8_both_tags_accepted :
  present (ec2Manager.fields Mock.bothConfig) "pr"
  /\ present (ec2Manager.fields Mock.bothConfig) "deployment"
  /\ present (ec2Manager.fields Mock.bothConfig) "deploymentName"
  /\ ec2Manager.validateCreatePrConfig (Some Mock.bothConfig) = Js.Return tt
  /\ ec2Manager.validateCreateDeploymentConfig (Some Mock.bothConfig)
     = Js.Return tt
  /\ exists r,
       fst (ec2Manager.createPr Mock.provider Mock.lib "vpc-1"
              (Some Mock.bothConfig) (Mock.world Mock.empty))
       = Q.Resolved r.
Proof.
  repeat split; try (vm_compute; reflexivity).
  eexists. vm_compute. reflexivity.
Qed.

(** C10.  A configuration that is complete but for [pr] being the number 0
    is refused by [createPr] with the TypeError [Instance requires pr],
    before any call to the provider: validation tests truthiness, and 0 is
    falsy.  Called from a promise handler, this is a rejection with that
    error. *)
Theorem C10_pr_zero_is_refused :
  forall (W : Type) (P : Env.Provider W) (L : Env.Lib) (vpcId : string)
         (c : ec2Manager.Config) (w : Env.World W),
    Forall (present (ec2Manager.fields c))
      ["clusterName"; "sgId"; "subnetId"; "pid"] ->
    Js.prop (ec2Manager.fields c) "pr" = Js.Number (Js.Int 0) ->
    ec2Manager.createPr P L vpcId (Some c) w
    = (Q.Thrown (Js.TypeError "Instance requires pr"), w)
    /\ Q.handler (ec2Manager.createPr P L vpcId (Some c)) w
       = (Q.Rejected (Js.TypeError "Instance requires pr"), w).
Proof.
  intros W P L vpcId c w Hreq Hpr.
  assert (H : ec2Manager.createPr P L vpcId (Some c) w
              = (Q.Thrown (Js.TypeError "Instance requires pr"), w)).
  { apply createPr_rejects_config.
    apply (validateAttributes_first
             ["clusterName"; "sgId"; "subnetId"; "pid"] "pr" []).
    - exact Hreq.
    - rewrite Hpr. reflexivity. }
  split; [exact H|]. unfold Q.handler. rewrite H. reflexivity.
Qed.

Lemma C10_pr_zero_is_refused_witness :
  Forall (present (ec2Manager.fields Mock.zeroConfig))
    ["clusterName"; "sgId"; "subnetId"; "pid"]
  /\ Js.prop (ec2Manager.fields Mock.zeroConfig) "pr" = Js.Number (Js.Int 0)
  /\ ec2Manager.createPr Mock.provider Mock.lib "vpc-1"
       (Some Mock.zeroConfig) (Mock.world Mock.empty)
     = (Q.Thrown (Js.TypeError "Instance requires pr"), Mock.world Mock.empty).
Proof.
  assert (H1 : Forall (present (ec2Manager.fields Mock.zeroConfig))
                 ["clusterName"; "sgId"; "subnetId"; "pid"])
    by (repeat constructor).
  assert (H2 : Js.prop (ec2Manager.fields Mock.zeroConfig) "pr"
               = Js.Number (Js.Int 0)) by reflexivity.
  split; [exact H1|]. split; [exact H2|].
  exact (proj1 (C10_pr_zero_is_refused Mock.Cloud Mock.provider Mock.lib
                  "vpc-1" Mock.zeroConfig (Mock.world Mock.empty) H1 H2)).
Defined.

(** ** The bootstrap script *)

Section UserDataFacts.

Import Aws Env.
Context {W : Type} (P : Provider W) (L : Lib).

Lemma userData_keys clusterName keys (w : World W) :
  ec2Manager.getECSContainerInstanceUserData P L clusterName None
    (SshKeys keys) w
  = (Q.Resolved
       (Buffer.toBase64 (script clusterName (ec2Manager.processSSHKeys keys))),
     w).
Proof. reflexivity. Qed.

(** The keys read from a directory: the files are read in the order the
    directory lists them. *)
Lemma userData_path_failed clusterName path e c' (w : World W) :
  fs_readdir P path (cloud w) = (Failed e, c') ->
  fst (ec2Manager.getECSContainerInstanceUserData P L clusterName None
         (SshPath path) w)
  = Q.Resolved (Buffer.toBase64 (script clusterName [])).
Proof.
  intros H.
  unfold ec2Manager.getECSContainerInstanceUserData,
    ec2Manager.makeSSHUserData, ec2Manager.loadUserPublicKeys, ec2Manager.ls,
    Q.try_, Q.then2, Q.then_, Q.handler, call.
  rewrite H. reflexivity.
Qed.

Lemma userData_path_empty clusterName path c' (w : World W) :
  fs_readdir P path (cloud w) = (Fulfilled [], c') ->
  fst (ec2Manager.getECSContainerInstanceUserData P L clusterName None
         (SshPath path) w)
  = Q.Resolved (Buffer.toBase64 (script clusterName [])).
Proof.
  intros H.
  unfold ec2Manager.getECSContainerInstanceUserData,
    ec2Manager.makeSSHUserData, ec2Manager.loadUserPublicKeys, ec2Manager.ls,
    Q.try_, Q.then2, Q.then_, Q.handler, call.
  rewrite H. reflexivity.
Qed.

Lemma userData_path_one clusterName path file key c1 c2 (w : World W) :
  fs_readdir P path (cloud w) = (Fulfilled [file], c1) ->
  fs_readFile P (path_join L path file) c1 = (Fulfilled key, c2) ->
  fst (ec2Manager.getECSContainerInstanceUserData P L clusterName None
         (SshPath path) w)
  = Q.Resolved (Buffer.toBase64
                  (script clusterName (ec2Manager.processSSHKeys [key]))).
Proof.
  intros H1 H2.
  unfold ec2Manager.getECSContainerInstanceUserData,
    ec2Manager.makeSSHUserData, ec2Manager.loadUserPublicKeys, ec2Manager.ls,
    ec2Manager.readFile, Q.try_, Q.then2, Q.then_, Q.handler, call.
  rewrite H1. cbn. unfold Q.all2. cbn. rewrite H2. reflexivity.
Qed.

(** Whatever the credentials and the keys, a resolved user data is the
    base64 encoding of a script that starts with the preamble and the
    cluster-join directive. *)
Lemma userData_encoded clusterName auth ssh s (w w' : World W) :
  ec2Manager.getECSContainerInstanceUserData P L clusterName auth ssh w
  = (Q.Resolved s, w') ->
  exists lines, s = Buffer.toBase64 (script clusterName lines).
Proof.
  unfold ec2Manager.getECSContainerInstanceUserData, Q.try_.
  set (authData := match auth with
                   | Some a => _
                   | None => _
                   end).
  destruct authData as [lines|e]; [|discriminate].
  destruct ssh as [path|keys].
  - unfold Q.then2.
    destruct (ec2Manager.makeSSHUserData P L path w) as [[sshData|e|e] w1];
      cbn; intros H; inversion H; subst.
    + exists (lines ++ sshData)%list. reflexivity.
    + exists lines. reflexivity.
  - cbn. intros H. inversion H; subst.
    exists (lines ++ ec2Manager.processSSHKeys keys)%list. reflexivity.
Qed.

End UserDataFacts.


(** ** Runs of promises *)

Section RunFacts.

Import Aws Env.
Context {W : Type}.

Lemma call_log {A} ev (f : W -> settled A * W) (w : World W) :
  log (snd (call ev f w)) = (log w ++ [ev])%list.
Proof. unfold call. destruct (f (cloud w)). reflexivity. Qed.

Lemma call_not_thrown {A} ev (f : W -> settled A * W) (w : World W) e :
  fst (call ev f w) <> Q.Thrown e.
Proof. unfold call. destruct (f (cloud w)) as [[a|e'] c]; discriminate. Qed.

Lemma call_run {A} ev (f : W -> settled A * W) (w : World W) r c :
  f (cloud w) = (r, c) ->
  call ev f w
  = (outcomeOf r,
     {| cloud := c; STATE := STATE w; log := (log w ++ [ev])%list |}).
Proof. intros H. unfold call. rewrite H. reflexivity. Qed.

Lemma call_fulfilled {A} ev (f : W -> settled A * W) (w : World W) a c :
  f (cloud w) = (Fulfilled a, c) ->
  call ev f w
  = (Q.Resolved a,
     {| cloud := c; STATE := STATE w; log := (log w ++ [ev])%list |}).
Proof. intros H. unfold call. rewrite H. reflexivity. Qed.

Lemma call_failed {A} ev (f : W -> settled A * W) (w : World W) e c :
  f (cloud w) = (Failed e, c) ->
  call ev f w
  = (Q.Rejected e,
     {| cloud := c; STATE := STATE w; log := (log w ++ [ev])%list |}).
Proof. intros H. unfold call. rewrite H. reflexivity. Qed.

Lemma then_resolved {A B} (p : promise W A) (f : A -> promise W B) w a w' :
  p w = (Q.Resolved a, w') -> Q.then_ p f w = Q.handler (f a) w'.
Proof. intros H. unfold Q.then_. rewrite H. reflexivity. Qed.

Lemma then_rejected {A B} (p : promise W A) (f : A -> promise W B) w e w' :
  p w = (Q.Rejected e, w') -> Q.then_ p f w = (Q.Rejected e, w').
Proof. intros H. unfold Q.then_. rewrite H. reflexivity. Qed.

Lemma handler_resolved {A} (p : promise W A) w a w' :
  p w = (Q.Resolved a, w') -> Q.handler p w = (Q.Resolved a, w').
Proof. intros H. unfold Q.handler. rewrite H. reflexivity. Qed.

Lemma handler_rejected {A} (p : promise W A) w e w' :
  p w = (Q.Rejected e, w') -> Q.handler p w = (Q.Rejected e, w').
Proof. intros H. unfold Q.handler. rewrite H. reflexivity. Qed.

Lemma handler_thrown {A} (p : promise W A) w e w' :
  p w = (Q.Thrown e, w') -> Q.handler p w = (Q.Rejected e, w').
Proof. intros H. unfold Q.handler. rewrite H. reflexivity. Qed.

Lemma ranks_app evs1 evs2 :
  ranks (evs1 ++ evs2) = (ranks evs1 ++ ranks evs2)%list.
Proof.
  induction evs1 as [|ev evs1 IH]; simpl; [reflexivity|].
  destruct (stageOf ev); simpl; now rewrite IH.
Qed.

Lemma sorted_app (l1 l2 : list nat) (mid : nat) :
  StronglySorted le l1 -> StronglySorted le l2 ->
  Forall (fun r => (r <= mid)%nat) l1 -> Forall (fun r => (mid <= r)%nat) l2 ->
  StronglySorted le (l1 ++ l2).
Proof.
  intros S1 S2 B1 B2. induction S1 as [|x l1 S1 IH Hx]; simpl; [exact S2|].
  inversion B1 as [|? ? Hxm B1']; subst. constructor; [now apply IH|].
  apply Forall_app. split; [exact Hx|].
  eapply List.Forall_impl; [|exact B2]. cbn. intros r Hr. lia.
Qed.

Lemma staged_weaken {A} (lo hi lo' hi' : nat) (p : promise W A) :
  (lo' <= lo)%nat -> (hi <= hi')%nat -> staged lo hi p -> staged lo' hi' p.
Proof.
  intros Hlo Hhi H w. destruct (H w) as (evs & E & S & B).
  exists evs. repeat split; try assumption.
  eapply List.Forall_impl; [|exact B]. cbn. intros r Hr. lia.
Qed.

Lemma staged_silent {A} (lo hi : nat) (p : promise W A) :
  (forall w, log (snd (p w)) = log w) -> staged lo hi p.
Proof.
  intros H w. exists []. unfold emits. rewrite H, app_nil_r.
  repeat split; constructor.
Qed.

Lemma staged_resolve {A} lo hi (a : A) :
  staged lo hi (Q.resolve (Wd := World W) a).
Proof. apply staged_silent. reflexivity. Qed.

Lemma staged_reject {A} lo hi e :
  staged lo hi (Q.reject (Wd := World W) (A := A) e).
Proof. apply staged_silent. reflexivity. Qed.

Lemma staged_throw {A} lo hi e :
  staged lo hi (Q.throw (Wd := World W) (A := A) e).
Proof. apply staged_silent. reflexivity. Qed.

Lemma staged_call {A} lo hi k ev (f : W -> settled A * W) :
  stageOf ev = Some k -> (lo <= k <= hi)%nat -> staged lo hi (call ev f).
Proof.
  intros Hk Hb w. exists [ev]. unfold emits. rewrite call_log. cbn.
  rewrite Hk. repeat split; repeat constructor; lia.
Qed.

Lemma staged_query {A} lo hi ev (f : W -> settled A * W) :
  stageOf ev = None -> staged lo hi (call ev f).
Proof.
  intros Hk w. exists [ev]. unfold emits. rewrite call_log. cbn.
  rewrite Hk. repeat split; constructor.
Qed.

(** Two runs in a row. *)
Lemma seq_emits (lo mid hi : nat) (l0 l1 l2 : list Event) evs1 evs2 :
  (lo <= mid <= hi)%nat ->
  l1 = (l0 ++ evs1)%list -> l2 = (l1 ++ evs2)%list ->
  StronglySorted le (ranks evs1) ->
  Forall (fun r => (lo <= r <= mid)%nat) (ranks evs1) ->
  StronglySorted le (ranks evs2) ->
  Forall (fun r => (mid <= r <= hi)%nat) (ranks evs2) ->
  exists evs,
    l2 = (l0 ++ evs)%list /\ StronglySorted le (ranks evs)
    /\ Forall (fun r => (lo <= r <= hi)%nat) (ranks evs).
Proof.
  intros Hb -> -> S1 B1 S2 B2. exists (evs1 ++ evs2)%list.
  rewrite ranks_app, List.app_assoc. split; [reflexivity|]. split.
  - apply (sorted_app _ _ mid); try assumption.
    + eapply List.Forall_impl; [|exact B1]. cbn. intros r Hr. lia.
    + eapply List.Forall_impl; [|exact B2]. cbn. intros r Hr. lia.
  - apply Forall_app. split.
    + eapply List.Forall_impl; [|exact B1]. cbn. intros r Hr. lia.
    + eapply List.Forall_impl; [|exact B2]. cbn. intros r Hr. lia.
Qed.

(** One run, seen in a wider range of stages. *)
Lemma one_emits (lo mid hi : nat) (l0 l1 : list Event) evs1 :
  (lo <= mid <= hi)%nat ->
  l1 = (l0 ++ evs1)%list ->
  StronglySorted le (ranks evs1) ->
  Forall (fun r => (lo <= r <= mid)%nat) (ranks evs1) ->
  exists evs,
    l1 = (l0 ++ evs)%list /\ StronglySorted le (ranks evs)
    /\ Forall (fun r => (lo <= r <= hi)%nat) (ranks evs).
Proof.
  intros Hb E S B.
  apply (seq_emits lo mid hi l0 l1 l1 evs1 []); try assumption.
  - now rewrite app_nil_r.
  - constructor.
  - constructor.
Qed.

Lemma staged_handler {A} lo hi (p : promise W A) :
  staged lo hi p -> staged lo hi (Q.handler p).
Proof.
  intros H w. destruct (H w) as (evs & E & S & B). exists evs.
  unfold emits, Q.handler in *. destruct (p w). tauto.
Qed.

Lemma staged_void {A} lo hi (p : promise W A) :
  staged lo hi p -> staged lo hi (Q.void p).
Proof.
  intros H w. destruct (H w) as (evs & E & S & B). exists evs.
  unfold emits, Q.void in *. destruct (p w) as [[a|e|e] w']; tauto.
Qed.

Lemma staged_try {A B} lo hi (x : Js.except A) (k : A -> promise W B) :
  (forall a, staged lo hi (k a)) -> staged lo hi (Q.try_ x k).
Proof.
  intros H. destruct x as [a|e]; cbn; [apply H|apply staged_throw].
Qed.

Lemma staged_then {A B} lo mid hi (p : promise W A) (f : A -> promise W B) :
  (lo <= mid <= hi)%nat ->
  staged lo mid p -> (forall a, staged mid hi (f a)) ->
  staged lo hi (Q.then_ p f).
Proof.
  intros Hb Hp Hf w. destruct (Hp w) as (evs1 & E1 & S1 & B1).
  unfold emits, Q.then_ in *. destruct (p w) as [[a|e|e] w1]; cbn in *.
  - destruct (staged_handler _ _ _ (Hf a) w1) as (evs2 & E2 & S2 & B2).
    unfold emits in E2. eapply seq_emits; eassumption.
  - eapply one_emits; eassumption.
  - eapply one_emits; eassumption.
Qed.

Lemma staged_then2 {A B} lo mid hi (p : promise W A)
    (f : A -> promise W B) (g : Js.error -> promise W B) :
  (lo <= mid <= hi)%nat ->
  staged lo mid p -> (forall a, staged mid hi (f a)) ->
  (forall e, staged mid hi (g e)) ->
  staged lo hi (Q.then2 p f g).
Proof.
  intros Hb Hp Hf Hg w. destruct (Hp w) as (evs1 & E1 & S1 & B1).
  unfold emits, Q.then2 in *. destruct (p w) as [[a|e|e] w1]; cbn in *.
  - destruct (staged_handler _ _ _ (Hf a) w1) as (evs2 & E2 & S2 & B2).
    unfold emits in E2. eapply seq_emits; eassumption.
  - destruct (staged_handler _ _ _ (Hg e) w1) as (evs2 & E2 & S2 & B2).
    unfold emits in E2. eapply seq_emits; eassumption.
  - eapply one_emits; eassumption.
Qed.

Lemma staged_fail {A} lo mid hi (p : promise W A)
    (g : Js.error -> promise W A) :
  (lo <= mid <= hi)%nat ->
  staged lo mid p -> (forall e, staged mid hi (g e)) ->
  staged lo hi (Q.fail p g).
Proof.
  intros Hb Hp Hg w. destruct (Hp w) as (evs1 & E1 & S1 & B1).
  unfold emits, Q.fail in *. destruct (p w) as [[a|e|e] w1]; cbn in *.
  - eapply one_emits; eassumption.
  - destruct (staged_handler _ _ _ (Hg e) w1) as (evs2 & E2 & S2 & B2).
    unfold emits in E2. eapply seq_emits; eassumption.
  - eapply one_emits; eassumption.
Qed.

Lemma staged_all2 {A B} lo mid hi rc (p : promise W A) (q : promise W B) :
  (lo <= mid <= hi)%nat ->
  staged lo mid p -> staged mid hi q -> staged lo hi (Q.all2 rc p q).
Proof.
  intros Hb Hp Hq w. destruct (Hp w) as (evs1 & E1 & S1 & B1).
  unfold emits, Q.all2 in *. destruct (p w) as [o w1]; cbn in *.
  destruct (Hq w1) as (evs2 & E2 & S2 & B2). unfold emits in E2.
  destruct o as [a|e|e].
  - destruct (q w1) as [[b|e'|e'] w2]; cbn in *;
      eapply seq_emits; eassumption.
  - destruct (q w1) as [[b|e'|e'] w2]; cbn in *;
      eapply seq_emits; eassumption.
  - eapply one_emits; eassumption.
Qed.

Lemma staged_all {A} k rc (ps : list (promise W A)) :
  Forall (staged k k) ps -> staged k k (Q.all rc ps).
Proof.
  induction 1 as [|p ps Hp _ IH]; cbn [Q.all]; [apply staged_resolve|].
  intros w.
  destruct (staged_all2 k k k rc p (Q.all rc ps) ltac:(lia) Hp IH w)
    as (evs & E & S & B).
  exists evs. unfold emits in *.
  destruct (Q.all2 rc p (Q.all rc ps) w) as [[[a l]|e|e] w']; tauto.
Qed.

End RunFacts.

(** ** Calls within a set *)

Section OnlyFacts.

Import Aws Env.
Context {W : Type}.

Lemma only_silent {A} (Q : Event -> Prop) (p : promise W A) :
  (forall w, log (snd (p w)) = log w) -> only Q p.
Proof.
  intros H w. exists []. unfold emits. rewrite H, app_nil_r.
  split; [reflexivity|constructor].
Qed.

Lemma only_resolve {A} Q (a : A) : only Q (Q.resolve (Wd := World W) a).
Proof. apply only_silent. reflexivity. Qed.

Lemma only_reject {A} Q e : only Q (Q.reject (Wd := World W) (A := A) e).
Proof. apply only_silent. reflexivity. Qed.

Lemma only_throw {A} Q e : only Q (Q.throw (Wd := World W) (A := A) e).
Proof. apply only_silent. reflexivity. Qed.

Lemma only_call {A} (Q : Event -> Prop) ev (f : W -> settled A * W) :
  Q ev -> only Q (call ev f).
Proof.
  intros H w. exists [ev]. unfold emits. rewrite call_log.
  split; [reflexivity|]. constructor; [exact H|constructor].
Qed.

Lemma only_handler {A} Q (p : promise W A) : only Q p -> only Q (Q.handler p).
Proof.
  intros H w. destruct (H w) as (evs & E & F). exists evs.
  unfold emits, Q.handler in *. destruct (p w). tauto.
Qed.

Lemma only_seq (Q : Event -> Prop) (l0 l1 l2 : list Event) evs1 evs2 :
  l1 = (l0 ++ evs1)%list -> l2 = (l1 ++ evs2)%list ->
  Forall Q evs1 -> Forall Q evs2 ->
  exists evs, l2 = (l0 ++ evs)%list /\ Forall Q evs.
Proof.
  intros -> -> F1 F2. exists (evs1 ++ evs2)%list.
  rewrite List.app_assoc. split; [reflexivity|].
  apply Forall_app. now split.
Qed.

Lemma only_then {A B} Q (p : promise W A) (f : A -> promise W B) :
  only Q p -> (forall a, only Q (f a)) -> only Q (Q.then_ p f).
Proof.
  intros Hp Hf w. destruct (Hp w) as (evs1 & E1 & F1).
  unfold emits, Q.then_ in *. destruct (p w) as [[a|e|e] w1]; cbn in *.
  - destruct (only_handler _ _ (Hf a) w1) as (evs2 & E2 & F2).
    unfold emits in E2. eapply only_seq; eassumption.
  - exists evs1. now split.
  - exists evs1. now split.
Qed.

Lemma only_fail {A} Q (p : promise W A) (g : Js.error -> promise W A) :
  only Q p -> (forall e, only Q (g e)) -> only Q (Q.fail p g).
Proof.
  intros Hp Hg w. destruct (Hp w) as (evs1 & E1 & F1).
  unfold emits, Q.fail in *. destruct (p w) as [[a|e|e] w1]; cbn in *.
  - exists evs1. now split.
  - destruct (only_handler _ _ (Hg e) w1) as (evs2 & E2 & F2).
    unfold emits in E2. eapply only_seq; eassumption.
  - exists evs1. now split.
Qed.

Lemma only_all2 {A B} Q rc (p : promise W A) (q : promise W B) :
  only Q p -> only Q q -> only Q (Q.all2 rc p q).
Proof.
  intros Hp Hq w. destruct (Hp w) as (evs1 & E1 & F1).
  unfold emits, Q.all2 in *. destruct (p w) as [o w1]; cbn in *.
  destruct (Hq w1) as (evs2 & E2 & F2). unfold emits in E2.
  destruct o as [a|e|e].
  - destruct (q w1) as [[b|e'|e'] w2]; cbn in *;
      eapply only_seq; eassumption.
  - destruct (q w1) as [[b|e'|e'] w2]; cbn in *;
      eapply only_seq; eassumption.
  - exists evs1. now split.
Qed.

Lemma only_all {A} Q rc (ps : list (promise W A)) :
  Forall (only Q) ps -> only Q (Q.all rc ps).
Proof.
  induction 1 as [|p ps Hp _ IH]; cbn [Q.all]; [apply only_resolve|].
  intros w.
  destruct (only_all2 Q rc p (Q.all rc ps) Hp IH w) as (evs & E & F).
  exists evs. unfold emits in *.
  destruct (Q.all2 rc p (Q.all rc ps) w) as [[[a l]|e|e] w']; tauto.
Qed.

Lemma only_waitFor {A} Q (fn : promise W A) n :
  only Q fn -> only Q (ec2Manager.waitFor fn n).
Proof.
  intros H. induction n as [|n IH]; cbn [ec2Manager.waitFor].
  - apply only_reject.
  - apply only_fail; [exact H|].
    intros e. destruct n; [apply only_reject|exact IH].
Qed.

Lemma emits_unique {A} (p : promise W A) w evs evs' :
  emits p w evs -> emits p w evs' -> evs = evs'.
Proof.
  unfold emits. intros H H'. rewrite H in H'. now apply app_inv_head in H'.
Qed.

End OnlyFacts.

(** ** Stopping and terminating instances *)

Section StopFacts.

Import Aws Env.
Context {W : Type} (P : Provider W) (L : Lib) (vpcId : string).

Lemma only_checkInstanceStatuses ids :
  only (eq (Ec2DescribeInstanceIds ids))
    (ec2Manager.checkInstanceStatuses P ids).
Proof.
  unfold ec2Manager.checkInstanceStatuses. destruct ids as [|i ids].
  - apply only_throw.
  - apply only_then; [now apply only_call|].
    intros [|r rs]; apply only_resolve.
Qed.

Lemma only_waitForTermination ids :
  only (eq (Ec2DescribeInstanceIds ids))
    (ec2Manager.waitForTermination P L ids).
Proof.
  unfold ec2Manager.waitForTermination. apply only_waitFor.
  unfold ec2Manager.makeTerminatedPredicate.
  apply only_then; [apply only_checkInstanceStatuses|].
  intros [|i l]; [apply only_throw|].
  destruct (String.eqb _ _); [apply only_resolve|apply only_throw].
Qed.

(** The calls of [stopAndTerminate]: the stop, then (once it is
    fulfilled) the termination, then (once it is fulfilled) polls of the
    state of the instances. *)
Lemma stopAndTerminate_trace ids (w : World W) :
  exists evs,
    emits (ec2Manager.stopAndTerminate P L ids) w evs
    /\ (evs = [Ec2StopInstances ids]
        \/ exists polls,
             evs = Ec2StopInstances ids :: Ec2TerminateInstances ids :: polls
             /\ Forall (eq (Ec2DescribeInstanceIds ids)) polls).
Proof.
  unfold ec2Manager.stopAndTerminate, emits.
  destruct (ec2_stopInstances P ids (cloud w)) as [[[]|e] c1] eqn:Hstop.
  - pose proof (call_fulfilled (Ec2StopInstances ids) _ w _ _ Hstop) as H1.
    set (w1 := {| cloud := c1; STATE := STATE w; log := _ |}) in H1.
    destruct (ec2_terminateInstances P ids c1) as [[[]|e] c2] eqn:Hterm.
    + pose proof (call_fulfilled (Ec2TerminateInstances ids) _ w1 _ _ Hterm)
        as H2.
      set (w2 := {| cloud := c2; STATE := STATE w1; log := _ |}) in H2.
      pose proof (eq_trans (then_resolved _
                    (fun _ : unit =>
                       call (Ec2TerminateInstances ids)
                         (ec2_terminateInstances P ids)) _ _ _ H1)
                    (handler_resolved _ _ _ _ H2)) as H12.
      rewrite (then_resolved _ _ _ _ _ H12).
      destruct (only_handler _ _ (only_waitForTermination ids) w2)
        as (polls & Ep & Fp).
      unfold emits in Ep. exists (Ec2StopInstances ids
                                    :: Ec2TerminateInstances ids :: polls).
      split.
      * rewrite Ep. subst w2 w1. cbn [log].
        rewrite <- !List.app_assoc. reflexivity.
      * right. exists polls. now split.
    + pose proof (call_failed (Ec2TerminateInstances ids) _ w1 _ _ Hterm)
        as H2.
      pose proof (eq_trans (then_resolved _
                    (fun _ : unit =>
                       call (Ec2TerminateInstances ids)
                         (ec2_terminateInstances P ids)) _ _ _ H1)
                    (handler_rejected _ _ _ _ H2)) as H12.
      rewrite (then_rejected _ _ _ _ _ H12).
      exists [Ec2StopInstances ids; Ec2TerminateInstances ids]. split.
      * subst w1. cbn [snd log]. rewrite <- !List.app_assoc. reflexivity.
      * right. exists []. split; [reflexivity|constructor].
  - pose proof (call_failed (Ec2StopInstances ids) _ w _ _ Hstop) as H1.
    rewrite (then_rejected _ _ _ _ _
               (then_rejected _
                  (fun _ : unit =>
                     call (Ec2TerminateInstances ids)
                       (ec2_terminateInstances P ids)) _ _ _ H1)).
    exists [Ec2StopInstances ids]. split; [reflexivity|now left].
Qed.

(** The calls of a teardown by query: the listing, then those of
    [stopAndTerminate] on the instances of the first reservation. *)
Lemma teardown_trace q (k : list Reservation -> promise W bool) err
    (w : World W) evs :
  (forall lst, k lst = match lst with
                       | [] => Q.throw err
                       | r :: _ =>
                           ec2Manager.stopAndTerminate P L
                             (map InstanceId (Instances r))
                       end) ->
  emits (Q.then_ (call (DescribeInstances vpcId q)
                    (describeInstances P vpcId q)) k) w evs ->
  stopsListed P vpcId q w evs.
Proof.
  intros Hk Hemits. unfold emits in Hemits.
  destruct (describeInstances P vpcId q (cloud w)) as [[[|r rs]|e] c] eqn:Hd.
  - rewrite (then_resolved _ _ _ _ _ (call_fulfilled _ _ w _ _ Hd)) in Hemits.
    rewrite Hk in Hemits. cbn in Hemits. apply app_inv_head in Hemits.
    subst evs. split.
    + intros ids [[H|[]]|[H|[]]]; discriminate H.
    + intros ids [H|[]]. discriminate H.
  - rewrite (then_resolved _ _ _ _ _ (call_fulfilled _ _ w _ _ Hd)) in Hemits.
    rewrite Hk in Hemits.
    set (ids := map InstanceId (Instances r)) in *.
    set (w1 := {| cloud := c; STATE := STATE w; log := _ |}) in Hemits.
    destruct (stopAndTerminate_trace ids w1) as (evs1' & E1' & Hshape).
    assert (Heq : log (snd (Q.handler (ec2Manager.stopAndTerminate P L ids)
                              w1)) = (log w1 ++ evs1')%list).
    { unfold Q.handler, emits in *.
      destruct (ec2Manager.stopAndTerminate P L ids w1). exact E1'. }
    rewrite Heq in Hemits. subst w1. cbn [log] in Hemits.
    rewrite <- List.app_assoc in Hemits. apply app_inv_head in Hemits.
    subst evs. cbn [app]. split.
    + intros ids' Hin. exists r, rs, c. split; [exact Hd|].
      destruct Hshape as [->|(polls & -> & Fp)].
      * destruct Hin as [[H|[H|[]]]|[H|[H|[]]]]; try discriminate H.
        now injection H.
      * rewrite List.Forall_forall in Fp.
        destruct Hin as [[H|[H|[H|H]]]|[H|[H|[H|H]]]];
          try discriminate H; try (now injection H).
        -- apply Fp in H. discriminate H.
        -- apply Fp in H. discriminate H.
    + intros ids' Hin.
      destruct Hshape as [->|(polls & -> & Fp)].
      * destruct Hin as [H|[H|[]]]; discriminate H.
      * rewrite List.Forall_forall in Fp.
        destruct Hin as [H|[H|[H|H]]]; try discriminate H.
        -- injection H as <-. exists polls. reflexivity.
        -- apply Fp in H. discriminate H.
  - rewrite (then_rejected _ _ _ _ _ (call_failed _ _ w _ _ Hd)) in Hemits.
    cbn in Hemits. apply app_inv_head in Hemits. subst evs. split.
    + intros ids [[H|[]]|[H|[]]]; discriminate H.
    + intros ids [H|[]]. discriminate H.
Qed.

End StopFacts.

(** ** Composite teardown *)

Section TeardownFacts.

Import Aws Env.
Context {W : Type} (P : Provider W) (L : Lib) (vpcId : string).

Lemma staged_waitFor {A} k (fn : promise W A) n :
  staged k k fn -> staged k k (ec2Manager.waitFor fn n).
Proof.
  intros H. induction n as [|n IH]; cbn [ec2Manager.waitFor].
  - apply staged_reject.
  - apply (staged_fail k k k); [lia|exact H|].
    intros e. destruct n; [apply staged_reject|exact IH].
Qed.

Lemma staged_checkInstanceStatuses ids :
  staged 3 3 (ec2Manager.checkInstanceStatuses P ids).
Proof.
  unfold ec2Manager.checkInstanceStatuses. destruct ids as [|i ids].
  - apply staged_throw.
  - apply (staged_then 3 3 3); [lia|apply (staged_call 3 3 3); [reflexivity|lia]|].
    intros [|r rs]; apply staged_resolve.
Qed.

Lemma staged_stopAndTerminate ids :
  staged 3 3 (ec2Manager.stopAndTerminate P L ids).
Proof.
  unfold ec2Manager.stopAndTerminate, ec2Manager.waitForTermination.
  apply (staged_then 3 3 3); [lia| |].
  - apply (staged_then 3 3 3); [lia|apply (staged_call 3 3 3); [reflexivity|lia]|].
    intros _. apply (staged_call 3 3 3); [reflexivity|lia].
  - intros _. apply staged_waitFor.
    unfold ec2Manager.makeTerminatedPredicate.
    apply (staged_then 3 3 3); [lia|apply staged_checkInstanceStatuses|].
    intros [|i l]; [apply staged_throw|].
    destruct (String.eqb _ _); [apply staged_resolve|apply staged_throw].
Qed.

Lemma staged_ec2_destroyDeployment pid deployment :
  staged 3 3 (ec2Manager.destroyDeployment P L vpcId pid deployment).
Proof.
  unfold ec2Manager.destroyDeployment, ec2Manager.describeDeployment.
  destruct (_ || _); [apply staged_throw|].
  apply (staged_then 3 3 3); [lia|now apply staged_query|].
  intros [|r rs]; [apply staged_throw|apply staged_stopAndTerminate].
Qed.

Lemma staged_destroyRoutes pid deployment :
  staged 1 1 (deploymentManager.destroyRoutes P L vpcId pid deployment).
Proof.
  unfold deploymentManager.destroyRoutes, ec2Manager.describeDeployment.
  apply (staged_then 1 1 1); [lia|now apply staged_query|].
  intros results. apply staged_try. intros ip. apply (staged_call 1 1 1); [reflexivity|lia].
Qed.

Lemma staged_destroyEc2 pid deployment clusterName :
  staged 2 3 (deploymentManager.destroyEc2 P L vpcId pid deployment clusterName).
Proof.
  unfold deploymentManager.destroyEc2.
  destruct (negb _); [apply staged_throw|].
  apply (staged_then 2 2 3); [lia|apply (staged_call 2 2 2); [reflexivity|lia]|].
  intros result. apply (staged_then 2 2 3); [lia| |].
  - apply staged_all. apply Forall_map, List.Forall_forall. intros arn _.
    apply (staged_call 2 2 2); [reflexivity|lia].
  - intros _. apply (staged_fail 2 3 3); [lia| |intros e; apply staged_resolve].
    apply staged_void. apply (staged_weaken 3 3); [lia|lia|].
    apply staged_ec2_destroyDeployment.
Qed.

Lemma staged_destroy pid deployment sha :
  staged 1 7 (deploymentManager.destroy P L vpcId pid deployment sha).
Proof.
  unfold deploymentManager.destroy, deploymentManager.destroyElb.
  apply (staged_then 1 6 7); [lia| |].
  apply (staged_then 1 5 6); [lia| |].
  apply (staged_then 1 4 5); [lia| |].
  apply (staged_then 1 3 4); [lia| |].
  apply (staged_then2 1 1 3); [lia|apply staged_destroyRoutes| |].
  - intros _. apply (staged_weaken 2 3); [lia|lia|apply staged_destroyEc2].
  - intros _. apply (staged_weaken 2 3); [lia|lia|apply staged_destroyEc2].
  - intros _. apply (staged_fail 3 4 4); [lia| |intros e; apply staged_resolve].
    apply (staged_call 3 4 4); [reflexivity|lia].
  - intros _. apply (staged_fail 4 5 5); [lia| |intros e; apply staged_resolve].
    apply (staged_call 4 5 5); [reflexivity|lia].
  - intros _. apply (staged_fail 5 6 6); [lia| |intros e; apply staged_resolve].
    apply (staged_call 5 6 6); [reflexivity|lia].
  - intros _. apply (staged_fail 6 7 7); [lia| |intros e; apply staged_resolve].
    apply (staged_call 6 7 7); [reflexivity|lia].
Qed.

(** A best-effort stage: the call is issued and its failure swallowed. *)
Lemma swallowed_call ev (f : W -> settled unit * W) (w : World W) :
  Q.fail (call ev f) (fun _ => Q.resolve tt) w
  = (Q.Resolved tt,
     {| cloud := snd (f (cloud w)); STATE := STATE w;
        log := (log w ++ [ev])%list |}).
Proof.
  unfold Q.fail, call. destruct (f (cloud w)) as [[[]|e] c]; reflexivity.
Qed.

Lemma then_swallow {A} (p : promise W A) ev (f : W -> settled unit * W)
    (w : World W) a w2 :
  p w = (Q.Resolved a, w2) ->
  Q.then_ p (fun _ => Q.fail (call ev f) (fun _ => Q.resolve tt)) w
  = (Q.Resolved tt,
     {| cloud := snd (f (cloud w2)); STATE := STATE w2;
        log := (log w2 ++ [ev])%list |}).
Proof.
  intros H. rewrite (then_resolved _ _ _ _ _ H).
  apply handler_resolved, swallowed_call.
Qed.

Lemma destroyRoutes_not_thrown pid deployment (w : World W) e :
  fst (deploymentManager.destroyRoutes P L vpcId pid deployment w)
  <> Q.Thrown e.
Proof.
  unfold deploymentManager.destroyRoutes, ec2Manager.describeDeployment,
    Q.then_.
  pose proof (call_not_thrown
    (DescribeInstances vpcId (ByDeployment pid deployment))
    (describeInstances P vpcId (ByDeployment pid deployment)) w) as Hc.
  destruct (call _ _ w) as [[a|e'|e'] w'].
  - unfold Q.handler. destruct (Q.try_ _ _ w') as [[]]; discriminate.
  - discriminate.
  - exfalso. now apply (Hc e').
Qed.

(** The stages after the instances: each is issued, whatever the outcome
    of the one before. *)
Lemma destroy_tail pid deployment sha (w : World W) :
  let clusterName := generateRID L pid deployment sha in
  let w1 := snd (deploymentManager.destroyRoutes P L vpcId pid deployment w) in
  match deploymentManager.destroyEc2 P L vpcId pid deployment clusterName w1
  with
  | (Q.Resolved _, w2) =>
      fst (deploymentManager.destroy P L vpcId pid deployment sha w)
      = Q.Resolved tt
      /\ log (snd (deploymentManager.destroy P L vpcId pid deployment sha w))
         = (log w2 ++ [ElbDestroyDeployment pid deployment;
                       TaskDestroy clusterName;
                       ClusterDestroy clusterName;
                       SgDestroyDeployment pid deployment])%list
  | (Q.Rejected e, w2) | (Q.Thrown e, w2) =>
      deploymentManager.destroy P L vpcId pid deployment sha w
      = (Q.Rejected e, w2)
  end.
Proof.
  intros clusterName w1. unfold deploymentManager.destroy.
  fold clusterName.
  set (ec2 := deploymentManager.destroyEc2 P L vpcId pid deployment
                clusterName).
  set (first := Q.then2 _ _ _).
  assert (Hfirst : first w = Q.handler ec2 w1).
  { subst first w1. unfold Q.then2.
    pose proof (destroyRoutes_not_thrown pid deployment w) as Hr.
    destruct (deploymentManager.destroyRoutes P L vpcId pid deployment w)
      as [[a|e|e] w1]; cbn [snd]; try reflexivity.
    exfalso. now apply (Hr e). }
  destruct (ec2 w1) as [[[]|e|e] w2] eqn:Hec2.
  - apply handler_resolved in Hec2. rewrite <- Hfirst in Hec2.
    unfold deploymentManager.destroyElb.
    rewrite (then_swallow _ _ _ _ _ _
               (then_swallow _ _ _ _ _ _
                  (then_swallow _ _ _ _ _ _
                     (then_swallow _ _ _ _ _ _ Hec2)))).
    cbn. rewrite <- !List.app_assoc. split; reflexivity.
  - apply handler_rejected in Hec2. rewrite <- Hfirst in Hec2.
    now rewrite (then_rejected _ _ _ _ _
                   (then_rejected _ _ _ _ _
                      (then_rejected _ _ _ _ _
                         (then_rejected _ _ _ _ _ Hec2)))).
  - apply handler_thrown in Hec2. rewrite <- Hfirst in Hec2.
    now rewrite (then_rejected _ _ _ _ _
                   (then_rejected _ _ _ _ _
                      (then_rejected _ _ _ _ _
                         (then_rejected _ _ _ _ _ Hec2)))).
Qed.

(** One call per element, gathered by [Q.all]: every call is issued,
    whatever the earlier ones answer. *)
Lemma all_calls {X A} rc (ev : X -> Event) (f : X -> W -> settled A * W) xs :
  forall w : World W,
  exists o,
    Q.all rc (map (fun x => call (ev x) (f x)) xs) w
    = (o,
       {| cloud := snd (answers f xs (cloud w)); STATE := STATE w;
          log := (log w ++ map ev xs)%list |})
    /\ (Forall (fun a => failureOf a = []) (fst (answers f xs (cloud w))) ->
        exists vs, o = Q.Resolved vs).
Proof.
  induction xs as [|x xs IH]; intros w.
  - exists (Q.Resolved []). cbn. rewrite app_nil_r.
    split; [now destruct w|]. intros _. now exists [].
  - cbn [map Q.all answers]. unfold Q.all2.
    destruct (f x (cloud w)) as [a c1] eqn:Hf.
    rewrite (call_run (ev x) _ w a c1 Hf).
    set (w1 := {| cloud := c1; STATE := STATE w; log := _ |}).
    destruct (IH w1) as (o & -> & Ho). cbn [cloud w1] in *.
    destruct (answers f xs c1) as [l c2]. cbn [fst snd] in *.
    subst w1. cbn [STATE log].
    destruct a as [v|e], o as [vs|e'|e']; cbn;
      rewrite <- List.app_assoc; eexists; (split; [reflexivity|]);
      intros Hall; inversion Hall as [|? ? Ha Hl]; subst;
      try discriminate Ha;
      try (destruct (Ho Hl) as (vs' & Hvs); discriminate Hvs).
    now eexists.
Qed.

(** The DNS stage: the instances of the deployment are described and the
    record of their address is destroyed. *)
Lemma destroyRoutes_run pid deployment rs c ip r c' (w : World W) :
  describeInstances P vpcId (ByDeployment pid deployment) (cloud w)
    = (Fulfilled rs, c) ->
  findIpFromEc2Describe L rs = Js.Return ip ->
  r53_destroyDeploymentARecord P pid deployment ip c = (r, c') ->
  deploymentManager.destroyRoutes P L vpcId pid deployment w
  = (outcomeOf r,
     {| cloud := c'; STATE := STATE w;
        log := (log w ++
                [ DescribeInstances vpcId (ByDeployment pid deployment);
                  R53DestroyDeploymentARecord pid deployment ip ])%list |}).
Proof.
  intros Hd Hip Hr.
  unfold deploymentManager.destroyRoutes, ec2Manager.describeDeployment.
  rewrite (then_resolved _ _ _ _ _ (call_fulfilled _ _ w _ _ Hd)).
  rewrite Hip. cbn [Q.try_]. unfold Q.handler, call. cbn [cloud].
  rewrite Hr. cbn [STATE log]. rewrite <- List.app_assoc.
  destruct r; reflexivity.
Qed.

(** [stopAndTerminate] requests the stop and, once it is fulfilled, the
    termination. *)
Lemma stopAndTerminate_starts ids s c1 (w : World W) :
  ec2_stopInstances P ids (cloud w) = (s, c1) ->
  exists rest,
    emits (ec2Manager.stopAndTerminate P L ids) w
      (Ec2StopInstances ids :: rest)
    /\ (failureOf s = [] ->
        exists polls, rest = Ec2TerminateInstances ids :: polls).
Proof.
  intros Hstop. unfold ec2Manager.stopAndTerminate, emits.
  destruct s as [[]|e].
  - pose proof (call_fulfilled (Ec2StopInstances ids) _ w _ _ Hstop) as H1.
    set (w1 := {| cloud := c1; STATE := STATE w; log := _ |}) in H1.
    destruct (ec2_terminateInstances P ids c1) as [[[]|e] c2] eqn:Hterm.
    + pose proof (call_fulfilled (Ec2TerminateInstances ids) _ w1 _ _ Hterm)
        as H2.
      set (w2 := {| cloud := c2; STATE := STATE w1; log := _ |}) in H2.
      pose proof (eq_trans (then_resolved _
                    (fun _ : unit =>
                       call (Ec2TerminateInstances ids)
                         (ec2_terminateInstances P ids)) _ _ _ H1)
                    (handler_resolved _ _ _ _ H2)) as H12.
      rewrite (then_resolved _ _ _ _ _ H12).
      destruct (only_handler _ _ (only_waitForTermination P L ids) w2)
        as (polls & Ep & _).
      unfold emits in Ep. exists (Ec2TerminateInstances ids :: polls).
      split; [|intros _; now exists polls].
      rewrite Ep. subst w2 w1. cbn [log].
      rewrite <- !List.app_assoc. reflexivity.
    + pose proof (call_failed (Ec2TerminateInstances ids) _ w1 _ _ Hterm)
        as H2.
      pose proof (eq_trans (then_resolved _
                    (fun _ : unit =>
                       call (Ec2TerminateInstances ids)
                         (ec2_terminateInstances P ids)) _ _ _ H1)
                    (handler_rejected _ _ _ _ H2)) as H12.
      rewrite (then_rejected _ _ _ _ _ H12).
      exists [Ec2TerminateInstances ids].
      split; [|intros _; now exists []].
      subst w1. cbn [snd log]. rewrite <- !List.app_assoc. reflexivity.
  - pose proof (call_failed (Ec2StopInstances ids) _ w _ _ Hstop) as H1.
    rewrite (then_rejected _ _ _ _ _
               (then_rejected _
                  (fun _ : unit =>
                     call (Ec2TerminateInstances ids)
                       (ec2_terminateInstances P ids)) _ _ _ H1)).
    exists []. split; [reflexivity|discriminate].
Qed.

(** The teardown of the instances of a deployment starts with the
    listing of the instances and the stop of those of the first
    reservation listed. *)
Lemma ec2_destroyDeployment_starts pid deployment r rs c3 s c4 (w : World W) :
  Js.truthy (Js.Str pid) = true ->
  Js.truthy (Js.Str deployment) = true ->
  describeInstances P vpcId (ByDeployment pid deployment) (cloud w)
    = (Fulfilled (r :: rs), c3) ->
  let ids := map InstanceId (Instances r) in
  ec2_stopInstances P ids c3 = (s, c4) ->
  exists rest,
    emits (ec2Manager.destroyDeployment P L vpcId pid deployment) w
      (DescribeInstances vpcId (ByDeployment pid deployment)
       :: Ec2StopInstances ids :: rest)
    /\ (failureOf s = [] ->
        exists polls, rest = Ec2TerminateInstances ids :: polls).
Proof.
  intros Hp Hdep Hd ids Hstop.
  unfold ec2Manager.destroyDeployment, ec2Manager.describeDeployment, emits.
  rewrite Hp, Hdep. cbn [negb orb].
  rewrite (then_resolved _ _ _ _ _ (call_fulfilled _ _ w _ _ Hd)).
  fold ids.
  set (w1 := {| cloud := c3; STATE := STATE w; log := _ |}).
  destruct (stopAndTerminate_starts ids s c4 w1 Hstop) as (rest & E & Hrest).
  exists rest. split; [|exact Hrest].
  unfold emits in E.
  assert (Heq : log (snd (Q.handler (ec2Manager.stopAndTerminate P L ids)
                            w1))
                = log (snd (ec2Manager.stopAndTerminate P L ids w1))).
  { unfold Q.handler. now destruct (ec2Manager.stopAndTerminate P L ids w1). }
  rewrite Heq, E. subst w1. cbn [log].
  rewrite <- List.app_assoc. reflexivity.
Qed.

(** Once the containers are listed and deregistered, the instance stage
    resolves whatever happens to the instances: its calls are the
    listing of the containers, their deregistrations and the calls of the
    teardown of the instances. *)
Lemma destroyEc2_resolves pid deployment clusterName arns c2 (w1 : World W) :
  Js.truthy (Js.Str pid) = true ->
  Js.truthy (Js.Str deployment) = true ->
  Js.truthy (Js.Str clusterName) = true ->
  cluster_listContainers P clusterName (cloud w1) = (Fulfilled arns, c2) ->
  let dereg := answers (cluster_deregister P clusterName) arns c2 in
  Forall (fun a => failureOf a = []) (fst dereg) ->
  let w3 :=
    {| cloud := snd dereg; STATE := STATE w1;
       log := (log w1 ++ ClusterListContainers clusterName
               :: map (ClusterDeregister clusterName) arns)%list |} in
  exists w2 evs,
    deploymentManager.destroyEc2 P L vpcId pid deployment clusterName w1
    = (Q.Resolved tt, w2)
    /\ emits (ec2Manager.destroyDeployment P L vpcId pid deployment) w3 evs
    /\ log w2 = (log w3 ++ evs)%list
    /\ Forall (fun r => r = 3%nat) (ranks evs).
Proof.
  intros Hp Hd Hc Hl dereg Hall w3. unfold deploymentManager.destroyEc2.
  rewrite Hc. cbn [negb]. unfold Q.then_ at 1.
  rewrite (call_fulfilled _ _ _ _ _ Hl). unfold Q.handler, Q.then_ at 1.
  set (w0 := {| cloud := c2; STATE := STATE w1; log := _ |}).
  destruct (all_calls (race P) (ClusterDeregister clusterName)
              (cluster_deregister P clusterName) arns w0)
    as (o & Hrun & Ho).
  cbn [cloud w0] in Hrun, Ho. fold dereg in Hrun, Ho.
  destruct (Ho Hall) as (us & ->).
  assert (Hw3 : {| cloud := snd dereg; STATE := STATE w0;
                   log := (log w0 ++ map (ClusterDeregister clusterName)
                                      arns)%list |} = w3).
  { subst w0 w3. cbn [STATE log]. now rewrite <- List.app_assoc. }
  rewrite Hw3 in Hrun. rewrite Hrun. unfold Q.handler.
  destruct (staged_ec2_destroyDeployment pid deployment w3)
    as (evs & E & _ & B).
  assert (Hn : forall e,
            fst (ec2Manager.destroyDeployment P L vpcId pid deployment w3)
            <> Q.Thrown e).
  { intros e. unfold ec2Manager.destroyDeployment. rewrite Hp, Hd.
    cbn [negb orb].
    unfold Q.then_, ec2Manager.describeDeployment.
    pose proof (call_not_thrown
      (DescribeInstances vpcId (ByDeployment pid deployment))
      (describeInstances P vpcId (ByDeployment pid deployment)) w3) as Hc'.
    destruct (call _ _ w3) as [[a|e'|e'] w'].
    - unfold Q.handler. destruct a; [discriminate|].
      destruct (ec2Manager.stopAndTerminate _ _ _ w') as [[]]; discriminate.
    - discriminate.
    - exfalso. now apply (Hc' e'). }
  assert (B3 : Forall (fun r => r = 3%nat) (ranks evs)).
  { eapply List.Forall_impl; [|exact B]. cbn. intros r Hr. lia. }
  pose proof E as E'. unfold emits in E'.
  unfold Q.fail, Q.void.
  destruct (ec2Manager.destroyDeployment P L vpcId pid deployment w3)
    as [[b|e|e] w4]; cbn in *.
  - exists w4, evs. repeat split; assumption.
  - exists w4, evs. repeat split; assumption.
  - exfalso. now apply (Hn e).
Qed.

(** When the listing of the containers fails, the instance stage rejects
    right there. *)
Lemma destroyEc2_rejects pid deployment clusterName e c2 (w1 : World W) :
  Js.truthy (Js.Str clusterName) = true ->
  cluster_listContainers P clusterName (cloud w1) = (Failed e, c2) ->
  deploymentManager.destroyEc2 P L vpcId pid deployment clusterName w1
  = (Q.Rejected e,
     {| cloud := c2; STATE := STATE w1;
        log := (log w1 ++ [ClusterListContainers clusterName])%list |}).
Proof.
  intros Hc Hl. unfold deploymentManager.destroyEc2.
  rewrite Hc. cbn [negb]. unfold Q.then_ at 1.
  rewrite (call_failed _ _ _ _ _ Hl). reflexivity.
Qed.

End TeardownFacts.

(** C3, as the code has it.  The calls of composite teardown are issued
    stage after stage in the order: DNS record, deregistration of the
    containers of the cluster, instances, load balancer, task definition,
    cluster, security group.  The DNS stage lists the instances of the
    deployment and requests the destruction of the record of their
    address.  When the containers are then listed and deregistered (and
    the project id, the deployment name and the cluster name are not
    empty), every deregistration having been requested, the teardown of
    the instances is run: it lists the instances of the deployment,
    stops those of the first reservation and, the stop fulfilled,
    terminates them.  Whatever the outcome of the DNS stage and of the
    teardown of the instances, the load balancer, the task definition,
    the cluster and the security group are then each destroyed in turn,
    whatever each call answers, and the teardown resolves. *)
Theorem C3_teardown_stage_order :
  forall (W : Type) (P : Env.Provider W) (L : Env.Lib)
         (vpcId pid deployment sha : string) (w : Env.World W),
    let clusterName := Env.generateRID L pid deployment sha in
    let run := deploymentManager.destroy P L vpcId pid deployment sha w in
    let listing :=
      Env.DescribeInstances vpcId (Aws.ByDeployment pid deployment) in
    let w1 :=
      snd (deploymentManager.destroyRoutes P L vpcId pid deployment w) in
    (exists evs,
       Env.log (snd run) = (Env.log w ++ evs)%list
       /\ StronglySorted le (ranks evs))
    /\ (forall rs c ip r c',
          Env.describeInstances P vpcId (Aws.ByDeployment pid deployment)
            (Env.cloud w) = (Env.Fulfilled rs, c) ->
          Env.findIpFromEc2Describe L rs = Js.Return ip ->
          Env.r53_destroyDeploymentARecord P pid deployment ip c = (r, c') ->
          w1 = {| Env.cloud := c'; Env.STATE := Env.STATE w;
                  Env.log :=
                    (Env.log w ++
                     [ listing;
                       Env.R53DestroyDeploymentARecord pid deployment ip ])
                    %list |})
    /\ (forall arns c2,
          Js.truthy (Js.Str pid) = true ->
          Js.truthy (Js.Str deployment) = true ->
          Js.truthy (Js.Str clusterName) = true ->
          Env.cluster_listContainers P clusterName (Env.cloud w1)
            = (Env.Fulfilled arns, c2) ->
          let dereg := answers (Env.cluster_deregister P clusterName) arns c2 in
          Forall (fun a => failureOf a = []) (fst dereg) ->
          let w3 :=
            {| Env.cloud := snd dereg; Env.STATE := Env.STATE w1;
               Env.log :=
                 (Env.log w1 ++ Env.ClusterListContainers clusterName
                  :: map (Env.ClusterDeregister clusterName) arns)%list |} in
          fst run = Q.Resolved tt
          /\ exists evs,
               emits (ec2Manager.destroyDeployment P L vpcId pid deployment)
                 w3 evs
               /\ Env.log (snd run)
                  = (Env.log w3 ++ evs ++
                     [Env.ElbDestroyDeployment pid deployment;
                      Env.TaskDestroy clusterName;
                      Env.ClusterDestroy clusterName;
                      Env.SgDestroyDeployment pid deployment])%list
               /\ Forall (fun r => r = 3%nat) (ranks evs)
               /\ forall i is_ c3 s c4,
                    Env.describeInstances P vpcId
                      (Aws.ByDeployment pid deployment) (snd dereg)
                      = (Env.Fulfilled (i :: is_), c3) ->
                    let ids := map Aws.InstanceId (Aws.Instances i) in
                    Env.ec2_stopInstances P ids c3 = (s, c4) ->
                    exists rest,
                      evs = listing :: Env.Ec2StopInstances ids :: rest
                      /\ (failureOf s = [] ->
                          exists polls,
                            rest = Env.Ec2TerminateInstances ids :: polls)).
Proof.
  intros W P L vpcId pid deployment sha w clusterName run listing w1.
  split; [|split].
  - destruct (staged_destroy P L vpcId pid deployment sha w)
      as (evs & E & S & _).
    exists evs. split; assumption.
  - intros rs c ip r c' Hd Hip Hr. unfold w1.
    now rewrite (destroyRoutes_run P L vpcId pid deployment rs c ip r c' w
                   Hd Hip Hr).
  - intros arns c2 Hp Hd Hc Hl dereg Hall w3.
    destruct (destroyEc2_resolves P L vpcId pid deployment clusterName
                arns c2 w1 Hp Hd Hc Hl Hall)
      as (w2 & evs & E2 & Eev & Elog & B).
    fold dereg w3 in Eev, Elog.
    pose proof (destroy_tail P L vpcId pid deployment sha w) as Htail.
    cbv zeta in Htail. fold clusterName w1 in Htail. rewrite E2 in Htail.
    destruct Htail as (Ho & Hlog). split; [exact Ho|].
    exists evs. split; [exact Eev|]. split; [|split; [exact B|]].
    + unfold run. rewrite Hlog, Elog, <- List.app_assoc. reflexivity.
    + intros i is_ c3 s c4 Hdi ids Hstop.
      destruct (ec2_destroyDeployment_starts P L vpcId pid deployment
                  i is_ c3 s c4 w3 Hp Hd Hdi Hstop)
        as (rest & Erest & Hrest).
      exists rest. split; [|exact Hrest].
      exact (emits_unique _ _ _ _ Eev Erest).
Qed.

(** C3, as stated, fails on two counts.  On a deployment that is up, the
    task definition is destroyed after the instances and after the load
    balancer, not before them.  And when the listing of the containers
    fails, the teardown rejects without a call for the load balancer, the
    task definition, the cluster or the security group. *)
Lemma C3_task_destroyed_after_instances :
  Env.log (snd (deploymentManager.destroy Mock.provider Mock.lib "vpc-1"
                  "p" "d" "sha" (Mock.world Mock.deployed)))
  = [ Env.DescribeInstances "vpc-1" (Aws.ByDeployment "p" "d");
      Env.R53DestroyDeploymentARecord "p" "d" "203.0.113.7";
      Env.ClusterListContainers "p--d--sha";
      Env.ClusterDeregister "p--d--sha" "arn-1";
      Env.DescribeInstances "vpc-1" (Aws.ByDeployment "p" "d");
      Env.Ec2StopInstances ["i-0"];
      Env.Ec2TerminateInstances ["i-0"];
      Env.Ec2DescribeInstanceIds ["i-0"];
      Env.ElbDestroyDeployment "p" "d";
      Env.TaskDestroy "p--d--sha";
      Env.ClusterDestroy "p--d--sha";
      Env.SgDestroyDeployment "p" "d" ]
  /\ deploymentManager.destroy Mock.provider Mock.lib "vpc-1"
       "p" "d" "sha" (Mock.world Mock.clusterGone)
     = (Q.Rejected (Js.Error "ClusterNotFoundException"),
        {| Env.cloud := Mock.clusterGone; Env.STATE := Mock.ready;
           Env.log :=
             [ Env.DescribeInstances "vpc-1" (Aws.ByDeployment "p" "d");
               Env.R53DestroyDeploymentARecord "p" "d" "203.0.113.7";
               Env.ClusterListContainers "p--d--sha" ] |}).
Proof. split; vm_compute; reflexivity. Qed.

Lemma C3_teardown_stage_order_witness :
  fst (deploymentManager.destroy Mock.provider Mock.lib "vpc-1"
         "p" "d" "sha" (Mock.world Mock.deployed))
  = Q.Resolved tt
  /\ snd (deploymentManager.destroyRoutes Mock.provider Mock.lib "vpc-1"
            "p" "d" (Mock.world Mock.deployed))
     = {| Env.cloud := Mock.deployed; Env.STATE := Mock.ready;
          Env.log :=
            [ Env.DescribeInstances "vpc-1" (Aws.ByDeployment "p" "d");
              Env.R53DestroyDeploymentARecord "p" "d" "203.0.113.7" ] |}.
Proof.
  pose proof (C3_teardown_stage_order Mock.Cloud Mock.provider Mock.lib
                "vpc-1" "p" "d" "sha" (Mock.world Mock.deployed)) as H.
  cbv zeta in H. destruct H as (_ & Hdns & H). split.
  - refine (proj1 (H ["arn-1"] Mock.deployed
                     eq_refl eq_refl eq_refl eq_refl _)).
    repeat constructor.
  - exact (Hdns [ {| Aws.Instances := [Mock.instance "running" "i-0"] |} ]
             Mock.deployed "203.0.113.7" (Env.Fulfilled tt) Mock.deployed
             eq_refl eq_refl eq_refl).
Defined.

(** C2: the second of two teardowns in a row.  When the listing of the
    containers of the cluster fails, as it does once the cluster is gone,
    the teardown rejects with that failure, and the listing is its last
    call: no later stage is run. *)
Theorem C2_teardown_rejects_when_listing_fails :
  forall (W : Type) (P : Env.Provider W) (L : Env.Lib)
         (vpcId pid deployment sha : string) (w : Env.World W)
         (e : Js.error) (c2 : W),
    let clusterName := Env.generateRID L pid deployment sha in
    let w1 :=
      snd (deploymentManager.destroyRoutes P L vpcId pid deployment w) in
    Js.truthy (Js.Str clusterName) = true ->
    Env.cluster_listContainers P clusterName (Env.cloud w1)
      = (Env.Failed e, c2) ->
    deploymentManager.destroy P L vpcId pid deployment sha w
    = (Q.Rejected e,
       {| Env.cloud := c2; Env.STATE := Env.STATE w1;
          Env.log :=
            (Env.log w1 ++ [Env.ClusterListContainers clusterName])%list |}).
Proof.
  intros W P L vpcId pid deployment sha w e c2 clusterName w1 Hc Hl.
  pose proof (destroy_tail P L vpcId pid deployment sha w) as Htail.
  cbv zeta in Htail. fold clusterName w1 in Htail.
  rewrite (destroyEc2_rejects P L vpcId pid deployment clusterName e c2 w1
             Hc Hl) in Htail.
  exact Htail.
Qed.

Lemma C2_teardown_rejects_when_listing_fails_witness :
  fst (deploymentManager.destroy Mock.provider Mock.lib "vpc-1" "p" "d" "sha"
         (Mock.world Mock.deployed))
  = Q.Resolved tt
  /\ fst (deploymentManager.destroy Mock.provider Mock.lib "vpc-1"
            "p" "d" "sha" Mock.afterTeardown)
     = Q.Rejected (Js.Error "ClusterNotFoundException")
  /\ Env.log (snd (deploymentManager.destroy Mock.provider Mock.lib "vpc-1"
                     "p" "d" "sha" Mock.afterTeardown))
     = (Env.log Mock.afterTeardown ++
        [ Env.DescribeInstances "vpc-1" (Aws.ByDeployment "p" "d");
          Env.ClusterListContainers "p--d--sha" ])%list.
Proof.
  split; [vm_compute; reflexivity|].
  rewrite (C2_teardown_rejects_when_listing_fails Mock.Cloud Mock.provider
             Mock.lib "vpc-1" "p" "d" "sha" Mock.afterTeardown
             (Js.Error "ClusterNotFoundException")
             (Env.cloud Mock.afterTeardown)
             ltac:(vm_compute; reflexivity) ltac:(vm_compute; reflexivity)).
  split; [reflexivity|]. vm_compute. reflexivity.
Defined.

(** ** Submission of the bootstrap script *)

Section SubmissionFacts.

Import Aws Env.
Context {W : Type} (P : Provider W) (L : Lib) (vpcId : string).

Lemma staged_waitForReady i : staged 3 3 (ec2Manager.waitForReady P L i).
Proof.
  unfold ec2Manager.waitForReady. apply staged_waitFor.
  unfold ec2Manager.makeReadyPredicate.
  apply (staged_then 3 3 3); [lia|apply staged_checkInstanceStatuses|].
  intros [|s l]; [apply staged_throw|].
  destruct (String.eqb _ _); [apply staged_resolve|apply staged_throw].
Qed.

Lemma staged_tagPrInstance i pr pid :
  staged 3 3 (ec2Manager.tagPrInstance P L i pr pid).
Proof.
  intros w. unfold ec2Manager.tagPrInstance.
  apply (staged_query 3 3 (AwsTagEc2 _ _)); reflexivity.
Qed.

Lemma staged_tagDeploymentInstance i d pid :
  staged 3 3 (ec2Manager.tagDeploymentInstance P L i d pid).
Proof. apply staged_query. reflexivity. Qed.

Lemma staged_describePr pid pr : staged 3 3 (ec2Manager.describePr P vpcId pid pr).
Proof. apply staged_query. reflexivity. Qed.

Lemma staged_describeDeployment pid d :
  staged 3 3 (ec2Manager.describeDeployment P vpcId pid d).
Proof. apply staged_query. reflexivity. Qed.

(** [runAndTag] first submits the parameters, with the user data it was
    given. *)
Lemma runAndTag_submits c data tag desc api (w : World W) :
  ec2Manager.apiConfig c = Some api ->
  (forall i, staged 3 3 (tag i)) -> staged 3 3 desc ->
  exists params evs,
    log (snd (ec2Manager.runAndTag P L c data tag desc w))
    = (log w ++ Ec2RunInstances params :: evs)%list
    /\ UserData params = data.
Proof.
  intros Hapi Htag Hdesc. unfold ec2Manager.runAndTag. rewrite Hapi.
  set (params := {| Aws.apiConfig := api; UserData := data;
                    NetworkInterfaces := _ |}).
  exists params.
  pose proof (call_log (Ec2RunInstances params) (ec2_runInstances P params) w)
    as Hlog.
  pose proof (call_not_thrown (Ec2RunInstances params)
                (ec2_runInstances P params) w) as Hnt.
  destruct (call (Ec2RunInstances params) (ec2_runInstances P params) w)
    as [[results|e|e] w1] eqn:Hcall; cbn [snd] in *.
  - rewrite (then_resolved _ _ _ _ _ Hcall).
    match goal with
    | |- context [Q.handler ?k w1] => assert (Hk : staged 3 3 k)
    end.
    { apply (staged_then 3 3 3); [lia| |intros _; exact Hdesc].
      apply staged_all. apply Forall_app. split.
      - apply Forall_map, List.Forall_forall. intros i _. apply Htag.
      - apply Forall_map, List.Forall_forall. intros i _.
        apply (staged_then 3 3 3);
          [lia|apply staged_waitForReady|intros _; apply staged_resolve]. }
    destruct (staged_handler _ _ _ Hk w1) as (evs & E & _).
    unfold emits in E. exists evs. split; [|reflexivity].
    rewrite E, Hlog, <- List.app_assoc. reflexivity.
  - rewrite (then_rejected _ _ _ _ _ Hcall).
    exists []. split; [exact Hlog|reflexivity].
  - exfalso. now apply (Hnt e).
Qed.

Lemma createPr_submits c api s (w w1 : World W) :
  ec2Manager.validateCreatePrConfig (Some c) = Js.Return tt ->
  ec2Manager.apiConfig c = Some api ->
  ec2Manager.getECSContainerInstanceUserData P L
    (Js.toStr (Js.prop (ec2Manager.fields c) "clusterName"))
    (ec2Manager.auth c) (ec2Manager.sshPath c) w = (Q.Resolved s, w1) ->
  exists params evs,
    log (snd (ec2Manager.createPr P L vpcId (Some c) w))
    = (log w1 ++ Ec2RunInstances params :: evs)%list
    /\ UserData params = s.
Proof.
  intros Hv Hapi Hud. unfold ec2Manager.createPr. rewrite Hv. cbn [Q.try_].
  rewrite (then_resolved _ _ _ _ _ Hud).
  destruct (runAndTag_submits c s _ _ api w1 Hapi
              (fun i => staged_tagPrInstance i
                          (Js.prop (ec2Manager.fields c) "pr")
                          (Js.prop (ec2Manager.fields c) "pid"))
              (staged_describePr
                 (Js.toStr (Js.prop (ec2Manager.fields c) "pid"))
                 (Js.toStr (Js.prop (ec2Manager.fields c) "pr"))))
    as (params & evs & E & Hp).
  exists params, evs. split; [|exact Hp].
  unfold Q.handler. rewrite <- E.
  destruct (ec2Manager.runAndTag _ _ _ _ _ _ w1). reflexivity.
Qed.

Lemma createDeployment_submits c api s (w w1 : World W) :
  ec2Manager.validateCreateDeploymentConfig (Some c) = Js.Return tt ->
  ec2Manager.apiConfig c = Some api ->
  ec2Manager.getECSContainerInstanceUserData P L
    (Js.toStr (Js.prop (ec2Manager.fields c) "clusterName"))
    (ec2Manager.auth c) (ec2Manager.sshPath c) w = (Q.Resolved s, w1) ->
  exists params evs,
    log (snd (ec2Manager.createDeployment P L vpcId (Some c) w))
    = (log w1 ++ Ec2RunInstances params :: evs)%list
    /\ UserData params = s.
Proof.
  intros Hv Hapi Hud. unfold ec2Manager.createDeployment. rewrite Hv.
  cbn [Q.try_]. rewrite (then_resolved _ _ _ _ _ Hud).
  destruct (runAndTag_submits c s _ _ api w1 Hapi
              (fun i => staged_tagDeploymentInstance i
                          (Js.prop (ec2Manager.fields c) "deployment")
                          (Js.prop (ec2Manager.fields c) "pid"))
              (staged_describeDeployment
                 (Js.toStr (Js.prop (ec2Manager.fields c) "pid"))
                 (Js.toStr (Js.prop (ec2Manager.fields c) "deployment"))))
    as (params & evs & E & Hp).
  exists params, evs. split; [|exact Hp].
  unfold Q.handler. rewrite <- E.
  destruct (ec2Manager.runAndTag _ _ _ _ _ _ w1). reflexivity.
Qed.

End SubmissionFacts.

(** C9.  With no registry credentials and no SSH keys (an empty list of
    keys, a key directory that is empty or cannot be read) the user data is
    the encoding of the shell preamble followed by the cluster-join
    directive alone.  With one key it is followed by the setup directive,
    one key-append directive and the chown directive, in this order.  In
    every case the user data that resolves is the base64 encoding of the
    script (decoding it gives the script back), and it is this encoding
    that [createPr] and [createDeployment] submit to [runInstances]. *)
Theorem C9_bootstrap_script_is_assembled_and_encoded :
  forall (W : Type) (P : Env.Provider W) (L : Env.Lib) (vpcId : string)
         (clusterName : string) (w : Env.World W),
    let userData :=
      ec2Manager.getECSContainerInstanceUserData P L clusterName in
    let join :=
      "echo ECS_CLUSTER=" ++ clusterName ++ " >> /etc/ecs/ecs.config;" in
    userData None (Aws.SshKeys []) w
    = (Q.Resolved
         (Buffer.toBase64 ("#!/bin/bash" ++ ec2Manager.LF ++ join)), w)
    /\ (forall path e c',
          Env.fs_readdir P path (Env.cloud w) = (Env.Failed e, c') ->
          fst (userData None (Aws.SshPath path) w)
          = Q.Resolved
              (Buffer.toBase64 ("#!/bin/bash" ++ ec2Manager.LF ++ join)))
    /\ (forall path c',
          Env.fs_readdir P path (Env.cloud w) = (Env.Fulfilled [], c') ->
          fst (userData None (Aws.SshPath path) w)
          = Q.Resolved
              (Buffer.toBase64 ("#!/bin/bash" ++ ec2Manager.LF ++ join)))
    /\ (forall key,
          userData None (Aws.SshKeys [key]) w
          = (Q.Resolved
               (Buffer.toBase64
                  (Js.join ec2Manager.LF
                     [ "#!/bin/bash"; join;
                       ec2Manager.SETUP_SSH;
                       "echo " ++ ec2Manager.DQ ++ ec2Manager.LF ++ key ++
                       ec2Manager.DQ ++ " " ++ ec2Manager.OUTPUT_SSH;
                       ec2Manager.CHOWN_SSH ])), w))
    /\ (forall path file key c1 c2,
          Env.fs_readdir P path (Env.cloud w) = (Env.Fulfilled [file], c1) ->
          Env.fs_readFile P (Env.path_join L path file) c1
            = (Env.Fulfilled key, c2) ->
          fst (userData None (Aws.SshPath path) w)
          = Q.Resolved
              (Buffer.toBase64
                 (Js.join ec2Manager.LF
                    [ "#!/bin/bash"; join;
                      ec2Manager.SETUP_SSH;
                      "echo " ++ ec2Manager.DQ ++ ec2Manager.LF ++ key ++
                      ec2Manager.DQ ++ " " ++ ec2Manager.OUTPUT_SSH;
                      ec2Manager.CHOWN_SSH ])))
    /\ (forall auth ssh s w',
          userData auth ssh w = (Q.Resolved s, w') ->
          exists lines,
            s = Buffer.toBase64 (script clusterName lines)
            /\ Buffer.fromBase64 s = Some (script clusterName lines))
    /\ (forall c api s w1,
          ec2Manager.apiConfig c = Some api ->
          ec2Manager.getECSContainerInstanceUserData P L
            (Js.toStr (Js.prop (ec2Manager.fields c) "clusterName"))
            (ec2Manager.auth c) (ec2Manager.sshPath c) w
            = (Q.Resolved s, w1) ->
          (ec2Manager.validateCreatePrConfig (Some c) = Js.Return tt ->
           exists params evs,
             Env.log (snd (ec2Manager.createPr P L vpcId (Some c) w))
             = (Env.log w1 ++ Env.Ec2RunInstances params :: evs)%list
             /\ Aws.UserData params = s)
          /\ (ec2Manager.validateCreateDeploymentConfig (Some c)
              = Js.Return tt ->
              exists params evs,
                Env.log (snd (ec2Manager.createDeployment P L vpcId
                                (Some c) w))
                = (Env.log w1 ++ Env.Ec2RunInstances params :: evs)%list
                /\ Aws.UserData params = s)).
Proof.
  intros W P L vpcId clusterName w userData join.
  split; [reflexivity|].
  split; [intros path e c' H; exact (userData_path_failed P L _ _ _ _ _ H)|].
  split; [intros path c' H; exact (userData_path_empty P L _ _ _ _ H)|].
  split; [intros key; reflexivity|].
  split.
  { intros path file key c1 c2 H1 H2.
    exact (userData_path_one P L _ _ _ _ _ _ _ H1 H2). }
  split.
  { intros auth ssh s w' H.
    destruct (userData_encoded P L _ _ _ _ _ _ H) as (lines & ->).
    exists lines. split; [reflexivity|apply fromBase64_toBase64]. }
  intros c api s w1 Hapi Hud. split; intros Hv.
  - exact (createPr_submits P L vpcId c api s w w1 Hv Hapi Hud).
  - exact (createDeployment_submits P L vpcId c api s w w1 Hv Hapi Hud).
Qed.

Lemma C9_bootstrap_script_is_assembled_and_encoded_witness :
  fst (ec2Manager.getECSContainerInstanceUserData Mock.provider Mock.lib
         "p--7" None (Aws.SshKeys ["ssh-rsa KEY"]) (Mock.world Mock.empty))
  = Q.Resolved
      ("IyEvYmluL2Jhc2gKZWNobyBFQ1NfQ0xVU1RFUj1wLS03ID4+IC9ldGMvZWNzL2Vjcy5j" ++
       "b25maWc7Cm1rZGlyIC1wIC9ob21lL2VjMi11c2VyLy5zc2gKZWNobyAiCnNzaC1yc2Eg" ++
       "S0VZIiA+PiAvaG9tZS9lYzItdXNlci8uc3NoL2F1dGhvcml6ZWRfa2V5cwpjaG93biAt" ++
       "UiBlYzItdXNlcjplYzItdXNlciAvaG9tZS9lYzItdXNlci8uc3NoICYmIGNobW9kIC1S" ++
       "IGdvLXJ3eCAvaG9tZS9lYzItdXNlci8uc3No").
Proof.
  pose proof (C9_bootstrap_script_is_assembled_and_encoded Mock.Cloud
                Mock.provider Mock.lib "vpc-1" "p--7"
                (Mock.world Mock.empty)) as H.
  cbv zeta in H. destruct H as (_ & _ & _ & H & _).
  rewrite (H "ssh-rsa KEY"). vm_compute. reflexivity.
Defined.

(** ** Creation of a deployment *)

Section CreateFacts.

Import Aws Env.
Context {W : Type} (P : Provider W) (L : Lib) (vpcId : string).

(** The instance and the load balancer exist: the three wiring calls are
    issued, and the branch resolves whatever they answer. *)
Lemma createElbEc2_wiring groupId clusterName pid deployment subnetId sha
    r rs elb r1 r2 r3 c1 c2 c3 (w w1 : World W) :
  Q.all2 (race P)
    (deploymentManager.createEc2 P L vpcId groupId clusterName pid
       deployment subnetId sha)
    (call (ElbCreateDeployment pid deployment subnetId groupId (AWS_SSL_ID L))
       (elb_createDeployment P pid deployment subnetId groupId (AWS_SSL_ID L)))
    w = (Q.Resolved (r :: rs, elb), w1) ->
  r53_createDeploymentCNameRecord P pid deployment (dns elb) (cloud w1)
    = (r1, c1) ->
  elb_registerInstances P (id elb) [lastInstanceId r] c1 = (r2, c2) ->
  elb_configureHealthCheck P (id elb) c2 = (r3, c3) ->
  deploymentManager.createElbEc2 P L vpcId groupId clusterName pid
    deployment subnetId sha w
  = (Q.Resolved (wired r1 r2 r3),
     {| cloud := c3; STATE := STATE w1;
        log := (log w1 ++
                [ R53CreateDeploymentCNameRecord pid deployment (dns elb);
                  ElbRegisterInstances (id elb) [lastInstanceId r];
                  ElbConfigureHealthCheck (id elb) ])%list |}).
Proof.
  intros H0 H1 H2 H3. unfold deploymentManager.createElbEc2.
  rewrite (then_resolved _ _ _ _ _ H0).
  unfold Q.handler, Q.fail, Q.then_, Q.all3, Q.all2, Q.try_,
    deploymentManager.getIdFromEc2Results, call.
  cbn [fst snd]. fold (lastInstanceId r).
  rewrite H1. cbn [cloud]. rewrite H2.
  destruct r1 as [url|e1], r2 as [[]|e2]; cbn [outcomeOf cloud];
    rewrite H3; destruct r3 as [[]|e3]; cbn;
    rewrite <- !List.app_assoc; reflexivity.
Qed.

(** The whole creation, around the load-balancer branch. *)
Lemma createCluster_run subnetId pid deployment sha appDef groupId
    c0 c0' o r c2 (w w1 : World W) :
  let clusterName := generateRID L pid deployment sha in
  sg_createDeployment P pid deployment sha (cloud w)
    = (Fulfilled groupId, c0) ->
  cluster_create P clusterName c0 = (Fulfilled tt, c0') ->
  deploymentManager.createElbEc2 P L vpcId groupId clusterName pid
    deployment subnetId sha
    {| cloud := c0'; STATE := STATE w;
       log := (log w ++ [ SgCreateDeployment pid deployment sha;
                          ClusterCreate clusterName ])%list |}
    = (o, w1) ->
  task_create P clusterName clusterName appDef (cloud w1) = (r, c2) ->
  deploymentManager.createCluster P L vpcId subnetId pid deployment sha appDef w
  = match o with
    | Q.Resolved urlDesc =>
        (match r with
         | Fulfilled _ => Q.Resolved urlDesc
         | Failed e => Q.Rejected e
         end,
         {| cloud := c2; STATE := STATE w1;
            log := (log w1 ++
                    [TaskCreate clusterName clusterName appDef])%list |})
    | Q.Rejected e | Q.Thrown e => (Q.Rejected e, w1)
    end.
Proof.
  intros clusterName Hsg Hcl Helb Htask.
  unfold deploymentManager.createCluster. fold clusterName.
  assert (Hall :
    Q.all2 (race P)
      (call (SgCreateDeployment pid deployment sha)
         (sg_createDeployment P pid deployment sha))
      (call (ClusterCreate clusterName) (cluster_create P clusterName)) w
    = (Q.Resolved (groupId, tt),
       {| cloud := c0'; STATE := STATE w;
          log := (log w ++ [ SgCreateDeployment pid deployment sha;
                             ClusterCreate clusterName ])%list |})).
  { unfold Q.all2. rewrite (call_fulfilled _ _ _ _ _ Hsg).
    unfold call. cbn [cloud]. rewrite Hcl. cbn.
    rewrite <- List.app_assoc. reflexivity. }
  pose proof (then_resolved _
    (fun results =>
       deploymentManager.createElbEc2 P L vpcId (fst results) clusterName
         pid deployment subnetId sha) _ _ _ Hall) as Hinner.
  cbn [fst] in Hinner. unfold Q.handler in Hinner. rewrite Helb in Hinner.
  destruct o as [urlDesc|e|e]; cbn [Q.settle] in Hinner.
  - rewrite (then_resolved _ _ _ _ _ Hinner).
    unfold Q.handler, Q.then_. rewrite (call_run _ _ _ _ _ Htask).
    destruct r as [[]|e]; reflexivity.
  - apply then_rejected. exact Hinner.
  - apply then_rejected. exact Hinner.
Qed.

End CreateFacts.

(** C4, on the code.  [deploymentManager.create] starts with a call of
    [subnet.describeProject].  The object of the subnet manager carries
    no property of that name, so that every create call throws a
    TypeError there, whatever the provider would answer and before
    anything is requested of it: no create call reaches the load-balancer
    branch, and none resolves. *)
Theorem C4_create_throws_before_the_load_balancer_branch :
  forall (W : Type) (P : Env.Provider W) (L : Env.Lib) (vpcId : string)
         (describeProject : string -> Env.promise W (list Aws.SubnetDesc))
         (pid deployment sha appDef : string) (w : Env.World W),
    Js.hasProperty subnetManager.exported "describeProject" = false
    /\ deploymentManager.create P L vpcId describeProject pid deployment sha
         appDef w
       = (Q.Thrown (Js.TypeError "subnet.describeProject is not a function"),
          w)
    /\ forall o w',
         deploymentManager.create P L vpcId describeProject pid deployment
           sha appDef w = (o, w') ->
         Env.log w' = Env.log w /\ forall url, o <> Q.Resolved url.
Proof.
  intros W P L vpcId describeProject pid deployment sha appDef w.
  assert (H : deploymentManager.create P L vpcId describeProject pid
                deployment sha appDef w
              = (Q.Thrown
                   (Js.TypeError "subnet.describeProject is not a function"),
                 w)) by reflexivity.
  split; [reflexivity|]. split; [exact H|].
  intros o w' E. rewrite H in E. inversion E; subst. split; [reflexivity|].
  intros url; discriminate.
Qed.

(** ** The project manager *)

Section ProjectFacts.

Import Aws Env.
Context {W : Type} (P : Provider W) (L : Lib).

Lemma state_initialised (w : World W) :
  initialised (STATE w) ->
  projectManager.state P w = (Q.Resolved (STATE w), w).
Proof.
  intros (Hv & Hz). unfold projectManager.state. now rewrite Hv, Hz.
Qed.

(** [state()] calls the provider for the network and the zone only. *)
Lemma state_events (w : World W) :
  exists evs,
    log (snd (projectManager.state P w)) = (log w ++ evs)%list
    /\ Forall (fun ev => ev = VpcFindProject None \/ ev = R53FindId) evs.
Proof.
  unfold projectManager.state.
  destruct (_ || _).
  - exists [VpcFindProject None; R53FindId]. split.
    + unfold projectManager.initState, Q.then_, Q.all2, Q.handler, call,
        setState, getState.
      destruct (vpc_findProject P None (cloud w)) as [[v|e] c1]; cbn;
        destruct (r53_findId P c1) as [[z|e'] c2]; cbn;
        rewrite <- ?List.app_assoc; reflexivity.
    + constructor; [left; reflexivity|].
      constructor; [right; reflexivity|constructor].
  - exists []. split; [now rewrite app_nil_r|constructor].
Qed.

Lemma destroy_refused pid s r rs c2 (w w1 : World W) :
  projectManager.state P w = (Q.Resolved s, w1) ->
  ec2_describeProject P pid (cloud w1) = (Fulfilled (r :: rs), c2) ->
  projectManager.destroy P L pid w
  = (Q.Rejected
       (Js.Error ("ProjectManager: Cannot destroy project while " ++
                  "open pull requests exist")),
     {| cloud := c2; STATE := STATE w1;
        log := (log w1 ++ [Ec2DescribeProject pid])%list |}).
Proof.
  intros Hs Hd. unfold projectManager.destroy.
  rewrite (then_resolved _ _ _ _ _ Hs). unfold Q.handler.
  rewrite (then_resolved _ _ _ _ _ (call_fulfilled _ _ _ _ _ Hd)).
  reflexivity.
Qed.

Lemma destroy_touches_network_only_when_empty pid (w : World W) evs ev :
  log (snd (projectManager.destroy P L pid w)) = (log w ++ evs)%list ->
  In ev evs -> destroysNetwork ev ->
  exists s w1 c2,
    projectManager.state P w = (Q.Resolved s, w1)
    /\ ec2_describeProject P pid (cloud w1) = (Fulfilled [], c2).
Proof.
  intros Hlog Hin Hev.
  destruct (state_events w) as (evs0 & E0 & F0).
  assert (Hinit : forall x, In x evs0 -> ~ destroysNetwork x).
  { intros x Hx. rewrite List.Forall_forall in F0.
    destruct (F0 x Hx) as [-> | ->]; exact (fun H => H). }
  assert (Hquery : forall l,
            log (snd (projectManager.destroy P L pid w))
            = (log w ++ evs0 ++ l)%list ->
            Forall (fun x => ~ destroysNetwork x) l -> False).
  { intros l Hl Fl. rewrite Hl in Hlog. apply app_inv_head in Hlog.
    subst evs. apply in_app_or in Hin as [Hin|Hin].
    - exact (Hinit ev Hin Hev).
    - rewrite List.Forall_forall in Fl. exact (Fl ev Hin Hev). }
  destruct (projectManager.state P w) as [[s|e|e] w1] eqn:Hs;
    cbn [snd] in E0.
  - destruct (ec2_describeProject P pid (cloud w1)) as [[[|r rs]|e] c2] eqn:Hd.
    + exists s, w1, c2. split; [reflexivity|exact Hd].
    + exfalso. apply (Hquery [Ec2DescribeProject pid]).
      * rewrite (destroy_refused pid s r rs c2 w w1 Hs Hd). cbn [snd log].
        rewrite E0, <- List.app_assoc. reflexivity.
      * constructor; [exact (fun H => H)|constructor].
    + exfalso. apply (Hquery [Ec2DescribeProject pid]).
      * unfold projectManager.destroy.
        rewrite (then_resolved _ _ _ _ _ Hs). unfold Q.handler.
        rewrite (then_rejected _ _ _ _ _ (call_failed _ _ _ _ _ Hd)).
        cbn [snd log Q.settle]. rewrite E0, <- List.app_assoc. reflexivity.
      * constructor; [exact (fun H => H)|constructor].
  - exfalso. apply (Hquery []); [|constructor].
    unfold projectManager.destroy.
    rewrite (then_rejected _ _ _ _ _ Hs). cbn [snd].
    rewrite E0, app_nil_r. reflexivity.
  - exfalso. apply (Hquery []); [|constructor].
    unfold projectManager.destroy, Q.then_. rewrite Hs. cbn [snd].
    rewrite E0, app_nil_r. reflexivity.
Qed.

(** With no environment left, the subnet is deleted and then the ACL
    destroyed. *)
Lemma destroy_performed pid s sn sns c2 c3 c4 c5 (w w1 : World W) :
  projectManager.state P w = (Q.Resolved s, w1) ->
  Js.truthy (Js.Str pid) = true ->
  ec2_describeProject P pid (cloud w1) = (Fulfilled [], c2) ->
  describeSubnets P (projectManager.vpcOf s) (Some pid) c2
    = (Fulfilled (sn :: sns), c3) ->
  ec2_deleteSubnet P (SubnetId sn) c3 = (Fulfilled tt, c4) ->
  acl_destroy P pid c4 = (Fulfilled tt, c5) ->
  projectManager.destroy P L pid w
  = (Q.Resolved tt,
     {| cloud := c5; STATE := STATE w1;
        log := (log w1 ++
                [ Ec2DescribeProject pid;
                  DescribeSubnets (projectManager.vpcOf s) (Some pid);
                  Ec2DeleteSubnet (SubnetId sn);
                  AclDestroy pid ])%list |}).
Proof.
  intros Hs Hp Hd Hsub Hdel Hacl. unfold projectManager.destroy.
  rewrite (then_resolved _ _ _ _ _ Hs). unfold Q.handler.
  rewrite (then_resolved _ _ _ _ _ (call_fulfilled _ _ _ _ _ Hd)).
  unfold Q.handler, subnetManager.destroy, subnetManager.describe.
  rewrite Hp. cbn [negb].
  unfold Q.then_, call. cbn [cloud]. rewrite Hsub. cbn. unfold Q.handler.
  cbn. rewrite Hdel. cbn. unfold Q.handler. cbn. rewrite Hacl. cbn.
  rewrite <- !List.app_assoc. reflexivity.
Qed.

End ProjectFacts.

(** C7.  While the query for the instances of the project answers with a
    non-empty list, the destruction of the project is refused with an
    error and stops at that query: neither the subnet nor the ACL is
    touched.  In any run, a call that deletes the subnet or destroys the
    ACL is issued only when that query answered with the empty list; and
    then, the subnet being found and deleted, the ACL is destroyed. *)
Theorem C7_project_destroy_needs_no_environment :
  forall (W : Type) (P : Env.Provider W) (L : Env.Lib) (pid : string)
         (w : Env.World W),
    (forall s w1 r rs c2,
       projectManager.state P w = (Q.Resolved s, w1) ->
       Env.ec2_describeProject P pid (Env.cloud w1)
         = (Env.Fulfilled (r :: rs), c2) ->
       projectManager.destroy P L pid w
       = (Q.Rejected
            (Js.Error ("ProjectManager: Cannot destroy project while " ++
                       "open pull requests exist")),
          {| Env.cloud := c2; Env.STATE := Env.STATE w1;
             Env.log := (Env.log w1 ++ [Env.Ec2DescribeProject pid])%list |}))
    /\ (forall evs ev,
          Env.log (snd (projectManager.destroy P L pid w))
            = (Env.log w ++ evs)%list ->
          In ev evs -> destroysNetwork ev ->
          exists s w1 c2,
            projectManager.state P w = (Q.Resolved s, w1)
            /\ Env.ec2_describeProject P pid (Env.cloud w1)
               = (Env.Fulfilled [], c2))
    /\ (forall s w1 sn sns c2 c3 c4 c5,
          projectManager.state P w = (Q.Resolved s, w1) ->
          Js.truthy (Js.Str pid) = true ->
          Env.ec2_describeProject P pid (Env.cloud w1)
            = (Env.Fulfilled [], c2) ->
          Env.describeSubnets P (projectManager.vpcOf s) (Some pid) c2
            = (Env.Fulfilled (sn :: sns), c3) ->
          Env.ec2_deleteSubnet P (Aws.SubnetId sn) c3
            = (Env.Fulfilled tt, c4) ->
          Env.acl_destroy P pid c4 = (Env.Fulfilled tt, c5) ->
          projectManager.destroy P L pid w
          = (Q.Resolved tt,
             {| Env.cloud := c5; Env.STATE := Env.STATE w1;
                Env.log :=
                  (Env.log w1 ++
                   [ Env.Ec2DescribeProject pid;
                     Env.DescribeSubnets (projectManager.vpcOf s) (Some pid);
                     Env.Ec2DeleteSubnet (Aws.SubnetId sn);
                     Env.AclDestroy pid ])%list |})).
Proof.
  intros W P L pid w. split; [|split].
  - intros s w1 r rs c2. apply destroy_refused.
  - intros evs ev. apply destroy_touches_network_only_when_empty.
  - intros s w1 sn sns c2 c3 c4 c5. apply destroy_performed.
Qed.

Lemma C7_project_destroy_needs_no_environment_witness :
  projectManager.destroy Mock.provider Mock.lib "p" (Mock.world Mock.deployed)
  = (Q.Rejected
       (Js.Error ("ProjectManager: Cannot destroy project while " ++
                  "open pull requests exist")),
     {| Env.cloud := Mock.deployed; Env.STATE := Mock.ready;
        Env.log := [Env.Ec2DescribeProject "p"] |})
  /\ projectManager.destroy Mock.provider Mock.lib "p"
       (Mock.world Mock.network)
     = (Q.Resolved tt,
        {| Env.cloud := Mock.network; Env.STATE := Mock.ready;
           Env.log := [ Env.Ec2DescribeProject "p";
                        Env.DescribeSubnets "vpc-1" (Some "p");
                        Env.Ec2DeleteSubnet "subnet-a";
                        Env.AclDestroy "p" ] |}).
Proof.
  split.
  - exact (proj1 (C7_project_destroy_needs_no_environment Mock.Cloud
                    Mock.provider Mock.lib "p" (Mock.world Mock.deployed))
             Mock.ready (Mock.world Mock.deployed) _ _ Mock.deployed
             eq_refl eq_refl).
  - exact (proj2 (proj2 (C7_project_destroy_needs_no_environment Mock.Cloud
                    Mock.provider Mock.lib "p" (Mock.world Mock.network)))
             Mock.ready (Mock.world Mock.network) _ _ Mock.network
             Mock.network Mock.network Mock.network
             eq_refl eq_refl eq_refl eq_refl eq_refl eq_refl).
Defined.

(** ** Finding or creating a project *)

Section ProjectTagFacts.

Import Aws Env.
Context (L : Lib) (pid : string).

Lemma tagged_carries sn :
  tagsProject L pid sn = true <-> carriesProject L pid sn.
Proof.
  unfold tagsProject, carriesProject.
  rewrite existsb_exists, List.Exists_exists.
  split; intros (tag & Hin & H); exists tag; (split; [exact Hin|]).
  - apply andb_prop in H as [Hk Hv].
    apply String.eqb_eq in Hk, Hv. now split.
  - destruct H as [-> ->]. now rewrite !String.eqb_refl.
Qed.

Lemma isPidInSubnetList_tagged lst :
  subnetManager.isPidInSubnetList L pid lst = existsb (tagsProject L pid) lst.
Proof. reflexivity. Qed.

Lemma findProjectTag_tags (sn : SubnetDesc) tags :
  forall acc : option SubnetDesc,
  fold_left (fun subnet tag =>
               if negb (String.eqb (Key tag) (PROJECT_TAG L)) then subnet
               else if String.eqb (Value tag) pid then Some sn
               else subnet) tags acc
  = if existsb (fun tag =>
                  String.eqb (Key tag) (PROJECT_TAG L)
                  && String.eqb (Value tag) pid) tags
    then Some sn else acc.
Proof.
  induction tags as [|tag tags IH]; intros acc; cbn; [reflexivity|].
  rewrite IH.
  destruct (String.eqb (Key tag) (PROJECT_TAG L)),
           (String.eqb (Value tag) pid); cbn;
    destruct (existsb _ tags); reflexivity.
Qed.

Lemma findProjectTag_snoc lst sn :
  subnetManager.findProjectTag L pid (lst ++ [sn])
  = if tagsProject L pid sn then Some sn
    else subnetManager.findProjectTag L pid lst.
Proof.
  unfold subnetManager.findProjectTag. rewrite fold_left_app. cbn.
  apply findProjectTag_tags.
Qed.

Lemma findProjectTag_spec lst :
  match subnetManager.findProjectTag L pid lst with
  | None => existsb (tagsProject L pid) lst = false
  | Some sn =>
      exists before after,
        lst = (before ++ sn :: after)%list
        /\ tagsProject L pid sn = true
        /\ existsb (tagsProject L pid) after = false
  end.
Proof.
  induction lst as [|sn lst IH] using rev_ind; [reflexivity|].
  rewrite findProjectTag_snoc. destruct (tagsProject L pid sn) eqn:Hsn.
  - exists lst, []. repeat split. exact Hsn.
  - destruct (subnetManager.findProjectTag L pid lst) as [found|].
    + destruct IH as (before & after & -> & Hf & Ha).
      exists before, (after ++ [sn])%list.
      rewrite <- List.app_assoc. repeat split; [exact Hf|].
      rewrite existsb_app, Ha. cbn. now rewrite Hsn.
    + rewrite existsb_app, IH. cbn. now rewrite Hsn.
Qed.

End ProjectTagFacts.

Section FindFacts.

Import Aws Env.
Context {W : Type} (P : Provider W) (L : Lib) (vpcId : string).

Lemma findProjectSubnet_run pid lst c (w : World W) :
  describeSubnets P vpcId None (cloud w) = (Fulfilled lst, c) ->
  subnetManager.findProjectSubnet P L vpcId pid w
  = (match subnetManager.findProjectTag L pid lst with
     | Some sn => Q.Resolved sn
     | None => Q.Rejected (Js.Error
                 ("No Clusternator Subnet Found For Project: " ++ pid))
     end,
     {| cloud := c; STATE := STATE w;
        log := (log w ++ [DescribeSubnets vpcId None])%list |}).
Proof.
  intros Hd. unfold subnetManager.findProjectSubnet, subnetManager.describe.
  rewrite (then_resolved _ _ _ _ _ (call_fulfilled _ _ _ _ _ Hd)).
  destruct (subnetManager.findProjectTag L pid lst); reflexivity.
Qed.

Lemma findExistingPid_run pid lst c (w : World W) :
  describeSubnets P vpcId None (cloud w) = (Fulfilled lst, c) ->
  subnetManager.findExistingPid P L vpcId pid w
  = (if subnetManager.isPidInSubnetList L pid lst
     then Q.Rejected (Js.Error
            ("Create Subnet Failed: Project: " ++ pid ++ " exists"))
     else Q.Resolved tt,
     {| cloud := c; STATE := STATE w;
        log := (log w ++ [DescribeSubnets vpcId None])%list |}).
Proof.
  intros Hd. unfold subnetManager.findExistingPid, subnetManager.describe.
  rewrite (then_resolved _ _ _ _ _ (call_fulfilled _ _ _ _ _ Hd)).
  destruct (subnetManager.isPidInSubnetList L pid lst); reflexivity.
Qed.

Lemma isPidInSubnetList_carries pid lst :
  subnetManager.isPidInSubnetList L pid lst = true
  <-> Exists (carriesProject L pid) lst.
Proof.
  rewrite isPidInSubnetList_tagged, existsb_exists, List.Exists_exists.
  split; intros (sn & Hin & Hsn); exists sn;
    (split; [exact Hin|]); now apply tagged_carries.
Qed.

End FindFacts.

Section ProjectSetupFacts.

Import Aws Env.
Context {W : Type} (P : Provider W) (L : Lib).

Lemma not_initialised (s : ManagerState) :
  ~ initialised s ->
  projectManager.falsy (vpcId s) || projectManager.falsy (zoneId s) = true.
Proof.
  unfold initialised. intros H.
  destruct (projectManager.falsy (vpcId s)); [reflexivity|].
  destruct (projectManager.falsy (zoneId s)); [reflexivity|].
  exfalso. apply H. now split.
Qed.

(** The runs of [initState], by the two answers. *)
Lemma initState_run r1 c1 r2 c2 (w : World W) :
  vpc_findProject P None (cloud w) = (r1, c1) ->
  r53_findId P c1 = (r2, c2) ->
  let evs := [VpcFindProject None; R53FindId] in
  match r1, r2 with
  | Fulfilled v, Fulfilled z =>
      let s := {| vpcId := Some (VpcId v); zoneId := Some z |} in
      projectManager.initState P w
      = (Q.Resolved s,
         {| cloud := c2; STATE := s; log := (log w ++ evs)%list |})
  | _, _ =>
      exists e,
        In e (failureOf r1 ++ failureOf r2)
        /\ projectManager.initState P w
           = (Q.Rejected e,
              {| cloud := c2; STATE := STATE w;
                 log := (log w ++ evs)%list |})
  end.
Proof.
  intros H1 H2 evs.
  unfold projectManager.initState, Q.then_, Q.all2, Q.handler, call,
    setState, getState.
  rewrite H1. cbn. rewrite H2.
  destruct r1 as [v|e], r2 as [z|e']; cbn;
    rewrite <- ?List.app_assoc; try reflexivity.
  - exists e'. split; [now left|reflexivity].
  - exists e. split; [now left|reflexivity].
  - destruct (race P _ e e').
    + exists e'. split; [right; now left|reflexivity].
    + exists e. split; [now left|reflexivity].
Qed.

Lemma fail_resolved {A} (p : promise W A) g w a w' :
  p w = (Q.Resolved a, w') -> Q.fail p g w = (Q.Resolved a, w').
Proof. intros H. unfold Q.fail. now rewrite H. Qed.

Lemma fail_rejected {A} (p : promise W A) g w e w' :
  p w = (Q.Rejected e, w') -> Q.fail p g w = Q.handler (g e) w'.
Proof. intros H. unfold Q.fail. now rewrite H. Qed.

Lemma handler_handler {A} (p : promise W A) w :
  Q.handler (Q.handler p) w = Q.handler p w.
Proof.
  unfold Q.handler. destruct (p w) as [[a|e|e] w']; reflexivity.
Qed.

Lemma handler_eq {A} (p q : promise W A) w w' :
  p w = q w' -> Q.handler p w = Q.handler q w'.
Proof. intros H. unfold Q.handler. now rewrite H. Qed.

Lemma findOrCreateProject_run pid r c (w : World W) :
  initialised (STATE w) ->
  describeSubnets P (projectManager.vpcOf (STATE w)) None (cloud w) = (r, c) ->
  let w1 :=
    {| cloud := c; STATE := STATE w;
       log := (log w ++
               [DescribeSubnets (projectManager.vpcOf (STATE w)) None])%list
    |} in
  projectManager.findOrCreateProject P L pid w
  = match r with
    | Fulfilled lst =>
        match subnetManager.findProjectTag L pid lst with
        | Some sn => (Q.Resolved (inl sn), w1)
        | None =>
            Q.handler
              (Q.then_ (projectManager.create P L pid)
                 (fun sDesc => Q.resolve (inr sDesc))) w1
        end
    | Failed _ =>
        Q.handler
          (Q.then_ (projectManager.create P L pid)
             (fun sDesc => Q.resolve (inr sDesc))) w1
    end.
Proof.
  intros Hi Hd w1. unfold projectManager.findOrCreateProject.
  rewrite (then_resolved _ _ _ _ _ (state_initialised P w Hi)).
  destruct r as [lst|e].
  - pose proof (findProjectSubnet_run P L (projectManager.vpcOf (STATE w)) pid
                  lst c w Hd) as Hf.
    fold w1 in Hf.
    destruct (subnetManager.findProjectTag L pid lst) as [sn|].
    + apply handler_resolved, fail_resolved.
      now rewrite (then_resolved _ _ _ _ _ Hf).
    + etransitivity; [|apply handler_handler].
      apply handler_eq.
      eapply (fail_rejected _
               (fun _ : Js.error =>
                  Q.then_ (projectManager.create P L pid)
                    (fun sDesc =>
                       Q.resolve
                         (inr sDesc : SubnetDesc + projectManager.ProjectDesc)))
               w _ w1).
      apply then_rejected. exact Hf.
  - assert (Hf : subnetManager.findProjectSubnet P L
                   (projectManager.vpcOf (STATE w)) pid w
                 = (Q.Rejected e, w1)).
    { unfold subnetManager.findProjectSubnet, subnetManager.describe.
      now rewrite (then_rejected _ _ _ _ _ (call_failed _ _ w _ _ Hd)). }
    etransitivity; [|apply handler_handler].
    apply handler_eq.
      eapply (fail_rejected _
               (fun _ : Js.error =>
                  Q.then_ (projectManager.create P L pid)
                    (fun sDesc =>
                       Q.resolve
                         (inr sDesc : SubnetDesc + projectManager.ProjectDesc)))
               w _ w1).
      apply then_rejected. exact Hf.
Qed.

(** [create] requests the default route table, an ACL and a repository,
    whatever each answers. *)
Lemma projectCreate_first pid r1 c1 r2 c2 r3 c3 (w : World W) :
  initialised (STATE w) ->
  route_findDefault P (cloud w) = (r1, c1) ->
  acl_create P pid c1 = (r2, c2) ->
  ecr_create P pid c2 = (r3, c3) ->
  let first :=
    Q.all3 (race P) (call RouteFindDefault (route_findDefault P))
      (call (AclCreate pid) (acl_create P pid))
      (call (EcrCreate pid) (ecr_create P pid)) in
  let w3 :=
    {| cloud := c3; STATE := STATE w;
       log := (log w ++ [RouteFindDefault; AclCreate pid;
                         EcrCreate pid])%list |} in
  match r1, r2, r3 with
  | Fulfilled a, Fulfilled b, Fulfilled d =>
      first w = (Q.Resolved (a, b, d), w3)
  | _, _, _ =>
      exists e,
        In e (failureOf r1 ++ failureOf r2 ++ failureOf r3)
        /\ first w = (Q.Rejected e, w3)
  end.
Proof.
  intros _ H1 H2 H3. unfold Q.all3, Q.all2, call.
  rewrite H1. cbn. rewrite H2.
  destruct r1 as [a|e1], r2 as [b|e2]; cbn; rewrite H3;
    destruct r3 as [d|e3]; cbn; rewrite <- ?List.app_assoc;
    try reflexivity;
    repeat match goal with
           | |- context [if ?b then _ else _] => destruct b
           end;
    eexists; (split; [|reflexivity]); cbn; tauto.
Qed.

End ProjectSetupFacts.

(** ** Redeploy and expiry sweep *)

Section PullRequestFacts.

Import Aws Env.
Context {W : Type} (P : Provider W) (L : Lib).

Lemma handler_call {A} ev (f : W -> settled A * W) (w : World W) :
  Q.handler (call ev f) w = call ev f w.
Proof.
  unfold Q.handler, call. destruct (f (cloud w)) as [[a|e] c]; reflexivity.
Qed.

Lemma handler_eq_call {A} (p : promise W A) ev (f : W -> settled A * W)
    (w w' : World W) :
  p w = call ev f w' -> Q.handler p w = call ev f w'.
Proof. intros H. unfold Q.handler. rewrite H. apply handler_call. Qed.

Lemma destroyPR_run pid pr r c (w : World W) :
  initialised (STATE w) ->
  pr_destroy P pid pr (cloud w) = (r, c) ->
  projectManager.destroyPR P pid pr w
  = (outcomeOf r,
     {| cloud := c; STATE := STATE w;
        log := (log w ++ [PrDestroy pid pr])%list |}).
Proof.
  intros Hi Hr. unfold projectManager.destroyPR.
  rewrite (then_resolved _ _ _ _ _ (state_initialised P w Hi)).
  rewrite handler_call. now apply call_run.
Qed.

(** The sweep requests the teardown of each selected environment, in
    order, whatever the earlier requests answer. *)
Lemma sweep_all dead : forall (w : World W),
  initialised (STATE w) ->
  log (snd (Q.all (race P) (projectManager.mapDestroy P L dead) w))
  = (log w ++ map (sweepCall L) dead)%list.
Proof.
  induction dead as [|v dead IH]; intros w Hi.
  - cbn. now rewrite app_nil_r.
  - cbn [projectManager.mapDestroy map Q.all]. unfold Q.all2.
    destruct (pr_destroy P (v !! PROJECT_TAG L)
                (default "undefined" (v !! PR_TAG L)) (cloud w))
      as [r c] eqn:Hr.
    rewrite (destroyPR_run _ _ _ _ _ Hi Hr).
    set (w' := {| cloud := c; STATE := STATE w; log := _ |}).
    specialize (IH w' Hi). fold (projectManager.mapDestroy P L dead).
    destruct (Q.all (race P) (projectManager.mapDestroy P L dead) w')
      as [o' w''] eqn:Hall.
    cbn [snd] in IH.
    assert (Hgoal : log w'' = (log w ++ sweepCall L v
                                 :: map (sweepCall L) dead)%list).
    { rewrite IH. subst w'. cbn [log]. rewrite <- List.app_assoc.
      reflexivity. }
    destruct r as [[]|e], o' as [l|e'|e']; cbn; exact Hgoal.
Qed.

Lemma dec_inj n m : Cidr.dec n = Cidr.dec m -> n = m.
Proof.
  intros H. apply (f_equal Js.stringToNumber) in H.
  rewrite !stringToNumber_dec in H. injection H. lia.
Qed.

(** The object [getTagsFromInstances] builds from the tags of an
    instance gives each key the value of the last tag with this key. *)
Lemma tagObject_fold tags : forall (m : gmap string string) k,
  fold_left (fun memo t => <[ Key t := Value t ]> memo) tags m !! k
  = match tagValue k tags with
    | Some v => Some v
    | None => m !! k
    end.
Proof.
  induction tags as [|t r IH]; intros m k; cbn [fold_left tagValue];
    [reflexivity|].
  rewrite IH. destruct (tagValue k r); [reflexivity|].
  destruct (String.eqb (Key t) k) eqn:E.
  - apply String.eqb_eq in E. subst. apply lookup_insert_eq.
  - apply String.eqb_neq in E. now apply lookup_insert_ne.
Qed.

Lemma tagObject_lookup tags k :
  projectManager.tagObject tags !! k = tagValue k tags.
Proof.
  unfold projectManager.tagObject. rewrite tagObject_fold.
  destruct (tagValue k tags); [reflexivity|apply lookup_empty].
Qed.

(** With one tag per key, the value of a key is that of the tag that
    has it. *)
Lemma tagValue_unique k tags :
  List.NoDup (map Key tags) ->
  forall v, tagValue k tags = Some v <-> In {| Key := k; Value := v |} tags.
Proof.
  induction tags as [|[k' v'] r IH]; intros Hnd v; cbn [tagValue map In].
  - split; [discriminate|tauto].
  - inversion Hnd as [|? ? Hk' Hr]; subst.
    specialize (IH Hr). cbn [Key Value] in *.
    destruct (tagValue k r) as [u|] eqn:Eu.
    + assert (Hu : In {| Key := k; Value := u |} r) by now apply IH.
      assert (Hne : k' <> k).
      { intros ->. apply Hk'. apply in_map_iff.
        exists {| Key := k; Value := u |}. now split. }
      split.
      * intros [= ->]. now right.
      * intros [[= -> _]|Hin]; [contradiction|].
        apply IH in Hin. exact Hin.
    + destruct (String.eqb k' k) eqn:E.
      * apply String.eqb_eq in E. subst k'. split.
        -- intros [= ->]. now left.
        -- intros [[= ->]|Hin]; [reflexivity|].
           apply IH in Hin. discriminate Hin.
      * apply String.eqb_neq in E. split; [discriminate|].
        intros [[= -> _]|Hin]; [contradiction|].
        apply IH in Hin. discriminate Hin.
Qed.

Lemma tagObjects_instances d :
  tagObjects d
  = map (fun i => projectManager.tagObject (Tags i)) (instancesOf d).
Proof.
  unfold tagObjects, instancesOf.
  induction d as [|r d IH]; cbn; [reflexivity|].
  now rewrite map_app, IH.
Qed.

Lemma filter_of_map {A B} (f : B -> bool) (g : A -> B) (l : list A) :
  List.filter f (map g l) = map g (List.filter (fun x => f (g x)) l).
Proof.
  induction l as [|x l IH]; cbn; [reflexivity|].
  destruct (f (g x)); cbn; now rewrite IH.
Qed.

(** On tags as the system writes them, the filter of the sweep selects
    the expired pull requests. *)
Lemma selected_expired now i :
  wellTagged L i ->
  projectManager.nowGt now (tagValue (EXPIRES_TAG L) (Tags i))
  && ec2Manager.truthyStr (tagValue (PR_TAG L) (Tags i)) = true
  <-> expiredPr L now i.
Proof.
  intros (Hpr & Hex). unfold expiredPr, projectManager.nowGt.
  destruct (tagValue (EXPIRES_TAG L) (Tags i)) as [t|] eqn:Et.
  - destruct (Hex t eq_refl) as (n & ->).
    cbn [Js.unaryPlus]. rewrite stringToNumber_dec. cbn [Js.gt].
    destruct (tagValue (PR_TAG L) (Tags i)) as [pr|] eqn:Ep.
    + assert (Ht : ec2Manager.truthyStr (Some pr) = true).
      { cbn. apply negb_true_iff, String.eqb_neq. now apply Hpr. }
      rewrite Ht, andb_true_r, Z.ltb_lt. split.
      * intros Hlt. exists pr, n. repeat split; assumption.
      * intros (pr' & n' & _ & Hn & Hlt). injection Hn as Hn.
        apply dec_inj in Hn. now subst.
    + cbn [ec2Manager.truthyStr]. rewrite andb_false_r.
      split; [discriminate|]. intros (pr' & n' & Hp' & _). discriminate.
  - cbn. split; [discriminate|]. intros (pr' & n' & _ & Hn & _). discriminate.
Qed.

Lemma extractKeys_tagObjects d :
  projectManager.extractKeys d = tagObjects d.
Proof.
  unfold projectManager.extractKeys, tagObjects.
  induction d as [|r d IH]; cbn; [reflexivity|].
  rewrite map_app, IH, map_map. reflexivity.
Qed.

(** [R.contains] on the values a key has in the tag objects of the
    listed instances. *)
Lemma contains_tagged k name d :
  projectManager.containsPr name
    (map (fun o : gmap string string => o !! k) (tagObjects d)) = true
  <-> exists i, In i (instancesOf d) /\ tagValue k (Tags i) = Some name.
Proof.
  unfold projectManager.containsPr.
  rewrite existsb_exists, tagObjects_instances, map_map. split.
  - intros (x & Hin & Hx). apply in_map_iff in Hin as (i & <- & Hi).
    exists i. split; [exact Hi|]. rewrite tagObject_lookup in Hx.
    destruct (tagValue k (Tags i)) as [v|]; [|discriminate].
    apply String.eqb_eq in Hx. now subst.
  - intros (i & Hi & Hv). exists (Some name). split.
    + apply in_map_iff. exists i.
      split; [now rewrite tagObject_lookup|exact Hi].
    + apply String.eqb_refl.
Qed.

Lemma containsPr_spec pr d :
  projectManager.containsPr pr
    (map (fun o : gmap string string => o !! PR_TAG L) (tagObjects d)) = true
  <-> hasPr L pr d.
Proof. apply contains_tagged. Qed.

(** The sweep, on the instances listed. *)
Lemma sweep_run s d c2 (w w1 : World W) :
  projectManager.state P w = (Q.Resolved s, w1) ->
  initialised (STATE w1) ->
  describeInstances P (projectManager.vpcOf s) All (cloud w1)
    = (Fulfilled d, c2) ->
  let selected := fun i : Instance =>
    projectManager.nowGt (now P (cloud w)) (tagValue (EXPIRES_TAG L) (Tags i))
    && ec2Manager.truthyStr (tagValue (PR_TAG L) (Tags i)) in
  log (snd (projectManager.destroyExpiredPRs P L w))
  = (log w1 ++
     DescribeInstances (projectManager.vpcOf s) All
     :: map (sweepRequest L) (List.filter selected (instancesOf d)))%list.
Proof.
  intros Hs Hi Hd selected.
  unfold projectManager.destroyExpiredPRs.
  rewrite (then_resolved _ _ _ _ _ Hs). unfold Q.handler.
  unfold ec2Manager.describe.
  rewrite (then_resolved _ _ _ _ _ (call_fulfilled _ _ _ _ _ Hd)).
  unfold Q.handler. rewrite extractKeys_tagObjects.
  unfold projectManager.extractDeadPRs.
  set (w2 := {| cloud := c2; STATE := STATE w1; log := _ |}).
  match goal with
  | |- context [Q.all _ (projectManager.mapDestroy P L ?dead) w2] =>
      pose proof (sweep_all dead w2 Hi) as Hall;
      destruct (Q.all (race P) (projectManager.mapDestroy P L dead) w2)
        as [o w3]
  end.
  cbn [snd] in *. rewrite Hall. subst w2. cbn [log].
  rewrite <- List.app_assoc. cbn [app]. do 2 f_equal.
  rewrite tagObjects_instances, filter_of_map, map_map.
  assert (Hsel : forall i,
            projectManager.nowGt (now P (cloud w))
              (projectManager.tagObject (Tags i) !! EXPIRES_TAG L)
            && ec2Manager.truthyStr
                 (projectManager.tagObject (Tags i) !! PR_TAG L)
            = selected i).
  { intros i. subst selected. cbv beta. now rewrite !tagObject_lookup. }
  rewrite (List.filter_ext _ _ Hsel). apply map_ext. intros i.
  unfold sweepCall, sweepRequest. now rewrite !tagObject_lookup.
Qed.

End PullRequestFacts.

(** C5.  The sweep reads the clock, lists the managed instances and
    requests the teardown of a pull-request environment for exactly those
    listed instances whose tags carry a PR tag and an expiry timestamp
    before the time read, one request per such instance in the order of
    the listing, each with the project and the pull request that the
    tags of the instance name.  Nothing is requested for an instance that
    expires later or carries no PR tag. *)
Theorem C5_sweep_destroys_expired_prs :
  forall (W : Type) (P : Env.Provider W) (L : Env.Lib) (w w1 : Env.World W)
         (s : Env.ManagerState) (d : list Aws.Reservation) (c2 : W),
    projectManager.state P w = (Q.Resolved s, w1) ->
    initialised (Env.STATE w1) ->
    Env.describeInstances P (projectManager.vpcOf s) Aws.All (Env.cloud w1)
      = (Env.Fulfilled d, c2) ->
    Forall (wellTagged L) (instancesOf d) ->
    let now := Env.now P (Env.cloud w) in
    exists selected : Aws.Instance -> bool,
      Env.log (snd (projectManager.destroyExpiredPRs P L w))
      = (Env.log w1 ++
         Env.DescribeInstances (projectManager.vpcOf s) Aws.All
         :: map (sweepRequest L) (List.filter selected (instancesOf d)))%list
      /\ (forall i, In i (instancesOf d) ->
                    (selected i = true <-> expiredPr L now i))
      /\ (forall i pr pid,
            In i (instancesOf d) -> selected i = true ->
            tagValue (Env.PR_TAG L) (Aws.Tags i) = Some pr ->
            tagValue (Env.PROJECT_TAG L) (Aws.Tags i) = pid ->
            sweepRequest L i = Env.PrDestroy pid pr)
      /\ (forall i n, In i (instancesOf d) ->
                      tagValue (Env.EXPIRES_TAG L) (Aws.Tags i)
                      = Some (Cidr.dec n) ->
                      now <= Z.of_N n -> selected i = false)
      /\ (forall i, In i (instancesOf d) ->
                    tagValue (Env.PR_TAG L) (Aws.Tags i) = None ->
                    selected i = false).
Proof.
  intros W P L w w1 s d c2 Hs Hi Hd Hwf now.
  set (selected := fun i : Aws.Instance =>
         projectManager.nowGt now (tagValue (Env.EXPIRES_TAG L) (Aws.Tags i))
         && ec2Manager.truthyStr (tagValue (Env.PR_TAG L) (Aws.Tags i))).
  assert (Hsel : forall i, In i (instancesOf d) ->
                           (selected i = true <-> expiredPr L now i)).
  { intros i Hin. apply selected_expired.
    rewrite List.Forall_forall in Hwf. now apply Hwf. }
  exists selected. split; [|split; [exact Hsel|split; [|split]]].
  - exact (sweep_run P L s d c2 w w1 Hs Hi Hd).
  - intros i pr pid _ _ Hp Hpid. unfold sweepRequest. now rewrite Hp, Hpid.
  - intros i n Hin Hn Hle. destruct (selected i) eqn:E; [|reflexivity].
    apply (Hsel i Hin) in E. destruct E as (pr & n' & _ & Hn' & Hlt).
    rewrite Hn in Hn'. injection Hn' as Hn'. apply dec_inj in Hn'. lia.
  - intros i Hin Hp. destruct (selected i) eqn:E; [|reflexivity].
    apply (Hsel i Hin) in E. destruct E as (pr & n' & Hp' & _). congruence.
Qed.

Lemma C5_sweep_destroys_expired_prs_witness :
  Forall (wellTagged Mock.lib) (instancesOf Mock.fleet)
  /\ (exists selected : Aws.Instance -> bool,
        Env.log (snd (projectManager.destroyExpiredPRs Mock.provider Mock.lib
                        (Mock.world Mock.sweepable)))
        = (Env.DescribeInstances "vpc-1" Aws.All
           :: map (sweepRequest Mock.lib)
                (List.filter selected (instancesOf Mock.fleet)))
        /\ forall i, In i (instancesOf Mock.fleet) ->
                     (selected i = true <-> expiredPr Mock.lib 1000000 i))
  /\ Env.log (snd (projectManager.destroyExpiredPRs Mock.provider Mock.lib
                     (Mock.world Mock.sweepable)))
     = [ Env.DescribeInstances "vpc-1" Aws.All;
         Env.PrDestroy (Some "p") "7" ].
Proof.
  assert (Hwf : Forall (wellTagged Mock.lib) (instancesOf Mock.fleet)).
  { unfold instancesOf, Mock.fleet. cbn [map concat app Aws.Instances].
    repeat (constructor;
            [ split;
              [ intros pr H; vm_compute in H;
                first [ discriminate H
                      | injection H as <-; discriminate ]
              | intros t H; vm_compute in H;
                first [ discriminate H
                      | injection H as <-;
                        first [ exists 999000%N; reflexivity
                              | exists 1100000%N; reflexivity ] ] ]
            | ]).
    constructor. }
  split; [exact Hwf|]. split; [|vm_compute; reflexivity].
  destruct (C5_sweep_destroys_expired_prs Mock.Cloud Mock.provider Mock.lib
              (Mock.world Mock.sweepable) (Mock.world Mock.sweepable)
              Mock.ready Mock.fleet Mock.sweepable
              eq_refl (conj eq_refl eq_refl) eq_refl Hwf)
    as (selected & Hlog & Hsel & _).
  exists selected. split; [exact Hlog|exact Hsel].
Defined.

Section RedeployFacts.

Import Aws Env.
Context {W : Type} (P : Provider W) (L : Lib).

(** Whether instances of the pull request exist, as [prExists] reads it
    from the instances of the project. *)
Lemma prExists_run pid pr rsv c3 (w2 : World W) :
  initialised (STATE w2) ->
  describeInstances P (projectManager.vpcOf (STATE w2)) (ByProject pid)
    (cloud w2) = (Fulfilled rsv, c3) ->
  projectManager.prExists P L pid pr w2
  = (Q.Resolved
       (projectManager.containsPr pr
          (map (fun o : gmap string string => o !! PR_TAG L)
             (tagObjects rsv))),
     {| cloud := c3; STATE := STATE w2;
        log := (log w2 ++
                [DescribeInstances (projectManager.vpcOf (STATE w2))
                   (ByProject pid)])%list |}).
Proof.
  intros Hi Hd.
  unfold projectManager.prExists, projectManager.listDeployments.
  assert (Hlist :
    Q.then_ (projectManager.state P)
      (fun s => ec2Manager.describeProject P (projectManager.vpcOf s) pid) w2
    = (Q.Resolved rsv,
       {| cloud := c3; STATE := STATE w2;
          log := (log w2 ++
                  [DescribeInstances (projectManager.vpcOf (STATE w2))
                     (ByProject pid)])%list |})).
  { rewrite (then_resolved _ _ _ _ _ (state_initialised P w2 Hi)).
    unfold ec2Manager.describeProject. rewrite handler_call.
    now apply call_fulfilled. }
  rewrite (then_resolved _ _ _ _ _ Hlist). reflexivity.
Qed.

(** The runs of [createPR] once the manager state and the project are
    there. *)
Lemma createPR_run pid pr appDef sshData s d rsv c3 (w w1 w2 : World W) :
  projectManager.state P w = (Q.Resolved s, w1) ->
  projectManager.findOrCreateProject P L pid w1 = (Q.Resolved d, w2) ->
  initialised (STATE w2) ->
  describeInstances P (projectManager.vpcOf (STATE w2)) (ByProject pid)
    (cloud w2) = (Fulfilled rsv, c3) ->
  let w3 :=
    {| cloud := c3; STATE := STATE w2;
       log := (log w2 ++
               [DescribeInstances (projectManager.vpcOf (STATE w2))
                  (ByProject pid)])%list |} in
  projectManager.createPR P L pid pr appDef sshData w
  = if projectManager.containsPr pr
         (map (fun o : gmap string string => o !! PR_TAG L) (tagObjects rsv))
    then
      match pr_destroy P (Some pid) pr c3 with
      | (Fulfilled _, c4) =>
          call (PrCreate pid pr appDef sshData)
            (pr_create P pid pr appDef sshData)
            {| cloud := c4; STATE := STATE w2;
               log := (log w3 ++ [PrDestroy (Some pid) pr])%list |}
      | (Failed e, c4) =>
          (Q.Rejected e,
           {| cloud := c4; STATE := STATE w2;
              log := (log w3 ++ [PrDestroy (Some pid) pr])%list |})
      end
    else
      call (PrCreate pid pr appDef sshData)
        (pr_create P pid pr appDef sshData) w3.
Proof.
  intros Hs Hf Hi Hd w3. unfold projectManager.createPR.
  rewrite (then_resolved _ _ _ _ _ Hs).
  pose proof (prExists_run pid pr rsv c3 w2 Hi Hd) as Hex. fold w3 in Hex.
  set (found := projectManager.containsPr _ _) in *.
  set (inner := Q.then_ (projectManager.findOrCreateProject P L pid) _).
  set (create := call (PrCreate pid pr appDef sshData) _).
  assert (Hinner : inner w1
            = Q.handler
                (if negb found then Q.resolve tt
                 else projectManager.destroyPR P (Some pid) pr) w3).
  { subst inner. rewrite (then_resolved _ _ _ _ _ Hf). unfold Q.handler at 1.
    rewrite (then_resolved _ _ _ _ _ Hex). unfold Q.handler.
    destruct ((if negb found then Q.resolve tt
               else projectManager.destroyPR P (Some pid) pr) w3)
      as [[]]; reflexivity. }
  destruct found; cbn [negb] in Hinner.
  - destruct (pr_destroy P (Some pid) pr c3) as [r c4] eqn:Hr.
    unfold Q.handler in Hinner.
    rewrite (destroyPR_run P (Some pid) pr r c4 w3 Hi Hr) in Hinner.
    destruct r as [[]|e]; cbn [outcomeOf Q.settle] in Hinner.
    + apply handler_eq_call.
      rewrite (then_resolved _ _ _ _ _ Hinner). apply handler_call.
    + apply handler_rejected. now apply then_rejected.
  - unfold Q.handler, Q.resolve in Hinner. cbn [Q.settle] in Hinner.
    apply handler_eq_call.
    rewrite (then_resolved _ _ _ _ _ Hinner). apply handler_call.
Qed.

End RedeployFacts.

Section SetupFacts.

Import Aws Env.
Context {W : Type} (P : Provider W) (L : Lib).

Lemma only_try {A B} Q (x : Js.except A) (k : A -> promise W B) :
  (forall a, only Q (k a)) -> only Q (Q.try_ x k).
Proof. intros H. destruct x; cbn [Q.try_]; [apply H|apply only_throw]. Qed.

Ltac only_steps :=
  repeat (first
    [ apply only_resolve | apply only_throw | apply only_reject
    | apply only_call; exact I
    | apply only_then | apply only_fail | apply only_all2 | apply only_try
    | progress intros
    | match goal with
      | |- only _ (match ?x with _ => _ end) => destruct x
      end ]).

Lemma only_state : only setsUpProject (projectManager.state P).
Proof.
  intros w. unfold emits, projectManager.state.
  destruct (_ || _).
  - revert w. change (only setsUpProject (projectManager.initState P)).
    unfold projectManager.initState, setState, getState.
    only_steps; apply only_silent; reflexivity.
  - exists []. rewrite app_nil_r. split; [reflexivity|constructor].
Qed.

Lemma only_subnet_create vpcId pid routeId aclId az :
  only setsUpProject (subnetManager.create P L vpcId pid routeId aclId az).
Proof.
  unfold subnetManager.create, subnetManager.findExistingPid,
    subnetManager.getNextSubnet, subnetManager.getCidrPrefix,
    subnetManager.getCidrPostfix, subnetManager.createSubnet,
    subnetManager.associateRoute, subnetManager.associateAcl,
    subnetManager.defaultAssocId, subnetManager.defaultAssoc,
    subnetManager.describeDefault, subnetManager.describe.
  only_steps.
Qed.

Lemma only_project_create pid :
  only setsUpProject (projectManager.create P L pid).
Proof.
  unfold projectManager.create, Q.all3.
  apply only_then; [apply only_state|]. intros s.
  only_steps. apply only_subnet_create.
Qed.

Lemma only_findOrCreateProject pid :
  only setsUpProject (projectManager.findOrCreateProject P L pid).
Proof.
  unfold projectManager.findOrCreateProject.
  apply only_then; [apply only_state|]. intros s.
  apply only_fail.
  - unfold subnetManager.findProjectSubnet, subnetManager.describe.
    only_steps.
  - intros _. apply only_then; [apply only_project_create|].
    intros d. apply only_resolve.
Qed.

End SetupFacts.

(** C6, as the code has it.  A run of [createPR] in which the manager
    state and the project resolve and the instances of the project are
    listed.  The calls that precede the listing only set up the manager
    state and look up the project, or set the project up when its subnet
    is not found; when the subnet of the project is found, they are the
    listing of the subnets alone.  When some listed instance carries the
    pull request in its PR tag, the teardown of the pull request is
    requested next, and the creation of the new environment is requested
    only once the teardown is fulfilled, straight after it; when the
    teardown is rejected the run is rejected with its reason and no
    environment is created.  When no listed instance carries the pull
    request, the creation follows the listing and no teardown is
    requested. *)
Theorem C6_redeploy_destroys_before_creating :
  forall (W : Type) (P : Env.Provider W) (L : Env.Lib)
         (pid pr appDef : string) (sshData : option Aws.SshSource)
         (w w1 w2 : Env.World W) (s : Env.ManagerState)
         (d : Aws.SubnetDesc + projectManager.ProjectDesc)
         (rsv : list Aws.Reservation) (c3 : W),
    projectManager.state P w = (Q.Resolved s, w1) ->
    projectManager.findOrCreateProject P L pid w1 = (Q.Resolved d, w2) ->
    initialised (Env.STATE w2) ->
    Env.describeInstances P (projectManager.vpcOf (Env.STATE w2))
      (Aws.ByProject pid) (Env.cloud w2) = (Env.Fulfilled rsv, c3) ->
    let listing :=
      Env.DescribeInstances (projectManager.vpcOf (Env.STATE w2))
        (Aws.ByProject pid) in
    let teardown := Env.PrDestroy (Some pid) pr in
    let creation := Env.PrCreate pid pr appDef sshData in
    let create := Env.call creation (Env.pr_create P pid pr appDef sshData) in
    let run := projectManager.createPR P L pid pr appDef sshData w in
    exists evs0,
      Env.log w2 = (Env.log w ++ evs0)%list
      /\ Forall setsUpProject evs0
      /\ (forall lst c,
            initialised (Env.STATE w1) ->
            Env.describeSubnets P (projectManager.vpcOf (Env.STATE w1)) None
              (Env.cloud w1) = (Env.Fulfilled lst, c) ->
            Exists (carriesProject L pid) lst ->
            Env.log w2
            = (Env.log w1 ++
               [Env.DescribeSubnets (projectManager.vpcOf (Env.STATE w1))
                  None])%list)
      /\ (hasPr L pr rsv ->
          exists r c4,
            Env.pr_destroy P (Some pid) pr c3 = (r, c4)
            /\ let destroyed :=
                 {| Env.cloud := c4; Env.STATE := Env.STATE w2;
                    Env.log :=
                      (Env.log w ++ evs0 ++ [listing; teardown])%list |} in
               match r with
               | Env.Fulfilled _ =>
                   run = create destroyed
                   /\ Env.log (snd run)
                      = (Env.log w ++ evs0 ++
                         [listing; teardown; creation])%list
               | Env.Failed e => run = (Q.Rejected e, destroyed)
               end)
      /\ (~ hasPr L pr rsv ->
          run = create {| Env.cloud := c3; Env.STATE := Env.STATE w2;
                          Env.log := (Env.log w ++ evs0 ++ [listing])%list |}
          /\ Env.log (snd run)
             = (Env.log w ++ evs0 ++ [listing; creation])%list).
Proof.
  intros W P L pid pr appDef sshData w w1 w2 s d rsv c3 Hs Hf Hi Hd
         listing teardown creation create run.
  destruct (only_state P w) as (e1 & E1 & F1).
  destruct (only_findOrCreateProject P L pid w1) as (e2 & E2 & F2).
  unfold emits in E1, E2. rewrite Hs in E1. rewrite Hf in E2.
  cbn [snd] in E1, E2.
  assert (F0 : Forall setsUpProject (e1 ++ e2))
    by (apply Forall_app; now split).
  assert (E0 : Env.log w2 = (Env.log w ++ e1 ++ e2)%list).
  { rewrite E2, E1. now rewrite <- List.app_assoc. }
  remember (e1 ++ e2)%list as evs0 eqn:Hevs0. clear Hevs0.
  exists evs0. split; [exact E0|]. split; [exact F0|]. split.
  { intros lst c Hi1 Hsub Hex.
    pose proof (findOrCreateProject_run P L pid (Env.Fulfilled lst) c w1
                  Hi1 Hsub) as Hrun.
    cbv beta iota zeta in Hrun.
    apply isPidInSubnetList_carries in Hex.
    rewrite isPidInSubnetList_tagged in Hex.
    pose proof (findProjectTag_spec L pid lst) as Hspec.
    destruct (subnetManager.findProjectTag L pid lst) as [sn|];
      [|congruence].
    rewrite Hrun in Hf. injection Hf as _ <-. reflexivity. }
  pose proof (createPR_run P L pid pr appDef sshData s d rsv c3 w w1 w2
                Hs Hf Hi Hd) as Hrun.
  cbv zeta in Hrun. fold listing teardown creation create run in Hrun.
  rewrite E0 in Hrun. cbn [Env.log] in Hrun.
  rewrite <- !List.app_assoc in Hrun. cbn [app] in Hrun.
  pose proof (containsPr_spec L pr rsv) as Hspec.
  destruct (projectManager.containsPr pr _) eqn:Hfound.
  - split.
    + intros _. destruct (Env.pr_destroy P (Some pid) pr c3) as [r c4].
      exists r, c4. split; [reflexivity|]. cbv zeta.
      destruct r as [[]|e]; [|exact Hrun].
      split; [exact Hrun|]. rewrite Hrun. unfold create.
      rewrite call_log. cbn [Env.log]. rewrite <- !List.app_assoc.
      reflexivity.
    + intros Hno. exfalso. apply Hno, Hspec. reflexivity.
  - split.
    + intros Hyes. apply Hspec in Hyes. discriminate.
    + intros _. split; [exact Hrun|]. rewrite Hrun. unfold create.
      rewrite call_log. cbn [Env.log]. rewrite <- !List.app_assoc.
      reflexivity.
Qed.

(** C6, as stated, fails.  Instances of pull request 7 of project [p]
    are up while no subnet carries the tag of the project: [createPR]
    first sets the project up, so that the ACL, the repository, the
    subnet and the user of the project are created before the teardown
    of the old environment is requested. *)
Lemma C6_project_is_set_up_before_the_teardown :
  hasPr Mock.lib "7" (Mock.reservations Mock.orphaned)
  /\ exists before after,
       Env.log (snd (projectManager.createPR
                       (Mock.withAcls [Mock.defaultAcl]) Mock.lib "p" "7"
                       "app" None (Mock.world Mock.orphaned)))
       = (before ++ Env.PrDestroy (Some "p") "7" :: after)%list
       /\ In (Env.AclCreate "p") before
       /\ In (Env.EcrCreate "p") before
       /\ In (Env.Ec2CreateSubnet
                {| Aws.ParamVpcId := "vpc-1";
                   Aws.ParamCidrBlock := "10.0.0.0/24";
                   Aws.AvailabilityZone := "us-east-1a" |}) before
       /\ In (Env.IamCreateProjectUser "p" "arn") before.
Proof.
  split.
  - exists (Mock.prInstance "i-7" "7" "999000").
    split; [now left|reflexivity].
  - exists [ Env.DescribeSubnets "vpc-1" None; Env.RouteFindDefault;
             Env.AclCreate "p"; Env.EcrCreate "p";
             Env.DescribeSubnets "vpc-1" None;
             Env.VpcFindProject (Some "p");
             Env.DescribeSubnets "vpc-1" None;
             Env.Ec2CreateSubnet
               {| Aws.ParamVpcId := "vpc-1";
                  Aws.ParamCidrBlock := "10.0.0.0/24";
                  Aws.AvailabilityZone := "us-east-1a" |};
             Env.AwsTagEc2 "subnet-new"
               [ {| Aws.Key := "the-clusternator"; Aws.Value := "true" |};
                 {| Aws.Key := "the-clusternator-project";
                    Aws.Value := "p" |} ];
             Env.Ec2AssociateRouteTable "rtb-1" "subnet-new";
             Env.Ec2DescribeNetworkAcls "vpc-1";
             Env.Ec2ReplaceNetworkAclAssociation "assoc-new" "acl-1";
             Env.IamCreateProjectUser "p" "arn";
             Env.DescribeInstances "vpc-1" (Aws.ByProject "p") ],
           [Env.PrCreate "p" "7" "app" None].
    split; [vm_compute; reflexivity|].
    cbn [In]. repeat split; tauto.
Qed.

Lemma C6_redeploy_destroys_before_creating_witness :
  hasPr Mock.lib "7" Mock.fleet
  /\ Env.log (snd (projectManager.createPR Mock.provider Mock.lib "p" "7"
                     "app" None (Mock.world Mock.sweepable)))
     = [ Env.DescribeSubnets "vpc-1" None;
         Env.DescribeInstances "vpc-1" (Aws.ByProject "p");
         Env.PrDestroy (Some "p") "7";
         Env.PrCreate "p" "7" "app" None ]
  /\ ~ hasPr Mock.lib "9" Mock.fleet
  /\ Env.log (snd (projectManager.createPR Mock.provider Mock.lib "p" "9"
                     "app" None (Mock.world Mock.sweepable)))
     = [ Env.DescribeSubnets "vpc-1" None;
         Env.DescribeInstances "vpc-1" (Aws.ByProject "p");
         Env.PrCreate "p" "9" "app" None ].
Proof.
  assert (H7 : hasPr Mock.lib "7" Mock.fleet).
  { apply containsPr_spec. vm_compute. reflexivity. }
  assert (H9 : ~ hasPr Mock.lib "9" Mock.fleet).
  { intros H. apply containsPr_spec in H. vm_compute in H. discriminate H. }
  set (w0 := Mock.world Mock.sweepable).
  set (w2 := snd (projectManager.findOrCreateProject Mock.provider Mock.lib
                    "p" w0)).
  set (d := @inl Aws.SubnetDesc projectManager.ProjectDesc
              {| Aws.SubnetId := "subnet-a"; Aws.CidrBlock := "10.0.3.0/24";
                 Aws.SubnetTags :=
                   [ {| Aws.Key := "the-clusternator-project";
                        Aws.Value := "p" |} ] |}).
  assert (Hf : projectManager.findOrCreateProject Mock.provider Mock.lib
                 "p" w0 = (Q.Resolved d, w2)).
  { vm_compute. reflexivity. }
  assert (Hi : initialised (Env.STATE w2)).
  { split; vm_compute; reflexivity. }
  assert (Hd : Env.describeInstances Mock.provider
                 (projectManager.vpcOf (Env.STATE w2)) (Aws.ByProject "p")
                 (Env.cloud w2) = (Env.Fulfilled Mock.fleet, Mock.sweepable)).
  { vm_compute. reflexivity. }
  assert (Hlog : Env.log w2 = [Env.DescribeSubnets "vpc-1" None]).
  { vm_compute. reflexivity. }
  split; [exact H7|]. split; [|split; [exact H9|]].
  - destruct (C6_redeploy_destroys_before_creating Mock.Cloud Mock.provider
                Mock.lib "p" "7" "app" None w0 w0 w2 Mock.ready d Mock.fleet
                Mock.sweepable eq_refl Hf Hi Hd)
      as (evs0 & E0 & _ & _ & Hyes & _).
    rewrite Hlog in E0. cbn in E0. subst evs0.
    destruct (Hyes H7) as (r & c4 & Hr & Hrun).
    vm_compute in Hr. injection Hr as <- <-.
    destruct Hrun as [_ Hrun]. exact Hrun.
  - destruct (C6_redeploy_destroys_before_creating Mock.Cloud Mock.provider
                Mock.lib "p" "9" "app" None w0 w0 w2 Mock.ready d Mock.fleet
                Mock.sweepable eq_refl Hf Hi Hd)
      as (evs0 & E0 & _ & _ & _ & Hno).
    rewrite Hlog in E0. cbn in E0. subst evs0.
    destruct (Hno H9) as [_ Hrun]. exact Hrun.
Defined.

(** * Further properties of the code *)

(** ** src/aws/subnetManager.js: finding the subnet of a project *)


(** X1.  [findProjectTag] answers with the last subnet of the listing that
    carries the tag of the project: no subnet after it carries the tag.
    It answers with nothing exactly when [isPidInSubnetList] is false,
    that is when no listed subnet carries the tag. *)
Theorem findProjectTag_is_last_tagged_subnet :
  forall (L : Env.Lib) (pid : string) (lst : list Aws.SubnetDesc),
    (subnetManager.findProjectTag L pid lst = None
     <-> subnetManager.isPidInSubnetList L pid lst = false)
    /\ (subnetManager.isPidInSubnetList L pid lst = true
        <-> Exists (carriesProject L pid) lst)
    /\ (forall sn,
          subnetManager.findProjectTag L pid lst = Some sn ->
          exists before after,
            lst = (before ++ sn :: after)%list
            /\ carriesProject L pid sn
            /\ Forall (fun x => ~ carriesProject L pid x) after).
Proof.
  intros L pid lst.
  pose proof (findProjectTag_spec L pid lst) as H.
  rewrite isPidInSubnetList_tagged. split; [|split].
  - destruct (subnetManager.findProjectTag L pid lst) as [sn|].
    + destruct H as (before & after & -> & Hsn & _).
      split; [discriminate|]. rewrite existsb_app. cbn. rewrite Hsn.
      rewrite orb_true_r. discriminate.
    + split; [intros _; exact H|reflexivity].
  - rewrite existsb_exists, List.Exists_exists.
    split; intros (sn & Hin & Hsn); exists sn;
      (split; [exact Hin|]); now apply tagged_carries.
  - intros sn Hfound. rewrite Hfound in H.
    destruct H as (before & after & -> & Hsn & Hafter).
    exists before, after. split; [reflexivity|].
    split; [now apply tagged_carries|].
    apply List.Forall_forall. intros x Hx Hc.
    apply tagged_carries in Hc.
    assert (existsb (tagsProject L pid) after = true) as Habs.
    { apply existsb_exists. exists x. split; assumption. }
    rewrite Hafter in Habs. discriminate.
Qed.


(** X2.  On one listing of the subnets, [findProjectSubnet] and
    [findExistingPid] are complementary: when a listed subnet carries the
    tag of the project the first resolves with such a subnet and the
    second rejects ([Project: <pid> exists]); when none does the first
    rejects ([No Clusternator Subnet Found]) and the second resolves.
    Either makes the one describe call and no other. *)
Theorem findProject_resolves_iff_project_exists :
  forall (W : Type) (P : Env.Provider W) (L : Env.Lib) (vpcId pid : string)
         (w : Env.World W) (lst : list Aws.SubnetDesc) (c : W),
    Env.describeSubnets P vpcId None (Env.cloud w) = (Env.Fulfilled lst, c) ->
    let w' :=
      {| Env.cloud := c; Env.STATE := Env.STATE w;
         Env.log := (Env.log w ++ [Env.DescribeSubnets vpcId None])%list |} in
    (Exists (carriesProject L pid) lst ->
     (exists sn,
        subnetManager.findProjectSubnet P L vpcId pid w = (Q.Resolved sn, w')
        /\ In sn lst /\ carriesProject L pid sn)
     /\ subnetManager.findExistingPid P L vpcId pid w
        = (Q.Rejected
             (Js.Error ("Create Subnet Failed: Project: " ++ pid ++ " exists")),
           w'))
    /\ (~ Exists (carriesProject L pid) lst ->
        subnetManager.findProjectSubnet P L vpcId pid w
        = (Q.Rejected
             (Js.Error ("No Clusternator Subnet Found For Project: " ++ pid)),
           w')
        /\ subnetManager.findExistingPid P L vpcId pid w = (Q.Resolved tt, w')).
Proof.
  intros W P L vpcId pid w lst c Hd w'.
  rewrite (findProjectSubnet_run P L vpcId pid lst c w Hd),
          (findExistingPid_run P L vpcId pid lst c w Hd).
  fold w'.
  pose proof (findProjectTag_spec L pid lst) as Hspec.
  pose proof (isPidInSubnetList_carries L pid lst) as Hc.
  rewrite isPidInSubnetList_tagged in Hc.
  rewrite isPidInSubnetList_tagged.
  split.
  - intros Hex. apply Hc in Hex.
    destruct (subnetManager.findProjectTag L pid lst) as [sn|].
    + destruct Hspec as (before & after & -> & Hsn & _).
      rewrite Hex. split; [|reflexivity].
      exists sn. split; [reflexivity|]. split.
      * apply in_or_app. right. now left.
      * now apply tagged_carries.
    + congruence.
  - intros Hno.
    destruct (existsb (tagsProject L pid) lst) eqn:E.
    + exfalso. apply Hno, Hc. reflexivity.
    + destruct (subnetManager.findProjectTag L pid lst) as [sn|];
        [|split; reflexivity].
      destruct Hspec as (before & after & -> & Hsn & _).
      rewrite existsb_app in E. cbn in E. rewrite Hsn in E.
      rewrite orb_true_r in E. discriminate.
Qed.

Lemma findProject_resolves_iff_project_exists_witness :
  subnetManager.findExistingPid Mock.provider Mock.lib "vpc-1" "p"
    (Mock.world Mock.network)
  = (Q.Rejected (Js.Error "Create Subnet Failed: Project: p exists"),
     {| Env.cloud := Mock.network; Env.STATE := Mock.ready;
        Env.log := [Env.DescribeSubnets "vpc-1" None] |})
  /\ subnetManager.findProjectSubnet Mock.provider Mock.lib "vpc-1" "q"
       (Mock.world Mock.network)
     = (Q.Rejected (Js.Error "No Clusternator Subnet Found For Project: q"),
        {| Env.cloud := Mock.network; Env.STATE := Mock.ready;
           Env.log := [Env.DescribeSubnets "vpc-1" None] |}).
Proof.
  split.
  - refine (proj2 (proj1 (findProject_resolves_iff_project_exists
                            Mock.Cloud Mock.provider Mock.lib "vpc-1" "p"
                            (Mock.world Mock.network)
                            (map Cidr.describeAs Mock.tagged) Mock.network
                            eq_refl) _)).
    apply isPidInSubnetList_carries. vm_compute. reflexivity.
  - refine (proj1 (proj2 (findProject_resolves_iff_project_exists
                            Mock.Cloud Mock.provider Mock.lib "vpc-1" "q"
                            (Mock.world Mock.network)
                            (map Cidr.describeAs Mock.tagged) Mock.network
                            eq_refl) _)).
    intros H. apply isPidInSubnetList_carries in H. vm_compute in H.
    discriminate H.
Defined.

Section SubnetCreateFacts.

Import Aws Env.
Context {W : Type} (P : Provider W) (L : Lib) (vpcId : string).

Lemma getNextSubnet_world pid v lst c1 c2 (w : World W) :
  vpc_findProject P (Some pid) (cloud w) = (Fulfilled v, c1) ->
  describeSubnets P vpcId None c1 = (Fulfilled lst, c2) ->
  subnetManager.getNextSubnet P L vpcId pid w
  = (Q.Resolved (getCidrPrefixFromIPString L (VpcCidrBlock v) ++ "." ++
                 subnetManager.incrementHighestCidr lst),
     {| cloud := c2; STATE := STATE w;
        log := (log w ++ [VpcFindProject (Some pid);
                          DescribeSubnets vpcId None])%list |}).
Proof.
  intros Hv Hd.
  unfold subnetManager.getNextSubnet, subnetManager.getCidrPrefix,
    subnetManager.getCidrPostfix, subnetManager.describe,
    Q.then_, Q.all2, Q.handler, Q.resolve, call.
  rewrite Hv. cbn. rewrite Hd. cbn. rewrite <- List.app_assoc. reflexivity.
Qed.

Lemma create_exists pid routeId aclId az lst c (w : World W) :
  pid <> "" -> routeId <> "" -> aclId <> "" ->
  describeSubnets P vpcId None (cloud w) = (Fulfilled lst, c) ->
  subnetManager.isPidInSubnetList L pid lst = true ->
  subnetManager.create P L vpcId pid routeId aclId az w
  = (Q.Rejected
       (Js.Error ("Create Subnet Failed: Project: " ++ pid ++ " exists")),
     {| cloud := c; STATE := STATE w;
        log := (log w ++ [DescribeSubnets vpcId None])%list |}).
Proof.
  intros Hp Hr Ha Hd Hin. unfold subnetManager.create. cbn [Js.truthy].
  apply String.eqb_neq in Hp, Hr, Ha. rewrite Hp, Hr, Ha. cbn [negb].
  pose proof (findExistingPid_run P L vpcId pid lst c w Hd) as Hf.
  rewrite Hin in Hf.
  repeat (erewrite then_rejected; [|try exact Hf]); reflexivity.
Qed.

Lemma associateAcl_run sn aclId acls c1 acl a r c2 (w : World W) :
  ec2_describeNetworkAcls P vpcId (cloud w) = (Fulfilled acls, c1) ->
  head (List.filter IsDefault acls) = Some acl ->
  head (List.filter (fun el => String.eqb (AssocSubnetId el) (SubnetId sn))
          (Associations acl)) = Some a ->
  ec2_replaceNetworkAclAssociation P (NetworkAclAssociationId a) aclId c1
    = (r, c2) ->
  subnetManager.associateAcl P vpcId sn aclId w
  = (outcomeOf r,
     {| cloud := c2; STATE := STATE w;
        log := (log w ++
                [ Ec2DescribeNetworkAcls vpcId;
                  Ec2ReplaceNetworkAclAssociation
                    (NetworkAclAssociationId a) aclId ])%list |}).
Proof.
  intros Hd Hacl Ha Hr.
  unfold subnetManager.associateAcl, subnetManager.defaultAssocId,
    subnetManager.defaultAssoc, subnetManager.describeDefault,
    subnetManager.getFilteredAssociations,
    Q.then_, Q.try_, Q.handler, Q.resolve, call.
  rewrite Hd. cbn.
  destruct (List.filter IsDefault acls) as [|acl' rest]; [discriminate|].
  injection Hacl as ->. cbn.
  destruct (List.filter _ (Associations acl)) as [|a' rest']; [discriminate|].
  injection Ha as ->. cbn. rewrite Hr. cbn.
  rewrite <- List.app_assoc. destruct r; reflexivity.
Qed.

Lemma create_run pid routeId aclId az lst c1 v c2 lst2 c3 sn c4 c5 c6
    acls c7 acl a c8 (w : World W) :
  pid <> "" -> routeId <> "" -> aclId <> "" ->
  describeSubnets P vpcId None (cloud w) = (Fulfilled lst, c1) ->
  subnetManager.isPidInSubnetList L pid lst = false ->
  vpc_findProject P (Some pid) c1 = (Fulfilled v, c2) ->
  describeSubnets P vpcId None c2 = (Fulfilled lst2, c3) ->
  let params :=
    {| ParamVpcId := vpcId;
       ParamCidrBlock :=
         getCidrPrefixFromIPString L (VpcCidrBlock v) ++ "." ++
         subnetManager.incrementHighestCidr lst2;
       AvailabilityZone :=
         match az with
         | Some z => if Js.truthy (Js.Str z) then z else AWS_DEFAULT_AZ L
         | None => AWS_DEFAULT_AZ L
         end |} in
  let tags := [ {| Key := CLUSTERNATOR_TAG L; Value := "true" |};
                {| Key := PROJECT_TAG L; Value := pid |} ] in
  ec2_createSubnet P params c3 = (Fulfilled sn, c4) ->
  awsTagEc2 P (SubnetId sn) tags c4 = (Fulfilled tt, c5) ->
  ec2_associateRouteTable P routeId (SubnetId sn) c5 = (Fulfilled tt, c6) ->
  ec2_describeNetworkAcls P vpcId c6 = (Fulfilled acls, c7) ->
  head (List.filter IsDefault acls) = Some acl ->
  head (List.filter (fun el => String.eqb (AssocSubnetId el) (SubnetId sn))
          (Associations acl)) = Some a ->
  ec2_replaceNetworkAclAssociation P (NetworkAclAssociationId a) aclId c7
    = (Fulfilled tt, c8) ->
  subnetManager.create P L vpcId pid routeId aclId az w
  = (Q.Resolved sn,
     {| cloud := c8; STATE := STATE w;
        log := (log w ++
                [ DescribeSubnets vpcId None;
                  VpcFindProject (Some pid);
                  DescribeSubnets vpcId None;
                  Ec2CreateSubnet params;
                  AwsTagEc2 (SubnetId sn) tags;
                  Ec2AssociateRouteTable routeId (SubnetId sn);
                  Ec2DescribeNetworkAcls vpcId;
                  Ec2ReplaceNetworkAclAssociation
                    (NetworkAclAssociationId a) aclId ])%list |}).
Proof.
  intros Hp Hr Ha Hd Hin Hv Hd2 params tags Hcs Htag Hroute Hacls Hacl Hassoc
         Hrep.
  unfold subnetManager.create. cbn [Js.truthy].
  apply String.eqb_neq in Hp, Hr, Ha. rewrite Hp, Hr, Ha. cbn [negb].
  pose proof (findExistingPid_run P L vpcId pid lst c1 w Hd) as Hf.
  rewrite Hin in Hf.
  set (w1 := {| cloud := c1; STATE := STATE w; log := _ |}) in Hf.
  pose proof (getNextSubnet_world pid v lst2 c2 c3 w1 Hv Hd2) as Hn.
  set (w3 := {| cloud := c3; STATE := STATE w1; log := _ |}) in Hn.
  assert (Hparams :
    Q.then_ (subnetManager.findExistingPid P L vpcId pid)
      (fun _ =>
         Q.then_ (subnetManager.getNextSubnet P L vpcId pid)
           (fun cidr =>
              Q.resolve
                {| ParamVpcId := vpcId; ParamCidrBlock := cidr;
                   AvailabilityZone :=
                     match az with
                     | Some z =>
                         if Js.truthy (Js.Str z) then z else AWS_DEFAULT_AZ L
                     | None => AWS_DEFAULT_AZ L
                     end |})) w
    = (Q.Resolved params, w3)).
  { rewrite (then_resolved _ _ _ _ _ Hf). unfold Q.handler.
    rewrite (then_resolved _ _ _ _ _ Hn). reflexivity. }
  set (w5 := {| cloud := c5; STATE := STATE w;
                log := (log w3 ++ [Ec2CreateSubnet params;
                                   AwsTagEc2 (SubnetId sn) tags])%list |}).
  assert (Hcreate : subnetManager.createSubnet P L params pid w3
                    = (Q.Resolved sn, w5)).
  { unfold subnetManager.createSubnet, Q.then_, Q.handler, Q.resolve, call.
    cbn [cloud w3]. rewrite Hcs. cbn. fold tags. rewrite Htag. cbn.
    subst w5. rewrite <- List.app_assoc. reflexivity. }
  pose proof (eq_trans (then_resolved _ (fun params =>
                           subnetManager.createSubnet P L params pid)
                          _ _ _ Hparams)
                (handler_resolved _ _ _ _ Hcreate)) as H1.
  set (w6 := {| cloud := c6; STATE := STATE w;
                log := (log w5 ++
                        [Ec2AssociateRouteTable routeId (SubnetId sn)])%list |}).
  assert (Hroute' :
    Q.handler
      (Q.then_ (subnetManager.associateRoute P sn routeId)
         (fun _ => Q.resolve sn)) w5 = (Q.Resolved sn, w6)).
  { apply handler_resolved. unfold subnetManager.associateRoute.
    cbv zeta.
    rewrite (then_resolved _ _ _ _ _ (call_fulfilled _ _ w5 _ _ Hroute)).
    reflexivity. }
  pose proof (eq_trans (then_resolved _ (fun snDesc =>
                           Q.then_ (subnetManager.associateRoute P snDesc
                                      routeId)
                             (fun _ => Q.resolve snDesc))
                          _ _ _ H1) Hroute') as H2.
  rewrite (then_resolved _ _ _ _ _ H2).
  apply handler_resolved.
  rewrite (then_resolved _ _ _ _ _
             (associateAcl_run sn aclId acls c7 acl a _ c8 w6 Hacls Hacl
                Hassoc Hrep)).
  cbn. subst w6 w5 w3 w1. cbn. rewrite <- !List.app_assoc. reflexivity.
Qed.

End SubnetCreateFacts.

(** X3.  [subnetManager.create] checks its arguments before it returns a
    promise: an empty project id, route id or ACL id makes it throw, in
    this order, without any call to the provider.  With the three given,
    it rejects as soon as a listed subnet carries the tag of the project
    ([Project: <pid> exists]): the listing is its only call, and no
    subnet is created. *)
Theorem subnet_create_refuses_existing_project :
  forall (W : Type) (P : Env.Provider W) (L : Env.Lib)
         (vpcId pid routeId aclId : string) (az : option string)
         (w : Env.World W),
    let create := subnetManager.create P L vpcId pid routeId aclId az in
    (pid = "" ->
     create w
     = (Q.Thrown (Js.Error "subnetManager.create requires a project id param"),
        w))
    /\ (pid <> "" -> routeId = "" ->
        create w
        = (Q.Thrown (Js.Error "subnetManager.create requires a routeId param"),
           w))
    /\ (pid <> "" -> routeId <> "" -> aclId = "" ->
        create w
        = (Q.Thrown (Js.Error "subnetManager.create requires an aclId param"),
           w))
    /\ (pid <> "" -> routeId <> "" -> aclId <> "" ->
        forall lst c,
          Env.describeSubnets P vpcId None (Env.cloud w)
            = (Env.Fulfilled lst, c) ->
          Exists (carriesProject L pid) lst ->
          create w
          = (Q.Rejected
               (Js.Error
                  ("Create Subnet Failed: Project: " ++ pid ++ " exists")),
             {| Env.cloud := c; Env.STATE := Env.STATE w;
                Env.log :=
                  (Env.log w ++ [Env.DescribeSubnets vpcId None])%list |})).
Proof.
  intros W P L vpcId pid routeId aclId az w create. subst create.
  split; [|split; [|split]].
  - intros ->. reflexivity.
  - intros Hp ->. unfold subnetManager.create. cbn [Js.truthy].
    apply String.eqb_neq in Hp. rewrite Hp. reflexivity.
  - intros Hp Hr ->. unfold subnetManager.create. cbn [Js.truthy].
    apply String.eqb_neq in Hp, Hr. rewrite Hp, Hr. reflexivity.
  - intros Hp Hr Ha lst c Hd Hex.
    apply (create_exists P L vpcId pid routeId aclId az lst c w Hp Hr Ha Hd).
    now apply isPidInSubnetList_carries.
Qed.

Lemma subnet_create_refuses_existing_project_witness :
  subnetManager.create Mock.provider Mock.lib "vpc-1" "p" "rtb-1" "acl-1"
    None (Mock.world Mock.network)
  = (Q.Rejected (Js.Error "Create Subnet Failed: Project: p exists"),
     {| Env.cloud := Mock.network; Env.STATE := Mock.ready;
        Env.log := [Env.DescribeSubnets "vpc-1" None] |}).
Proof.
  refine (proj2 (proj2 (proj2
            (subnet_create_refuses_existing_project Mock.Cloud Mock.provider
               Mock.lib "vpc-1" "p" "rtb-1" "acl-1" None
               (Mock.world Mock.network))))
            _ _ _ (map Cidr.describeAs Mock.tagged) Mock.network eq_refl _);
    try discriminate.
  apply isPidInSubnetList_carries. vm_compute. reflexivity.
Defined.

(** X4.  The run of [subnetManager.create] for a project that has no
    subnet yet, every call being fulfilled.  The subnets are listed a
    second time to compute the block: the subnet is created in the
    network of the manager with the block [prefix.(highest third octet
    + 1).0/24] of that second listing and the availability zone given
    (the default one when none is), then tagged as the subnet of the
    project, associated with the route table, and the association of
    the first default ACL with it is replaced by the ACL given.  The
    promise resolves with the description of the created subnet. *)
Theorem subnet_create_allocates_tags_and_associates :
  forall (W : Type) (P : Env.Provider W) (L : Env.Lib)
         (vpcId pid routeId aclId : string) (az : option string)
         (w : Env.World W)
         (lst lst2 : list Aws.SubnetDesc) (v : Aws.VpcDesc)
         (sn : Aws.SubnetDesc) (acls : list Aws.NetworkAcl)
         (acl : Aws.NetworkAcl) (a : Aws.AclAssociation)
         (c1 c2 c3 c4 c5 c6 c7 c8 : W),
    pid <> "" -> routeId <> "" -> aclId <> "" ->
    Env.describeSubnets P vpcId None (Env.cloud w) = (Env.Fulfilled lst, c1) ->
    ~ Exists (carriesProject L pid) lst ->
    Env.vpc_findProject P (Some pid) c1 = (Env.Fulfilled v, c2) ->
    Env.describeSubnets P vpcId None c2 = (Env.Fulfilled lst2, c3) ->
    let params :=
      {| Aws.ParamVpcId := vpcId;
         Aws.ParamCidrBlock :=
           Env.getCidrPrefixFromIPString L (Aws.VpcCidrBlock v) ++ "." ++
           subnetManager.incrementHighestCidr lst2;
         Aws.AvailabilityZone :=
           match az with
           | Some z => if Js.truthy (Js.Str z) then z else Env.AWS_DEFAULT_AZ L
           | None => Env.AWS_DEFAULT_AZ L
           end |} in
    let tags := [ {| Aws.Key := Env.CLUSTERNATOR_TAG L; Aws.Value := "true" |};
                  {| Aws.Key := Env.PROJECT_TAG L; Aws.Value := pid |} ] in
    Env.ec2_createSubnet P params c3 = (Env.Fulfilled sn, c4) ->
    Env.awsTagEc2 P (Aws.SubnetId sn) tags c4 = (Env.Fulfilled tt, c5) ->
    Env.ec2_associateRouteTable P routeId (Aws.SubnetId sn) c5
      = (Env.Fulfilled tt, c6) ->
    Env.ec2_describeNetworkAcls P vpcId c6 = (Env.Fulfilled acls, c7) ->
    head (List.filter Aws.IsDefault acls) = Some acl ->
    head (List.filter
            (fun el => String.eqb (Aws.AssocSubnetId el) (Aws.SubnetId sn))
            (Aws.Associations acl)) = Some a ->
    Env.ec2_replaceNetworkAclAssociation P (Aws.NetworkAclAssociationId a)
      aclId c7 = (Env.Fulfilled tt, c8) ->
    subnetManager.create P L vpcId pid routeId aclId az w
    = (Q.Resolved sn,
       {| Env.cloud := c8; Env.STATE := Env.STATE w;
          Env.log :=
            (Env.log w ++
             [ Env.DescribeSubnets vpcId None;
               Env.VpcFindProject (Some pid);
               Env.DescribeSubnets vpcId None;
               Env.Ec2CreateSubnet params;
               Env.AwsTagEc2 (Aws.SubnetId sn) tags;
               Env.Ec2AssociateRouteTable routeId (Aws.SubnetId sn);
               Env.Ec2DescribeNetworkAcls vpcId;
               Env.Ec2ReplaceNetworkAclAssociation
                 (Aws.NetworkAclAssociationId a) aclId ])%list |}).
Proof.
  intros W P L vpcId pid routeId aclId az w lst lst2 v sn acls acl a
         c1 c2 c3 c4 c5 c6 c7 c8 Hp Hr Ha Hd Hno Hv Hd2 params tags.
  apply (create_run P L vpcId pid routeId aclId az lst c1 v c2 lst2 c3 sn c4
           c5 c6 acls c7 acl a c8 w Hp Hr Ha Hd); [|exact Hv|exact Hd2].
  destruct (subnetManager.isPidInSubnetList L pid lst) eqn:E; [|reflexivity].
  exfalso. apply Hno. now apply isPidInSubnetList_carries.
Qed.

Lemma subnet_create_allocates_tags_and_associates_witness :
  subnetManager.create (Mock.withAcls [Mock.defaultAcl]) Mock.lib "vpc-1" "q"
    "rtb-1" "acl-1" None (Mock.world Mock.network)
  = (Q.Resolved
       {| Aws.SubnetId := "subnet-new"; Aws.CidrBlock := "10.0.13.0/24";
          Aws.SubnetTags := [] |},
     {| Env.cloud := Mock.network; Env.STATE := Mock.ready;
        Env.log :=
          [ Env.DescribeSubnets "vpc-1" None;
            Env.VpcFindProject (Some "q");
            Env.DescribeSubnets "vpc-1" None;
            Env.Ec2CreateSubnet
              {| Aws.ParamVpcId := "vpc-1";
                 Aws.ParamCidrBlock := "10.0.13.0/24";
                 Aws.AvailabilityZone := "us-east-1a" |};
            Env.AwsTagEc2 "subnet-new"
              [ {| Aws.Key := "the-clusternator"; Aws.Value := "true" |};
                {| Aws.Key := "the-clusternator-project";
                   Aws.Value := "q" |} ];
            Env.Ec2AssociateRouteTable "rtb-1" "subnet-new";
            Env.Ec2DescribeNetworkAcls "vpc-1";
            Env.Ec2ReplaceNetworkAclAssociation "assoc-new" "acl-1" ] |}).
Proof.
  assert (Hno : ~ Exists (carriesProject Mock.lib "q")
                    (map Cidr.describeAs Mock.tagged)).
  { intros H. apply isPidInSubnetList_carries in H. vm_compute in H.
    discriminate H. }
  exact (subnet_create_allocates_tags_and_associates Mock.Cloud
           (Mock.withAcls [Mock.defaultAcl]) Mock.lib "vpc-1" "q" "rtb-1"
           "acl-1" None (Mock.world Mock.network)
           (map Cidr.describeAs Mock.tagged) (map Cidr.describeAs Mock.tagged)
           {| Aws.VpcId := "vpc-1"; Aws.VpcCidrBlock := "10.0.0.0/16" |}
           {| Aws.SubnetId := "subnet-new"; Aws.CidrBlock := "10.0.13.0/24";
              Aws.SubnetTags := [] |}
           [Mock.defaultAcl] Mock.defaultAcl
           {| Aws.NetworkAclAssociationId := "assoc-new";
              Aws.AssocSubnetId := "subnet-new" |}
           Mock.network Mock.network Mock.network Mock.network Mock.network
           Mock.network Mock.network Mock.network
           ltac:(discriminate) ltac:(discriminate) ltac:(discriminate)
           eq_refl Hno eq_refl eq_refl
           ltac:(vm_compute; reflexivity) eq_refl eq_refl eq_refl eq_refl
           eq_refl eq_refl).
Defined.

Section AclFacts.

Import Aws Env.
Context {W : Type} (P : Provider W) (vpcId : string).

(** The runs of [associateAcl], by the answer to the listing of the
    ACLs of the network. *)
Lemma associateAcl_cases sn aclId r c (w : World W) :
  ec2_describeNetworkAcls P vpcId (cloud w) = (r, c) ->
  let w1 := {| cloud := c; STATE := STATE w;
               log := (log w ++ [Ec2DescribeNetworkAcls vpcId])%list |} in
  subnetManager.associateAcl P vpcId sn aclId w
  = match r with
    | Failed e => (Q.Rejected e, w1)
    | Fulfilled acls =>
        match head (List.filter IsDefault acls) with
        | None =>
            (Q.Rejected (Js.Error "AclManager: Error expecting a default ACL"),
             w1)
        | Some acl =>
            match head (List.filter
                          (fun el =>
                             String.eqb (AssocSubnetId el) (SubnetId sn))
                          (Associations acl)) with
            | None =>
                (Q.Rejected
                   (Js.Error
                      "AclManager: Error expecting a default ACL Association"),
                 w1)
            | Some a =>
                call (Ec2ReplaceNetworkAclAssociation
                        (NetworkAclAssociationId a) aclId)
                  (ec2_replaceNetworkAclAssociation P
                     (NetworkAclAssociationId a) aclId) w1
            end
        end
    end.
Proof.
  intros Hd w1.
  unfold subnetManager.associateAcl, subnetManager.defaultAssocId,
    subnetManager.defaultAssoc, subnetManager.describeDefault,
    subnetManager.getFilteredAssociations,
    Q.then_, Q.try_, Q.handler, Q.resolve, Q.throw, call.
  rewrite Hd. destruct r as [acls|e]; cbn; [|reflexivity].
  destruct (List.filter IsDefault acls) as [|acl rest]; cbn; [reflexivity|].
  destruct (List.filter _ (Associations acl)) as [|a rest']; cbn;
    [reflexivity|].
  destruct (ec2_replaceNetworkAclAssociation P _ aclId c) as [[[]|e] c'];
    reflexivity.
Qed.

End AclFacts.

(** X5.  [associateAcl] replaces nothing but an association of the given
    subnet: every replacement it requests is for the ACL given, and for
    the first association, in the first default ACL of the network, whose
    subnet is the one given.  When the network has no default ACL, or
    when that ACL has no association with the subnet, it rejects after
    the listing and requests no replacement. *)
Theorem associateAcl_replaces_only_the_subnet_association :
  forall (W : Type) (P : Env.Provider W) (vpcId : string)
         (sn : Aws.SubnetDesc) (aclId : string) (w : Env.World W)
         (evs : list Env.Event),
    emits (subnetManager.associateAcl P vpcId sn aclId) w evs ->
    (forall assocId acl',
       In (Env.Ec2ReplaceNetworkAclAssociation assocId acl') evs ->
       acl' = aclId
       /\ exists acls c acl a rest,
            Env.ec2_describeNetworkAcls P vpcId (Env.cloud w)
              = (Env.Fulfilled acls, c)
            /\ head (List.filter Aws.IsDefault acls) = Some acl
            /\ List.filter
                 (fun el => String.eqb (Aws.AssocSubnetId el) (Aws.SubnetId sn))
                 (Aws.Associations acl) = a :: rest
            /\ Aws.AssocSubnetId a = Aws.SubnetId sn
            /\ Aws.NetworkAclAssociationId a = assocId)
    /\ (forall acls c,
          Env.ec2_describeNetworkAcls P vpcId (Env.cloud w)
            = (Env.Fulfilled acls, c) ->
          (List.filter Aws.IsDefault acls = []
           \/ exists acl rest,
                List.filter Aws.IsDefault acls = acl :: rest
                /\ Forall (fun el => Aws.AssocSubnetId el <> Aws.SubnetId sn)
                     (Aws.Associations acl)) ->
          evs = [Env.Ec2DescribeNetworkAcls vpcId]
          /\ exists e,
               fst (subnetManager.associateAcl P vpcId sn aclId w)
               = Q.Rejected e).
Proof.
  intros W P vpcId sn aclId w evs Hemits. unfold emits in Hemits.
  destruct (Env.ec2_describeNetworkAcls P vpcId (Env.cloud w)) as [r c] eqn:Hd.
  pose proof (associateAcl_cases P vpcId sn aclId r c w Hd) as Hrun.
  cbv zeta in Hrun. rewrite Hrun in Hemits. split.
  - intros assocId acl' Hin.
    destruct r as [acls|e].
    + destruct (head (List.filter Aws.IsDefault acls)) as [acl|] eqn:Hacl.
      * destruct (List.filter
                    (fun el => String.eqb (Aws.AssocSubnetId el)
                                 (Aws.SubnetId sn))
                    (Aws.Associations acl)) as [|a rest] eqn:Ha.
        -- cbn in Hemits. apply app_inv_head in Hemits. subst evs.
           destruct Hin as [Hin|[]]. discriminate Hin.
        -- cbn [head] in Hemits. rewrite call_log in Hemits.
           cbn [Env.log] in Hemits. rewrite <- List.app_assoc in Hemits.
           apply app_inv_head in Hemits. subst evs.
           destruct Hin as [Hin|[Hin|[]]]; [discriminate Hin|].
           injection Hin as <- <-. split; [reflexivity|].
           exists acls, c, acl, a, rest. repeat split; try assumption.
           assert (Hmem : In a (List.filter
                    (fun el => String.eqb (Aws.AssocSubnetId el)
                                 (Aws.SubnetId sn))
                    (Aws.Associations acl))) by (rewrite Ha; now left).
           apply filter_In in Hmem as [_ Hmem].
           now apply String.eqb_eq in Hmem.
      * cbn in Hemits. apply app_inv_head in Hemits. subst evs.
        destruct Hin as [Hin|[]]. discriminate Hin.
    + cbn in Hemits. apply app_inv_head in Hemits. subst evs.
      destruct Hin as [Hin|[]]. discriminate Hin.
  - intros acls c' Heq Hnone. injection Heq as -> ->.
    rewrite Hrun.
    destruct Hnone as [Hnil|(acl & rest & Hacl & Hall)].
    + rewrite Hnil in *. cbn in *. apply app_inv_head in Hemits.
      split; [now subst|eexists; reflexivity].
    + rewrite Hacl in *. cbn [head] in *.
      assert (Hf : List.filter
                     (fun el => String.eqb (Aws.AssocSubnetId el)
                                  (Aws.SubnetId sn))
                     (Aws.Associations acl) = []).
      { clear - Hall.
        induction Hall as [|el l Hel _ IH]; [reflexivity|]. cbn.
        apply String.eqb_neq in Hel. rewrite Hel. exact IH. }
      rewrite Hf in *. cbn in *. apply app_inv_head in Hemits.
      split; [now subst|eexists; reflexivity].
Qed.

Lemma associateAcl_replaces_only_the_subnet_association_witness :
  emits (subnetManager.associateAcl (Mock.withAcls [Mock.defaultAcl]) "vpc-1"
           {| Aws.SubnetId := "subnet-new"; Aws.CidrBlock := "10.0.13.0/24";
              Aws.SubnetTags := [] |} "acl-1")
    (Mock.world Mock.network)
    [ Env.Ec2DescribeNetworkAcls "vpc-1";
      Env.Ec2ReplaceNetworkAclAssociation "assoc-new" "acl-1" ]
  /\ emits (subnetManager.associateAcl Mock.provider "vpc-1"
              {| Aws.SubnetId := "subnet-new"; Aws.CidrBlock := "10.0.13.0/24";
                 Aws.SubnetTags := [] |} "acl-1")
       (Mock.world Mock.network) [Env.Ec2DescribeNetworkAcls "vpc-1"]
  /\ exists e,
       fst (subnetManager.associateAcl Mock.provider "vpc-1"
              {| Aws.SubnetId := "subnet-new"; Aws.CidrBlock := "10.0.13.0/24";
                 Aws.SubnetTags := [] |} "acl-1" (Mock.world Mock.network))
       = Q.Rejected e.
Proof.
  assert (H1 : emits (subnetManager.associateAcl
                        (Mock.withAcls [Mock.defaultAcl]) "vpc-1"
                        {| Aws.SubnetId := "subnet-new";
                           Aws.CidrBlock := "10.0.13.0/24";
                           Aws.SubnetTags := [] |} "acl-1")
                 (Mock.world Mock.network)
                 [ Env.Ec2DescribeNetworkAcls "vpc-1";
                   Env.Ec2ReplaceNetworkAclAssociation "assoc-new" "acl-1" ])
    by reflexivity.
  assert (H2 : emits (subnetManager.associateAcl Mock.provider "vpc-1"
                        {| Aws.SubnetId := "subnet-new";
                           Aws.CidrBlock := "10.0.13.0/24";
                           Aws.SubnetTags := [] |} "acl-1")
                 (Mock.world Mock.network)
                 [Env.Ec2DescribeNetworkAcls "vpc-1"])
    by reflexivity.
  split; [exact H1|]. split; [exact H2|].
  exact (proj2 (proj2 (associateAcl_replaces_only_the_subnet_association
                         Mock.Cloud Mock.provider "vpc-1" _ "acl-1"
                         (Mock.world Mock.network) _ H2)
                  [] Mock.network eq_refl (or_introl eq_refl))).
Defined.

(** ** src/aws/ec2Manager.js: tags, credentials, teardown *)

Section TagFacts.

Import Aws Env.
Context {W : Type} (P : Provider W) (L : Lib).


End TagFacts.



(** X7.  Registry credentials in the bootstrap script.  With a [cfg]
    property the script carries, after the cluster-join directive, the
    auth type [dockercfg] and the [cfg] as auth data, whatever the other
    properties; without it, and with a user name, a password and an
    e-mail address, the auth type [docker] and the serialised
    credentials.  Credentials that have neither make the function throw
    a TypeError before it returns a promise and before any key file is
    read, and [createPr] and [createDeployment], once the configuration
    is validated, throw it in turn without any call to the provider. *)
Theorem userData_credentials :
  forall (W : Type) (P : Env.Provider W) (L : Env.Lib) (vpcId : string)
         (clusterName : string) (w : Env.World W),
    let userData :=
      ec2Manager.getECSContainerInstanceUserData P L clusterName in
    let incomplete (a : Aws.Auth) :=
      ec2Manager.truthyStr (Aws.cfg a) = false
      /\ ec2Manager.truthyStr (Aws.username a)
         && ec2Manager.truthyStr (Aws.password a)
         && ec2Manager.truthyStr (Aws.email a) = false in
    let refused :=
      Js.TypeError ("Clusternator: Ec2: Auth should contain a " ++
                    "username, password, and email") in
    (forall a cfg keys,
       Aws.cfg a = Some cfg -> cfg <> "" ->
       userData (Some a) (Aws.SshKeys keys) w
       = (Q.Resolved
            (Buffer.toBase64
               (script clusterName
                  ([ "echo ECS_ENGINE_AUTH_TYPE=dockercfg >> /etc/ecs/ecs.config;";
                     ("echo ECS_ENGINE_AUTH_DATA=" ++ cfg ++
                      " >> /etc/ecs/ecs.config;")%string ]
                   ++ ec2Manager.processSSHKeys keys)%list)), w))
    /\ (forall a keys,
          ec2Manager.truthyStr (Aws.cfg a) = false ->
          ec2Manager.truthyStr (Aws.username a)
          && ec2Manager.truthyStr (Aws.password a)
          && ec2Manager.truthyStr (Aws.email a) = true ->
          userData (Some a) (Aws.SshKeys keys) w
          = (Q.Resolved
               (Buffer.toBase64
                  (script clusterName
                     ([ "echo ECS_ENGINE_AUTH_TYPE=docker >> /etc/ecs/ecs.config;";
                        ("echo ECS_ENGINE_AUTH_DATA=" ++
                         Env.JSON_stringify_auth L a ++
                         " >> /etc/ecs/ecs.config;")%string ]
                      ++ ec2Manager.processSSHKeys keys)%list)), w))
    /\ (forall a ssh,
          incomplete a -> userData (Some a) ssh w = (Q.Thrown refused, w))
    /\ (forall c a,
          ec2Manager.auth c = Some a -> incomplete a ->
          (ec2Manager.validateCreatePrConfig (Some c) = Js.Return tt ->
           ec2Manager.createPr P L vpcId (Some c) w = (Q.Thrown refused, w))
          /\ (ec2Manager.validateCreateDeploymentConfig (Some c)
              = Js.Return tt ->
              ec2Manager.createDeployment P L vpcId (Some c) w
              = (Q.Thrown refused, w))).
Proof.
  intros W P L vpcId clusterName w userData incomplete refused.
  assert (Hthrow : forall name a ssh, incomplete a ->
            ec2Manager.getECSContainerInstanceUserData P L name (Some a) ssh w
            = (Q.Thrown refused, w)).
  { intros name a ssh [Hcfg Hrest].
    unfold ec2Manager.getECSContainerInstanceUserData, ec2Manager.makeDockerAuth.
    rewrite Hcfg, Hrest. reflexivity. }
  split; [|split; [|split]].
  - intros a cfg keys Hcfg Hne. subst userData.
    unfold ec2Manager.getECSContainerInstanceUserData,
      ec2Manager.makeDockerAuthCfg.
    rewrite Hcfg. cbn [ec2Manager.truthyStr Js.truthy].
    apply String.eqb_neq in Hne. rewrite Hne. reflexivity.
  - intros a keys Hcfg Hall. subst userData.
    unfold ec2Manager.getECSContainerInstanceUserData,
      ec2Manager.makeDockerAuth.
    rewrite Hcfg, Hall. reflexivity.
  - intros a ssh. apply Hthrow.
  - intros c a Hauth Hinc. split; intros Hv.
    + unfold ec2Manager.createPr. rewrite Hv. cbn [Q.try_].
      rewrite Hauth. unfold Q.then_. rewrite (Hthrow _ a _ Hinc).
      reflexivity.
    + unfold ec2Manager.createDeployment. rewrite Hv. cbn [Q.try_].
      rewrite Hauth. unfold Q.then_. rewrite (Hthrow _ a _ Hinc).
      reflexivity.
Qed.

Lemma userData_credentials_witness :
  ec2Manager.createPr Mock.provider Mock.lib "vpc-1"
    (Some {| ec2Manager.fields := ec2Manager.fields Mock.prConfig;
             ec2Manager.auth :=
               Some {| Aws.cfg := None; Aws.username := Some "user";
                       Aws.password := None; Aws.email := None |};
             ec2Manager.apiConfig := Some "{}";
             ec2Manager.sshPath := Aws.SshPath "keys" |})
    (Mock.world Mock.empty)
  = (Q.Thrown
       (Js.TypeError
          "Clusternator: Ec2: Auth should contain a username, password, and email"),
     Mock.world Mock.empty).
Proof.
  set (a := {| Aws.cfg := None; Aws.username := Some "user";
               Aws.password := None; Aws.email := None |}).
  set (c := {| ec2Manager.fields := ec2Manager.fields Mock.prConfig;
               ec2Manager.auth := Some a;
               ec2Manager.apiConfig := Some "{}";
               ec2Manager.sshPath := Aws.SshPath "keys" |}).
  refine (proj1 (proj2 (proj2 (proj2
            (userData_credentials Mock.Cloud Mock.provider Mock.lib "vpc-1"
               "p--7" (Mock.world Mock.empty)))) c a eq_refl
            (conj eq_refl eq_refl)) _).
  vm_compute. reflexivity.
Defined.

(** ** src/aws/ec2Manager.js: stopping and terminating instances *)

(** X8.  [destroyPr] and [destroyDeployment] stop and terminate nothing
    but the instances of the first reservation that their query lists,
    and terminate them only after the listing and the stop, whatever the
    provider answers.  With an empty project id or an empty name they
    throw a TypeError (the same message for both) before any call; when
    the query lists nothing they reject with the error of [common] for a
    missing tag, and stop nothing. *)
Theorem instance_teardown_touches_only_listed_instances :
  forall (W : Type) (P : Env.Provider W) (L : Env.Lib)
         (vpcId pid name : string) (w : Env.World W),
    let destroyPr := ec2Manager.destroyPr P L vpcId pid name in
    let destroyDeployment := ec2Manager.destroyDeployment P L vpcId pid name in
    let listed q c :=
      {| Env.cloud := c; Env.STATE := Env.STATE w;
         Env.log := (Env.log w ++ [Env.DescribeInstances vpcId q])%list |} in
    (forall evs,
       emits destroyPr w evs ->
       stopsListed P vpcId (Aws.ByPr pid name) w evs)
    /\ (forall evs,
          emits destroyDeployment w evs ->
          stopsListed P vpcId (Aws.ByDeployment pid name) w evs)
    /\ (pid = "" \/ name = "" ->
        destroyPr w
        = (Q.Thrown (Js.TypeError "ec2 destroy requires pid, and pr"), w)
        /\ destroyDeployment w
           = (Q.Thrown (Js.TypeError "ec2 destroy requires pid, and pr"), w))
    /\ (pid <> "" -> name <> "" ->
        (forall c,
           Env.describeInstances P vpcId (Aws.ByPr pid name) (Env.cloud w)
             = (Env.Fulfilled [], c) ->
           destroyPr w
           = (Q.Rejected (Env.invalidPidPrTag L pid name "looking" "Instance"),
              listed (Aws.ByPr pid name) c))
        /\ (forall c,
              Env.describeInstances P vpcId (Aws.ByDeployment pid name)
                (Env.cloud w) = (Env.Fulfilled [], c) ->
              destroyDeployment w
              = (Q.Rejected
                   (Env.invalidPidDeploymentTag L pid name "looking"
                      "Instance"),
                 listed (Aws.ByDeployment pid name) c))).
Proof.
  intros W P L vpcId pid name w destroyPr destroyDeployment listed.
  subst destroyPr destroyDeployment.
  unfold ec2Manager.destroyPr, ec2Manager.destroyDeployment,
    ec2Manager.describePr, ec2Manager.describeDeployment.
  cbn [Js.truthy].
  destruct (String.eqb pid "") eqn:Hp; cbn [negb orb].
  { apply String.eqb_eq in Hp. subst pid. split; [|split; [|split]].
    - intros evs H. unfold emits in H. cbn in H.
      rewrite <- (app_nil_r (Env.log w)) in H at 1.
      apply app_inv_head in H. subst evs.
      split; [intros ids [[]|[]]|intros ids []].
    - intros evs H. unfold emits in H. cbn in H.
      rewrite <- (app_nil_r (Env.log w)) in H at 1.
      apply app_inv_head in H. subst evs.
      split; [intros ids [[]|[]]|intros ids []].
    - intros _. split; reflexivity.
    - intros H. now contradiction H. }
  destruct (String.eqb name "") eqn:Hn; cbn [negb orb].
  { apply String.eqb_eq in Hn. subst name. split; [|split; [|split]].
    - intros evs H. unfold emits in H. cbn in H.
      rewrite <- (app_nil_r (Env.log w)) in H at 1.
      apply app_inv_head in H. subst evs.
      split; [intros ids [[]|[]]|intros ids []].
    - intros evs H. unfold emits in H. cbn in H.
      rewrite <- (app_nil_r (Env.log w)) in H at 1.
      apply app_inv_head in H. subst evs.
      split; [intros ids [[]|[]]|intros ids []].
    - intros _. split; reflexivity.
    - intros _ H. now contradiction H. }
  split; [|split; [|split]].
  - intros evs H.
    eapply (teardown_trace P L vpcId (Aws.ByPr pid name)); [|exact H].
    intros [|r rs]; reflexivity.
  - intros evs H.
    eapply (teardown_trace P L vpcId (Aws.ByDeployment pid name)); [|exact H].
    intros [|r rs]; reflexivity.
  - apply String.eqb_neq in Hp, Hn. intros [H|H]; contradiction.
  - intros _ _. split; intros c Hd;
      rewrite (then_resolved _ _ _ _ _ (call_fulfilled _ _ w _ _ Hd));
      reflexivity.
Qed.

Lemma instance_teardown_touches_only_listed_instances_witness :
  emits (ec2Manager.destroyPr Mock.provider Mock.lib "vpc-1" "p" "7")
    (Mock.world Mock.deployed)
    [ Env.DescribeInstances "vpc-1" (Aws.ByPr "p" "7");
      Env.Ec2StopInstances ["i-0"];
      Env.Ec2TerminateInstances ["i-0"];
      Env.Ec2DescribeInstanceIds ["i-0"] ]
  /\ stopsListed Mock.provider "vpc-1" (Aws.ByPr "p" "7")
       (Mock.world Mock.deployed)
       [ Env.DescribeInstances "vpc-1" (Aws.ByPr "p" "7");
         Env.Ec2StopInstances ["i-0"];
         Env.Ec2TerminateInstances ["i-0"];
         Env.Ec2DescribeInstanceIds ["i-0"] ].
Proof.
  assert (H : emits (ec2Manager.destroyPr Mock.provider Mock.lib "vpc-1"
                       "p" "7")
                (Mock.world Mock.deployed)
                [ Env.DescribeInstances "vpc-1" (Aws.ByPr "p" "7");
                  Env.Ec2StopInstances ["i-0"];
                  Env.Ec2TerminateInstances ["i-0"];
                  Env.Ec2DescribeInstanceIds ["i-0"] ])
    by (vm_compute; reflexivity).
  split; [exact H|].
  exact (proj1 (instance_teardown_touches_only_listed_instances Mock.Cloud
                  Mock.provider Mock.lib "vpc-1" "p" "7"
                  (Mock.world Mock.deployed)) _ H).
Defined.

Section PredicateFacts.

Import Aws Env.
Context {W : Type} (P : Provider W).

(** The statuses read for a non-empty list of ids. *)
Lemma checkInstanceStatuses_run i ids r c (w : World W) :
  ec2_describeInstanceIds P (i :: ids) (cloud w) = (r, c) ->
  ec2Manager.checkInstanceStatuses P (i :: ids) w
  = (match r with
     | Fulfilled [] => Q.Resolved []
     | Fulfilled (res :: _) =>
         Q.Resolved (map ec2Manager.status (Instances res))
     | Failed e => Q.Rejected e
     end,
     {| cloud := c; STATE := STATE w;
        log := (log w ++ [Ec2DescribeInstanceIds (i :: ids)])%list |}).
Proof.
  intros Hd. unfold ec2Manager.checkInstanceStatuses.
  destruct r as [[|res rest]|e].
  - now rewrite (then_resolved _ _ _ _ _ (call_fulfilled _ _ w _ _ Hd)).
  - now rewrite (then_resolved _ _ _ _ _ (call_fulfilled _ _ w _ _ Hd)).
  - now rewrite (then_rejected _ _ _ _ _ (call_failed _ _ w _ _ Hd)).
Qed.

Lemma makeTerminatedPredicate_resolves ids (w w' : World W) b :
  ec2Manager.makeTerminatedPredicate P ids w = (Q.Resolved b, w') ->
  b = true
  /\ exists res rest inst insts c,
       ec2_describeInstanceIds P ids (cloud w) = (Fulfilled (res :: rest), c)
       /\ Instances res = inst :: insts
       /\ Name (State inst) = "terminated".
Proof.
  unfold ec2Manager.makeTerminatedPredicate. destruct ids as [|i ids].
  - cbn. discriminate.
  - destruct (ec2_describeInstanceIds P (i :: ids) (cloud w)) as [r c] eqn:Hd.
    pose proof (checkInstanceStatuses_run i ids r c w Hd) as Hrun.
    destruct r as [[|res rest]|e].
    + rewrite (then_resolved _ _ _ _ _ Hrun). cbn. discriminate.
    + rewrite (then_resolved _ _ _ _ _ Hrun).
      destruct (Instances res) as [|inst insts] eqn:Hi; cbn;
        [discriminate|].
      destruct (String.eqb (Name (State inst)) "terminated") eqn:Hs; cbn;
        [|discriminate].
      intros H. injection H as <- _. split; [reflexivity|].
      exists res, rest, inst, insts, c.
      split; [reflexivity|]. split; [exact Hi|]. now apply String.eqb_eq.
    + rewrite (then_rejected _ _ _ _ _ Hrun). discriminate.
Qed.

Lemma makeReadyPredicate_resolves i (w w' : World W) b :
  ec2Manager.makeReadyPredicate P i w = (Q.Resolved b, w') ->
  b = true
  /\ exists res rest inst insts c,
       ec2_describeInstanceIds P [i] (cloud w) = (Fulfilled (res :: rest), c)
       /\ Instances res = inst :: insts
       /\ Name (State inst) = "running".
Proof.
  unfold ec2Manager.makeReadyPredicate.
  destruct (ec2_describeInstanceIds P [i] (cloud w)) as [r c] eqn:Hd.
  pose proof (checkInstanceStatuses_run i [] r c w Hd) as Hrun.
  destruct r as [[|res rest]|e].
  - rewrite (then_resolved _ _ _ _ _ Hrun). cbn. discriminate.
  - rewrite (then_resolved _ _ _ _ _ Hrun).
    destruct (Instances res) as [|inst insts] eqn:Hi; cbn; [discriminate|].
    destruct (String.eqb (Name (State inst)) "running") eqn:Hs; cbn;
      [|discriminate].
    intros H. injection H as <- _. split; [reflexivity|].
    exists res, rest, inst, insts, c.
    split; [reflexivity|]. split; [exact Hi|]. now apply String.eqb_eq.
  - rewrite (then_rejected _ _ _ _ _ Hrun). discriminate.
Qed.

End PredicateFacts.

(** X9.  The predicates polled while waiting for instances read one
    instance only.  [makeTerminatedPredicate] resolves, and then with
    [true], exactly when the first instance of the first reservation
    described for the ids is in the state [terminated], whatever the
    states of the other instances; [makeReadyPredicate] does the same
    with the state [running].  In every other case they reject, and
    never resolve with [false]; with no id at all the first throws the
    bare string [No instance IDs] before any call. *)
Theorem state_predicates_read_the_first_instance :
  forall (W : Type) (P : Env.Provider W) (ids : list string) (id : string)
         (w : Env.World W),
    let first_is (ids : list string) (state : string) :=
      exists res rest inst insts c,
        Env.ec2_describeInstanceIds P ids (Env.cloud w)
          = (Env.Fulfilled (res :: rest), c)
        /\ Aws.Instances res = inst :: insts
        /\ Aws.Name (Aws.State inst) = state in
    (ids <> [] ->
     (fst (ec2Manager.makeTerminatedPredicate P ids w) = Q.Resolved true
      <-> first_is ids "terminated"))
    /\ (fst (ec2Manager.makeReadyPredicate P id w) = Q.Resolved true
        <-> first_is [id] "running")
    /\ fst (ec2Manager.makeTerminatedPredicate P ids w) <> Q.Resolved false
    /\ fst (ec2Manager.makeReadyPredicate P id w) <> Q.Resolved false
    /\ ec2Manager.makeTerminatedPredicate P [] w
       = (Q.Thrown (Js.ThrownString "No instance IDs"), w).
Proof.
  intros W P ids id w first_is. split; [|split; [|split; [|split]]].
  - intros Hne. split.
    + intros H.
      destruct (ec2Manager.makeTerminatedPredicate P ids w) as [o w'] eqn:E.
      cbn in H. subst o.
      exact (proj2 (makeTerminatedPredicate_resolves P ids w w' true E)).
    + intros (res & rest & inst & insts & c & Hd & Hi & Hs).
      destruct ids as [|i ids]; [congruence|].
      unfold ec2Manager.makeTerminatedPredicate.
      rewrite (then_resolved _ _ _ _ _
                 (checkInstanceStatuses_run P i ids _ c w Hd)).
      rewrite Hi. cbn. rewrite Hs. reflexivity.
  - split.
    + intros H.
      destruct (ec2Manager.makeReadyPredicate P id w) as [o w'] eqn:E.
      cbn in H. subst o.
      exact (proj2 (makeReadyPredicate_resolves P id w w' true E)).
    + intros (res & rest & inst & insts & c & Hd & Hi & Hs).
      unfold ec2Manager.makeReadyPredicate.
      rewrite (then_resolved _ _ _ _ _
                 (checkInstanceStatuses_run P id [] _ c w Hd)).
      rewrite Hi. cbn. rewrite Hs. reflexivity.
  - intros H.
    destruct (ec2Manager.makeTerminatedPredicate P ids w) as [o w'] eqn:E.
    cbn in H. subst o.
    destruct (makeTerminatedPredicate_resolves P ids w w' false E).
    discriminate.
  - intros H.
    destruct (ec2Manager.makeReadyPredicate P id w) as [o w'] eqn:E.
    cbn in H. subst o.
    destruct (makeReadyPredicate_resolves P id w w' false E).
    discriminate.
  - reflexivity.
Qed.

Lemma state_predicates_read_the_first_instance_witness :
  fst (ec2Manager.makeTerminatedPredicate Mock.provider ["i-a"; "i-b"]
         (Mock.world Mock.halfDown)) = Q.Resolved true.
Proof.
  apply (proj1 (state_predicates_read_the_first_instance Mock.Cloud
                  Mock.provider ["i-a"; "i-b"] "i-a"
                  (Mock.world Mock.halfDown))); [discriminate|].
  exists {| Aws.Instances := [Mock.instance "terminated" "i-a";
                              Mock.instance "running" "i-b"] |}, [],
         (Mock.instance "terminated" "i-a"),
         [Mock.instance "running" "i-b"], Mock.halfDown.
  repeat split.
Defined.

(** ** src/aws/ec2Manager.js: launching and tagging instances *)

Section LaunchFacts.

Import Aws Env.
Context {W : Type} (P : Provider W) (L : Lib) (vpcId : string).

Lemma all_cons_world {A} rc (p : promise W A) ps (w : World W) :
  (forall e, fst (p w) <> Q.Thrown e) ->
  snd (Q.all rc (p :: ps) w) = snd (Q.all rc ps (snd (p w))).
Proof.
  intros Hnt. cbn [Q.all]. unfold Q.all2.
  destruct (p w) as [[a|e|e] w1]; cbn [snd];
    try (destruct (Q.all rc ps w1) as [[l|e'|e'] w2]; reflexivity).
  exfalso. now apply (Hnt e).
Qed.

Lemma only_waitForReady i :
  only (followUp vpcId) (ec2Manager.waitForReady P L i).
Proof.
  unfold ec2Manager.waitForReady. apply only_waitFor.
  unfold ec2Manager.makeReadyPredicate, ec2Manager.checkInstanceStatuses.
  apply only_then.
  - apply only_then; [apply only_call; left; now eexists|].
    intros [|r rs]; apply only_resolve.
  - intros [|s l]; [apply only_throw|].
    destruct (String.eqb _ _); [apply only_resolve|apply only_throw].
Qed.

(** The array handed to [Q.all]: every tagging promise issues its call,
    whatever the earlier ones answer, before the first poll. *)
Lemma all_tags_first rc (tag : Instance -> promise W unit)
    (R : Instance -> Event -> Prop) (others : list (promise W unit)) :
  (forall i w, exists ev,
      R i ev /\ emits (tag i) w [ev] /\ forall e, fst (tag i w) <> Q.Thrown e) ->
  Forall (only (followUp vpcId)) others ->
  forall insts w, exists tagEvs rest,
    emits (Q.all rc (map tag insts ++ others)%list) w (tagEvs ++ rest)%list
    /\ Forall2 R insts tagEvs /\ Forall (followUp vpcId) rest.
Proof.
  intros Htag Hothers. induction insts as [|i insts IH]; intros w.
  - destruct (only_all _ rc _ Hothers w) as (rest & E & F).
    exists [], rest. split; [exact E|]. split; [constructor|exact F].
  - destruct (Htag i w) as (ev & HR & Eev & Hnt).
    destruct (IH (snd (tag i w))) as (tagEvs & rest & E & F2 & F).
    exists (ev :: tagEvs), rest. split; [|split; [|exact F]].
    + unfold emits in *. cbn [map app].
      rewrite (all_cons_world _ _ _ _ Hnt), E, Eev, <- List.app_assoc.
      reflexivity.
    + now constructor.
Qed.

Lemma runAndTag_tags c data tag desc api results c2
    (R : Instance -> Event -> Prop) (w : World W) :
  ec2Manager.apiConfig c = Some api ->
  (forall i w, exists ev,
      R i ev /\ emits (tag i) w [ev] /\ forall e, fst (tag i w) <> Q.Thrown e) ->
  only (followUp vpcId) desc ->
  let params :=
    {| Aws.apiConfig := api; UserData := data;
       NetworkInterfaces :=
         (DEFAULT_INSTANCE_NICS L ++
          [ec2Manager.getNICConfig
             (Js.prop (ec2Manager.fields c) "subnetId")
             (Js.prop (ec2Manager.fields c) "sgId")])%list |} in
  ec2_runInstances P params (cloud w) = (Fulfilled results, c2) ->
  exists tagEvs rest,
    emits (ec2Manager.runAndTag P L c data tag desc) w
      (Ec2RunInstances params :: tagEvs ++ rest)%list
    /\ Forall2 R (Instances results) tagEvs /\ Forall (followUp vpcId) rest.
Proof.
  intros Hapi Htag Hdesc params Hrun. unfold ec2Manager.runAndTag, emits.
  rewrite Hapi. fold params.
  rewrite (then_resolved _ _ _ _ _ (call_fulfilled _ _ w _ _ Hrun)).
  set (w2 := {| cloud := c2; STATE := STATE w; log := _ |}).
  set (ready := map (fun instance =>
                       Q.then_ (ec2Manager.waitForReady P L
                                  (InstanceId instance))
                         (fun _ => Q.resolve tt)) (Instances results)).
  assert (Hready : Forall (only (followUp vpcId)) ready).
  { subst ready. apply Forall_map, List.Forall_forall. intros i _.
    apply only_then; [apply only_waitForReady|intros _; apply only_resolve]. }
  destruct (all_tags_first (race P) tag R ready Htag Hready
              (Instances results) w2)
    as (tagEvs & rest1 & E1 & F2 & F1).
  unfold emits in E1.
  destruct (Q.all (race P) (map tag (Instances results) ++ ready)%list w2)
    as [o w3] eqn:Hall.
  cbn [snd] in E1.
  assert (Hnext : exists rest2,
            log (snd (Q.handler
                        (Q.then_
                           (Q.all (race P)
                              (map tag (Instances results) ++ ready)%list)
                           (fun _ => desc)) w2))
            = (log w3 ++ rest2)%list /\ Forall (followUp vpcId) rest2).
  { unfold Q.handler, Q.then_. rewrite Hall. destruct o as [l|e|e].
    - destruct (only_handler _ _ Hdesc w3) as (rest2 & E2 & F).
      unfold emits in E2. exists rest2. split; [|exact F].
      destruct (Q.handler desc w3) as [[]]; exact E2.
    - exists []. split; [now rewrite app_nil_r|constructor].
    - exists []. split; [now rewrite app_nil_r|constructor]. }
  destruct Hnext as (rest2 & E2 & F).
  exists tagEvs, (rest1 ++ rest2)%list. split; [|split; [exact F2|]].
  - rewrite E2, E1. subst w2. cbn [log].
    rewrite <- !List.app_assoc. reflexivity.
  - apply Forall_app. now split.
Qed.

Lemma tagPrInstance_call i pr pid (w : World W) :
  exists ev,
    (exists born, ev = AwsTagEc2 (InstanceId i) (prTags L pr pid born))
    /\ emits (ec2Manager.tagPrInstance P L i pr pid) w [ev]
    /\ forall e, fst (ec2Manager.tagPrInstance P L i pr pid w) <> Q.Thrown e.
Proof.
  eexists. split; [exists (now P (cloud w)); reflexivity|]. split.
  - unfold emits, ec2Manager.tagPrInstance. apply call_log.
  - intros e. unfold ec2Manager.tagPrInstance. apply call_not_thrown.
Qed.

Lemma tagDeploymentInstance_call i d pid (w : World W) :
  exists ev,
    ev = AwsTagEc2 (InstanceId i) (deploymentTags L d pid)
    /\ emits (ec2Manager.tagDeploymentInstance P L i d pid) w [ev]
    /\ forall e,
         fst (ec2Manager.tagDeploymentInstance P L i d pid w) <> Q.Thrown e.
Proof.
  eexists. split; [reflexivity|]. split.
  - unfold emits, ec2Manager.tagDeploymentInstance. apply call_log.
  - intros e. unfold ec2Manager.tagDeploymentInstance. apply call_not_thrown.
Qed.

Lemma followUp_no_tag ev id tags : followUp vpcId ev -> ev <> AwsTagEc2 id tags.
Proof. intros [(ids & ->)|(q & ->)]; discriminate. Qed.

End LaunchFacts.

(** X10.  Every instance that [runInstances] launches gets its tags,
    and nothing else is tagged.  Once the configuration is validated, the
    user data assembled and the instances launched, [createPr] requests
    the tagging of each launched instance, whatever the other requests
    answer, with the cluster tag, the pull request, the project and an
    expiry time (a reading of the clock plus the time to live); every
    tagging it requests is one of these.  [createDeployment] does the
    same with the cluster tag, the deployment and the project. *)
Theorem launched_instances_are_all_tagged :
  forall (W : Type) (P : Env.Provider W) (L : Env.Lib) (vpcId : string)
         (c : ec2Manager.Config) (api s : string) (w w1 : Env.World W)
         (results : Aws.Reservation) (c2 : W),
    let field k := Js.prop (ec2Manager.fields c) k in
    let params :=
      {| Aws.apiConfig := api; Aws.UserData := s;
         Aws.NetworkInterfaces :=
           (Env.DEFAULT_INSTANCE_NICS L ++
            [ec2Manager.getNICConfig (field "subnetId") (field "sgId")])%list
      |} in
    let tagged_with (tags : Aws.Instance -> list Aws.Tag -> Prop)
          (evs : list Env.Event) :=
      (forall inst,
         In inst (Aws.Instances results) ->
         exists t, tags inst t /\ In (Env.AwsTagEc2 (Aws.InstanceId inst) t) evs)
      /\ (forall id t,
            In (Env.AwsTagEc2 id t) evs ->
            exists inst,
              In inst (Aws.Instances results)
              /\ id = Aws.InstanceId inst /\ tags inst t) in
    ec2Manager.apiConfig c = Some api ->
    ec2Manager.getECSContainerInstanceUserData P L
      (Js.toStr (field "clusterName")) (ec2Manager.auth c)
      (ec2Manager.sshPath c) w = (Q.Resolved s, w1) ->
    Env.ec2_runInstances P params (Env.cloud w1)
      = (Env.Fulfilled results, c2) ->
    (ec2Manager.validateCreatePrConfig (Some c) = Js.Return tt ->
     exists evs,
       Env.log (snd (ec2Manager.createPr P L vpcId (Some c) w))
       = (Env.log w1 ++ Env.Ec2RunInstances params :: evs)%list
       /\ tagged_with
            (fun _ t =>
               exists born, t = prTags L (field "pr") (field "pid") born)
            evs)
    /\ (ec2Manager.validateCreateDeploymentConfig (Some c) = Js.Return tt ->
        exists evs,
          Env.log (snd (ec2Manager.createDeployment P L vpcId (Some c) w))
          = (Env.log w1 ++ Env.Ec2RunInstances params :: evs)%list
          /\ tagged_with
               (fun _ t =>
                  t = deploymentTags L (field "deployment") (field "pid"))
               evs).
Proof.
  intros W P L vpcId c api s w w1 results c2 field params tagged_with
         Hapi Hud Hrun.
  assert (Htagged : forall (tags : Aws.Instance -> list Aws.Tag -> Prop)
                      tagEvs rest,
            Forall2 (fun inst ev =>
                       exists t, tags inst t
                                 /\ ev = Env.AwsTagEc2 (Aws.InstanceId inst) t)
              (Aws.Instances results) tagEvs ->
            Forall (followUp vpcId) rest ->
            tagged_with tags (tagEvs ++ rest)%list).
  { intros tags tagEvs rest F2 F. split.
    - intros inst Hin.
      assert (Hex : exists t,
                tags inst t
                /\ In (Env.AwsTagEc2 (Aws.InstanceId inst) t) tagEvs).
      { clear - F2 Hin. induction F2 as [|inst' ev insts evs Hx _ IH].
        - destruct Hin.
        - destruct Hin as [<-|Hin].
          + destruct Hx as (t & Ht & ->). exists t. split; [exact Ht|].
            now left.
          + destruct (IH Hin) as (t & Ht & Hi). exists t.
            split; [exact Ht|]. now right. }
      destruct Hex as (t & Ht & Hi). exists t. split; [exact Ht|].
      apply in_or_app. now left.
    - intros id t Hin. apply in_app_or in Hin as [Hin|Hin].
      + clear - F2 Hin. induction F2 as [|inst ev insts evs Hx _ IH].
        * destruct Hin.
        * destruct Hin as [Hev|Hin].
          -- destruct Hx as (t' & Ht & Heq). rewrite Heq in Hev.
             injection Hev as <- <-.
             exists inst. split; [now left|]. now split.
          -- destruct (IH Hin) as (inst' & Hi & Hid & Ht).
             exists inst'. split; [now right|]. now split.
      + exfalso. rewrite List.Forall_forall in F.
        exact (followUp_no_tag vpcId _ id t (F _ Hin) eq_refl). }
  split; intros Hv.
  - unfold ec2Manager.createPr. rewrite Hv. cbn [Q.try_].
    rewrite (then_resolved _ _ _ _ _ Hud).
    destruct (runAndTag_tags P L vpcId c s
                (fun instance =>
                   ec2Manager.tagPrInstance P L instance (field "pr")
                     (field "pid"))
                (ec2Manager.describePr P vpcId (Js.toStr (field "pid"))
                   (Js.toStr (field "pr")))
                api results c2 _ w1 Hapi
                (fun i w' => tagPrInstance_call P L i _ _ w')
                ltac:(apply only_call; right; now eexists) Hrun)
      as (tagEvs & rest & E & F2 & F).
    exists (tagEvs ++ rest)%list. split.
    + unfold emits in E. unfold Q.handler.
      destruct (ec2Manager.runAndTag _ _ _ _ _ _ w1). exact E.
    + apply Htagged; [|exact F].
      eapply Forall2_impl; [exact F2|].
      intros inst ev (born & ->). eexists. split; [now exists born|].
      reflexivity.
  - unfold ec2Manager.createDeployment. rewrite Hv. cbn [Q.try_].
    rewrite (then_resolved _ _ _ _ _ Hud).
    destruct (runAndTag_tags P L vpcId c s
                (fun instance =>
                   ec2Manager.tagDeploymentInstance P L instance
                     (field "deployment") (field "pid"))
                (ec2Manager.describeDeployment P vpcId
                   (Js.toStr (field "pid")) (Js.toStr (field "deployment")))
                api results c2 _ w1 Hapi
                (fun i w' => tagDeploymentInstance_call P L i _ _ w')
                ltac:(apply only_call; right; now eexists) Hrun)
      as (tagEvs & rest & E & F2 & F).
    exists (tagEvs ++ rest)%list. split.
    + unfold emits in E. unfold Q.handler.
      destruct (ec2Manager.runAndTag _ _ _ _ _ _ w1). exact E.
    + apply Htagged; [|exact F].
      eapply Forall2_impl; [exact F2|].
      intros inst ev ->. eexists. split; reflexivity.
Qed.

Lemma launched_instances_are_all_tagged_witness :
  exists evs,
    Env.log (snd (ec2Manager.createPr Mock.provider Mock.lib "vpc-1"
                    (Some Mock.prConfig) (Mock.world Mock.empty)))
    = (Env.Ec2RunInstances
         {| Aws.apiConfig := "{}";
            Aws.UserData := Buffer.toBase64 (script "p--7" []);
            Aws.NetworkInterfaces :=
              [ec2Manager.getNICConfig (Js.Str "subnet-1") (Js.Str "sg-1")] |}
       :: evs)
    /\ exists t,
         (exists born, t = prTags Mock.lib (Js.Str "7") (Js.Str "p") born)
         /\ In (Env.AwsTagEc2 "i-1" t) evs.
Proof.
  destruct (proj1 (launched_instances_are_all_tagged Mock.Cloud Mock.provider
                     Mock.lib "vpc-1" Mock.prConfig "{}"
                     (Buffer.toBase64 (script "p--7" []))
                     (Mock.world Mock.empty) (Mock.world Mock.empty)
                     {| Aws.Instances := [Mock.instance "running" "i-1"] |}
                     (Mock.setReservations
                        [ {| Aws.Instances :=
                               [Mock.instance "running" "i-1"] |} ]
                        Mock.empty)
                     eq_refl ltac:(vm_compute; reflexivity)
                     ltac:(vm_compute; reflexivity))
              ltac:(vm_compute; reflexivity))
    as (evs & E & Hall & _).
  exists evs. split; [exact E|].
  exact (Hall (Mock.instance "running" "i-1") (or_introl eq_refl)).
Defined.

(** ** src/aws/deploymentManager.js: creation with incomplete identifiers *)

Section ClusterFacts.

Import Aws Env.
Context {W : Type} (P : Provider W) (L : Lib) (vpcId : string).

(** The configuration [createEc2] hands to [createDeployment] is checked
    as [validateCreateDeploymentConfig] checks it. *)
Lemma createEc2_validation groupId clusterName pid deployment subnetId sha :
  ec2Manager.validateCreateDeploymentConfig
    (Some {| ec2Manager.fields :=
               <[ "clusterName" := Js.Str clusterName ]>
               (<[ "pid" := Js.Str pid ]>
               (<[ "deployment" := Js.Str deployment ]>
               (<[ "sha" := Js.Str sha ]>
               (<[ "sgId" := Js.Str groupId ]>
               (<[ "subnetId" := Js.Str subnetId ]> ∅)))));
             ec2Manager.auth := None;
             ec2Manager.apiConfig := Some "{}";
             ec2Manager.sshPath :=
               SshPath (path_join L ".private" (SSH_PUBLIC_PATH L)) |})
  = match firstEmpty [ ("clusterName", clusterName); ("sgId", groupId);
                       ("subnetId", subnetId); ("pid", pid);
                       ("deployment", deployment) ] with
    | Some attr => Js.Throw (Js.TypeError ("Instance requires " ++ attr))
    | None => Js.Return tt
    end.
Proof.
  unfold ec2Manager.validateCreateDeploymentConfig,
    ec2Manager.deploymentConfigAttributes, ec2Manager.configAttributes.
  cbn [app ec2Manager.fields ec2Manager.validateAttributes firstEmpty].
  unfold Js.prop.
  repeat (rewrite ?lookup_insert_eq;
          rewrite ?lookup_insert_ne by discriminate).
  unfold default. cbn [from_option Datatypes.id Js.truthy].
  destruct (String.eqb clusterName ""); cbn [negb]; [reflexivity|].
  destruct (String.eqb groupId ""); cbn [negb]; [reflexivity|].
  destruct (String.eqb subnetId ""); cbn [negb]; [reflexivity|].
  destruct (String.eqb pid ""); cbn [negb]; [reflexivity|].
  destruct (String.eqb deployment ""); cbn [negb]; reflexivity.
Qed.

Lemma createElbEc2_throws groupId clusterName pid deployment subnetId sha
    attr (w : World W) :
  firstEmpty [ ("clusterName", clusterName); ("sgId", groupId);
               ("subnetId", subnetId); ("pid", pid);
               ("deployment", deployment) ] = Some attr ->
  deploymentManager.createElbEc2 P L vpcId groupId clusterName pid deployment
    subnetId sha w
  = (Q.Thrown (Js.TypeError ("Instance requires " ++ attr)), w).
Proof.
  intros Hattr.
  unfold deploymentManager.createElbEc2, deploymentManager.createEc2,
    ec2Manager.createDeployment.
  rewrite createEc2_validation, Hattr. reflexivity.
Qed.

End ClusterFacts.

(** X11.  [createCluster] with an incomplete set of identifiers.  The
    security group and the cluster are created first; the configuration
    of the instance is validated only afterwards.  When the cluster name,
    the id of the created group, the subnet id, the project id or the
    deployment name is empty, the call rejects with the TypeError
    [Instance requires <field>] naming the first of them, in this order:
    no instance is launched, no load balancer and no task definition are
    created, and the group and the cluster just created are left in
    place (no call follows their creation). *)
Theorem createCluster_incomplete_leaves_group_and_cluster :
  forall (W : Type) (P : Env.Provider W) (L : Env.Lib)
         (vpcId subnetId pid deployment sha appDef : string)
         (w : Env.World W) (groupId : string) (c0 c0' : W) (attr : string),
    let clusterName := Env.generateRID L pid deployment sha in
    Env.sg_createDeployment P pid deployment sha (Env.cloud w)
      = (Env.Fulfilled groupId, c0) ->
    Env.cluster_create P clusterName c0 = (Env.Fulfilled tt, c0') ->
    firstEmpty [ ("clusterName", clusterName); ("sgId", groupId);
                 ("subnetId", subnetId); ("pid", pid);
                 ("deployment", deployment) ] = Some attr ->
    deploymentManager.createCluster P L vpcId subnetId pid deployment sha
      appDef w
    = (Q.Rejected (Js.TypeError ("Instance requires " ++ attr)),
       {| Env.cloud := c0'; Env.STATE := Env.STATE w;
          Env.log :=
            (Env.log w ++ [ Env.SgCreateDeployment pid deployment sha;
                            Env.ClusterCreate clusterName ])%list |}).
Proof.
  intros W P L vpcId subnetId pid deployment sha appDef w groupId c0 c0' attr
         clusterName Hsg Hcl Hattr.
  set (w0 := {| Env.cloud := c0'; Env.STATE := Env.STATE w; Env.log := _ |}).
  destruct (Env.task_create P clusterName clusterName appDef (Env.cloud w0))
    as [r c2] eqn:Htask.
  exact (createCluster_run P L vpcId subnetId pid deployment sha appDef
           groupId c0 c0' _ r c2 w w0 Hsg Hcl
           (createElbEc2_throws P L vpcId groupId clusterName pid deployment
              subnetId sha attr w0 Hattr)
           Htask).
Qed.

Lemma createCluster_incomplete_leaves_group_and_cluster_witness :
  deploymentManager.createCluster Mock.provider Mock.lib "vpc-1" "" "p" "d"
    "sha" "appDef" (Mock.world Mock.empty)
  = (Q.Rejected (Js.TypeError "Instance requires subnetId"),
     {| Env.cloud := Mock.setClusters ["p--d--sha"] Mock.empty;
        Env.STATE := Mock.ready;
        Env.log := [ Env.SgCreateDeployment "p" "d" "sha";
                     Env.ClusterCreate "p--d--sha" ] |}).
Proof.
  exact (createCluster_incomplete_leaves_group_and_cluster Mock.Cloud
           Mock.provider Mock.lib "vpc-1" "" "p" "d" "sha" "appDef"
           (Mock.world Mock.empty) "sg-1" Mock.empty
           (Mock.setClusters ["p--d--sha"] Mock.empty) "subnetId"
           eq_refl eq_refl eq_refl).
Defined.

(** X22.  [createCluster] and the wiring of the load balancer.  The
    security group and the cluster being created, the instance launched
    and the load balancer created, the CNAME record, the registration of
    the instance and the health check are each requested, after every
    call of the launch and of the creation of the load balancer, and the
    task definition is created next, whatever the three answer: when one
    of them fails the branch resolves with [undefined] and the failure
    is not propagated.  A failure of the creation of the load balancer
    is not swallowed: [createCluster] rejects, with that failure or with
    that of the launch when it fails too, and neither the wiring nor the
    creation of the task definition is requested.  The calls of the
    launch and the creation of the load balancer are independent; no
    order between them is stated. *)
Theorem createCluster_swallows_wiring_failures_only :
  forall (W : Type) (P : Env.Provider W) (L : Env.Lib)
         (vpcId subnetId pid deployment sha appDef : string)
         (w : Env.World W) (groupId : string) (c0 c0' : W)
         (o : Q.outcome (list Aws.Reservation)) (w1 : Env.World W)
         (launch : list Env.Event) (relb : Env.settled Aws.ElbDesc) (c1 : W),
    let clusterName := Env.generateRID L pid deployment sha in
    let w0 :=
      {| Env.cloud := c0'; Env.STATE := Env.STATE w;
         Env.log :=
           (Env.log w ++ [ Env.SgCreateDeployment pid deployment sha;
                           Env.ClusterCreate clusterName ])%list |} in
    let elbCreate :=
      Env.ElbCreateDeployment pid deployment subnetId groupId
        (Env.AWS_SSL_ID L) in
    let run :=
      deploymentManager.createCluster P L vpcId subnetId pid deployment sha
        appDef w in
    Env.sg_createDeployment P pid deployment sha (Env.cloud w)
      = (Env.Fulfilled groupId, c0) ->
    Env.cluster_create P clusterName c0 = (Env.Fulfilled tt, c0') ->
    deploymentManager.createEc2 P L vpcId groupId clusterName pid deployment
      subnetId sha w0 = (o, w1) ->
    Env.log w1 = (Env.log w0 ++ launch)%list ->
    Env.elb_createDeployment P pid deployment subnetId groupId
      (Env.AWS_SSL_ID L) (Env.cloud w1) = (relb, c1) ->
    (forall r rs elb r1 r2 r3 c2 c3 c4 rt c5,
       o = Q.Resolved (r :: rs) -> relb = Env.Fulfilled elb ->
       Env.r53_createDeploymentCNameRecord P pid deployment (Aws.dns elb) c1
         = (r1, c2) ->
       Env.elb_registerInstances P (Aws.id elb) [lastInstanceId r] c2
         = (r2, c3) ->
       Env.elb_configureHealthCheck P (Aws.id elb) c3 = (r3, c4) ->
       Env.task_create P clusterName clusterName appDef c4 = (rt, c5) ->
       fst run = match rt with
                 | Env.Fulfilled _ => Q.Resolved (wired r1 r2 r3)
                 | Env.Failed e => Q.Rejected e
                 end
       /\ (exists evs,
             Permutation evs (launch ++ [elbCreate])
             /\ Env.log (snd run)
                = (Env.log w0 ++ evs ++
                   [ Env.R53CreateDeploymentCNameRecord pid deployment
                       (Aws.dns elb);
                     Env.ElbRegisterInstances (Aws.id elb)
                       [lastInstanceId r];
                     Env.ElbConfigureHealthCheck (Aws.id elb);
                     Env.TaskCreate clusterName clusterName appDef ])%list)
       /\ ((failureOf r1 ++ failureOf r2 ++ failureOf r3)%list <> [] ->
           wired r1 r2 r3 = None))
    /\ (forall e,
          relb = Env.Failed e -> (forall e0, o <> Q.Thrown e0) ->
          (exists e',
             fst run = Q.Rejected e'
             /\ (e' = e \/ o = Q.Rejected e'))
          /\ exists evs,
               Permutation evs (launch ++ [elbCreate])
               /\ Env.log (snd run) = (Env.log w0 ++ evs)%list).
Proof.
  intros W P L vpcId subnetId pid deployment sha appDef w groupId c0 c0'
         o w1 launch relb c1 clusterName w0 elbCreate run
         Hsg Hcl Hec2 Hlaunch Helb.
  set (w2 := {| Env.cloud := c1; Env.STATE := Env.STATE w1;
                Env.log := (Env.log w1 ++ [elbCreate])%list |}).
  assert (Hw2 : Env.log w2 = (Env.log w0 ++ launch ++ [elbCreate])%list).
  { subst w2. cbn [Env.log]. now rewrite Hlaunch, <- List.app_assoc. }
  split.
  - intros r rs elb r1 r2 r3 c2 c3 c4 rt c5 -> -> H1 H2 H3 Ht.
    assert (Hall :
      Q.all2 (Env.race P)
        (deploymentManager.createEc2 P L vpcId groupId clusterName pid
           deployment subnetId sha)
        (Env.call elbCreate
           (Env.elb_createDeployment P pid deployment subnetId groupId
              (Env.AWS_SSL_ID L))) w0
      = (Q.Resolved (r :: rs, elb), w2)).
    { unfold Q.all2. rewrite Hec2.
      rewrite (call_fulfilled _ _ w1 _ _ Helb). reflexivity. }
    pose proof (createElbEc2_wiring P L vpcId groupId clusterName pid
                  deployment subnetId sha r rs elb r1 r2 r3 c2 c3 c4
                  w0 w2 Hall H1 H2 H3) as Hbranch.
    pose proof (createCluster_run P L vpcId subnetId pid deployment sha
                  appDef groupId c0 c0' _ rt c5 w _ Hsg Hcl Hbranch Ht)
      as Hrun.
    cbv beta iota zeta in Hrun. fold clusterName in Hrun.
    unfold run. rewrite Hrun. cbn [fst snd Env.log Env.STATE].
    split; [destruct rt; reflexivity|]. split.
    + exists (launch ++ [elbCreate])%list. split; [reflexivity|].
      rewrite Hw2, <- !List.app_assoc. reflexivity.
    + intros Hfail. unfold wired.
      destruct r1 as [u1|e1]; [|reflexivity].
      destruct r2 as [u2|e2]; [|reflexivity].
      destruct r3 as [u3|e3]; [|reflexivity].
      now exfalso.
  - intros e -> Hnt.
    assert (Hall : exists e',
      (e' = e \/ o = Q.Rejected e')
      /\ Q.all2 (Env.race P)
           (deploymentManager.createEc2 P L vpcId groupId clusterName pid
              deployment subnetId sha)
           (Env.call elbCreate
              (Env.elb_createDeployment P pid deployment subnetId groupId
                 (Env.AWS_SSL_ID L))) w0
         = (Q.Rejected e', w2)).
    { unfold Q.all2. rewrite Hec2.
      rewrite (call_failed _ _ w1 _ _ Helb).
      destruct o as [rs|e1|e1].
      - exists e. split; [now left|reflexivity].
      - fold w2. destruct (Env.race P w2 e1 e).
        + exists e. split; [now left|reflexivity].
        + exists e1. split; [now right|reflexivity].
      - exfalso. now apply (Hnt e1). }
    destruct Hall as (e' & He' & Hall).
    assert (Hbranch :
      deploymentManager.createElbEc2 P L vpcId groupId clusterName pid
        deployment subnetId sha w0 = (Q.Rejected e', w2)).
    { unfold deploymentManager.createElbEc2. now apply then_rejected. }
    destruct (Env.task_create P clusterName clusterName appDef
                (Env.cloud w2)) as [rt c5] eqn:Ht.
    pose proof (createCluster_run P L vpcId subnetId pid deployment sha
                  appDef groupId c0 c0' _ rt c5 w _ Hsg Hcl Hbranch Ht)
      as Hrun.
    cbv beta iota zeta in Hrun.
    unfold run. rewrite Hrun. cbn [fst snd]. split.
    + exists e'. split; [reflexivity|exact He'].
    + exists (launch ++ [elbCreate])%list. split; [reflexivity|exact Hw2].
Qed.

Lemma createCluster_swallows_wiring_failures_only_witness :
  fst (deploymentManager.createCluster Mock.provider Mock.lib "vpc-1"
         "subnet-1" "p" "d" "sha" "appDef" (Mock.world Mock.noRegistration))
  = Q.Resolved None
  /\ fst (deploymentManager.createCluster Mock.provider Mock.lib "vpc-1"
            "subnet-1" "p" "d" "sha" "appDef" (Mock.world Mock.noElb))
     = Q.Rejected (Js.Error "elb.create").
Proof.
  split.
  - set (w0 := {| Env.cloud := Mock.setClusters ["p--d--sha"]
                                 Mock.noRegistration;
                  Env.STATE := Mock.ready;
                  Env.log := [ Env.SgCreateDeployment "p" "d" "sha";
                               Env.ClusterCreate "p--d--sha" ] |}).
    set (run := deploymentManager.createEc2 Mock.provider Mock.lib "vpc-1"
                  "sg-1" "p--d--sha" "p" "d" "subnet-1" "sha" w0).
    destruct (proj1 (createCluster_swallows_wiring_failures_only Mock.Cloud
                Mock.provider Mock.lib "vpc-1" "subnet-1" "p" "d" "sha"
                "appDef" (Mock.world Mock.noRegistration) "sg-1"
                Mock.noRegistration
                (Mock.setClusters ["p--d--sha"] Mock.noRegistration)
                (fst run) (snd run)
                (skipn 2 (Env.log (snd run)))
                (Env.Fulfilled {| Aws.dns := "elb.example";
                                  Aws.id := "elb-1" |})
                (Env.cloud (snd run))
                eq_refl eq_refl (surjective_pairing _)
                ltac:(vm_compute; reflexivity)
                ltac:(vm_compute; reflexivity))
              {| Aws.Instances := [Mock.instance "running" "i-1"] |} [] _
              (Env.Fulfilled "cname") (Env.Failed (Js.Error "elb.register"))
              (Env.Fulfilled tt) (Env.cloud (snd run)) (Env.cloud (snd run))
              (Env.cloud (snd run)) (Env.Fulfilled tt) (Env.cloud (snd run))
              ltac:(vm_compute; reflexivity) eq_refl
              ltac:(vm_compute; reflexivity) ltac:(vm_compute; reflexivity)
              ltac:(vm_compute; reflexivity) ltac:(vm_compute; reflexivity))
      as (H & _).
    exact H.
  - set (w0 := {| Env.cloud := Mock.setClusters ["p--d--sha"] Mock.noElb;
                  Env.STATE := Mock.ready;
                  Env.log := [ Env.SgCreateDeployment "p" "d" "sha";
                               Env.ClusterCreate "p--d--sha" ] |}).
    set (run := deploymentManager.createEc2 Mock.provider Mock.lib "vpc-1"
                  "sg-1" "p--d--sha" "p" "d" "subnet-1" "sha" w0).
    destruct (proj2 (createCluster_swallows_wiring_failures_only Mock.Cloud
                Mock.provider Mock.lib "vpc-1" "subnet-1" "p" "d" "sha"
                "appDef" (Mock.world Mock.noElb) "sg-1"
                Mock.noElb (Mock.setClusters ["p--d--sha"] Mock.noElb)
                (fst run) (snd run)
                (skipn 2 (Env.log (snd run)))
                (Env.Failed (Js.Error "elb.create"))
                (Env.cloud (snd run))
                eq_refl eq_refl (surjective_pairing _)
                ltac:(vm_compute; reflexivity)
                ltac:(vm_compute; reflexivity))
              (Js.Error "elb.create") eq_refl
              ltac:(intros e0 H; vm_compute in H; discriminate H))
      as ((e' & He' & [->|Ho]) & _).
    + exact He'.
    + vm_compute in Ho. discriminate Ho.
Defined.

(** ** src/aws/projectManager.js: the manager state and the project *)


(** X12.  [state()] initialises the manager state once.  With a network
    id and a zone id in [STATE] it resolves with [STATE] and calls
    nothing.  Otherwise it looks up the network and the zone, both
    lookups being requested whatever the first one answers: when both
    are fulfilled the two ids are stored and the state resolves; when one
    fails the promise rejects with its reason (with the reason of one of
    the two when both fail) and [STATE] is left as it was, so that the
    next call looks them up again.  A state that resolved with two ids
    that are not empty is not looked up again. *)
Theorem state_is_initialised_once :
  forall (W : Type) (P : Env.Provider W) (w : Env.World W),
    (initialised (Env.STATE w) ->
     projectManager.state P w = (Q.Resolved (Env.STATE w), w))
    /\ (~ initialised (Env.STATE w) ->
        forall r1 c1 r2 c2,
          Env.vpc_findProject P None (Env.cloud w) = (r1, c1) ->
          Env.r53_findId P c1 = (r2, c2) ->
          let evs := [Env.VpcFindProject None; Env.R53FindId] in
          match r1, r2 with
          | Env.Fulfilled v, Env.Fulfilled z =>
              let s := {| Env.vpcId := Some (Aws.VpcId v);
                          Env.zoneId := Some z |} in
              projectManager.state P w
              = (Q.Resolved s,
                 {| Env.cloud := c2; Env.STATE := s;
                    Env.log := (Env.log w ++ evs)%list |})
          | _, _ =>
              exists e,
                In e (failureOf r1 ++ failureOf r2)
                /\ projectManager.state P w
                   = (Q.Rejected e,
                      {| Env.cloud := c2; Env.STATE := Env.STATE w;
                         Env.log := (Env.log w ++ evs)%list |})
          end)
    /\ (forall s w1,
          projectManager.state P w = (Q.Resolved s, w1) ->
          s = Env.STATE w1
          /\ (initialised s ->
              projectManager.state P w1 = (Q.Resolved s, w1))).
Proof.
  intros W P w. split; [|split].
  - apply state_initialised.
  - intros Hn r1 c1 r2 c2 H1 H2 evs. unfold projectManager.state.
    rewrite (not_initialised _ Hn).
    exact (initState_run P r1 c1 r2 c2 w H1 H2).
  - intros s w1 Hs.
    assert (Hst : s = Env.STATE w1).
    { unfold projectManager.state in Hs.
      destruct (_ || _).
      - destruct (Env.vpc_findProject P None (Env.cloud w)) as [r1 c1] eqn:H1.
        destruct (Env.r53_findId P c1) as [r2 c2] eqn:H2.
        pose proof (initState_run P r1 c1 r2 c2 w H1 H2) as Hrun.
        cbv zeta in Hrun.
        destruct r1 as [v|e], r2 as [z|e'];
          try (destruct Hrun as (e0 & _ & Hrun); rewrite Hrun in Hs;
               discriminate Hs).
        rewrite Hrun in Hs. injection Hs as <- <-. reflexivity.
      - injection Hs as <- <-. reflexivity. }
    split; [exact Hst|]. intros Hi. subst s. now apply state_initialised.
Qed.

Lemma state_is_initialised_once_witness :
  projectManager.state Mock.provider
    {| Env.cloud := Mock.empty;
       Env.STATE := {| Env.vpcId := None; Env.zoneId := None |};
       Env.log := [] |}
  = (Q.Resolved Mock.ready,
     {| Env.cloud := Mock.empty; Env.STATE := Mock.ready;
        Env.log := [Env.VpcFindProject None; Env.R53FindId] |}).
Proof.
  refine (proj1 (proj2 (state_is_initialised_once Mock.Cloud Mock.provider
                          {| Env.cloud := Mock.empty;
                             Env.STATE := {| Env.vpcId := None;
                                             Env.zoneId := None |};
                             Env.log := [] |}))
            _ (Env.Fulfilled {| Aws.VpcId := "vpc-1";
                                Aws.VpcCidrBlock := "10.0.0.0/16" |})
            Mock.empty (Env.Fulfilled "zone-1") Mock.empty eq_refl eq_refl).
  intros [H _]. discriminate H.
Defined.

(** X13.  [findOrCreateProject] creates a project only when it does not
    find it.  With the manager state there, when a listed subnet carries
    the tag of the project it resolves with the last such subnet, the
    listing being its only call.  When none does, and also when the
    listing itself fails, the run goes on as the creation of the project
    ([create]), from the world the listing left. *)
Theorem findOrCreateProject_creates_only_when_not_found :
  forall (W : Type) (P : Env.Provider W) (L : Env.Lib) (pid : string)
         (w : Env.World W) (r : Env.settled (list Aws.SubnetDesc)) (c : W),
    initialised (Env.STATE w) ->
    Env.describeSubnets P (projectManager.vpcOf (Env.STATE w)) None
      (Env.cloud w) = (r, c) ->
    let w1 :=
      {| Env.cloud := c; Env.STATE := Env.STATE w;
         Env.log :=
           (Env.log w ++
            [Env.DescribeSubnets (projectManager.vpcOf (Env.STATE w)) None])
           %list |} in
    let creation :=
      Q.handler
        (Q.then_ (projectManager.create P L pid)
           (fun sDesc =>
              Q.resolve (inr sDesc : Aws.SubnetDesc + projectManager.ProjectDesc)))
        w1 in
    (forall lst,
       r = Env.Fulfilled lst -> Exists (carriesProject L pid) lst ->
       exists sn,
         projectManager.findOrCreateProject P L pid w = (Q.Resolved (inl sn), w1)
         /\ subnetManager.findProjectTag L pid lst = Some sn
         /\ carriesProject L pid sn)
    /\ (forall lst,
          r = Env.Fulfilled lst -> ~ Exists (carriesProject L pid) lst ->
          projectManager.findOrCreateProject P L pid w = creation)
    /\ (forall e,
          r = Env.Failed e ->
          projectManager.findOrCreateProject P L pid w = creation).
Proof.
  intros W P L pid w r c Hi Hd w1 creation.
  pose proof (findOrCreateProject_run P L pid r c w Hi Hd) as Hrun.
  cbv zeta in Hrun. fold w1 in Hrun. fold creation in Hrun.
  split; [|split].
  - intros lst -> Hex.
    pose proof (findProjectTag_spec L pid lst) as Hspec.
    apply isPidInSubnetList_carries in Hex.
    rewrite isPidInSubnetList_tagged in Hex.
    destruct (subnetManager.findProjectTag L pid lst) as [sn|].
    + exists sn. split; [exact Hrun|]. split; [reflexivity|].
      destruct Hspec as (before & after & _ & Hsn & _).
      now apply tagged_carries.
    + congruence.
  - intros lst -> Hno.
    pose proof (findProjectTag_spec L pid lst) as Hspec.
    destruct (subnetManager.findProjectTag L pid lst) as [sn|];
      [|exact Hrun].
    exfalso. apply Hno. destruct Hspec as (before & after & -> & Hsn & _).
    apply List.Exists_exists. exists sn. split.
    + apply in_or_app. right. now left.
    + now apply tagged_carries.
  - intros e ->. exact Hrun.
Qed.

Lemma findOrCreateProject_creates_only_when_not_found_witness :
  projectManager.findOrCreateProject Mock.provider Mock.lib "p"
    (Mock.world Mock.network)
  = (Q.Resolved (inl (Cidr.describeAs
                        {| Cidr.block := {| Cidr.a := 10; Cidr.b := 0;
                                            Cidr.c := 3; Cidr.d := 0;
                                            Cidr.mask := 24 |};
                           Cidr.subnetId := "subnet-a";
                           Cidr.tags := [ {| Aws.Key := "the-clusternator-project";
                                             Aws.Value := "p" |} ] |})),
     {| Env.cloud := Mock.network; Env.STATE := Mock.ready;
        Env.log := [Env.DescribeSubnets "vpc-1" None] |}).
Proof.
  destruct (proj1 (findOrCreateProject_creates_only_when_not_found Mock.Cloud
                     Mock.provider Mock.lib "p" (Mock.world Mock.network)
                     (Env.Fulfilled (map Cidr.describeAs Mock.tagged))
                     Mock.network (conj eq_refl eq_refl) eq_refl)
              (map Cidr.describeAs Mock.tagged) eq_refl)
    as (sn & Hrun & Hfound & _).
  { apply isPidInSubnetList_carries. vm_compute. reflexivity. }
  rewrite Hrun. vm_compute in Hfound. injection Hfound as <-. reflexivity.
Defined.

Section ProjectCreateFacts.

Import Aws Env.
Context {W : Type} (P : Provider W) (L : Lib).

Lemma all2_rejected_call {A B} rc (p : promise W A) ev
    (f : W -> settled B * W) e r c (w w1 : World W) :
  p w = (Q.Rejected e, w1) ->
  f (cloud w1) = (r, c) ->
  let w2 :=
    {| cloud := c; STATE := STATE w1; log := (log w1 ++ [ev])%list |} in
  Q.all2 rc p (call ev f) w
  = (Q.Rejected match r with
                | Fulfilled _ => e
                | Failed e' => if rc w2 e e' then e' else e
                end, w2).
Proof.
  intros Hp Hf w2. unfold Q.all2. rewrite Hp.
  rewrite (call_run ev f w1 r c Hf). destruct r; reflexivity.
Qed.

Lemma projectCreate_run pid r1 c1 r2 c2 r3 c3 (w : World W) :
  initialised (STATE w) ->
  route_findDefault P (cloud w) = (r1, c1) ->
  acl_create P pid c1 = (r2, c2) ->
  ecr_create P pid c2 = (r3, c3) ->
  let w3 :=
    {| cloud := c3; STATE := STATE w;
       log := (log w ++ [RouteFindDefault; AclCreate pid;
                         EcrCreate pid])%list |} in
  match r1, r2, r3 with
  | Fulfilled routeId, Fulfilled acl, Fulfilled repo =>
      projectManager.create P L pid w
      = Q.handler
          (Q.then_
             (Q.all2 (race P)
                (subnetManager.create P L (projectManager.vpcOf (STATE w))
                   pid routeId (NetworkAclId acl) None)
                (call (IamCreateProjectUser pid (repositoryArn repo))
                   (iam_createProjectUser P pid (repositoryArn repo))))
             (fun r =>
                Q.resolve
                  {| projectManager.credentials := snd r;
                     projectManager.awsVpcId := vpcId (STATE w);
                     projectManager.awsRegistryId := registryId repo;
                     projectManager.awsRegion :=
                       projectManager.DEFAULT_REGION |})) w3
  | _, _, _ =>
      exists e,
        In e (failureOf r1 ++ failureOf r2 ++ failureOf r3)
        /\ projectManager.create P L pid w = (Q.Rejected e, w3)
  end.
Proof.
  intros Hi H1 H2 H3 w3. unfold projectManager.create.
  rewrite (then_resolved _ _ _ _ _ (state_initialised P w Hi)).
  pose proof (projectCreate_first P pid r1 c1 r2 c2 r3 c3 w Hi H1 H2 H3)
    as Hall.
  cbv zeta in Hall. fold w3 in Hall.
  destruct r1 as [routeId|e1]; [destruct r2 as [acl|e2];
                                [destruct r3 as [repo|e3]|]|].
  - rewrite (handler_eq _ _ _ _ (then_resolved _ _ _ _ _ Hall)).
    apply handler_handler.
  - destruct Hall as (e & Hin & Hall). exists e. split; [exact Hin|].
    apply handler_rejected. now apply then_rejected.
  - destruct Hall as (e & Hin & Hall). exists e. split; [exact Hin|].
    apply handler_rejected. now apply then_rejected.
  - destruct Hall as (e & Hin & Hall). exists e. split; [exact Hin|].
    apply handler_rejected. now apply then_rejected.
Qed.

End ProjectCreateFacts.

(** X14.  [projectManager.create] first requests the default route
    table, an ACL and a repository, the three of them whatever each
    answers.  When one of them fails, the promise rejects with the reason
    of a failed one and nothing else is requested: no subnet and no user
    are created, and what was created is left in place.  When the three
    are fulfilled and a subnet already carries the tag of the project,
    the creation of the subnet is refused ([Project: <pid> exists]) after
    its listing and the user of the project is requested all the same;
    [create] rejects with that refusal, or with the failure of the
    request for the user when it fails too and arrives first. *)
Theorem project_create_is_not_undone_on_failure :
  forall (W : Type) (P : Env.Provider W) (L : Env.Lib) (pid : string)
         (w : Env.World W)
         (r1 : Env.settled string) (r2 : Env.settled Aws.NetworkAcl)
         (r3 : Env.settled Aws.EcrDesc) (c1 c2 c3 : W),
    initialised (Env.STATE w) ->
    Env.route_findDefault P (Env.cloud w) = (r1, c1) ->
    Env.acl_create P pid c1 = (r2, c2) ->
    Env.ecr_create P pid c2 = (r3, c3) ->
    let first :=
      [Env.RouteFindDefault; Env.AclCreate pid; Env.EcrCreate pid] in
    let vpc := projectManager.vpcOf (Env.STATE w) in
    match r1, r2, r3 with
    | Env.Fulfilled routeId, Env.Fulfilled acl, Env.Fulfilled repo =>
        pid <> "" -> routeId <> "" -> Aws.NetworkAclId acl <> "" ->
        forall lst c4 r5 c5,
          Env.describeSubnets P vpc None c3 = (Env.Fulfilled lst, c4) ->
          Exists (carriesProject L pid) lst ->
          Env.iam_createProjectUser P pid (Aws.repositoryArn repo) c4
            = (r5, c5) ->
          exists e,
            In e (Js.Error
                    ("Create Subnet Failed: Project: " ++ pid ++ " exists")
                  :: failureOf r5)
            /\ projectManager.create P L pid w
               = (Q.Rejected e,
                  {| Env.cloud := c5; Env.STATE := Env.STATE w;
                     Env.log :=
                       (Env.log w ++ first ++
                        [ Env.DescribeSubnets vpc None;
                          Env.IamCreateProjectUser pid
                            (Aws.repositoryArn repo) ])%list |})
    | _, _, _ =>
        exists e,
          In e (failureOf r1 ++ failureOf r2 ++ failureOf r3)
          /\ projectManager.create P L pid w
             = (Q.Rejected e,
                {| Env.cloud := c3; Env.STATE := Env.STATE w;
                   Env.log := (Env.log w ++ first)%list |})
    end.
Proof.
  intros W P L pid w r1 r2 r3 c1 c2 c3 Hi H1 H2 H3 first vpc.
  pose proof (projectCreate_run P L pid r1 c1 r2 c2 r3 c3 w Hi H1 H2 H3)
    as Hrun.
  cbv zeta in Hrun.
  destruct r1 as [routeId|e1]; [destruct r2 as [acl|e2];
                                [destruct r3 as [repo|e3]|]|];
    try exact Hrun.
  intros Hp Hr Ha lst c4 r5 c5 Hd Hex Hiam. rewrite Hrun.
  set (w3 := {| Env.cloud := c3; Env.STATE := Env.STATE w; Env.log := _ |}).
  apply isPidInSubnetList_carries in Hex.
  pose proof (create_exists P L vpc pid routeId (Aws.NetworkAclId acl) None
                lst c4 w3 Hp Hr Ha Hd Hex) as Hsub.
  pose proof (all2_rejected_call (Env.race P) _
                (Env.IamCreateProjectUser pid (Aws.repositoryArn repo))
                (Env.iam_createProjectUser P pid (Aws.repositoryArn repo))
                _ r5 c5 w3 _ Hsub Hiam) as Hall.
  cbv zeta in Hall.
  eexists. split; [|].
  2:{ apply handler_rejected.
      rewrite (then_rejected _ _ _ _ _ Hall). subst w3 first. cbn.
      rewrite <- !List.app_assoc. reflexivity. }
  destruct r5 as [u|e5]; [now left|].
  destruct (Env.race P _ _ e5); [right; now left|now left].
Qed.

Lemma project_create_is_not_undone_on_failure_witness :
  projectManager.create Mock.provider Mock.lib "p" (Mock.world Mock.network)
  = (Q.Rejected (Js.Error "Create Subnet Failed: Project: p exists"),
     {| Env.cloud := Mock.network; Env.STATE := Mock.ready;
        Env.log :=
          [ Env.RouteFindDefault; Env.AclCreate "p"; Env.EcrCreate "p";
            Env.DescribeSubnets "vpc-1" None;
            Env.IamCreateProjectUser "p" "arn" ] |}).
Proof.
  assert (Hex : Exists (carriesProject Mock.lib "p")
                  (map Cidr.describeAs Mock.tagged)).
  { apply isPidInSubnetList_carries. vm_compute. reflexivity. }
  destruct (project_create_is_not_undone_on_failure Mock.Cloud Mock.provider
              Mock.lib "p" (Mock.world Mock.network)
              (Env.Fulfilled "rtb-1")
              (Env.Fulfilled {| Aws.NetworkAclId := "acl-1";
                                Aws.IsDefault := false;
                                Aws.Associations := [] |})
              (Env.Fulfilled {| Aws.repositoryArn := "arn";
                                Aws.registryId := "r" |})
              Mock.network Mock.network Mock.network
              (conj eq_refl eq_refl) eq_refl eq_refl eq_refl
              ltac:(discriminate) ltac:(discriminate) ltac:(discriminate)
              (map Cidr.describeAs Mock.tagged) Mock.network
              (Env.Fulfilled "creds") Mock.network eq_refl Hex eq_refl)
    as (e & [<-|[]] & Hrun).
  exact Hrun.
Defined.

(** ** src/aws/projectManager.js: deployments *)

Section DeploymentFacts.

Import Aws Env.
Context {W : Type} (P : Provider W) (L : Lib) {R : Type}
  (deployment_create :
     ManagerState -> string -> string -> string -> option SshSource ->
     promise W R)
  (deployment_destroy : ManagerState -> string -> string -> promise W unit).





End DeploymentFacts.



(** ** src/aws/projectManager.js: listings *)

Section ListingFacts.

Import Aws Env.
Context {W : Type} (P : Provider W) (L : Lib).

Lemma projectOfTags_last tags :
  projectManager.projectOfTags L tags
  = match last tags with
    | Some tag =>
        if String.eqb (Key tag) (PROJECT_TAG L) then Some (Value tag)
        else None
    | None => None
    end.
Proof.
  unfold projectManager.projectOfTags.
  induction tags as [|tag tags _] using rev_ind; [reflexivity|].
  rewrite fold_left_app, last_snoc. reflexivity.
Qed.

Lemma listed_names (pid : string) (groups : list (list Tag)) :
  In pid (omap (fun identity : option string => identity)
            (List.filter ec2Manager.truthyStr
               (map (projectManager.projectOfTags L) groups)))
  <-> pid <> ""
      /\ exists tags tag,
           In tags groups /\ last tags = Some tag
           /\ Key tag = PROJECT_TAG L /\ Value tag = pid.
Proof.
  induction groups as [|tags groups IH]; cbn [map List.filter omap].
  - split; [intros []|intros (_ & tags & tag & [] & _)].
  - assert (Hhead :
      ec2Manager.truthyStr (projectManager.projectOfTags L tags) = true
      /\ projectManager.projectOfTags L tags = Some pid
      <-> pid <> ""
          /\ exists tag, last tags = Some tag
                         /\ Key tag = PROJECT_TAG L /\ Value tag = pid).
    { rewrite projectOfTags_last.
      destruct (last tags) as [tag|].
      - destruct (String.eqb (Key tag) (PROJECT_TAG L)) eqn:Hk.
        + apply String.eqb_eq in Hk. cbn. split.
          * intros [Ht Hv]. injection Hv as Hv. subst pid. split.
            -- intros Hnil. rewrite Hnil in Ht. discriminate Ht.
            -- exists tag. repeat split. exact Hk.
          * intros (Hne & tag' & Heq & _ & Hv). injection Heq as <-.
            subst pid. split; [|reflexivity].
            now apply negb_true_iff, String.eqb_neq.
        + apply String.eqb_neq in Hk. split.
          * intros [Ht _]. discriminate Ht.
          * intros (_ & tag' & Heq & Hk' & _). injection Heq as <-.
            contradiction.
      - split; [intros [Ht _]; discriminate Ht|].
        intros (_ & tag' & Heq & _). discriminate Heq. }
    destruct (ec2Manager.truthyStr (projectManager.projectOfTags L tags))
      eqn:Ht.
    + destruct (projectManager.projectOfTags L tags) as [name|] eqn:Hn;
        [|discriminate Ht].
      cbn [omap]. cbn. split.
      * intros [->|Hin].
        -- destruct (proj1 Hhead (conj eq_refl eq_refl)) as (Hne & tag & H).
           split; [exact Hne|]. exists tags, tag. split; [now left|exact H].
        -- destruct (proj1 IH Hin) as (Hne & tags' & tag & Hi & H).
           split; [exact Hne|]. exists tags', tag. split; [now right|exact H].
      * intros (Hne & tags' & tag & [<-|Hi] & H).
        -- destruct (proj2 Hhead (conj Hne (ex_intro _ tag H))) as [_ Heq].
           injection Heq as ->. now left.
        -- right. apply IH. split; [exact Hne|]. now exists tags', tag.
    + rewrite IH. split.
      * intros (Hne & tags' & tag & Hi & H). split; [exact Hne|].
        exists tags', tag. split; [now right|exact H].
      * intros (Hne & tags' & tag & [<-|Hi] & H).
        -- destruct (proj2 Hhead (conj Hne (ex_intro _ tag H))) as [Habs _].
           discriminate Habs.
        -- split; [exact Hne|]. now exists tags', tag.
Qed.

End ListingFacts.

(** X16.  [listProjects] lists a project per subnet whose last tag is
    the project tag.  With the manager state there and the subnets
    listed, it resolves with the values of the project tags that come
    last in the tag list of a subnet and are not empty, in the order of
    the listing, and calls nothing else: the reduction over the tags of a
    subnet forgets a project tag as soon as another tag follows it. *)
Theorem listProjects_reads_the_last_tag_of_each_subnet :
  forall (W : Type) (P : Env.Provider W) (L : Env.Lib) (w : Env.World W)
         (lst : list Aws.SubnetDesc) (c : W),
    initialised (Env.STATE w) ->
    Env.describeSubnets P (projectManager.vpcOf (Env.STATE w)) None
      (Env.cloud w) = (Env.Fulfilled lst, c) ->
    exists names,
      projectManager.listProjects P L w
      = (Q.Resolved names,
         {| Env.cloud := c; Env.STATE := Env.STATE w;
            Env.log :=
              (Env.log w ++
               [Env.DescribeSubnets (projectManager.vpcOf (Env.STATE w))
                  None])%list |})
      /\ (forall pid,
            In pid names
            <-> pid <> ""
                /\ exists sn tag,
                     In sn lst /\ last (Aws.SubnetTags sn) = Some tag
                     /\ Aws.Key tag = Env.PROJECT_TAG L
                     /\ Aws.Value tag = pid)
      /\ (forall sn pid other,
            Aws.SubnetTags sn
            = [ {| Aws.Key := Env.PROJECT_TAG L; Aws.Value := pid |}; other ] ->
            Aws.Key other <> Env.PROJECT_TAG L ->
            lst = [sn] -> names = []).
Proof.
  intros W P L w lst c Hi Hd.
  eexists. split; [|split].
  - unfold projectManager.listProjects.
    rewrite (then_resolved _ _ _ _ _ (state_initialised P w Hi)).
    assert (Htags :
      Q.then_ (subnetManager.describe P
                 (projectManager.vpcOf (Env.STATE w)) None)
        (fun dBlock => Q.resolve (map Aws.SubnetTags dBlock)) w
      = (Q.Resolved (map Aws.SubnetTags lst),
         {| Env.cloud := c; Env.STATE := Env.STATE w;
            Env.log :=
              (Env.log w ++
               [Env.DescribeSubnets (projectManager.vpcOf (Env.STATE w))
                  None])%list |})).
    { unfold subnetManager.describe.
      now rewrite (then_resolved _ _ _ _ _ (call_fulfilled _ _ w _ _ Hd)). }
    rewrite (handler_eq _ _ _ _ (then_resolved _ _ _ _ _ Htags)).
    reflexivity.
  - intros pid. rewrite listed_names. split.
    + intros (Hne & tags & tag & Hin & H). split; [exact Hne|].
      apply in_map_iff in Hin as (sn & <- & Hsn). now exists sn, tag.
    + intros (Hne & sn & tag & Hin & H). split; [exact Hne|].
      exists (Aws.SubnetTags sn), tag. split; [|exact H].
      apply in_map_iff. now exists sn.
  - intros sn pid other Htags Hother ->. cbn [map].
    rewrite Htags. unfold projectManager.projectOfTags. cbn [fold_left].
    cbn [Aws.Key Aws.Value].
    apply String.eqb_neq in Hother. rewrite Hother. reflexivity.
Qed.

Lemma listProjects_reads_the_last_tag_of_each_subnet_witness :
  projectManager.listProjects Mock.provider Mock.lib (Mock.world Mock.network)
  = (Q.Resolved ["p"],
     {| Env.cloud := Mock.network; Env.STATE := Mock.ready;
        Env.log := [Env.DescribeSubnets "vpc-1" None] |}).
Proof.
  destruct (listProjects_reads_the_last_tag_of_each_subnet Mock.Cloud
              Mock.provider Mock.lib (Mock.world Mock.network)
              (map Cidr.describeAs Mock.tagged) Mock.network
              (conj eq_refl eq_refl) eq_refl) as (names & Hrun & _).
  rewrite Hrun. vm_compute in Hrun. injection Hrun as <-. reflexivity.
Defined.

(** ** src/api/0.1/rest/rest-api.js *)

Section RestFacts.

Lemma numberToString_not_NaN z : Js.numberToString (Js.Int z) <> "NaN".
Proof.
  unfold Js.numberToString. destruct z as [|p|p]; cbn; try discriminate.
  destruct (Pos.to_uint p) as [|u|u|u|u|u|u|u|u|u|u]; discriminate.
Qed.

(** On the integers and NaN, NaN alone differs from itself, and alone
    is written [NaN]. *)
Lemma strictEq_NaN n :
  Mock.strictEq n n = false <-> Js.numberToString n = "NaN".
Proof.
  destruct n as [|z]; cbn [Mock.strictEq Js.numberToString].
  - tauto.
  - rewrite Z.eqb_refl. split; [discriminate|].
    intros H. now apply numberToString_not_NaN in H.
Qed.

End RestFacts.

(** X17.  [sanitizeSha] answers with a revision of 6 to 40 characters.
    A string of 6 to 40 characters is kept as it is; every other value
    (missing, empty, too short, too long) is replaced by [master], which
    has 6 characters itself, so that sanitising twice changes nothing.
    The length is that of the language; all that is used of it is the
    length of [master]. *)
Theorem sanitizeSha_is_a_revision_or_master :
  forall (length : string -> nat) (sha : Js.value),
    length "master" = 6%nat ->
    (6 <= length (restApi.sanitizeSha length sha) <= 40)%nat
    /\ restApi.sanitizeSha length (Js.Str (restApi.sanitizeSha length sha))
       = restApi.sanitizeSha length sha
    /\ (forall s,
          sha = Js.Str s -> (6 <= length s <= 40)%nat ->
          restApi.sanitizeSha length sha = s)
    /\ (Js.truthy sha = false -> length "" = 0%nat ->
        restApi.sanitizeSha length sha = "master")
    /\ (forall s,
          sha = Js.Str s -> (length s <= 5 \/ 40 < length s)%nat ->
          restApi.sanitizeSha length sha = "master").
Proof.
  intros length sha Hmaster.
  assert (Hkeep : forall s, (6 <= length s <= 40)%nat ->
                            restApi.sanitizeSha length (Js.Str s) = s).
  { intros s [Hlo Hhi]. unfold restApi.sanitizeSha. cbn [Js.truthy].
    assert (H5 : (5 <? length s)%nat = true) by (apply Nat.ltb_lt; lia).
    assert (H40 : (length s <=? 40)%nat = true) by (apply Nat.leb_le; lia).
    destruct (String.eqb s "") eqn:Hs.
    - apply String.eqb_eq in Hs. subst s. cbn [negb Js.toStr].
      now rewrite H5, H40.
    - cbn [negb Js.toStr]. now rewrite H5, H40. }
  assert (Hbounds :
            (6 <= length (restApi.sanitizeSha length sha) <= 40)%nat).
  { unfold restApi.sanitizeSha.
    set (s := Js.toStr _).
    destruct (5 <? length s)%nat eqn:H5; cbn [andb].
    - destruct (length s <=? 40)%nat eqn:H40.
      + apply Nat.ltb_lt in H5. apply Nat.leb_le in H40. lia.
      + rewrite Hmaster. lia.
    - rewrite Hmaster. lia. }
  split; [exact Hbounds|]. split; [now apply Hkeep|].
  split; [intros s -> Hs; now apply Hkeep|]. split.
  - intros Hf H0. unfold restApi.sanitizeSha. rewrite Hf.
    cbn [negb Js.toStr]. rewrite H0. reflexivity.
  - intros s -> Hs. unfold restApi.sanitizeSha. cbn [Js.truthy].
    assert (Hout : (5 <? length s)%nat && (length s <=? 40)%nat = false).
    { destruct Hs as [Hs|Hs].
      - assert (H5 : (5 <? length s)%nat = false)
          by (apply Nat.ltb_ge; lia).
        now rewrite H5.
      - assert (H40 : (length s <=? 40)%nat = false)
          by (apply Nat.leb_gt; lia).
        now rewrite H40, andb_false_r. }
    destruct (String.eqb s "") eqn:He; cbn [negb Js.toStr].
    + apply String.eqb_eq in He. subst s. now rewrite Hout.
    + now rewrite Hout.
Qed.

Lemma sanitizeSha_is_a_revision_or_master_witness :
  restApi.sanitizeSha String.length (Js.Str "0123456789abcdef")
  = "0123456789abcdef"
  /\ restApi.sanitizeSha String.length (Js.Str "abc") = "master"
  /\ restApi.sanitizeSha String.length Js.Undefined = "master".
Proof.
  split; [|split].
  - exact (proj1 (proj2 (proj2
             (sanitizeSha_is_a_revision_or_master String.length
                (Js.Str "0123456789abcdef") eq_refl)))
             "0123456789abcdef" eq_refl ltac:(cbn; lia)).
  - exact (proj2 (proj2 (proj2 (proj2
             (sanitizeSha_is_a_revision_or_master String.length
                (Js.Str "abc") eq_refl))))
             "abc" eq_refl ltac:(cbn; lia)).
  - exact (proj1 (proj2 (proj2 (proj2
             (sanitizeSha_is_a_revision_or_master String.length
                Js.Undefined eq_refl))))
             eq_refl eq_refl).
Defined.

(** X18.  The pull request [makePrDestroy] tears down is never named
    [NaN].  The [pr] of the body is converted to a number, and to 0 when
    the conversion gives NaN.  Once the project is found and the manager
    state there, the one call is the teardown of the pull request of that
    project named by the writing of that number: the writing of the
    number [pr] converts to, and [0] when that is NaN.  The numbers are
    those of the language, of which two laws are used: NaN alone differs
    from itself and alone is written [NaN], and 0 is written [0]. *)
Theorem makePrDestroy_names_a_number :
  forall (W : Type) (P : Env.Provider W) (double : Type)
         (toNumber : Js.value -> double)
         (strictEq : double -> double -> bool) (zero : double)
         (numberToString : double -> string)
         (projects_find : Js.value -> Env.promise W string)
         (body_id body_pr : Js.value) (pid : string) (w w1 : Env.World W),
    (forall n, strictEq n n = false <-> numberToString n = "NaN") ->
    numberToString zero = "0" ->
    projects_find body_id w = (Q.Resolved pid, w1) ->
    initialised (Env.STATE w1) ->
    let written := numberToString (toNumber body_pr) in
    let name := if String.eqb written "NaN" then "0" else written in
    name <> "NaN"
    /\ restApi.makePrDestroy toNumber strictEq zero numberToString P
         projects_find body_id body_pr w
       = Env.call (Env.PrDestroy (Some pid) name)
           (Env.pr_destroy P (Some pid) name) w1.
Proof.
  intros W P double toNumber strictEq zero numberToString projects_find
         body_id body_pr pid w w1 Hnan Hzero Hfind Hi written name.
  assert (Happ : forall s : string, s ++ "" = s).
  { induction s as [|a s IH]; [reflexivity|].
    change (String a (s ++ "") = String a s). f_equal. exact IH. }
  assert (Hname : numberToString
                    (restApi.sanitizePr toNumber strictEq zero body_pr)
                  = name).
  { unfold restApi.sanitizePr, name, written. cbv zeta.
    destruct (strictEq (toNumber body_pr) (toNumber body_pr)) eqn:E;
      cbn [negb].
    - destruct (String.eqb _ "NaN") eqn:Hw; [|reflexivity].
      apply String.eqb_eq, Hnan in Hw. congruence.
    - apply Hnan in E. rewrite E, Hzero. reflexivity. }
  split.
  - unfold name. destruct (String.eqb written "NaN") eqn:Hw;
      [discriminate|]. now apply String.eqb_neq.
  - unfold restApi.makePrDestroy. cbv zeta. rewrite Hname.
    rewrite (then_resolved _ _ _ _ _ Hfind). cbv beta. rewrite Happ.
    unfold projectManager.destroyPR.
    rewrite (handler_eq _ _ _ _
               (then_resolved _ _ _ _ _ (state_initialised P w1 Hi))).
    rewrite handler_handler. apply handler_call.
Qed.

Lemma makePrDestroy_names_a_number_witness :
  Env.log (snd (restApi.makePrDestroy Mock.toNumber Mock.strictEq (Js.Int 0)
                  Js.numberToString Mock.provider
                  (fun _ => Q.resolve "p") (Js.Str "p") (Js.Str "seven")
                  (Mock.world Mock.empty)))
  = [Env.PrDestroy (Some "p") "0"].
Proof.
  rewrite (proj2 (makePrDestroy_names_a_number Mock.Cloud Mock.provider
                    Js.number Mock.toNumber Mock.strictEq (Js.Int 0)
                    Js.numberToString (fun _ => Q.resolve "p")
                    (Js.Str "p") (Js.Str "seven") "p"
                    (Mock.world Mock.empty) (Mock.world Mock.empty)
                    strictEq_NaN eq_refl eq_refl (conj eq_refl eq_refl))).
  reflexivity.
Defined.

(** ** src/aws/ec2Manager.js: the SSH keys of a directory *)

Section KeyFacts.

Import Aws Env.
Context {W : Type} (P : Provider W) (L : Lib).

Lemma readAll_run paths : forall (w : World W),
  exists o,
    Q.all (race P) (map (ec2Manager.readFile P) paths) w
    = (o,
       {| cloud := snd (readFiles P paths (cloud w)); STATE := STATE w;
          log := (log w ++ map FsReadFile paths)%list |})
    /\ match gathered (fst (readFiles P paths (cloud w))) with
       | Fulfilled keys => o = Q.Resolved keys
       | Failed _ => exists e, o = Q.Rejected e
       end.
Proof.
  induction paths as [|p paths IH]; intros w.
  - exists (Q.Resolved []). cbn. rewrite app_nil_r. now destruct w.
  - cbn [map Q.all readFiles]. unfold Q.all2, ec2Manager.readFile at 1.
    destruct (fs_readFile P p (cloud w)) as [a c1] eqn:Hread.
    rewrite (call_run (FsReadFile p) _ w a c1 Hread).
    set (w1 := {| cloud := c1; STATE := STATE w; log := _ |}).
    destruct (IH w1) as (o & -> & Ho). cbn [cloud w1] in *.
    destruct (readFiles P paths c1) as [l c2]. cbn [fst snd gathered] in *.
    subst w1. cbn [STATE log].
    destruct a as [s|e], (gathered l) as [keys|e'];
      [subst o|destruct Ho as (e0 & ->)|subst o|destruct Ho as (e0 & ->)];
      cbn; rewrite <- List.app_assoc; eexists; (split; [reflexivity|]);
      eauto.
Qed.

Lemma loadUserPublicKeys_run path files c1 (w : World W) :
  fs_readdir P path (cloud w) = (Fulfilled files, c1) ->
  let paths := map (path_join L path) files in
  exists o,
    ec2Manager.loadUserPublicKeys P L path w
    = (o,
       {| cloud := snd (readFiles P paths c1); STATE := STATE w;
          log := (log w ++ FsReaddir path :: map FsReadFile paths)%list |})
    /\ match gathered (fst (readFiles P paths c1)) with
       | Fulfilled keys => o = Q.Resolved keys
       | Failed _ => exists e, o = Q.Rejected e
       end.
Proof.
  intros Hdir paths. unfold ec2Manager.loadUserPublicKeys, ec2Manager.ls.
  rewrite (then_resolved _ _ _ _ _ (call_fulfilled _ _ w _ _ Hdir)).
  unfold Q.handler.
  replace (map (fun fileName =>
                  ec2Manager.readFile P (path_join L path fileName)) files)
    with (map (ec2Manager.readFile P) paths)
    by (subst paths; now rewrite map_map).
  match goal with
  | |- context [Q.all _ _ ?w0] => destruct (readAll_run paths w0) as (o & -> & Ho)
  end.
  cbn [cloud log STATE] in *. rewrite <- List.app_assoc.
  destruct (gathered _) as [keys|e0].
  - subst o. eexists. split; reflexivity.
  - destruct Ho as (e1 & ->). eexists. split; [reflexivity|]. eauto.
Qed.

End KeyFacts.

(** X19.  The keys of a key directory are installed all or none.  The
    directory being listed, every file of it is read, whatever the
    earlier reads answer.  When every read is fulfilled the bootstrap
    script carries the set-up directive, one key-append directive per
    file in the order of the listing, and the chown directive.  When one
    read fails the script carries no key at all, and the user data
    resolves all the same. *)
Theorem directory_keys_are_installed_all_or_none :
  forall (W : Type) (P : Env.Provider W) (L : Env.Lib)
         (clusterName path : string) (files : list string) (c1 : W)
         (w : Env.World W),
    Env.fs_readdir P path (Env.cloud w) = (Env.Fulfilled files, c1) ->
    let paths := map (Env.path_join L path) files in
    let answers := fst (readFiles P paths c1) in
    ec2Manager.getECSContainerInstanceUserData P L clusterName None
      (Aws.SshPath path) w
    = (Q.Resolved
         (Buffer.toBase64
            (script clusterName
               match gathered answers with
               | Env.Fulfilled keys => ec2Manager.processSSHKeys keys
               | Env.Failed _ => []
               end)),
       {| Env.cloud := snd (readFiles P paths c1);
          Env.STATE := Env.STATE w;
          Env.log :=
            (Env.log w ++ Env.FsReaddir path
             :: map Env.FsReadFile paths)%list |}).
Proof.
  intros W P L clusterName path files c1 w Hdir paths answers.
  destruct (loadUserPublicKeys_run P L path files c1 w Hdir)
    as (o & Hload & Ho).
  fold paths answers in Hload, Ho.
  unfold ec2Manager.getECSContainerInstanceUserData. cbn [Q.try_].
  unfold Q.then2, ec2Manager.makeSSHUserData, Q.then_. rewrite Hload.
  destruct (gathered answers) as [keys|e];
    [subst o|destruct Ho as (e1 & ->)]; reflexivity.
Qed.

Lemma directory_keys_are_installed_all_or_none_witness :
  ec2Manager.getECSContainerInstanceUserData Mock.keyed Mock.lib "p--7" None
    (Aws.SshPath "keys") (Mock.world Mock.empty)
  = (Q.Resolved (Buffer.toBase64 (script "p--7" [])),
     {| Env.cloud := Mock.empty; Env.STATE := Mock.ready;
        Env.log := [ Env.FsReaddir "keys"; Env.FsReadFile "keys/a.pub";
                     Env.FsReadFile "keys/b.pub" ] |}).
Proof.
  exact (directory_keys_are_installed_all_or_none Mock.Cloud Mock.keyed
           Mock.lib "p--7" "keys" ["a.pub"; "b.pub"] Mock.empty
           (Mock.world Mock.empty) eq_refl).
Defined.

(** ** src/aws/projectManager.js: the description of an instance *)

(** X20.  [mapEc2ProjectDetails] describes a reservation by the tags of
    its first instance.  An instance tagged as [tagPrInstance] tags it is
    described as the pull request of its PR tag, one tagged as
    [tagDeploymentInstance] tags it as the deployment of its deployment
    tag, with the text [<type> <identifier> (<ip>/<state>)]; a
    reservation without instance gets the default description, whose
    text is empty.  The keys of the five tags are supposed different
    where the code compares them. *)
Theorem tagged_instances_are_described_by_their_tag :
  forall (L : Env.Lib) (inst : Aws.Instance) (insts : list Aws.Instance)
         (pr dep pid : Js.value) (born : Z),
    Env.PR_TAG L <> Env.DEPLOYMENT_TAG L ->
    Env.CLUSTERNATOR_TAG L <> Env.PR_TAG L ->
    Env.CLUSTERNATOR_TAG L <> Env.DEPLOYMENT_TAG L ->
    Env.PROJECT_TAG L <> Env.PR_TAG L ->
    Env.PROJECT_TAG L <> Env.DEPLOYMENT_TAG L ->
    Env.EXPIRES_TAG L <> Env.PR_TAG L ->
    Env.EXPIRES_TAG L <> Env.DEPLOYMENT_TAG L ->
    let described kind name :=
      {| projectManager.type := kind;
         projectManager.identifier := name;
         projectManager.str :=
           kind ++ " " ++ name ++ " (" ++ Aws.PublicIpAddress inst ++ "/" ++
           Aws.Name (Aws.State inst) ++ ")";
         projectManager.ip := Aws.PublicIpAddress inst;
         projectManager.state_ := Aws.Name (Aws.State inst) |} in
    (Aws.Tags inst = prTags L pr pid born ->
     projectManager.mapEc2ProjectDetails L {| Aws.Instances := inst :: insts |}
     = described "PR" (Js.toStr pr))
    /\ (Aws.Tags inst = deploymentTags L dep pid ->
        projectManager.mapEc2ProjectDetails L
          {| Aws.Instances := inst :: insts |}
        = described "Deployment" (Js.toStr dep))
    /\ projectManager.mapEc2ProjectDetails L {| Aws.Instances := [] |}
       = {| projectManager.type := "type"; projectManager.identifier := "?";
            projectManager.str := ""; projectManager.ip := "";
            projectManager.state_ := "" |}.
Proof.
  intros L inst insts pr dep pid born Hpd Hcp Hcd Hjp Hjd Hep Hed described.
  apply String.eqb_neq in Hpd, Hcp, Hcd, Hjp, Hjd, Hep, Hed.
  split; [|split; [|reflexivity]].
  - intros Htags. unfold projectManager.mapEc2ProjectDetails.
    cbn [Aws.Instances]. rewrite Htags. unfold prTags.
    cbn [fold_left Aws.Key Aws.Value].
    rewrite Hcp, Hcd, String.eqb_refl, Hpd, Hjp, Hjd, Hep, Hed.
    reflexivity.
  - intros Htags. unfold projectManager.mapEc2ProjectDetails.
    cbn [Aws.Instances]. rewrite Htags. unfold deploymentTags.
    cbn [fold_left Aws.Key Aws.Value].
    rewrite String.eqb_refl, Hjp, Hjd. reflexivity.
Qed.

Lemma tagged_instances_are_described_by_their_tag_witness :
  projectManager.mapEc2ProjectDetails Mock.lib
    {| Aws.Instances := [Mock.prInstance "i-7" "7" "999000"] |}
  = {| projectManager.type := "PR"; projectManager.identifier := "7";
       projectManager.str := "PR 7 (203.0.113.7/running)";
       projectManager.ip := "203.0.113.7";
       projectManager.state_ := "running" |}.
Proof.
  refine (proj1 (tagged_instances_are_described_by_their_tag Mock.lib
                   (Mock.prInstance "i-7" "7" "999000") [] (Js.Str "7")
                   (Js.Str "beta") (Js.Str "p") (999000 - 259200000)
                   _ _ _ _ _ _ _) _); try discriminate.
  vm_compute. reflexivity.
Defined.

(** X21.  Tearing down a deployment goes through [findOrCreateProject]:
    when no listed subnet carries the tag of the project,
    [destroyDeployment] first requests the default route table, an ACL
    and a repository for the project; when one of the three fails it
    rejects with the reason of a failed one, and the teardown of the
    deployment is never requested. *)
Theorem destroyDeployment_first_recreates_a_missing_project :
  forall (W : Type) (P : Env.Provider W) (L : Env.Lib)
         (deployment_destroy :
            Env.ManagerState -> string -> string -> Env.promise W unit)
         (pid dep : string) (w : Env.World W)
         (lst : list Aws.SubnetDesc) (c : W)
         (r1 : Env.settled string) (r2 : Env.settled Aws.NetworkAcl)
         (r3 : Env.settled Aws.EcrDesc) (c1 c2 c3 : W),
    initialised (Env.STATE w) ->
    Env.describeSubnets P (projectManager.vpcOf (Env.STATE w)) None
      (Env.cloud w) = (Env.Fulfilled lst, c) ->
    ~ Exists (carriesProject L pid) lst ->
    Env.route_findDefault P c = (r1, c1) ->
    Env.acl_create P pid c1 = (r2, c2) ->
    Env.ecr_create P pid c2 = (r3, c3) ->
    (failureOf r1 ++ failureOf r2 ++ failureOf r3)%list <> [] ->
    exists e,
      In e (failureOf r1 ++ failureOf r2 ++ failureOf r3)
      /\ projectManager.destroyDeployment P L deployment_destroy pid dep w
         = (Q.Rejected e,
            {| Env.cloud := c3; Env.STATE := Env.STATE w;
               Env.log :=
                 (Env.log w ++
                  [ Env.DescribeSubnets (projectManager.vpcOf (Env.STATE w))
                      None;
                    Env.RouteFindDefault; Env.AclCreate pid;
                    Env.EcrCreate pid ])%list |}).
Proof.
  intros W P L deployment_destroy pid dep w lst c r1 r2 r3 c1 c2 c3
         Hi Hd Hno H1 H2 H3 Hfail.
  set (w1 := {| Env.cloud := c; Env.STATE := Env.STATE w;
                Env.log := (Env.log w ++
                            [Env.DescribeSubnets
                               (projectManager.vpcOf (Env.STATE w)) None])%list
             |}).
  pose proof (findOrCreateProject_run P L pid (Env.Fulfilled lst) c w Hi Hd)
    as Hfind.
  cbv beta iota zeta in Hfind. fold w1 in Hfind.
  assert (Hnone : subnetManager.findProjectTag L pid lst = None).
  { pose proof (findProjectTag_spec L pid lst) as Hspec.
    destruct (subnetManager.findProjectTag L pid lst) as [sn|];
      [|reflexivity].
    exfalso. apply Hno. destruct Hspec as (before & after & -> & Hsn & _).
    apply List.Exists_exists. exists sn. split.
    - apply in_or_app. right. now left.
    - now apply tagged_carries. }
  rewrite Hnone in Hfind.
  pose proof (projectCreate_run P L pid r1 c1 r2 c2 r3 c3 w1 Hi H1 H2 H3)
    as Hcreate.
  cbv zeta in Hcreate.
  set (w4 := {| Env.cloud := c3; Env.STATE := Env.STATE w1; Env.log := _ |})
    in Hcreate.
  assert (Hrej : exists e,
             In e (failureOf r1 ++ failureOf r2 ++ failureOf r3)
             /\ projectManager.create P L pid w1 = (Q.Rejected e, w4)).
  { destruct r1 as [a|e1]; [destruct r2 as [b|e2];
                            [destruct r3 as [d|e3]|]|];
      try exact Hcreate.
    exfalso. now apply Hfail. }
  destruct Hrej as (e & Hin & Hrej). exists e. split; [exact Hin|].
  assert (Hfind' : projectManager.findOrCreateProject P L pid w
                   = (Q.Rejected e, w4)).
  { rewrite Hfind. apply handler_rejected. now apply then_rejected. }
  unfold projectManager.destroyDeployment.
  rewrite (then_resolved _ _ _ _ _ (state_initialised P w Hi)).
  apply handler_rejected.
  rewrite (then_rejected _ _ _ _ _ Hfind'). subst w4 w1. cbn.
  rewrite <- !List.app_assoc. reflexivity.
Qed.

Lemma destroyDeployment_first_recreates_a_missing_project_witness :
  projectManager.destroyDeployment Mock.provider Mock.lib
    (fun s pid dep =>
       deploymentManager.destroy Mock.provider Mock.lib
         (projectManager.vpcOf s) pid dep "undefined")
    "q" "beta" (Mock.world Mock.noRepository)
  = (Q.Rejected (Js.Error "ecr.create"),
     {| Env.cloud := Mock.noRepository; Env.STATE := Mock.ready;
        Env.log := [ Env.DescribeSubnets "vpc-1" None; Env.RouteFindDefault;
                     Env.AclCreate "q"; Env.EcrCreate "q" ] |}).
Proof.
  destruct (destroyDeployment_first_recreates_a_missing_project Mock.Cloud
              Mock.provider Mock.lib
              (fun s pid dep =>
                 deploymentManager.destroy Mock.provider Mock.lib
                   (projectManager.vpcOf s) pid dep "undefined")
              "q" "beta"
              (Mock.world Mock.noRepository) [] Mock.noRepository
              (Env.Fulfilled "rtb-1")
              (Env.Fulfilled {| Aws.NetworkAclId := "acl-1";
                                Aws.IsDefault := false;
                                Aws.Associations := [] |})
              (Env.Failed (Js.Error "ecr.create"))
              Mock.noRepository Mock.noRepository Mock.noRepository
              (conj eq_refl eq_refl) eq_refl
              ltac:(intros H; inversion H) eq_refl eq_refl eq_refl
              ltac:(discriminate))
    as (e & [<-|[]] & Hrun).
  exact Hrun.
Defined.
